(** * GhostFS: the cluster filesystem engine of [fs.c]

    A shallow embedding of the filesystem engine (cluster store, allocator,
    directory engine, file engine, superblock) together with the properties
    its specification states about it.

    Conventions of the embedding.
    - C integers are [Z]; a store into a [uintN_t] field wraps with [uN].
    - A [struct cluster *] always points into the cluster cache
      [gfs->clusters], whose slots are never evicted, so it is modelled by
      the cluster number of the slot it points to.
    - A [struct dir_entry *] points either at the synthetic root entry or at
      one of the 62-byte records overlaid on a cluster payload; it is
      modelled by [entry_ref].
    - Every function that may change the handle is a computation in the
      monad [M]: it maps a handle to an outcome and the handle it leaves
      behind (also when it fails).
    - [malloc]/[calloc] are assumed to succeed; the fields [uid], [gid] and
      [mount_time] of the handle play no role here and are left out.
    - The host is little-endian (packed structures are read and written in
      host order by the source). *)

From Stdlib Require Import ZArith List Lia Bool.
From Stdlib Require Import Strings.Byte Strings.String.
From stdpp Require Import base decidable option list gmap.

Local Open Scope Z_scope.

(** ** Machine integers and bytes *)

Definition u8 (z : Z) : Z := z mod 2 ^ 8.
Definition u16 (z : Z) : Z := z mod 2 ^ 16.
Definition u32 (z : Z) : Z := z mod 2 ^ 32.
Definition u64 (z : Z) : Z := z mod 2 ^ 64.

(** Conversion of a 64-bit pattern to [off_t] (signed). *)
Definition s64 (z : Z) : Z :=
  let m := u64 z in if decide (m < 2 ^ 63) then m else m - 2 ^ 64.

(** Conversion to [int] (signed 32-bit). *)
Definition s32 (z : Z) : Z :=
  let m := u32 z in if decide (m < 2 ^ 31) then m else m - 2 ^ 32.

#[global] Instance byte_eq_decision : EqDecision byte := Byte.byte_eq_dec.

Definition Z_of_byte (b : byte) : Z := Z.of_N (Byte.to_N b).

Definition byte_of_Z (z : Z) : byte :=
  match Byte.of_N (Z.to_N (u8 z)) with
  | Some b => b
  | None => x00
  end.

(** Little-endian reading and writing of an unsigned integer. *)
Fixpoint le_decode (bs : list byte) : Z :=
  match bs with
  | [] => 0
  | b :: r => Z_of_byte b + 256 * le_decode r
  end.

Fixpoint le_encode (n : nat) (z : Z) : list byte :=
  match n with
  | O => []
  | S n' => byte_of_Z z :: le_encode n' (z / 256)
  end.

(** [memcpy]-style access to a byte buffer. *)
Definition get_bytes (off len : Z) (d : list byte) : list byte :=
  take (Z.to_nat len) (drop (Z.to_nat off) d).

Definition set_bytes (off : Z) (bs d : list byte) : list byte :=
  take (Z.to_nat off) d ++ bs ++ drop (Z.to_nat off + length bs) d.

Definition zeros (n : Z) : list byte := replicate (Z.to_nat n) x00.

(** ** Constants of [fs.c] *)

Definition CLUSTER_SIZE : Z := 4096.
Definition CLUSTER_DATA : Z := 4092.
Definition CLUSTER_DIRENTS : Z := 66.
Definition FILENAME_SIZE : Z := 56.
Definition FILESIZE_MAX : Z := 0x7FFFFFFF.

(** [sizeof(struct dir_entry)], [sizeof(struct ghostfs_header)], and the
    offset of cluster 0 in the backing store. *)
Definition DIR_ENTRY_SIZE : Z := 62.
Definition HEADER_BYTES : Z := 2.
Definition c0_offset : Z := 16 + HEADER_BYTES.

Definition slash : byte := "/"%byte.

(** The error numbers the engine returns (negated, in C). *)
Inductive errno : Type :=
| ENOENT | EIO | ENOMEM | EEXIST | ENOTDIR | EISDIR | EINVAL | EFBIG
| ENOSPC | ERANGE | ENAMETOOLONG | ENOTEMPTY | EOVERFLOW.

#[global] Instance errno_eq_decision : EqDecision errno.
Proof. solve_decision. Defined.

(** Outcome of a call: a value, a negative return code, an execution the C
    standard leaves undefined (a wild pointer), or a loop that was cut off
    by the fuel of the embedding. *)
Inductive result (A : Type) : Type :=
| Ok (a : A)
| Err (e : errno)
| Undefined
| OutOfFuel.

Arguments Ok {A} a.
Arguments Err {A} e.
Arguments Undefined {A}.
Arguments OutOfFuel {A}.

(** ** Data model *)

(** [struct cluster]: payload and [struct cluster_header]. *)
Record cluster : Type := Cluster {
  data : list byte;
  next : Z;
  used : Z;
  dirty : Z
}.

Definition mark_cluster (c : cluster) : cluster :=
  {| data := data c; next := next c; used := used c; dirty := 1 |}.

Definition unmark_cluster (c : cluster) : cluster :=
  {| data := data c; next := next c; used := used c; dirty := 0 |}.

Definition is_dirty (c : cluster) : bool := bool_decide (dirty c ≠ 0).

Definition set_data (d : list byte) (c : cluster) : cluster :=
  {| data := d; next := next c; used := used c; dirty := dirty c |}.

Definition set_next (n : Z) (c : cluster) : cluster :=
  {| data := data c; next := u16 n; used := used c; dirty := dirty c |}.

Definition set_used (u : Z) (c : cluster) : cluster :=
  {| data := data c; next := next c; used := u8 u; dirty := dirty c |}.

(** The 4096 bytes of a [struct cluster] as they lie in memory. *)
Definition cluster_bytes (c : cluster) : list byte :=
  data c ++ le_encode 2 (next c) ++ [byte_of_Z (used c); byte_of_Z (dirty c)].

Definition cluster_of_bytes (bs : list byte) : cluster :=
  {| data := get_bytes 0 CLUSTER_DATA bs;
     next := le_decode (get_bytes CLUSTER_DATA 2 bs);
     used := le_decode (get_bytes (CLUSTER_DATA + 2) 1 bs);
     dirty := le_decode (get_bytes (CLUSTER_DATA + 3) 1 bs) |}.

(** [struct dir_entry]. *)
Record dir_entry : Type := DirEntry {
  filename : list byte;
  size : Z;
  cluster_nr : Z
}.

Definition dir_entry_is_directory (e : dir_entry) : bool :=
  bool_decide (Z.land (size e) 0x80000000 ≠ 0).

Definition dir_entry_used (e : dir_entry) : bool :=
  bool_decide (hd x00 (filename e) ≠ x00).

(** The value [dir_entry_set_size] stores in the [size] field. *)
Definition dir_entry_size_word (new_size : Z) (is_dir : bool) : Z :=
  let s := Z.land (u32 new_size) 0x7FFFFFFF in
  if is_dir then Z.lor s 0x80000000 else s.

(** Where a [struct dir_entry *] points. *)
Inductive entry_ref : Type :=
| RootEntry
| ClusterEntry (nr : Z) (idx : Z).

#[global] Instance entry_ref_eq_decision : EqDecision entry_ref.
Proof. solve_decision. Defined.

(** Entry [idx] of a directory payload. *)
Definition entry_at (d : list byte) (idx : Z) : dir_entry :=
  {| filename := get_bytes (idx * DIR_ENTRY_SIZE) FILENAME_SIZE d;
     size := le_decode (get_bytes (idx * DIR_ENTRY_SIZE + FILENAME_SIZE) 4 d);
     cluster_nr := le_decode (get_bytes (idx * DIR_ENTRY_SIZE + FILENAME_SIZE + 4) 2 d) |}.

(** ** The byte channel below the filesystem *)

(** Modelled from the spec: the LSB codec ([stegger.h], [steg.c] and the
    carrier parsers are not among the sources).  The spec gives it three
    operations over a logical byte address space, [capacity], [read_at] and
    [write_at], which fail with out-of-range when [offset + n] exceeds the
    capacity.  The carrier is represented by the bytes it currently encodes. *)
Record stegger : Type := Stegger { carrier : list byte }.

Definition capacity (s : stegger) : Z := Z.of_nat (length (carrier s)).

Definition stegger_read (s : stegger) (n off : Z) : result (list byte) :=
  if decide (0 <= off ∧ off + n <= capacity s)
  then Ok (get_bytes off n (carrier s))
  else Err ERANGE.

Definition stegger_write (s : stegger) (buf : list byte) (off : Z) : result stegger :=
  if decide (0 <= off ∧ off + Z.of_nat (length buf) <= capacity s)
  then Ok (Stegger (set_bytes off buf (carrier s)))
  else Err ERANGE.

(** ** The filesystem handle *)

(** [struct ghostfs].  [clusters] is the lazy cache: a key is absent as long
    as the slot of the C array holds a null pointer. *)
Record ghostfs : Type := Ghostfs {
  hdr_cluster_count : Z;
  gfs_stegger : stegger;
  clusters : gmap Z cluster;
  root_entry : dir_entry;
  gfs_free_clusters : Z
}.

Definition with_clusters (m : gmap Z cluster) (g : ghostfs) : ghostfs :=
  {| hdr_cluster_count := hdr_cluster_count g; gfs_stegger := gfs_stegger g;
     clusters := m; root_entry := root_entry g;
     gfs_free_clusters := gfs_free_clusters g |}.

Definition with_free_clusters (n : Z) (g : ghostfs) : ghostfs :=
  {| hdr_cluster_count := hdr_cluster_count g; gfs_stegger := gfs_stegger g;
     clusters := clusters g; root_entry := root_entry g;
     gfs_free_clusters := u16 n |}.

Definition with_stegger (s : stegger) (g : ghostfs) : ghostfs :=
  {| hdr_cluster_count := hdr_cluster_count g; gfs_stegger := s;
     clusters := clusters g; root_entry := root_entry g;
     gfs_free_clusters := gfs_free_clusters g |}.

Definition with_root_entry (e : dir_entry) (g : ghostfs) : ghostfs :=
  {| hdr_cluster_count := hdr_cluster_count g; gfs_stegger := gfs_stegger g;
     clusters := clusters g; root_entry := e;
     gfs_free_clusters := gfs_free_clusters g |}.

(** ** Computations on the handle *)

Definition M (A : Type) : Type := ghostfs -> result A * ghostfs.

Definition ret {A : Type} (a : A) : M A := fun g => (Ok a, g).

Definition fail {A : Type} (e : errno) : M A := fun g => (Err e, g).

Definition undefined {A : Type} : M A := fun g => (Undefined, g).

Definition out_of_fuel {A : Type} : M A := fun g => (OutOfFuel, g).

Definition bind {A B : Type} (m : M A) (k : A -> M B) : M B :=
  fun g =>
    match m g with
    | (Ok a, g') => k a g'
    | (Err e, g') => (Err e, g')
    | (Undefined, g') => (Undefined, g')
    | (OutOfFuel, g') => (OutOfFuel, g')
    end.

(** [ret = f(...); if (ret < 0) ...]: the return code is handed to the
    caller instead of ending the computation. *)
Definition try {A : Type} (m : M A) : M (errno + A) :=
  fun g =>
    match m g with
    | (Ok a, g') => (Ok (inr a), g')
    | (Err e, g') => (Ok (inl e), g')
    | (Undefined, g') => (Undefined, g')
    | (OutOfFuel, g') => (OutOfFuel, g')
    end.

Definition get_gfs : M ghostfs := fun g => (Ok g, g).

Definition modify_gfs (f : ghostfs -> ghostfs) : M unit := fun g => (Ok tt, f g).

Notation "'let*' x ':=' c1 'in' c2" := (bind c1 (fun x => c2))
  (at level 10, x name, c1 at level 100, c2 at level 200).

Notation "c1 ;; c2" := (bind c1 (fun _ => c2))
  (at level 100, c2 at level 200, right associativity).

(** Reading through a [struct cluster *]. *)
Definition deref (p : Z) : M cluster :=
  fun g =>
    match clusters g !! p with
    | Some c => (Ok c, g)
    | None => (Undefined, g)
    end.

(** Writing through a [struct cluster *]. *)
Definition update_cluster (p : Z) (f : cluster -> cluster) : M unit :=
  fun g =>
    match clusters g !! p with
    | Some c => (Ok tt, with_clusters (<[p := f c]> (clusters g)) g)
    | None => (Undefined, g)
    end.

(** Reading through a [struct dir_entry *]. *)
Definition read_entry (r : entry_ref) : M dir_entry :=
  match r with
  | RootEntry => let* g := get_gfs in ret (root_entry g)
  | ClusterEntry nr idx => let* c := deref nr in ret (entry_at (data c) idx)
  end.

(** Writing [bs] at byte offset [off] of the record a [struct dir_entry *]
    points to. *)
Definition dir_entry_poke (off : Z) (bs : list byte) (e : dir_entry) : dir_entry :=
  let raw := set_bytes off bs
               (filename e ++ le_encode 4 (size e) ++ le_encode 2 (cluster_nr e)) in
  entry_at raw 0.

Definition write_entry (r : entry_ref) (off : Z) (bs : list byte) : M unit :=
  match r with
  | RootEntry => modify_gfs (fun g => with_root_entry (dir_entry_poke off bs (root_entry g)) g)
  | ClusterEntry nr idx =>
      update_cluster nr (fun c => set_data (set_bytes (idx * DIR_ENTRY_SIZE + off) bs (data c)) c)
  end.

(** [dir_entry_set_size], and the stores into the other fields. *)
Definition dir_entry_set_size (r : entry_ref) (new_size : Z) (is_dir : bool) : M unit :=
  write_entry r FILENAME_SIZE (le_encode 4 (dir_entry_size_word new_size is_dir)).

Definition entry_store_size (r : entry_ref) (raw : Z) : M unit :=
  write_entry r FILENAME_SIZE (le_encode 4 raw).

Definition entry_store_cluster (r : entry_ref) (nr : Z) : M unit :=
  write_entry r (FILENAME_SIZE + 4) (le_encode 2 nr).

Definition entry_clear_name (r : entry_ref) : M unit :=
  write_entry r 0 [x00].

(** ** Cluster store *)

Definition read_cluster (s : stegger) (nr : Z) : result cluster :=
  match stegger_read s CLUSTER_SIZE (c0_offset + nr * CLUSTER_SIZE) with
  | Ok bs => Ok (unmark_cluster (cluster_of_bytes bs))
  | Err e => Err e
  | Undefined => Undefined
  | OutOfFuel => OutOfFuel
  end.

(** The bytes go out as they are in memory, the dirty byte included; the
    in-memory flag is cleared once the write has succeeded. *)
Definition write_cluster (s : stegger) (c : cluster) (nr : Z) : result (stegger * cluster) :=
  match stegger_write s (cluster_bytes c) (c0_offset + nr * CLUSTER_SIZE) with
  | Ok s' => Ok (s', unmark_cluster c)
  | Err e => Err e
  | Undefined => Undefined
  | OutOfFuel => OutOfFuel
  end.

Definition cluster_get (nr : Z) : M Z :=
  fun g =>
    if decide (nr >= hdr_cluster_count g) then (Err ERANGE, g)
    else match clusters g !! nr with
         | Some _ => (Ok nr, g)
         | None =>
             match read_cluster (gfs_stegger g) nr with
             | Ok c => (Ok nr, with_clusters (<[nr := c]> (clusters g)) g)
             | Err e => (Err e, g)
             | Undefined => (Undefined, g)
             | OutOfFuel => (OutOfFuel, g)
             end
         end.

Definition cluster_get_next (p : Z) : M Z :=
  let* c := deref p in
  if decide (next c = 0) then fail EIO else cluster_get (next c).

Fixpoint cluster_at_loop (n : nat) (nr : Z) (c : option Z) : M (option Z) :=
  match n with
  | O => ret c
  | S n' =>
      if decide (nr = 0) then fail EIO
      else
        let* p := cluster_get nr in
        let* cl := deref p in
        cluster_at_loop n' (next cl) (Some p)
  end.

(** [cluster_at]: the loop runs for [i = 0 .. index]. *)
Definition cluster_at (nr index : Z) : M (option Z) :=
  cluster_at_loop (Z.to_nat (index + 1)) nr None.

(** ** C strings

    A [const char *] is the list of the characters it points to; the end of
    the list, like a NUL inside it, ends the string. *)

Fixpoint strchr (s : list byte) (ch : byte) : option (list byte) :=
  match s with
  | [] => None
  | c :: r =>
      if decide (c = ch) then Some s
      else if decide (c = x00) then None
      else strchr r ch
  end.

Fixpoint strlen (s : list byte) : Z :=
  match s with
  | [] => 0
  | c :: r => if decide (c = x00) then 0 else 1 + strlen r
  end.

(** The characters of a string up to its terminator. *)
Fixpoint cstring (s : list byte) : list byte :=
  match s with
  | [] => []
  | c :: r => if decide (c = x00) then [] else c :: cstring r
  end.

(** [strncmp(a, b, n) == 0]. *)
Fixpoint strncmp_eq (a b : list byte) (n : nat) : bool :=
  match n with
  | O => true
  | S n' =>
      if decide (hd x00 a = hd x00 b)
      then (if decide (hd x00 a = x00) then true else strncmp_eq (tl a) (tl b) n')
      else false
  end.

Fixpoint component_eq (comp name : list byte) (n : nat) : bool :=
  match n with
  | O => false
  | S n' =>
      let c := hd x00 comp in
      if bool_decide (c ≠ x00) && bool_decide (c ≠ slash) && bool_decide (c = hd x00 name)
      then component_eq (tl comp) (tl name) n'
      else (bool_decide (c = x00) || bool_decide (c = slash)) && bool_decide (hd x00 name = x00)
  end.

(** [last_component]: every round of the loop drops at least one character,
    so the length of the path bounds the number of rounds. *)
Fixpoint last_component_loop (n : nat) (path : list byte) : list byte :=
  match n with
  | O => path
  | S n' =>
      match strchr path slash with
      | Some s => last_component_loop n' (tl s)
      | None => path
      end
  end.

Definition last_component (path : list byte) : list byte :=
  last_component_loop (length path) path.

(** ** Directory engine *)

(** [struct dir_iter]; its [gfs] field is the handle the computation runs on. *)
Record dir_iter : Type := DirIter {
  it_cluster : Z;
  it_entry : entry_ref;
  it_entry_nr : Z
}.

Definition with_entry (r : entry_ref) (it : dir_iter) : dir_iter :=
  {| it_cluster := it_cluster it; it_entry := r; it_entry_nr := it_entry_nr it |}.

Definition dir_iter_init (nr : Z) : M dir_iter :=
  let* c := cluster_get nr in
  ret {| it_cluster := c; it_entry := ClusterEntry c 0; it_entry_nr := 0 |}.

(** [it->entry++]. *)
Definition entry_succ (r : entry_ref) : M entry_ref :=
  match r with
  | ClusterEntry nr idx => ret (ClusterEntry nr (idx + 1))
  | RootEntry => undefined
  end.

Definition dir_iter_next (it : dir_iter) : M dir_iter :=
  if decide (it_entry_nr it >= CLUSTER_DIRENTS - 1) then
    let* c := deref (it_cluster it) in
    if decide (next c = 0) then fail ENOENT
    else
      let* c' := cluster_get_next (it_cluster it) in
      ret {| it_cluster := c'; it_entry := ClusterEntry c' 0; it_entry_nr := 0 |}
  else
    let* r := entry_succ (it_entry it) in
    ret {| it_cluster := it_cluster it; it_entry := r; it_entry_nr := it_entry_nr it + 1 |}.

(** The [do ... while] loop works on a copy; the caller's iterator changes
    only when the result is [Ok]. *)
Fixpoint dir_iter_next_used (fuel : nat) (temp : dir_iter) : M dir_iter :=
  match fuel with
  | O => out_of_fuel
  | S fuel' =>
      let* temp' := dir_iter_next temp in
      let* e := read_entry (it_entry temp') in
      if dir_entry_used e then ret temp' else dir_iter_next_used fuel' temp'
  end.

Fixpoint dir_iter_lookup_loop (fuel : nat) (skip_last : bool) (it : dir_iter)
    (comp : list byte) : M dir_iter :=
  match fuel with
  | O => out_of_fuel
  | S fuel' =>
      let* e := read_entry (it_entry it) in
      if component_eq comp (filename e) (Z.to_nat FILENAME_SIZE) then
        match strchr comp slash with
        | None => ret it
        | Some nx =>
            if skip_last && bool_decide (strchr (tl nx) slash = None) then ret it
            else if negb (dir_entry_is_directory e) then fail ENOTDIR
            else
              let* it' := dir_iter_init (cluster_nr e) in
              dir_iter_lookup_loop fuel' skip_last it' (tl nx)
        end
      else
        let* it' := dir_iter_next_used fuel' it in
        dir_iter_lookup_loop fuel' skip_last it' comp
  end.

Definition dir_iter_lookup (fuel : nat) (path : list byte) (skip_last : bool) : M dir_iter :=
  if decide (hd x00 path ≠ slash) then fail EINVAL
  else
    let* it := dir_iter_init 0 in
    let comp := tl path in
    if bool_decide (hd x00 comp = x00) || (skip_last && bool_decide (strchr comp slash = None))
    then ret (with_entry RootEntry it)
    else dir_iter_lookup_loop fuel skip_last it comp.

(** [find_empty_entry]: the second component is [None] for a return value of
    0 and [Some ENOENT] when the chain ended first; in both cases the
    iterator is handed back. *)
Fixpoint find_empty_entry_loop (fuel : nat) (it : dir_iter) : M (dir_iter * option errno) :=
  match fuel with
  | O => out_of_fuel
  | S fuel' =>
      let* e := read_entry (it_entry it) in
      if dir_entry_used e then
        let* r := try (dir_iter_next it) in
        match r with
        | inr it' => find_empty_entry_loop fuel' it'
        | inl ENOENT => ret (it, Some ENOENT)
        | inl err => fail err
        end
      else ret (it, None)
  end.

Definition find_empty_entry (fuel : nat) (nr : Z) : M (dir_iter * option errno) :=
  let* it := dir_iter_init nr in
  find_empty_entry_loop fuel it.

(** [dir_contains] returns 0 ([Ok]) when the name is present and the code of
    the failed step otherwise. *)
Fixpoint dir_contains_loop (fuel : nat) (it : dir_iter) (name : list byte) : M unit :=
  match fuel with
  | O => out_of_fuel
  | S fuel' =>
      let* e := read_entry (it_entry it) in
      if strncmp_eq (filename e) name (Z.to_nat FILENAME_SIZE) then ret tt
      else
        let* it' := dir_iter_next_used fuel' it in
        dir_contains_loop fuel' it' name
  end.

Definition dir_contains (fuel : nat) (nr : Z) (name : list byte) : M unit :=
  let* it := dir_iter_init nr in
  dir_contains_loop fuel it name.

(** ** Allocator *)

Definition claim_cluster (zero : bool) (c : cluster) : cluster :=
  mark_cluster (set_used 1 (if zero then set_data (zeros CLUSTER_DATA) c else c)).

Definition release_cluster (c : cluster) : cluster :=
  mark_cluster (set_used 0 c).

Definition free_clusters_add (d : Z) : M unit :=
  modify_gfs (fun g => with_free_clusters (gfs_free_clusters g + d) g).

(** How the scan of [alloc_clusters] ends: the [while] condition fails, or a
    [goto undo] is taken with [ret] set. *)
Inductive scan_exit : Type :=
| ScanDone
| ScanUndo (ret : errno).

(** The two nested loops of [alloc_clusters] as one: each round looks at
    cluster [pos] and moves to [pos + 1]; a round that claims the cluster
    also ends the inner loop and counts it in [alloc].  The result carries
    the loop variables [prev], [first] and [alloc] at the exit. *)
Fixpoint alloc_scan (n : nat) (count : Z) (zero : bool) (prev : option Z)
    (first pos alloc : Z) : M (scan_exit * option Z * Z * Z) :=
  if decide (alloc < count) then
    match n with
    | O => out_of_fuel
    | S n' =>
        let* g := get_gfs in
        if decide (pos >= hdr_cluster_count g) then ret (ScanUndo ENOSPC, prev, first, alloc)
        else
          let* r := try (cluster_get pos) in
          match r with
          | inl e => ret (ScanUndo e, prev, first, alloc)
          | inr c =>
              let* cl := deref c in
              if decide (used cl = 0) then
                update_cluster c (claim_cluster zero);;
                free_clusters_add (-1);;
                (if decide (first = 0) then ret tt
                 else match prev with
                      | Some p => update_cluster p (set_next pos)
                      | None => undefined
                      end);;
                alloc_scan n' count zero (Some c)
                  (if decide (first = 0) then pos else first) (pos + 1) (alloc + 1)
              else alloc_scan n' count zero prev first (pos + 1) alloc
          end
    end
  else ret (ScanDone, prev, first, alloc).

(** The loop under the label [undo]. *)
Fixpoint alloc_undo (n : nat) (pos : Z) (e : errno) : M Z :=
  match n with
  | O => fail e
  | S n' =>
      let* c := cluster_get pos in
      update_cluster c release_cluster;;
      free_clusters_add 1;;
      let* cl := deref c in
      alloc_undo n' (next cl) e
  end.

(** [alloc_clusters] returns the number of the first cluster, which is also
    where [*pfirst] points.  The scan visits every cluster number at most
    once, so [cluster_count + 1] rounds are always enough. *)
Definition alloc_clusters (count : Z) (zero : bool) : M Z :=
  let* g := get_gfs in
  let* r := alloc_scan (S (Z.to_nat (hdr_cluster_count g))) count zero None 0 1 0 in
  match r with
  | (ScanDone, prev, first, _) =>
      match prev with
      | Some p => update_cluster p (set_next 0);; ret first
      | None => undefined
      end
  | (ScanUndo e, _, first, alloc) => alloc_undo (Z.to_nat alloc) first e
  end.

Fixpoint free_clusters (fuel : nat) (c : Z) : M unit :=
  match fuel with
  | O => out_of_fuel
  | S fuel' =>
      update_cluster c release_cluster;;
      free_clusters_add 1;;
      let* cl := deref c in
      if decide (next cl = 0) then ret tt
      else
        let* c' := cluster_get (next cl) in
        free_clusters fuel' c'
  end.

(** ** Creating and removing entries *)

Definition create_entry (fuel : nat) (path : list byte) (is_dir : bool) : M entry_ref :=
  let* it := dir_iter_lookup fuel path true in
  let* parent := read_entry (it_entry it) in
  if negb (dir_entry_is_directory parent) then fail ENOTDIR
  else
    let name := last_component path in
    if decide (strlen name > FILENAME_SIZE - 1) then fail ENAMETOOLONG
    else if decide (hd x00 name = x00) then fail EINVAL
    else
      let* dup := try (dir_contains fuel (cluster_nr parent) name) in
      match dup with
      | inr _ => fail EEXIST
      | inl _ =>
          let* found := find_empty_entry fuel (cluster_nr parent) in
          let* slot :=
            match found with
            | (it1, None) => ret (it1, None)
            | (it1, Some _) =>
                let* nr := alloc_clusters 1 true in
                let prev := it_cluster it1 in
                let* again := try (find_empty_entry fuel nr) in
                let it2 := match again with inr (i, _) => i | inl _ => it1 end in
                update_cluster prev (fun c => mark_cluster (set_next nr c));;
                ret (it2, Some (nr, prev))
            end in
          let it' := fst slot in
          let* nr :=
            if is_dir then
              let* r := try (alloc_clusters 1 true) in
              match r with
              | inr n => ret n
              | inl e =>
                  match snd slot with
                  | Some (nx, prev) =>
                      try (free_clusters fuel nx);;
                      update_cluster prev (set_next 0)
                  | None => ret tt
                  end;;
                  fail e
              end
            else ret 0 in
          write_entry (it_entry it') 0 (cstring name ++ [x00]);;
          dir_entry_set_size (it_entry it') 0 is_dir;;
          entry_store_cluster (it_entry it') nr;;
          update_cluster (it_cluster it') mark_cluster;;
          ret (it_entry it')
      end.

Definition ghostfs_create (fuel : nat) (path : list byte) : M unit :=
  create_entry fuel path false;; ret tt.

Definition ghostfs_mkdir (fuel : nat) (path : list byte) : M unit :=
  create_entry fuel path true;; ret tt.

Definition remove_entry (fuel : nat) (path : list byte) (is_dir : bool) : M unit :=
  let* link := dir_iter_lookup fuel path false in
  if decide (it_entry link = RootEntry) then fail EINVAL
  else
    let* le := read_entry (it_entry link) in
    if negb (eqb is_dir (dir_entry_is_directory le))
    then fail (if is_dir then ENOTDIR else EISDIR)
    else
      (if decide (cluster_nr le = 0) then ret tt
       else
         let* it := dir_iter_init (cluster_nr le) in
         (if is_dir then
            let* e := read_entry (it_entry it) in
            if dir_entry_used e then fail ENOTEMPTY
            else
              let* r := try (dir_iter_next_used fuel it) in
              match r with
              | inl ENOENT => ret tt
              | inl err => fail err
              | inr _ => fail ENOTEMPTY
              end
          else ret tt);;
         try (free_clusters fuel (it_cluster it));;
         ret tt);;
      entry_clear_name (it_entry link);;
      update_cluster (it_cluster link) mark_cluster.

Definition ghostfs_unlink (fuel : nat) (path : list byte) : M unit :=
  remove_entry fuel path false.

Definition ghostfs_rmdir (fuel : nat) (path : list byte) : M unit :=
  remove_entry fuel path true.

(** ** File engine *)

(** [size_to_clusters] works on [int]: [/] and [%] truncate towards zero. *)
Definition size_to_clusters (size : Z) : Z :=
  Z.quot size CLUSTER_DATA + (if decide (Z.rem size CLUSTER_DATA ≠ 0) then 1 else 0).

(** Every read of [it->entry] in [do_truncate] precedes its first store, so
    the entry is read once. *)
Definition do_truncate (fuel : nat) (it : dir_iter) (new_size : Z) : M unit :=
  if decide (new_size < 0) then fail EINVAL
  else if decide (new_size > FILESIZE_MAX) then fail EFBIG
  else
    let* e := read_entry (it_entry it) in
    if dir_entry_is_directory e then fail EISDIR
    else
      let count := size_to_clusters (s32 (Z.min (size e) new_size)) in
      let* cn :=
        if decide (count ≠ 0) then
          let* c := cluster_at (cluster_nr e) (count - 1) in
          match c with
          | Some p => let* cl := deref p in ret (c, next cl)
          | None => undefined
          end
        else ret (None, cluster_nr e) in
      let c := fst cn in
      let nxt := snd cn in
      (if decide (new_size > size e) then
         let used_bytes := size e mod CLUSTER_DATA in
         (if decide (used_bytes ≠ 0) then
            match c with
            | Some p =>
                update_cluster p (fun x =>
                  mark_cluster
                    (set_data (set_bytes used_bytes (zeros (CLUSTER_DATA - used_bytes)) (data x)) x))
            | None => undefined
            end
          else ret tt);;
         let alloc := size_to_clusters (s32 new_size) - count in
         if decide (alloc ≠ 0) then
           let* r := alloc_clusters alloc true in
           match c with
           | Some p => update_cluster p (fun x => mark_cluster (set_next r x))
           | None => entry_store_cluster (it_entry it) r
           end
         else ret tt
       else if decide (new_size < size e) then
         if decide (nxt ≠ 0) then
           match c with
           | Some p => update_cluster p (fun x => mark_cluster (set_next 0 x))
           | None => ret tt
           end;;
           let* c' := cluster_get nxt in
           try (free_clusters fuel c');;
           ret tt
         else ret tt
       else ret tt);;
      dir_entry_set_size (it_entry it) new_size false;;
      update_cluster (it_cluster it) mark_cluster.

Definition ghostfs_truncate (fuel : nat) (path : list byte) (new_size : Z) : M unit :=
  let* it := dir_iter_lookup fuel path false in
  do_truncate fuel it new_size.

(** [ghostfs_rename]; [entry] and [it.entry] may point to the same record,
    so [it.entry] is read again after each store. *)
Definition ghostfs_rename (fuel : nat) (path newpath : list byte) : M unit :=
  let* it := dir_iter_lookup fuel path false in
  if decide (it_entry it = RootEntry) then fail EINVAL
  else
    try (remove_entry fuel newpath false);;
    let* entry := create_entry fuel newpath false in
    entry_clear_name (it_entry it);;
    update_cluster (it_cluster it) mark_cluster;;
    let* old := read_entry (it_entry it) in
    entry_store_size entry (size old);;
    let* old' := read_entry (it_entry it) in
    entry_store_cluster entry (cluster_nr old').

(** [struct ghostfs_entry] wraps a [dir_iter]. *)
Definition ghostfs_open (fuel : nat) (path : list byte) : M dir_iter :=
  let* it := dir_iter_lookup fuel path false in
  let* e := read_entry (it_entry it) in
  if dir_entry_is_directory e then fail EISDIR else ret it.

(** The number of bytes one round of the copy loops handles. *)
Definition chunk (size offset : Z) : Z :=
  let w := Z.min size CLUSTER_DATA in
  if decide (offset + w > CLUSTER_DATA) then w - ((offset + w) - CLUSTER_DATA) else w.

(** The copy loop of [ghostfs_write]; [buf] holds the bytes still to be
    written, its length is the variable [size]. *)
Fixpoint write_loop (n : nat) (c : Z) (buf : list byte) (offset written : Z) : M Z :=
  match n with
  | O => out_of_fuel
  | S n' =>
      let w := chunk (Z.of_nat (length buf)) offset in
      update_cluster c (fun x =>
        mark_cluster (set_data (set_bytes offset (take (Z.to_nat w) buf) (data x)) x));;
      let rest := drop (Z.to_nat w) buf in
      if decide (Z.of_nat (length buf) - w = 0) then ret (written + w)
      else
        let* c' := cluster_get_next c in
        write_loop n' c' rest 0 (written + w)
  end.

(** [ghostfs_write]; [buf] is the list of the [size] bytes the caller
    passes.  A round of the loop that does not end it writes at least one
    byte, so [size + 1] rounds are always enough. *)
Definition ghostfs_write (fuel : nat) (gentry : dir_iter) (buf : list byte) (offset : Z) : M Z :=
  let size_ := Z.of_nat (length buf) in
  if decide (offset < 0) then fail EINVAL
  else if decide (u64 (size_ + offset) < size_) then fail EOVERFLOW
  else
    let* e := read_entry (it_entry gentry) in
    (if decide (size e < u64 (offset + size_))
     then do_truncate fuel gentry (s64 (offset + size_))
     else ret tt);;
    let* e' := read_entry (it_entry gentry) in
    let* c := cluster_at (cluster_nr e') (s32 (offset / CLUSTER_DATA)) in
    match c with
    | Some p => write_loop (S (length buf)) p buf (offset mod CLUSTER_DATA) 0
    | None => undefined
    end.

(** The copy loop of [ghostfs_read]; [acc] is what has been stored in the
    caller's buffer so far. *)
Fixpoint read_loop (n : nat) (c : Z) (size_ offset : Z) (acc : list byte) (nread : Z)
    : M (Z * list byte) :=
  match n with
  | O => out_of_fuel
  | S n' =>
      let r := chunk size_ offset in
      let* cl := deref c in
      let acc' := acc ++ get_bytes offset r (data cl) in
      if decide (size_ - r = 0) then ret (nread + r, acc')
      else
        let* c' := cluster_get_next c in
        read_loop n' c' (size_ - r) 0 acc' (nread + r)
  end.

(** [ghostfs_read] returns the count and the bytes stored in [buf]. *)
Definition ghostfs_read (gentry : dir_iter) (size_ offset : Z) : M (Z * list byte) :=
  if decide (offset < 0) then fail EINVAL
  else if decide (u64 (size_ + offset) < size_) then fail EOVERFLOW
  else
    let* e := read_entry (it_entry gentry) in
    if decide (offset > size e) then ret (0, [])
    else
      let size1 := if decide (u64 (offset + size_) > size e) then u64 (size e - offset) else size_ in
      if decide (size1 = 0) then ret (0, [])
      else
        let* c := cluster_at (cluster_nr e) (s32 (offset / CLUSTER_DATA)) in
        match c with
        | Some p => read_loop (S (Z.to_nat size1)) p size1 (offset mod CLUSTER_DATA) [] 0
        | None => undefined
        end.

(** ** Superblock: integrity check, format, mount, sync *)

Definition with_cluster_count (n : Z) (g : ghostfs) : ghostfs :=
  {| hdr_cluster_count := u16 n; gfs_stegger := gfs_stegger g;
     clusters := clusters g; root_entry := root_entry g;
     gfs_free_clusters := gfs_free_clusters g |}.

Definition result_bind {A B : Type} (r : result A) (k : A -> result B) : result B :=
  match r with
  | Ok a => k a
  | Err e => Err e
  | Undefined => Undefined
  | OutOfFuel => OutOfFuel
  end.

(** The bytes of [struct ghostfs_header]. *)
Definition header_bytes (count : Z) : list byte := le_encode (Z.to_nat HEADER_BYTES) count.

(** [e->filename[0] = 0] for every record of a directory payload. *)
Definition clear_entries (d : list byte) : list byte :=
  fold_left (fun acc i => set_bytes (Z.of_nat i * DIR_ENTRY_SIZE) [x00] acc)
            (seq 0 (Z.to_nat CLUSTER_DIRENTS)) d.

(** The handle [calloc] returns in [ghostfs_mount], after the root entry has
    been given its directory bit. *)
Definition fresh_gfs (s : stegger) : ghostfs :=
  {| hdr_cluster_count := 0; gfs_stegger := s; clusters := ∅;
     root_entry := {| filename := zeros FILENAME_SIZE; size := 0x80000000; cluster_nr := 0 |};
     gfs_free_clusters := 0 |}.

(** The loop of [ghostfs_mount] that loads every cluster and counts the free
    ones, for [i = i0 .. i0 + n - 1]. *)
Fixpoint mount_loop (n : nat) (i : Z) : M unit :=
  match n with
  | O => ret tt
  | S n' =>
      let* c := cluster_get i in
      let* cl := deref c in
      (if decide (used cl = 0) then free_clusters_add 1 else ret tt);;
      mount_loop n' (i + 1)
  end.

Section Superblock.

(** The MD5 digest ([md5.c] is not among the sources): a function from the
    bytes fed to [MD5_Update] to the 16 bytes [MD5_Final] stores. *)
Variable md5 : list byte -> list byte.

Definition ghostfs_check : M unit :=
  fun g =>
    match stegger_read (gfs_stegger g) 16 0 with
    | Ok md5_fs =>
        match stegger_read (gfs_stegger g) HEADER_BYTES 16 with
        | Ok hdr =>
            let g1 := with_cluster_count (le_decode hdr) g in
            match stegger_read (gfs_stegger g1) CLUSTER_SIZE c0_offset with
            | Ok root =>
                if decide (md5 (header_bytes (hdr_cluster_count g1) ++ root) = md5_fs)
                then (Ok tt, g1)
                else (Err EIO, g1)
            | Err e => (Err e, g1)
            | Undefined => (Undefined, g1)
            | OutOfFuel => (OutOfFuel, g1)
            end
        | Err e => (Err e, g)
        | Undefined => (Undefined, g)
        | OutOfFuel => (OutOfFuel, g)
        end
    | Err e => (Err e, g)
    | Undefined => (Undefined, g)
    | OutOfFuel => (OutOfFuel, g)
    end.

(** [write_header] hands back the carrier and the cluster it was given,
    whose dirty flag [write_cluster] has cleared. *)
Definition write_header (s : stegger) (count : Z) (cluster0 : cluster)
    : result (stegger * cluster) :=
  let digest := md5 (header_bytes count ++ cluster_bytes cluster0) in
  result_bind (stegger_write s digest 0) (fun s1 =>
  result_bind (stegger_write s1 (header_bytes count) 16) (fun s2 =>
  write_cluster s2 cluster0 0)).

(** The last loop of [ghostfs_format], for [i = i0 .. i0 + n - 1]. *)
Fixpoint format_loop (n : nat) (i : Z) (s : stegger) : result stegger :=
  match n with
  | O => Ok s
  | S n' =>
      result_bind (read_cluster s i) (fun c =>
      result_bind (write_cluster s (set_used 0 c) i) (fun sc =>
      format_loop n' (i + 1) (fst sc)))
  end.

Definition ghostfs_format (s : stegger) : result stegger :=
  let HEADER_SIZE := 16 + HEADER_BYTES in
  if decide (capacity s < HEADER_SIZE + CLUSTER_SIZE) then Err ENOSPC
  else
    let count0 := (capacity s - HEADER_SIZE) / CLUSTER_SIZE in
    let count := if decide (count0 > 0xFFFF) then 0xFFFF else count0 in
    result_bind (read_cluster s 0) (fun c =>
    let c0 := set_data (clear_entries (data c)) (set_next 0 c) in
    result_bind (write_header s (u16 count) c0) (fun sc =>
    format_loop (Z.to_nat (count - 1)) 1 (fst sc))).

Definition ghostfs_mount (s : stegger) : result ghostfs :=
  match ghostfs_check (fresh_gfs s) with
  | (Ok _, g) =>
      match mount_loop (Z.to_nat (hdr_cluster_count g - 1)) 1 g with
      | (Ok _, g') => Ok g'
      | (Err e, _) => Err e
      | (Undefined, _) => Undefined
      | (OutOfFuel, _) => OutOfFuel
      end
  | (Err e, _) => Err e
  | (Undefined, _) => Undefined
  | (OutOfFuel, _) => OutOfFuel
  end.

(** The loop of [ghostfs_sync] over the cached dirty clusters. *)
Fixpoint sync_loop (n : nat) (i : Z) : M unit :=
  match n with
  | O => ret tt
  | S n' =>
      fun g =>
        match clusters g !! i with
        | Some c =>
            if is_dirty c then
              match write_cluster (gfs_stegger g) c i with
              | Ok (s', c') =>
                  sync_loop n' (i + 1)
                    (with_stegger s' (with_clusters (<[i := c']> (clusters g)) g))
              | Err e => (Err e, g)
              | Undefined => (Undefined, g)
              | OutOfFuel => (OutOfFuel, g)
              end
            else sync_loop n' (i + 1) g
        | None => sync_loop n' (i + 1) g
        end
  end.

Definition ghostfs_sync : M unit :=
  let* p := cluster_get 0 in
  let* c := deref p in
  let* g := get_gfs in
  match write_header (gfs_stegger g) (hdr_cluster_count g) c with
  | Ok (s', c') =>
      modify_gfs (fun g => with_stegger s' (with_clusters (<[p := c']> (clusters g)) g));;
      sync_loop (Z.to_nat (hdr_cluster_count g - 1)) 1
  | Err e => fail e
  | Undefined => undefined
  | OutOfFuel => out_of_fuel
  end.

End Superblock.

(** ** The MD5 digest *)

(** Modelled from the spec: MD5 ([md5.h], [md5.c] are not among the sources);
    the spec names the digest, this is the function of RFC 1321. *)
Definition md5_sines : list Z :=
  [ 0xd76aa478; 0xe8c7b756; 0x242070db; 0xc1bdceee;
    0xf57c0faf; 0x4787c62a; 0xa8304613; 0xfd469501;
    0x698098d8; 0x8b44f7af; 0xffff5bb1; 0x895cd7be;
    0x6b901122; 0xfd987193; 0xa679438e; 0x49b40821;
    0xf61e2562; 0xc040b340; 0x265e5a51; 0xe9b6c7aa;
    0xd62f105d; 0x02441453; 0xd8a1e681; 0xe7d3fbc8;
    0x21e1cde6; 0xc33707d6; 0xf4d50d87; 0x455a14ed;
    0xa9e3e905; 0xfcefa3f8; 0x676f02d9; 0x8d2a4c8a;
    0xfffa3942; 0x8771f681; 0x6d9d6122; 0xfde5380c;
    0xa4beea44; 0x4bdecfa9; 0xf6bb4b60; 0xbebfbc70;
    0x289b7ec6; 0xeaa127fa; 0xd4ef3085; 0x04881d05;
    0xd9d4d039; 0xe6db99e5; 0x1fa27cf8; 0xc4ac5665;
    0xf4292244; 0x432aff97; 0xab9423a7; 0xfc93a039;
    0x655b59c3; 0x8f0ccc92; 0xffeff47d; 0x85845dd1;
    0x6fa87e4f; 0xfe2ce6e0; 0xa3014314; 0x4e0811a1;
    0xf7537e82; 0xbd3af235; 0x2ad7d2bb; 0xeb86d391 ].

Definition md5_shifts : list Z :=
  [ 7; 12; 17; 22; 7; 12; 17; 22; 7; 12; 17; 22; 7; 12; 17; 22;
    5; 9; 14; 20; 5; 9; 14; 20; 5; 9; 14; 20; 5; 9; 14; 20;
    4; 11; 16; 23; 4; 11; 16; 23; 4; 11; 16; 23; 4; 11; 16; 23;
    6; 10; 15; 21; 6; 10; 15; 21; 6; 10; 15; 21; 6; 10; 15; 21 ].

Definition rotl32 (x c : Z) : Z :=
  u32 (Z.lor (Z.shiftl x c) (Z.shiftr x (32 - c))).

Definition not32 (x : Z) : Z := Z.lxor x 0xFFFFFFFF.

(** One of the 64 operations on a block whose sixteen words are [ws]. *)
Definition md5_step (ws : list Z) (st : Z * Z * Z * Z) (i : nat) : Z * Z * Z * Z :=
  let '(a, b, c, d) := st in
  let iz := Z.of_nat i in
  let f :=
    if decide (iz < 16) then Z.lor (Z.land b c) (Z.land (not32 b) d)
    else if decide (iz < 32) then Z.lor (Z.land d b) (Z.land (not32 d) c)
    else if decide (iz < 48) then Z.lxor b (Z.lxor c d)
    else Z.lxor c (Z.lor b (not32 d)) in
  let g :=
    if decide (iz < 16) then iz
    else if decide (iz < 32) then (5 * iz + 1) mod 16
    else if decide (iz < 48) then (3 * iz + 5) mod 16
    else (7 * iz) mod 16 in
  let x := u32 (f + a + nth i md5_sines 0 + nth (Z.to_nat g) ws 0) in
  (d, u32 (b + rotl32 x (nth i md5_shifts 0)), b, c).

Fixpoint md5_words (n : nat) (bs : list byte) : list Z :=
  match n with
  | O => []
  | S n' => le_decode (take 4 bs) :: md5_words n' (drop 4 bs)
  end.

Definition md5_block (st : Z * Z * Z * Z) (block : list byte) : Z * Z * Z * Z :=
  let '(a0, b0, c0, d0) := st in
  let '(a, b, c, d) := fold_left (md5_step (md5_words 16 block)) (seq 0 64) st in
  (u32 (a0 + a), u32 (b0 + b), u32 (c0 + c), u32 (d0 + d)).

Fixpoint md5_blocks (n : nat) (st : Z * Z * Z * Z) (bs : list byte) : Z * Z * Z * Z :=
  match n with
  | O => st
  | S n' => md5_blocks n' (md5_block st (take 64 bs)) (drop 64 bs)
  end.

Definition md5_pad (bs : list byte) : list byte :=
  let len := Z.of_nat (length bs) in
  bs ++ [byte_of_Z 0x80] ++ zeros ((55 - len) mod 64) ++ le_encode 8 (8 * len).

Definition md5_digest (bs : list byte) : list byte :=
  let padded := md5_pad bs in
  let '(a, b, c, d) :=
    md5_blocks (length padded / 64)%nat
      (0x67452301, 0xefcdab89, 0x98badcfe, 0x10325476) padded in
  le_encode 4 a ++ le_encode 4 b ++ le_encode 4 c ++ le_encode 4 d.

(** * Specification vocabulary *)

(** ** Concrete carriers and handles used by the examples *)

Definition path_of (s : String.string) : list byte := String.list_byte_of_string s.

(** A carrier with room for three clusters, formatted and mounted. *)
Definition carrier3 : stegger :=
  Eval vm_compute in Stegger (zeros (c0_offset + 3 * CLUSTER_SIZE)).

(** The value of a call that is known to succeed. *)
Definition value_or {A : Type} (d : A) (r : result A) : A :=
  match r with
  | Ok a => a
  | _ => d
  end.

Definition formatted3 : stegger :=
  Eval vm_compute in value_or carrier3 (ghostfs_format md5_digest carrier3).

Definition mounted3 : ghostfs :=
  Eval vm_compute in value_or (fresh_gfs formatted3) (ghostfs_mount md5_digest formatted3).

(** The handle and the value a computation leaves. *)
Definition run {A : Type} (m : M A) (g : ghostfs) : ghostfs := snd (m g).

Definition outcome {A : Type} (m : M A) (g : ghostfs) : result A := fst (m g).

(** [n] calls of [dir_iter_next] in a row. *)
Fixpoint dir_iter_advance (n : nat) (it : dir_iter) : M dir_iter :=
  match n with
  | O => ret it
  | S n' => let* it' := dir_iter_next it in dir_iter_advance n' it'
  end.

(** The number of clusters [nr] in [lo, lo + n) that are cached with
    [used = 0]. *)
Fixpoint count_unused (m : gmap Z cluster) (lo : Z) (n : nat) : Z :=
  match n with
  | O => 0
  | S n' =>
      (match m !! lo with
       | Some c => if decide (used c = 0) then 1 else 0
       | None => 0
       end) + count_unused m (lo + 1) n'
  end.

(** The free clusters of a handle: those in [1, cluster_count). *)
Definition unused_clusters (g : ghostfs) : Z :=
  count_unused (clusters g) 1 (Z.to_nat (hdr_cluster_count g - 1)).

(** An empty file ["/a"] in the root of [mounted3], and a handle on it. *)
Definition created_a : ghostfs :=
  Eval vm_compute in run (ghostfs_create 100 (path_of "/a"%string)) mounted3.

Definition opened_a : dir_iter :=
  Eval vm_compute in
    value_or (DirIter 0 RootEntry 0) (outcome (ghostfs_open 100 (path_of "/a"%string)) created_a).

(** The record a [struct dir_entry *] points to. *)
Definition entry_of (r : entry_ref) (g : ghostfs) : dir_entry :=
  value_or (DirEntry [] 0 0) (outcome (read_entry r) g).

(** A cached cluster with its dirty flag set. *)
Definition dirty_cluster : cluster :=
  {| data := zeros CLUSTER_DATA; next := 0; used := 1; dirty := 1 |}.

(** The life of ["/a"] that shows the double release: five bytes are
    written, the file is truncated to size 0, then unlinked. *)
Definition written_a : ghostfs :=
  Eval vm_compute in run (ghostfs_write 100 opened_a (path_of "hello") 0) created_a.

Definition truncated_a : ghostfs :=
  Eval vm_compute in run (ghostfs_truncate 100 (path_of "/a") 0) written_a.

Definition unlinked_a : ghostfs :=
  Eval vm_compute in run (ghostfs_unlink 100 (path_of "/a")) truncated_a.

(** A directory ["/d"] in the root of [mounted3], renamed to ["/e"]. *)
Definition made_d : ghostfs :=
  Eval vm_compute in run (ghostfs_mkdir 100 (path_of "/d")) mounted3.

Definition renamed_d : ghostfs :=
  Eval vm_compute in run (ghostfs_rename 100 (path_of "/d") (path_of "/e")) made_d.

(** The record a path resolves to. *)
Definition stat_entry (fuel : nat) (path : list byte) : M dir_entry :=
  let* it := dir_iter_lookup fuel path false in
  read_entry (it_entry it).

(** ** The state of the cache *)

(** Every cluster in [1, cluster_count) is in the cache, as [ghostfs_mount]
    leaves it. *)
Definition all_cached (g : ghostfs) : Prop :=
  forall nr, 1 <= nr < hdr_cluster_count g -> is_Some (clusters g !! nr).

(** The fields of the handle are within the range of their C types. *)
Definition fields_in_range (g : ghostfs) : Prop :=
  0 <= hdr_cluster_count g < 2 ^ 16 /\ 0 <= gfs_free_clusters g < 2 ^ 16.

Definition is_unused (m : gmap Z cluster) (nr : Z) : Prop :=
  exists c, m !! nr = Some c /\ used c = 0.

(** ** The effect of the allocator on the cache *)

(** The clusters of [l] claimed one after the other, each linked behind the
    one claimed before it ([prev], when there is one). *)
Fixpoint link_claimed (zero : bool) (prev : option Z) (l : list Z) (m : gmap Z cluster)
    : gmap Z cluster :=
  match l with
  | [] => m
  | c :: l' =>
      let m1 := alter (claim_cluster zero) c m in
      let m2 := match prev with
                | Some p => alter (set_next c) p m1
                | None => m1
                end in
      link_claimed zero (Some c) l' m2
  end.

(** The clusters of [l] released. *)
Fixpoint release_all (l : list Z) (m : gmap Z cluster) : gmap Z cluster :=
  match l with
  | [] => m
  | c :: l' => release_all l' (alter release_cluster c m)
  end.

(** Consecutive members of [l] are linked by their [next] fields. *)
Fixpoint linked (m : gmap Z cluster) (l : list Z) : Prop :=
  match l with
  | [] => True
  | a :: l' =>
      match l' with
      | [] => is_Some (m !! a)
      | b :: _ => (exists c, m !! a = Some c /\ next c = b) /\ linked m l'
      end
  end.

(** The values of the loop variables [prev] and [first] of [alloc_clusters]
    once the clusters of [l] have been claimed. *)
Definition prev_after (prev : option Z) (l : list Z) : option Z :=
  match last l with
  | Some c => Some c
  | None => prev
  end.

Definition first_after (first : Z) (l : list Z) : Z :=
  if decide (first = 0) then hd 0 l else first.

(** [l] is strictly increasing and starts at [lo] or later. *)
Fixpoint increasing_from (lo : Z) (l : list Z) : Prop :=
  match l with
  | [] => True
  | x :: l' => lo <= x /\ increasing_from (x + 1) l'
  end.

(** ** Files as byte strings *)

(** The payloads of the clusters of [l], one after the other. *)
Fixpoint chain_data (m : gmap Z cluster) (l : list Z) : list byte :=
  match l with
  | [] => []
  | a :: l' =>
      (match m !! a with
       | Some c => data c
       | None => []
       end) ++ chain_data m l'
  end.

(** The reference semantics of a write: the content is extended with zeros
    up to the end of the written range, then the range is overwritten. *)
Definition apply_write (content : list byte) (offset : Z) (buf : list byte) : list byte :=
  set_bytes offset buf
    (content ++ zeros (offset + Z.of_nat (length buf) - Z.of_nat (length content))).

(** The writes of [ws] (offset and bytes), applied in order to [content]. *)
Definition replay_from (content : list byte) (ws : list (Z * list byte)) : list byte :=
  fold_left (fun c w => apply_write c (fst w) (snd w)) ws content.

Definition replay (ws : list (Z * list byte)) : list byte := replay_from [] ws.

(** [ghostfs_write] called for each member of [ws] in turn, whatever the
    calls return; the result lists the calls that did not fail, each with
    the count it returned. *)
Fixpoint write_all (fuel : nat) (it : dir_iter) (ws : list (Z * list byte))
    : M (list (Z * list byte * Z)) :=
  match ws with
  | [] => ret []
  | w :: ws' =>
      let* r := try (ghostfs_write fuel it (snd w) (fst w)) in
      let* done := write_all fuel it ws' in
      ret (match r with
           | inr n => (w, n) :: done
           | inl _ => done
           end)
  end.

(** Two versions of a cluster that differ at most in the dirty flag. *)
Definition same_payload (c c' : cluster) : Prop :=
  data c' = data c /\ next c' = next c /\ used c' = used c.

(** The state of an open regular file: [it] points at record [di] of the
    directory cluster [dc], which is the root or in use; the record holds
    the size [stored]; [l] is the chain of the file, of the length the bytes
    ask for, made of distinct clusters in use, ending with [next = 0]; the
    payloads of the chain start with [bytes]. *)
Record file_state (g : ghostfs) (it : dir_iter) (stored : Z) (bytes : list byte)
    (dc di : Z) (l : list Z) : Prop := FileState {
  fi_entry : it_entry it = ClusterEntry dc di;
  fi_cluster : it_cluster it = dc;
  fi_idx : 0 <= di < CLUSTER_DIRENTS;
  fi_dir : exists dcl,
      clusters g !! dc = Some dcl /\
      Z.of_nat (length (data dcl)) = CLUSTER_DATA /\
      (dc = 0 \/ used dcl <> 0) /\
      size (entry_at (data dcl) di) = stored /\
      cluster_nr (entry_at (data dcl) di) = hd 0 l;
  fi_size : Z.of_nat (length bytes) <= FILESIZE_MAX;
  fi_len : Z.of_nat (length l) = size_to_clusters (Z.of_nat (length bytes));
  fi_chain : linked (clusters g) l;
  fi_last : forall x c, last l = Some x -> clusters g !! x = Some c -> next c = 0;
  fi_members : forall x, x ∈ l ->
      1 <= x < hdr_cluster_count g /\
      exists c, clusters g !! x = Some c /\ used c <> 0 /\
                Z.of_nat (length (data c)) = CLUSTER_DATA;
  fi_nodup : NoDup l;
  fi_apart : dc ∉ l;
  fi_content : bytes = take (length bytes) (chain_data (clusters g) l);
  fi_cached : all_cached g;
  fi_range : fields_in_range g
}.

(** The invariant of an open file with content [content]: the record holds
    its length. *)
Definition file_inv (g : ghostfs) (it : dir_iter) (content : list byte)
    (dc di : Z) (l : list Z) : Prop :=
  file_state g it (Z.of_nat (length content)) content dc di l.

(** A file as [ghostfs_create] leaves it: no bytes and no chain. *)
Definition fresh_file (g : ghostfs) (it : dir_iter) : Prop :=
  exists dc di, file_inv g it [] dc di [].

(** [formatted3] with one bit of the root cluster flipped. *)
Definition tampered3 : stegger :=
  Eval vm_compute in Stegger (set_bytes 100 [x01] (carrier formatted3)).

(** ** Invariants of the cache *)

(** Every cached cluster has a payload of [CLUSTER_DATA] bytes. *)
Definition cache_sized (g : ghostfs) : Prop :=
  map_Forall (fun _ c => Z.of_nat (length (data c)) = CLUSTER_DATA) (clusters g).

(** [m] keeps the payload sizes and the cluster count [n] of the header,
    whatever it returns, and its values satisfy [Q]. *)
Definition sound (n : Z) {A : Type} (m : M A) (Q : A -> Prop) : Prop :=
  forall g r g',
    cache_sized g -> hdr_cluster_count g = n -> m g = (r, g') ->
    cache_sized g' /\ hdr_cluster_count g' = n /\ forall a, r = Ok a -> Q a.

(** A [struct dir_entry *] that points at the root entry or at one of the
    records of a cluster. *)
Definition slot_ok (r : entry_ref) : Prop :=
  match r with
  | RootEntry => True
  | ClusterEntry _ idx => 0 <= idx < CLUSTER_DIRENTS
  end.

(** An iterator whose [entry] is record [entry_nr] of its cluster. *)
Definition iter_shape (it : dir_iter) : Prop :=
  it_entry it = ClusterEntry (it_cluster it) (it_entry_nr it) /\
  0 <= it_entry_nr it < CLUSTER_DIRENTS.

(** A carrier with room for the superblock and one cluster, formatted and
    mounted. *)
Definition carrier1 : stegger :=
  Eval vm_compute in Stegger (zeros (c0_offset + CLUSTER_SIZE)).

Definition formatted1 : stegger :=
  Eval vm_compute in value_or carrier1 (ghostfs_format md5_digest carrier1).

Definition mounted1 : ghostfs :=
  Eval vm_compute in value_or (fresh_gfs formatted1) (ghostfs_mount md5_digest formatted1).

(** ** The rest of the public interface *)

(** The [struct ghostfs_entry] that [ghostfs_opendir] hands out: [calloc]
    leaves [it.gfs] null, which [ghostfs_next_entry] takes as "not started
    yet", and only [it.entry] is set.  Once started it holds an iterator
    like any other. *)
Inductive dir_stream : Type :=
| Unstarted (entry : entry_ref)
| Started (it : dir_iter).

Definition ghostfs_opendir (fuel : nat) (path : list byte) : M dir_stream :=
  let* it := dir_iter_lookup fuel path false in
  let* e := read_entry (it_entry it) in
  if negb (dir_entry_is_directory e) then fail ENOTDIR
  else ret (Unstarted (it_entry it)).

(** [dir_iter_next_used(&entry->it)]: the stream changes only when the call
    returns 0. *)
Definition stream_next_used (fuel : nat) (it : dir_iter) : M (dir_stream * option errno) :=
  let* r := try (dir_iter_next_used fuel it) in
  match r with
  | inr it' => ret (Started it', None)
  | inl e => ret (Started it, Some e)
  end.

(** [ghostfs_next_entry] returns the stream as the call leaves it, with
    [None] for a return value of 0 and the error otherwise. *)
Definition ghostfs_next_entry (fuel : nat) (h : dir_stream) : M (dir_stream * option errno) :=
  match h with
  | Unstarted r =>
      let* de := read_entry r in
      let* r0 := try (dir_iter_init (cluster_nr de)) in
      match r0 with
      | inl e => ret (h, Some e)
      | inr it =>
          let* e0 := read_entry (it_entry it) in
          if dir_entry_used e0 then ret (Started it, None)
          else stream_next_used fuel it
      end
  | Started it => stream_next_used fuel it
  end.

(** [ghostfs_entry_name]: the name field of the entry a handle points to. *)
Definition ghostfs_entry_name (r : entry_ref) : M (list byte) :=
  let* e := read_entry r in ret (filename e).

Definition ghostfs_cluster_count (g : ghostfs) : Z := hdr_cluster_count g.

(** The fields of [struct statvfs] that [ghostfs_statvfs] sets; [memset]
    zeroes the others. *)
Record statvfs : Type := StatVfs {
  f_bsize : Z;
  f_frsize : Z;
  f_blocks : Z;
  f_bfree : Z;
  f_bavail : Z;
  f_files : Z;
  f_ffree : Z;
  f_namemax : Z
}.

Definition ghostfs_statvfs (g : ghostfs) : statvfs :=
  {| f_bsize := CLUSTER_SIZE; f_frsize := CLUSTER_SIZE;
     f_blocks := hdr_cluster_count g;
     f_bfree := gfs_free_clusters g; f_bavail := gfs_free_clusters g;
     f_files := 0; f_ffree := 0; f_namemax := FILESIZE_MAX |}.

(** The mode bits of [<sys/stat.h>] the code uses (octal 040000, 0100000,
    0400, 0200 and 0100). *)
Definition S_IFDIR : Z := 0x4000.
Definition S_IFREG : Z := 0x8000.
Definition S_IRUSR : Z := 0x100.
Definition S_IWUSR : Z := 0x80.
Definition S_IXUSR : Z := 0x40.

(** The fields of [struct stat] that [ghostfs_getattr] sets. *)
Record stat : Type := Stat {
  st_mode : Z;
  st_nlink : Z;
  st_uid : Z;
  st_gid : Z;
  st_size : Z;
  st_blocks : Z;
  st_atime : Z;
  st_mtime : Z;
  st_ctime : Z
}.

Section Attributes.

(** [gfs->uid], [gfs->gid] and [gfs->mount_time]: [ghostfs_mount] takes
    them from [getuid], [getgid] and [time], and nothing changes them. *)
Variables (uid gid mount_time : Z).

Definition ghostfs_getattr (fuel : nat) (path : list byte) : M stat :=
  let* it := dir_iter_lookup fuel path false in
  let* e := read_entry (it_entry it) in
  let is_dir := dir_entry_is_directory e in
  let mode0 := if is_dir then Z.lor S_IFDIR S_IXUSR else S_IFREG in
  let sz := if is_dir then CLUSTER_SIZE else size e in
  ret {| st_mode := Z.lor mode0 (Z.lor S_IRUSR S_IWUSR);
         st_nlink := 1;
         st_uid := uid;
         st_gid := gid;
         st_size := sz;
         st_blocks := sz / 512 + (if decide (sz mod 512 ≠ 0) then 1 else 0);
         st_atime := mount_time;
         st_mtime := mount_time;
         st_ctime := mount_time |}.

End Attributes.

Section Unmount.

Variable md5 : list byte -> list byte.

(** [ghostfs_umount] returns what [ghostfs_sync] returns; the handle is
    freed and must not be used again. *)
Definition ghostfs_umount : M unit := ghostfs_sync md5.

End Unmount.

(** ** Directories that fit in one cluster *)

(** The fields of the cached clusters are within the range of their C
    types. *)
Definition cache_in_range (g : ghostfs) : Prop :=
  map_Forall (fun _ c => 0 <= next c < 2 ^ 16 /\ 0 <= used c < 2 ^ 8) (clusters g).

(** A file name [create_entry] accepts, as the list of its characters. *)
Definition name_ok (name : list byte) : Prop :=
  name <> [] /\ (x00 ∉ name) /\ (slash ∉ name) /\
  Z.of_nat (length name) <= FILENAME_SIZE - 1.

(** The iterator on record [j] of the root cluster. *)
Definition root_slot (j : Z) : dir_iter :=
  {| it_cluster := 0; it_entry := ClusterEntry 0 j; it_entry_nr := j |}.

(** Record [j] of the directory cluster [r] is in use. *)
Definition slot_used (r : cluster) (j : Z) : bool :=
  dir_entry_used (entry_at (data r) j).

(** Record [j] of the directory cluster [r] carries the name [name]. *)
Definition named (r : cluster) (name : list byte) (j : Z) : Prop :=
  cstring (filename (entry_at (data r) j)) = name.

#[global] Instance named_decision r name j : Decision (named r name j).
Proof. unfold named. apply _. Defined.

(** The root directory of [g] is cached as [r0] and has one cluster. *)
Definition small_root (g : ghostfs) (r0 : cluster) : Prop :=
  clusters g !! 0 = Some r0 /\ next r0 = 0 /\
  Z.of_nat (length (data r0)) = CLUSTER_DATA /\
  0 < hdr_cluster_count g /\
  dir_entry_is_directory (root_entry g) = true /\ cluster_nr (root_entry g) = 0.

(** The root cluster of [created_a], as the cache holds it. *)
Definition root_a : cluster :=
  Eval vm_compute in default dirty_cluster (clusters created_a !! 0).

(** What a computation leaves of the handle outside the clusters behind the
    root cluster. *)
Definition keeps_root (g g' : ghostfs) : Prop :=
  clusters g' !! 0 = clusters g !! 0 /\
  hdr_cluster_count g' = hdr_cluster_count g /\
  root_entry g' = root_entry g.

(** The used records among the [n] records from [j] on, in their order. *)
Fixpoint used_from (r : cluster) (j : Z) (n : nat) : list Z :=
  match n with
  | O => []
  | S n' => if slot_used r j then j :: used_from r (j + 1) n' else used_from r (j + 1) n'
  end.

(** A reader of a directory stream: it calls [ghostfs_next_entry] until the
    call fails, at most [n] times, and collects what [ghostfs_entry_name]
    returns for each entry. *)
Fixpoint read_dir (fuel : nat) (n : nat) (h : dir_stream) : M (list (list byte)) :=
  match n with
  | O => ret []
  | S n' =>
      let* r := ghostfs_next_entry fuel h in
      match r with
      | (Started it, None) =>
          let* name := ghostfs_entry_name (it_entry it) in
          let* rest := read_dir fuel n' (Started it) in
          ret (name :: rest)
      | _ => ret []
      end
  end.

(** ** Cache and store *)

#[global] Instance cluster_eq_decision : EqDecision cluster.
Proof. solve_decision. Defined.

#[global] Instance result_eq_decision {A : Type} `{EqDecision A} : EqDecision (result A).
Proof. solve_decision. Defined.

(** Every cached cluster that is not marked dirty is what the store holds
    for its number. *)
Definition coherent (g : ghostfs) : Prop :=
  map_Forall (fun nr c => is_dirty c = false -> read_cluster (gfs_stegger g) nr = Ok c)
             (clusters g).

(** ** Dirty tracking

    [ghostfs_sync] writes back the cached clusters whose dirty flag is set
    and no others.  [dirty_at p g]: cluster [p] is cached and flagged. *)
Definition dirty_at (p : Z) (g : ghostfs) : Prop :=
  exists c, clusters g !! p = Some c /\ is_dirty c = true.

Definition keeps_dirty (g g' : ghostfs) : Prop :=
  forall p, dirty_at p g -> dirty_at p g'.

(** [tracked_but pend g g']: going from [g] to [g'] the carrier is left
    alone, no cluster leaves the cache, flagged clusters stay flagged, and
    every cached cluster other than [pend] is flagged, or is as it was in
    [g], or has been loaded from the carrier. *)
Definition tracked_but (pend : option Z) (g g' : ghostfs) : Prop :=
  gfs_stegger g' = gfs_stegger g /\
  (forall nr, is_Some (clusters g !! nr) -> is_Some (clusters g' !! nr)) /\
  keeps_dirty g g' /\
  forall nr c', Some nr <> pend -> clusters g' !! nr = Some c' ->
    is_dirty c' = true \/ clusters g !! nr = Some c' \/
    (clusters g !! nr = None /\ read_cluster (gfs_stegger g) nr = Ok c').

(** [tracks a P m Q b]: started with cluster [a] pending, [m] ends with
    cluster [b] pending when it returns a value, and with nothing pending
    when it fails. *)
Definition tracks {A : Type} (a : option Z) (P : ghostfs -> Prop) (m : M A)
    (Q : A -> ghostfs -> Prop) (b : option Z) : Prop :=
  forall g0 g r g',
    tracked_but a g0 g -> P g -> m g = (r, g') ->
    keeps_dirty g g' /\
    match r with
    | Ok x => tracked_but b g0 g' /\ Q x g'
    | _ => tracked_but None g0 g'
    end.

(** The cluster a [struct dir_entry *] points into. *)
Definition pend (r : entry_ref) : option Z :=
  match r with
  | RootEntry => None
  | ClusterEntry nr _ => Some nr
  end.

(** The [entry] of an iterator points into the iterator's cluster. *)
Definition entry_in (it : dir_iter) : Prop :=
  forall nr idx, it_entry it = ClusterEntry nr idx -> nr = it_cluster it.

Definition entry_dirty (r : entry_ref) (g : ghostfs) : Prop :=
  match r with
  | RootEntry => True
  | ClusterEntry nr _ => dirty_at nr g
  end.

Definition prev_dirty (prev : option Z) (g : ghostfs) : Prop :=
  match prev with
  | Some p => dirty_at p g
  | None => True
  end.

(** Assertions that only gain from more flags. *)
Definition mono (R : ghostfs -> Prop) : Prop :=
  forall g g', keeps_dirty g g' -> R g -> R g'.

(** ** Loading

    [loads g g']: [g'] is [g] with more clusters in the cache, each of them
    as [read_cluster] finds it on the carrier of [g]. *)
Definition loads (g g' : ghostfs) : Prop :=
  g' = with_clusters (clusters g') g /\
  forall nr,
    clusters g' !! nr = clusters g !! nr \/
    (clusters g !! nr = None /\
     exists c, read_cluster (gfs_stegger g) nr = Ok c /\ clusters g' !! nr = Some c).

(** [m] does nothing to the handle but load clusters, whatever it returns. *)
Definition quiet {A : Type} (m : M A) : Prop :=
  forall g r g', m g = (r, g') -> loads g g'.

(** The first 4114 bytes of [formatted3]: the superblock and cluster 0 of a
    filesystem of three clusters, without the other two clusters. *)
Definition short3 : stegger :=
  Eval vm_compute in Stegger (take (Z.to_nat (c0_offset + CLUSTER_SIZE)) (carrier formatted3)).

(** [formatted3] with one byte of the root cluster changed. *)
Definition corrupt3 : stegger :=
  Eval vm_compute in Stegger (set_bytes 100 [x01] (carrier formatted3)).

(** The life of ["/b"] next to ["/a"]: after ["/a"] has been truncated to
    size 0, ["/b"] is created and five bytes are written to it; then ["/a"]
    is unlinked, and ["/c"] is created and three bytes are written to it. *)
Definition created_b : ghostfs :=
  Eval vm_compute in run (ghostfs_create 100 (path_of "/b")) truncated_a.

Definition opened_b : dir_iter :=
  Eval vm_compute in
    value_or (DirIter 0 RootEntry 0) (outcome (ghostfs_open 100 (path_of "/b")) created_b).

Definition written_b : ghostfs :=
  Eval vm_compute in run (ghostfs_write 100 opened_b (path_of "hello") 0) created_b.

Definition unlinked_ab : ghostfs :=
  Eval vm_compute in run (ghostfs_unlink 100 (path_of "/a")) written_b.

Definition created_c : ghostfs :=
  Eval vm_compute in run (ghostfs_create 100 (path_of "/c")) unlinked_ab.

Definition opened_c : dir_iter :=
  Eval vm_compute in
    value_or (DirIter 0 RootEntry 0) (outcome (ghostfs_open 100 (path_of "/c")) created_c).

Definition written_c : ghostfs :=
  Eval vm_compute in run (ghostfs_write 100 opened_c (path_of "XYZ") 0) created_c.

(** Cluster [nr] cannot be handed out by [alloc_clusters]: it is cluster 0,
    where the scan does not look, or it is in use. *)
Definition in_use (nr : Z) (g : ghostfs) : Prop :=
  nr = 0 \/ exists c, clusters g !! nr = Some c /\ used c <> 0.

(** Record [idx] of the cached directory cluster [nr] holds the size word
    [s] and the first-cluster number [k]. *)
Definition rec_is (nr idx s k : Z) (g : ghostfs) : Prop :=
  exists c, clusters g !! nr = Some c /\
            size (entry_at (data c) idx) = s /\ cluster_nr (entry_at (data c) idx) = k.

(** [m] is sound and keeps the assertion [I], whatever it returns. *)
Definition keeps (n : Z) (I : ghostfs -> Prop) {A : Type} (m : M A) (Q : A -> Prop) : Prop :=
  forall g r g',
    cache_sized g -> hdr_cluster_count g = n -> I g -> m g = (r, g') ->
    (cache_sized g' /\ hdr_cluster_count g' = n /\ forall a, r = Ok a -> Q a) /\ I g'.

(** ** The used flags

    [used_rel g g']: going from [g] to [g'] the header keeps its cluster
    count and every cached cluster stays cached with its [used] flag. *)
Definition used_rel (g g' : ghostfs) : Prop :=
  hdr_cluster_count g' = hdr_cluster_count g /\
  forall x c, clusters g !! x = Some c ->
    exists c', clusters g' !! x = Some c' /\ used c' = used c.

(** [m] neither takes nor releases a cluster, whatever it returns. *)
Definition flags_kept {A : Type} (m : M A) : Prop :=
  forall g r g', m g = (r, g') -> used_rel g g'.

(** * Properties *)

(** ** The example handles are what the engine computes *)

Lemma formatted3_is_formatted : ghostfs_format md5_digest carrier3 = Ok formatted3.
Proof. vm_compute. reflexivity. Qed.

Lemma mounted3_is_mounted : ghostfs_mount md5_digest formatted3 = Ok mounted3.
Proof. vm_compute. reflexivity. Qed.

Lemma created_a_is_created :
  ghostfs_create 100 (path_of "/a") mounted3 = (Ok tt, created_a).
Proof. vm_compute. reflexivity. Qed.

Lemma opened_a_is_opened :
  ghostfs_open 100 (path_of "/a") created_a = (Ok opened_a, created_a).
Proof. vm_compute. reflexivity. Qed.

Lemma written_a_is_written :
  ghostfs_write 100 opened_a (path_of "hello") 0 created_a = (Ok 5, written_a).
Proof. vm_compute. reflexivity. Qed.

Lemma unlinked_a_is_unlinked :
  ghostfs_unlink 100 (path_of "/a") truncated_a = (Ok tt, unlinked_a).
Proof. vm_compute. reflexivity. Qed.

Lemma made_d_is_made : ghostfs_mkdir 100 (path_of "/d") mounted3 = (Ok tt, made_d).
Proof. vm_compute. reflexivity. Qed.

(** ** Computations: basic equations *)

Lemma bind_Ok {A B : Type} (m : M A) (k : A -> M B) g a g' :
  m g = (Ok a, g') -> bind m k g = k a g'.
Proof. intros H. unfold bind. rewrite H. reflexivity. Qed.

Lemma bind_Err {A B : Type} (m : M A) (k : A -> M B) g e g' :
  m g = (Err e, g') -> bind m k g = (Err e, g').
Proof. intros H. unfold bind. rewrite H. reflexivity. Qed.

Lemma bind_inv_Ok {A B : Type} (m : M A) (k : A -> M B) g b g2 :
  bind m k g = (Ok b, g2) ->
  exists a g1, m g = (Ok a, g1) /\ k a g1 = (Ok b, g2).
Proof.
  unfold bind. destruct (m g) as [[a| e | |] g1]; intros H; try discriminate.
  exists a, g1. split; [reflexivity | exact H].
Qed.

Lemma deref_Some g p c : clusters g !! p = Some c -> deref p g = (Ok c, g).
Proof. intros H. unfold deref. rewrite H. reflexivity. Qed.

Lemma read_entry_cluster g p idx c :
  clusters g !! p = Some c ->
  read_entry (ClusterEntry p idx) g = (Ok (entry_at (data c) idx), g).
Proof.
  intros H. cbn [read_entry]. rewrite (bind_Ok _ _ _ _ _ (deref_Some _ _ _ H)).
  reflexivity.
Qed.

Ltac unfold_consts :=
  unfold CLUSTER_SIZE, CLUSTER_DATA, CLUSTER_DIRENTS, FILENAME_SIZE, FILESIZE_MAX,
    DIR_ENTRY_SIZE, HEADER_BYTES, c0_offset in *.

Ltac clia := unfold_consts; lia.

(** ** Byte buffers *)

Lemma lookup_get_bytes (d : list byte) off n (i : nat) :
  0 <= off -> 0 <= n ->
  get_bytes off n d !! i = if decide (Z.of_nat i < n) then d !! (Z.to_nat off + i)%nat else None.
Proof.
  intros Hoff Hn. unfold get_bytes.
  destruct (decide (Z.of_nat i < n)) as [Hi | Hi].
  - rewrite lookup_take_lt by lia. apply lookup_drop.
  - apply lookup_take_ge. lia.
Qed.

Lemma lookup_set_bytes (d bs : list byte) off (i : nat) :
  0 <= off -> off <= Z.of_nat (length d) ->
  set_bytes off bs d !! i =
    if decide (Z.of_nat i < off) then d !! i
    else if decide (Z.of_nat i < off + Z.of_nat (length bs)) then bs !! (i - Z.to_nat off)%nat
    else d !! i.
Proof.
  intros Hoff Hlen. unfold set_bytes.
  assert (Htk : length (take (Z.to_nat off) d) = Z.to_nat off) by (rewrite length_take; lia).
  destruct (decide (Z.of_nat i < off)) as [Hi | Hi].
  - rewrite lookup_app_l by lia. apply lookup_take_lt. lia.
  - rewrite lookup_app_r by lia. rewrite Htk.
    destruct (decide (Z.of_nat i < off + Z.of_nat (length bs))) as [Hj | Hj].
    + rewrite lookup_app_l by lia. reflexivity.
    + rewrite lookup_app_r by lia. rewrite lookup_drop. f_equal. lia.
Qed.

Lemma length_set_bytes (d bs : list byte) off :
  0 <= off -> off + Z.of_nat (length bs) <= Z.of_nat (length d) ->
  length (set_bytes off bs d) = length d.
Proof.
  intros Hoff Hlen. unfold set_bytes.
  rewrite !length_app, length_take, length_drop. lia.
Qed.

Lemma length_get_bytes (d : list byte) off n :
  0 <= off -> 0 <= n -> off + n <= Z.of_nat (length d) ->
  length (get_bytes off n d) = Z.to_nat n.
Proof.
  intros Hoff Hn Hlen. unfold get_bytes. rewrite length_take, length_drop. lia.
Qed.

Lemma get_set_bytes_same (d bs : list byte) off :
  0 <= off -> off + Z.of_nat (length bs) <= Z.of_nat (length d) ->
  get_bytes off (Z.of_nat (length bs)) (set_bytes off bs d) = bs.
Proof.
  intros Hoff Hlen. apply list_eq. intros i.
  rewrite lookup_get_bytes by lia.
  destruct (decide (Z.of_nat i < Z.of_nat (length bs))) as [Hi | Hi].
  - rewrite lookup_set_bytes by lia.
    destruct (decide (Z.of_nat (Z.to_nat off + i) < off)); [lia |].
    destruct (decide (Z.of_nat (Z.to_nat off + i) < off + Z.of_nat (length bs))); [| lia].
    f_equal. lia.
  - symmetry. apply lookup_ge_None. lia.
Qed.

Lemma get_set_bytes_other (d bs : list byte) off n off' :
  0 <= off -> 0 <= n -> 0 <= off' ->
  off' + Z.of_nat (length bs) <= Z.of_nat (length d) ->
  off + n <= off' \/ off' + Z.of_nat (length bs) <= off ->
  get_bytes off n (set_bytes off' bs d) = get_bytes off n d.
Proof.
  intros Hoff Hn Hoff' Hlen Hdisj. apply list_eq. intros i.
  rewrite !lookup_get_bytes by lia.
  destruct (decide (Z.of_nat i < n)) as [Hi | Hi]; [| reflexivity].
  rewrite lookup_set_bytes by lia.
  destruct (decide (Z.of_nat (Z.to_nat off + i) < off')); [reflexivity |].
  destruct (decide (Z.of_nat (Z.to_nat off + i) < off' + Z.of_nat (length bs))); [lia | reflexivity].
Qed.

(** ** Little-endian integers *)

Lemma Z_of_byte_range b : 0 <= Z_of_byte b < 256.
Proof.
  unfold Z_of_byte. pose proof (Byte.to_N_bounded b). lia.
Qed.

Lemma Z_of_byte_of_Z z : Z_of_byte (byte_of_Z z) = z mod 256.
Proof.
  unfold byte_of_Z, Z_of_byte, u8. change (2 ^ 8) with 256.
  pose proof (Z.mod_pos_bound z 256 ltac:(lia)) as Hr.
  destruct (Byte.of_N (Z.to_N (z mod 256))) as [b |] eqn:Hb.
  - apply Byte.to_of_N in Hb. rewrite Hb. lia.
  - apply Byte.of_N_None_iff in Hb. lia.
Qed.

Lemma byte_of_Z_of_byte b : byte_of_Z (Z_of_byte b) = b.
Proof.
  unfold byte_of_Z, u8. change (2 ^ 8) with 256.
  rewrite Z.mod_small by apply Z_of_byte_range.
  unfold Z_of_byte. rewrite N2Z.id, Byte.of_to_N. reflexivity.
Qed.

Lemma length_le_encode n z : length (le_encode n z) = n.
Proof. revert z. induction n as [| n IH]; intros z; cbn; [reflexivity | by rewrite IH]. Qed.

Lemma le_decode_range bs : 0 <= le_decode bs < 256 ^ Z.of_nat (length bs).
Proof.
  induction bs as [| b bs IH]; cbn [le_decode length].
  - cbn. lia.
  - rewrite Nat2Z.inj_succ, Z.pow_succ_r by lia.
    pose proof (Z_of_byte_range b). lia.
Qed.

Lemma le_decode_encode n z : le_decode (le_encode n z) = z mod 256 ^ Z.of_nat n.
Proof.
  revert z. induction n as [| n IH]; intros z.
  - cbn. rewrite Z.mod_1_r. reflexivity.
  - cbn [le_encode le_decode]. rewrite Z_of_byte_of_Z, IH.
    rewrite Nat2Z.inj_succ, Z.pow_succ_r by lia.
    rewrite Z.rem_mul_r by lia. reflexivity.
Qed.

Lemma le_encode_decode bs : le_encode (length bs) (le_decode bs) = bs.
Proof.
  induction bs as [| b bs IH]; [reflexivity |].
  cbn [length le_encode le_decode].
  pose proof (Z_of_byte_range b) as Hb.
  f_equal.
  - rewrite <- (byte_of_Z_of_byte b) at 2. unfold byte_of_Z, u8. change (2 ^ 8) with 256.
    replace ((Z_of_byte b + 256 * le_decode bs) mod 256) with (Z_of_byte b mod 256); [reflexivity |].
    replace (Z_of_byte b + 256 * le_decode bs) with (Z_of_byte b + le_decode bs * 256) by lia.
    rewrite Z_mod_plus_full. reflexivity.
  - replace ((Z_of_byte b + 256 * le_decode bs) / 256) with (le_decode bs); [exact IH |].
    replace (Z_of_byte b + 256 * le_decode bs) with (Z_of_byte b + le_decode bs * 256) by lia.
    rewrite Z_div_plus_full by lia.
    rewrite Z.div_small by lia. lia.
Qed.

(** ** The directory iterator *)


Lemma dir_iter_next_within g c i k :
  k < CLUSTER_DIRENTS - 1 ->
  dir_iter_next {| it_cluster := c; it_entry := ClusterEntry c i; it_entry_nr := k |} g
  = (Ok {| it_cluster := c; it_entry := ClusterEntry c (i + 1); it_entry_nr := k + 1 |}, g).
Proof.
  intros Hk. unfold dir_iter_next. cbn [it_entry_nr it_entry it_cluster].
  destruct (decide (k >= CLUSTER_DIRENTS - 1)) as [Hge | _]; [clia |].
  reflexivity.
Qed.

Lemma dir_iter_next_end g c r k cl :
  k >= CLUSTER_DIRENTS - 1 ->
  clusters g !! c = Some cl ->
  next cl = 0 ->
  dir_iter_next {| it_cluster := c; it_entry := r; it_entry_nr := k |} g = (Err ENOENT, g).
Proof.
  intros Hk Hc Hn. unfold dir_iter_next. cbn [it_entry_nr it_entry it_cluster].
  destruct (decide (k >= CLUSTER_DIRENTS - 1)) as [_ | Hlt]; [| clia].
  rewrite (bind_Ok _ _ _ _ _ (deref_Some _ _ _ Hc)).
  destruct (decide (next cl = 0)); [reflexivity | contradiction].
Qed.

Lemma cluster_get_next_follow g c cl n g' :
  clusters g !! c = Some cl ->
  next cl <> 0 ->
  cluster_get (next cl) g = (Ok n, g') ->
  cluster_get_next c g = (Ok n, g').
Proof.
  intros Hc Hn Hg. unfold cluster_get_next.
  rewrite (bind_Ok _ _ _ _ _ (deref_Some _ _ _ Hc)).
  destruct (decide (next cl = 0)); [contradiction | exact Hg].
Qed.

Lemma dir_iter_next_follow g c r k cl n g' :
  k >= CLUSTER_DIRENTS - 1 ->
  clusters g !! c = Some cl ->
  next cl <> 0 ->
  cluster_get (next cl) g = (Ok n, g') ->
  dir_iter_next {| it_cluster := c; it_entry := r; it_entry_nr := k |} g
  = (Ok {| it_cluster := n; it_entry := ClusterEntry n 0; it_entry_nr := 0 |}, g').
Proof.
  intros Hk Hc Hn Hg. unfold dir_iter_next. cbn [it_entry_nr it_entry it_cluster].
  destruct (decide (k >= CLUSTER_DIRENTS - 1)) as [_ | Hlt]; [| clia].
  rewrite (bind_Ok _ _ _ _ _ (deref_Some _ _ _ Hc)).
  destruct (decide (next cl = 0)); [contradiction |].
  rewrite (bind_Ok _ _ _ _ _ (cluster_get_next_follow _ _ _ _ _ Hc Hn Hg)).
  reflexivity.
Qed.

Lemma dir_iter_advance_within g c (n : nat) i k :
  k + Z.of_nat n <= CLUSTER_DIRENTS - 1 ->
  dir_iter_advance n {| it_cluster := c; it_entry := ClusterEntry c i; it_entry_nr := k |} g
  = (Ok {| it_cluster := c; it_entry := ClusterEntry c (i + Z.of_nat n);
           it_entry_nr := k + Z.of_nat n |}, g).
Proof.
  revert i k. induction n as [| n IH]; intros i k Hk.
  - cbn [dir_iter_advance]. unfold ret. cbn [Z.of_nat]. rewrite !Z.add_0_r. reflexivity.
  - cbn [dir_iter_advance].
    assert (Hlt : k < CLUSTER_DIRENTS - 1) by clia.
    rewrite (bind_Ok _ _ _ _ _ (dir_iter_next_within g c i k Hlt)).
    rewrite IH by clia.
    replace (i + 1 + Z.of_nat n) with (i + Z.of_nat (S n)) by lia.
    replace (k + 1 + Z.of_nat n) with (k + Z.of_nat (S n)) by lia.
    reflexivity.
Qed.

(** ** Claim C7: the iterator visits all 66 slots *)

Lemma cluster_get_returns nr g p g' : cluster_get nr g = (Ok p, g') -> p = nr.
Proof.
  unfold cluster_get. intros H.
  destruct (decide (nr >= hdr_cluster_count g)); [discriminate |].
  destruct (clusters g !! nr); [congruence |].
  destruct (read_cluster (gfs_stegger g) nr); congruence.
Qed.

Lemma dir_iter_init_returns nr g it g' :
  dir_iter_init nr g = (Ok it, g') ->
  it = {| it_cluster := nr; it_entry := ClusterEntry nr 0; it_entry_nr := 0 |}.
Proof.
  unfold dir_iter_init. intros H.
  apply bind_inv_Ok in H as (p & g1 & Hget & Hret).
  apply cluster_get_returns in Hget. subst p.
  unfold ret in Hret. congruence.
Qed.

(** C7 (amended).  [dir_iter_next] advances within the current cluster as
    long as the entry index is below 65, so it steps from slot 64 to slot 65;
    only from index 65 on does it follow the cluster's [next] pointer,
    failing with [ENOENT] when that pointer is 0.  An iteration started by
    [dir_iter_init] therefore reaches all 66 slots of a directory cluster,
    slot 65 included. *)
Theorem dir_iter_next_covers_all_slots :
  forall (g : ghostfs) (c i k : Z),
    let it := {| it_cluster := c; it_entry := ClusterEntry c i; it_entry_nr := k |} in
    (k < 65 ->
     dir_iter_next it g
     = (Ok {| it_cluster := c; it_entry := ClusterEntry c (i + 1); it_entry_nr := k + 1 |}, g)) /\
    (65 <= k -> forall cl, clusters g !! c = Some cl ->
       (next cl = 0 -> dir_iter_next it g = (Err ENOENT, g)) /\
       (forall n g', next cl <> 0 -> cluster_get (next cl) g = (Ok n, g') ->
          dir_iter_next it g
          = (Ok {| it_cluster := n; it_entry := ClusterEntry n 0; it_entry_nr := 0 |}, g'))) /\
    (forall it0 g0, dir_iter_init c g = (Ok it0, g0) ->
       dir_iter_advance 65 it0 g0
       = (Ok {| it_cluster := c; it_entry := ClusterEntry c 65; it_entry_nr := 65 |}, g0)).
Proof.
  intros g c i k it. split; [| split].
  - intros Hk. apply dir_iter_next_within. clia.
  - intros Hk cl Hcl. split.
    + intros Hn. eapply dir_iter_next_end; [clia | exact Hcl | exact Hn].
    + intros n g' Hn Hget. eapply dir_iter_next_follow; [clia | exact Hcl | exact Hn | exact Hget].
  - intros it0 g0 Hinit. apply dir_iter_init_returns in Hinit. subst it0.
    apply (dir_iter_advance_within g0 c 65 0 0). clia.
Qed.

Lemma dir_iter_next_covers_all_slots_witness :
  dir_iter_next {| it_cluster := 0; it_entry := ClusterEntry 0 64; it_entry_nr := 64 |} created_a
  = (Ok {| it_cluster := 0; it_entry := ClusterEntry 0 65; it_entry_nr := 65 |}, created_a)
  /\ dir_iter_next {| it_cluster := 0; it_entry := ClusterEntry 0 65; it_entry_nr := 65 |} created_a
     = (Err ENOENT, created_a)
  /\ dir_iter_advance 65 {| it_cluster := 0; it_entry := ClusterEntry 0 0; it_entry_nr := 0 |} created_a
     = (Ok {| it_cluster := 0; it_entry := ClusterEntry 0 65; it_entry_nr := 65 |}, created_a).
Proof.
  split; [| split].
  - apply (proj1 (dir_iter_next_covers_all_slots created_a 0 64 64)). lia.
  - refine (proj1 (proj1 (proj2 (dir_iter_next_covers_all_slots created_a 0 65 65)) _
                     (value_or dirty_cluster (outcome (deref 0) created_a)) _) _).
    + lia.
    + vm_compute. reflexivity.
    + vm_compute. reflexivity.
  - apply (proj2 (proj2 (dir_iter_next_covers_all_slots created_a 0 0 0))).
    vm_compute. reflexivity.
Defined.

(** C7, as stated, fails: with the iterator on slot 64 of a cluster whose
    [next] is 0, [dir_iter_next] does not report not-found but moves on to
    slot 65. *)
Lemma dir_iter_next_slot_65_counterexample :
  (exists cl, clusters created_a !! 0 = Some cl /\ next cl = 0) /\
  dir_iter_next {| it_cluster := 0; it_entry := ClusterEntry 0 64; it_entry_nr := 64 |} created_a
  = (Ok {| it_cluster := 0; it_entry := ClusterEntry 0 65; it_entry_nr := 65 |}, created_a).
Proof.
  split.
  - exists (value_or dirty_cluster (outcome (deref 0) created_a)).
    split; vm_compute; reflexivity.
  - vm_compute. reflexivity.
Qed.

(** ** Claims C10 and C5: zero-length writes, and the dirty byte on disk *)

(** C10.  On an open file of size 0 without a cluster, a write of no bytes
    at offset 0 does not return 0: [cluster_at] walks the chain before the
    loop looks at the remaining length and reports [EIO]; the handle is left
    as it was.  A read of no bytes on the same file returns 0. *)
Theorem write_nothing_to_empty_file :
  forall (fuel : nat) (g : ghostfs) (gentry : dir_iter) (e : dir_entry),
    read_entry (it_entry gentry) g = (Ok e, g) ->
    size e = 0 ->
    cluster_nr e = 0 ->
    ghostfs_write fuel gentry [] 0 g = (Err EIO, g) /\
    ghostfs_read gentry 0 0 g = (Ok (0, []), g).
Proof.
  intros fuel g gentry e Hread Hsize Hcl. split.
  - unfold ghostfs_write. cbv zeta. change (Z.of_nat (length (@nil byte))) with 0.
    destruct (decide (0 < 0)) as [? | _]; [lia |].
    destruct (decide (u64 (0 + 0) < 0)) as [Hlt | _]; [vm_compute in Hlt; discriminate |].
    rewrite (bind_Ok _ _ _ _ _ Hread).
    destruct (decide (size e < u64 (0 + 0))) as [Hlt | _].
    { rewrite Hsize in Hlt. vm_compute in Hlt. discriminate. }
    rewrite (bind_Ok (ret tt) _ g tt g eq_refl).
    rewrite (bind_Ok _ _ _ _ _ Hread).
    rewrite Hcl. reflexivity.
  - unfold ghostfs_read.
    destruct (decide (0 < 0)) as [? | _]; [lia |].
    destruct (decide (u64 (0 + 0) < 0)) as [Hlt | _]; [vm_compute in Hlt; discriminate |].
    rewrite (bind_Ok _ _ _ _ _ Hread).
    destruct (decide (0 > size e)) as [? | _]; [lia |].
    destruct (decide (u64 (0 + 0) > size e)) as [Hgt | _].
    { rewrite Hsize in Hgt. vm_compute in Hgt. discriminate. }
    reflexivity.
Qed.

Lemma write_nothing_to_empty_file_witness :
  ghostfs_write 100 opened_a [] 0 created_a = (Err EIO, created_a) /\
  ghostfs_read opened_a 0 0 created_a = (Ok (0, []), created_a).
Proof.
  apply (write_nothing_to_empty_file 100 created_a opened_a
           (entry_of (it_entry opened_a) created_a));
    vm_compute; reflexivity.
Defined.

Lemma length_cluster_bytes c :
  Z.of_nat (length (data c)) = CLUSTER_DATA ->
  Z.of_nat (length (cluster_bytes c)) = CLUSTER_SIZE.
Proof.
  intros H. unfold cluster_bytes.
  rewrite !length_app, length_le_encode. cbn [length]. clia.
Qed.

(** C5 (amended).  For every cluster and every cluster number,
    [write_cluster] hands the 4096 bytes of the cluster to the codec as they
    are in memory, so the byte at cluster offset 4095 of the backing store
    receives the dirty flag the cluster has at the time of the call, 1 for
    a cluster that [mark_cluster] has flagged; the in-memory flag is cleared
    only after the write has succeeded.  The write succeeds when the
    carrier holds the cluster, and fails otherwise. *)
Theorem write_cluster_stores_raw_bytes :
  forall (s : stegger) (c : cluster) (nr : Z),
    0 <= nr ->
    Z.of_nat (length (data c)) = CLUSTER_DATA ->
    (c0_offset + (nr + 1) * CLUSTER_SIZE <= capacity s ->
     exists s', write_cluster s c nr = Ok (s', unmark_cluster c)) /\
    (capacity s < c0_offset + (nr + 1) * CLUSTER_SIZE ->
     write_cluster s c nr = Err ERANGE) /\
    (forall s' c',
       write_cluster s c nr = Ok (s', c') ->
       get_bytes (c0_offset + nr * CLUSTER_SIZE) CLUSTER_SIZE (carrier s') = cluster_bytes c /\
       get_bytes (c0_offset + nr * CLUSTER_SIZE + 4095) 1 (carrier s') = [byte_of_Z (dirty c)] /\
       (dirty c = 1 ->
        get_bytes (c0_offset + nr * CLUSTER_SIZE + 4095) 1 (carrier s') = [x01]) /\
       c' = unmark_cluster c).
Proof.
  intros s c nr Hnr Hlen.
  pose proof (length_cluster_bytes c Hlen) as Hcb.
  split; [| split].
  - intros Hcap. unfold write_cluster, stegger_write.
    destruct (decide (0 <= c0_offset + nr * CLUSTER_SIZE
                      /\ c0_offset + nr * CLUSTER_SIZE + Z.of_nat (length (cluster_bytes c))
                         <= capacity s)) as [_ | Hn]; [eexists; reflexivity |].
    exfalso. apply Hn. unfold capacity, c0_offset, HEADER_BYTES in *. clia.
  - intros Hcap. unfold write_cluster, stegger_write.
    destruct (decide (0 <= c0_offset + nr * CLUSTER_SIZE
                      /\ c0_offset + nr * CLUSTER_SIZE + Z.of_nat (length (cluster_bytes c))
                         <= capacity s)) as [[_ Hhi] | _]; [| reflexivity].
    exfalso. unfold capacity, c0_offset, HEADER_BYTES in *. clia.
  - intros s' c' Hw.
    unfold write_cluster, stegger_write in Hw.
    destruct (decide (0 <= c0_offset + nr * CLUSTER_SIZE
                      /\ c0_offset + nr * CLUSTER_SIZE + Z.of_nat (length (cluster_bytes c))
                         <= capacity s)) as [[Hlo Hhi] | ]; [| discriminate].
    injection Hw as <- <-. cbn [carrier]. unfold capacity in Hhi.
    assert (Hall : get_bytes (c0_offset + nr * CLUSTER_SIZE) CLUSTER_SIZE
                     (set_bytes (c0_offset + nr * CLUSTER_SIZE) (cluster_bytes c) (carrier s))
                   = cluster_bytes c).
    { rewrite <- Hcb. apply get_set_bytes_same; lia. }
    assert (Hbyte : get_bytes (c0_offset + nr * CLUSTER_SIZE + 4095) 1
                      (set_bytes (c0_offset + nr * CLUSTER_SIZE) (cluster_bytes c) (carrier s))
                    = [byte_of_Z (dirty c)]).
    { apply list_eq. intros i.
      rewrite lookup_get_bytes by clia.
      destruct (decide (Z.of_nat i < 1)) as [Hi | Hi].
      - assert (i = 0%nat) by lia. subst i.
        rewrite lookup_set_bytes by clia.
        destruct (decide (_ < c0_offset + nr * CLUSTER_SIZE)) as [? | _]; [clia |].
        destruct (decide (_ < c0_offset + nr * CLUSTER_SIZE + _)) as [_ | ?]; [| clia].
        replace (Z.to_nat (c0_offset + nr * CLUSTER_SIZE + 4095) + 0
                 - Z.to_nat (c0_offset + nr * CLUSTER_SIZE))%nat with 4095%nat by clia.
        unfold cluster_bytes.
        rewrite lookup_app_r by clia.
        replace (4095 - length (data c))%nat with 3%nat by clia.
        reflexivity.
      - destruct i as [| i]; [lia |]. reflexivity. }
    split; [exact Hall | split; [exact Hbyte | split; [| reflexivity]]].
    intros Hd. rewrite Hbyte, Hd. reflexivity.
Qed.

Lemma write_cluster_stores_raw_bytes_witness :
  exists s',
    write_cluster carrier3 dirty_cluster 1 = Ok (s', unmark_cluster dirty_cluster) /\
    get_bytes (c0_offset + 1 * CLUSTER_SIZE) CLUSTER_SIZE (carrier s')
    = cluster_bytes dirty_cluster /\
    get_bytes (c0_offset + 1 * CLUSTER_SIZE + 4095) 1 (carrier s')
    = [byte_of_Z (dirty dirty_cluster)].
Proof.
  destruct (write_cluster_stores_raw_bytes carrier3 dirty_cluster 1)
    as (Hok & _ & Hst).
  - lia.
  - vm_compute. reflexivity.
  - destruct Hok as [s' Hw]; [vm_compute; intros H; discriminate H |].
    destruct (Hst s' _ Hw) as (H1 & H2 & _).
    exists s'. split_and!; assumption.
Defined.

(** C5, as stated, fails: writing a cluster whose dirty flag is set leaves
    the byte 1, not 0, at offset 4095 of that cluster in the backing store. *)
Lemma write_cluster_dirty_byte_counterexample :
  exists s' c',
    write_cluster carrier3 dirty_cluster 1 = Ok (s', c') /\
    get_bytes (c0_offset + 1 * CLUSTER_SIZE + 4095) 1 (carrier s') = [x01].
Proof.
  eexists _, _. split; [vm_compute; reflexivity | vm_compute; reflexivity].
Qed.

(** ** Claims C3, C2 and C8 on concrete runs *)

(** C3 (the code departs from the claim).  ["/a"] holds five bytes in the
    chain that starts at cluster 1.  Truncating it to size 0 succeeds and
    releases cluster 1, but the entry keeps [cluster = 1]: the size is 0 and
    the cluster field still names the released chain. *)
Theorem truncate_to_zero_keeps_cluster_field :
  size (entry_of (it_entry opened_a) written_a) = 5 /\
  cluster_nr (entry_of (it_entry opened_a) written_a) = 1 /\
  ghostfs_truncate 100 (path_of "/a") 0 written_a = (Ok tt, truncated_a) /\
  size (entry_of (it_entry opened_a) truncated_a) = 0 /\
  cluster_nr (entry_of (it_entry opened_a) truncated_a) = 1 /\
  used <$> clusters truncated_a !! 1 = Some 0.
Proof. repeat apply conj; vm_compute; reflexivity. Qed.

(** C2 (the code departs from the claim).  On a three-cluster filesystem,
    create ["/a"], write five bytes, truncate to size 0 and unlink: every
    call succeeds, and afterwards the counter [free_clusters] is 3 although
    only the two clusters 1 and 2 exist besides the root and both are
    unused.  The chain released by the truncation is released a second time
    by the unlink, through the cluster field the truncation left behind. *)
Theorem free_clusters_counter_drifts :
  ghostfs_create 100 (path_of "/a") mounted3 = (Ok tt, created_a) /\
  ghostfs_write 100 opened_a (path_of "hello") 0 created_a = (Ok 5, written_a) /\
  ghostfs_truncate 100 (path_of "/a") 0 written_a = (Ok tt, truncated_a) /\
  ghostfs_unlink 100 (path_of "/a") truncated_a = (Ok tt, unlinked_a) /\
  gfs_free_clusters mounted3 = 2 /\ unused_clusters mounted3 = 2 /\
  gfs_free_clusters written_a = 1 /\ unused_clusters written_a = 1 /\
  gfs_free_clusters truncated_a = 2 /\ unused_clusters truncated_a = 2 /\
  hdr_cluster_count unlinked_a = 3 /\
  unused_clusters unlinked_a = 2 /\
  gfs_free_clusters unlinked_a = 3.
Proof. repeat apply conj; vm_compute; reflexivity. Qed.

(** C8, as stated, fails: ["/d"] is a directory, [rename("/d", "/e")]
    succeeds, and the entry found at ["/e"] afterwards has its directory
    flag set. *)
Lemma rename_keeps_directory_flag_counterexample :
  exists e e',
    outcome (stat_entry 100 (path_of "/d")) made_d = Ok e /\
    dir_entry_is_directory e = true /\
    ghostfs_rename 100 (path_of "/d") (path_of "/e") made_d = (Ok tt, renamed_d) /\
    outcome (stat_entry 100 (path_of "/e")) renamed_d = Ok e' /\
    dir_entry_is_directory e' = true.
Proof.
  exists (value_or (DirEntry [] 0 0) (outcome (stat_entry 100 (path_of "/d")) made_d)),
         (value_or (DirEntry [] 0 0) (outcome (stat_entry 100 (path_of "/e")) renamed_d)).
  repeat apply conj; vm_compute; reflexivity.
Qed.

(** ** Allocator: auxiliary facts *)

Lemma try_Ok {A : Type} (m : M A) g a g' : m g = (Ok a, g') -> try m g = (Ok (inr a), g').
Proof. intros H. unfold try. rewrite H. reflexivity. Qed.

Lemma try_Err {A : Type} (m : M A) g e g' : m g = (Err e, g') -> try m g = (Ok (inl e), g').
Proof. intros H. unfold try. rewrite H. reflexivity. Qed.

Lemma insert_as_alter (m : gmap Z cluster) p c f :
  m !! p = Some c -> <[p := f c]> m = alter f p m.
Proof.
  intros H. apply map_eq. intros j. rewrite lookup_insert, lookup_alter.
  destruct (decide (p = j)) as [<- | ?]; [rewrite H |]; reflexivity.
Qed.

Lemma cluster_get_cached g nr c :
  clusters g !! nr = Some c -> nr < hdr_cluster_count g -> cluster_get nr g = (Ok nr, g).
Proof.
  intros H Hlt. unfold cluster_get.
  destruct (decide (nr >= hdr_cluster_count g)); [lia |]. rewrite H. reflexivity.
Qed.

Lemma update_cluster_Some g p c f :
  clusters g !! p = Some c ->
  update_cluster p f g = (Ok tt, with_clusters (alter f p (clusters g)) g).
Proof.
  intros H. unfold update_cluster. rewrite H, (insert_as_alter _ _ _ _ H). reflexivity.
Qed.

Lemma is_Some_alter (m : gmap Z cluster) f p q : is_Some (alter f p m !! q) <-> is_Some (m !! q).
Proof.
  rewrite lookup_alter. destruct (decide (p = q)) as [<- | ?]; [| reflexivity].
  rewrite fmap_is_Some. reflexivity.
Qed.

Lemma increasing_from_weaken lo lo' l : lo' <= lo -> increasing_from lo l -> increasing_from lo' l.
Proof. destruct l as [| x l]; cbn; [trivial | intros ? [? ?]; split; [lia | assumption]]. Qed.

Lemma increasing_from_ge lo l x : increasing_from lo l -> x ∈ l -> lo <= x.
Proof.
  revert lo. induction l as [| y l IH]; intros lo Hinc Hx; [inversion Hx |].
  destruct Hinc as [Hlo Hinc]. apply elem_of_cons in Hx as [-> | Hx]; [exact Hlo |].
  specialize (IH _ Hinc Hx). lia.
Qed.

Lemma count_unused_agree (m m' : gmap Z cluster) lo n :
  (forall x, lo <= x -> m' !! x = m !! x) ->
  count_unused m' lo n = count_unused m lo n.
Proof.
  revert lo. induction n as [| n IH]; intros lo H; [reflexivity |].
  cbn [count_unused]. rewrite (H lo) by lia. rewrite (IH (lo + 1)); [reflexivity |].
  intros x Hx. apply H. lia.
Qed.

Lemma count_unused_nonneg m lo n : 0 <= count_unused m lo n.
Proof.
  revert lo. induction n as [| n IH]; intros lo; cbn [count_unused]; [lia |].
  specialize (IH (lo + 1)).
  destruct (m !! lo) as [c |]; [destruct (decide (used c = 0)) |]; lia.
Qed.

Lemma last_cons_Some {A : Type} (x : A) l : last (x :: l) = Some (default x (last l)).
Proof.
  revert x. induction l as [| y l IH]; intros x; [reflexivity |].
  change (last (x :: y :: l)) with (last (y :: l)). rewrite IH.
  destruct l; reflexivity.
Qed.

Lemma prev_after_cons prev x l : prev_after prev (x :: l) = prev_after (Some x) l.
Proof.
  unfold prev_after. rewrite last_cons_Some. destruct (last l); reflexivity.
Qed.

(** ** Allocator: the scan *)

(** What the scan of [alloc_clusters] has done when it ends, in terms of
    the list [l] of the clusters it claimed. *)
Lemma alloc_scan_spec (n : nat) :
  forall count zero prev first pos alloc g,
    all_cached g ->
    1 <= pos -> 1 <= Z.of_nat n -> hdr_cluster_count g - pos < Z.of_nat n ->
    (first = 0 <-> prev = None) ->
    (forall p, prev = Some p -> p < pos /\ is_Some (clusters g !! p)) ->
    exists l ex g',
      alloc_scan n count zero prev first pos alloc g
      = (Ok (ex, prev_after prev l, first_after first l, alloc + Z.of_nat (length l)), g') /\
      clusters g' = link_claimed zero prev l (clusters g) /\
      hdr_cluster_count g' = hdr_cluster_count g /\
      gfs_stegger g' = gfs_stegger g /\
      root_entry g' = root_entry g /\
      gfs_free_clusters g' = Nat.iter (length l) (fun f => u16 (f - 1)) (gfs_free_clusters g) /\
      increasing_from pos l /\
      (forall x, x ∈ l -> x < hdr_cluster_count g /\ is_unused (clusters g) x) /\
      Z.of_nat (length l) <= count_unused (clusters g) pos (Z.to_nat (hdr_cluster_count g - pos)) /\
      ((ex = ScanDone /\ (alloc + Z.of_nat (length l) = count \/ (l = [] /\ count <= alloc))) \/
       (ex = ScanUndo ENOSPC /\ alloc + Z.of_nat (length l) < count)).
Proof.
  induction n as [| n IH]; intros count zero prev first pos alloc g Hc Hpos Hn1 Hn Hfp Hprev; [lia |].
  cbn [alloc_scan].
  destruct (decide (alloc < count)) as [Hlt | Hge].
  2:{ exists [], ScanDone, g. cbn [length Z.of_nat Nat.iter link_claimed increasing_from].
      unfold prev_after, first_after. cbn [last hd].
      rewrite Z.add_0_r. destruct (decide (first = 0)) as [-> | ?];
        (repeat apply conj; try reflexivity; try (intros x Hx; inversion Hx);
         [apply count_unused_nonneg | left; split; [reflexivity | right; split; [reflexivity | lia]]]). }
  rewrite (bind_Ok get_gfs _ g g g eq_refl).
  destruct (decide (pos >= hdr_cluster_count g)) as [Hend | Hin].
  { exists [], (ScanUndo ENOSPC), g. cbn [length Z.of_nat Nat.iter link_claimed increasing_from].
    unfold prev_after, first_after. cbn [last hd].
    rewrite Z.add_0_r. destruct (decide (first = 0)) as [-> | ?];
      (repeat apply conj; try reflexivity; try (intros x Hx; inversion Hx);
       [apply count_unused_nonneg | right; split; [reflexivity | lia]]). }
  destruct (Hc pos ltac:(lia)) as [c Hcl].
  rewrite (bind_Ok _ _ _ _ _ (try_Ok _ _ _ _ (cluster_get_cached g pos c Hcl ltac:(lia)))).
  rewrite (bind_Ok _ _ _ _ _ (deref_Some _ _ _ Hcl)).
  assert (Hsplit : Z.to_nat (hdr_cluster_count g - pos)
                   = S (Z.to_nat (hdr_cluster_count g - (pos + 1)))) by lia.
  destruct (decide (used c = 0)) as [Hfree | Hused].
  - (* the cluster is claimed *)
    rewrite (bind_Ok _ _ _ _ _ (update_cluster_Some g pos c (claim_cluster zero) Hcl)).
    set (m1 := alter (claim_cluster zero) pos (clusters g)).
    rewrite (bind_Ok (free_clusters_add (-1)) _ _ tt _ eq_refl).
    set (g2 := with_free_clusters _ _).
    set (m2 := match prev with Some p => alter (set_next pos) p m1 | None => m1 end).
    set (g3 := with_clusters m2 g2).
    assert (Hlink : (if decide (first = 0) then ret tt
                     else match prev with
                          | Some p => update_cluster p (set_next pos)
                          | None => undefined
                          end) g2 = (Ok tt, g3)).
    { destruct (decide (first = 0)) as [Hf0 | Hf0].
      - apply Hfp in Hf0. subst g3 m2. rewrite Hf0. reflexivity.
      - destruct prev as [p |]; [| exfalso; apply Hf0, Hfp; reflexivity].
        destruct (Hprev p eq_refl) as [Hp [cp Hcp]].
        assert (Hp1 : clusters g2 !! p = Some cp).
        { subst g2 m1. cbn [clusters with_free_clusters with_clusters].
          rewrite lookup_alter_ne by lia. exact Hcp. }
        rewrite (update_cluster_Some g2 p cp (set_next pos) Hp1). reflexivity. }
    rewrite (bind_Ok _ _ _ _ _ Hlink).
    assert (Hm2 : forall x, pos + 1 <= x -> m2 !! x = clusters g !! x).
    { intros x Hx. subst m2 m1. destruct prev as [p |].
      - destruct (Hprev p eq_refl) as [Hp _].
        rewrite !lookup_alter_ne by lia. reflexivity.
      - rewrite lookup_alter_ne by lia. reflexivity. }
    assert (Hdom : forall x, is_Some (m2 !! x) <-> is_Some (clusters g !! x)).
    { intros x. subst m2 m1. destruct prev as [p |]; rewrite ?is_Some_alter; reflexivity. }
    destruct (IH count zero (Some pos) (if decide (first = 0) then pos else first)
                (pos + 1) (alloc + 1) g3) as (l & ex & g' & Hrun & Hcl' & Hcc & Hst & Hroot & Hfr & Hinc & Hmem & Hcnt & Hex).
    + intros x Hx. apply Hdom. apply Hc. exact Hx.
    + lia.
    + lia.
    + change (hdr_cluster_count g3) with (hdr_cluster_count g). lia.
    + split; [| discriminate]. destruct (decide (first = 0)); lia.
    + intros p [= <-]. split; [lia |]. apply Hdom. eauto.
    + exists (pos :: l), ex, g'.
      rewrite prev_after_cons.
      replace (first_after first (pos :: l))
        with (first_after (if decide (first = 0) then pos else first) l).
      2:{ unfold first_after. cbn [hd].
          destruct (decide (first = 0)) as [-> | Hf].
          - destruct (decide (pos = 0)); [lia | reflexivity].
          - destruct (decide (first = 0)); [contradiction | reflexivity]. }
      replace (alloc + Z.of_nat (length (pos :: l))) with (alloc + 1 + Z.of_nat (length l))
        by (cbn [length]; lia).
      split_and!.
      * exact Hrun.
      * exact Hcl'.
      * exact Hcc.
      * exact Hst.
      * exact Hroot.
      * rewrite Hfr. cbn [length]. rewrite Nat.iter_succ_r. reflexivity.
      * cbn [increasing_from]. split; [lia | exact Hinc].
      * intros x Hx. apply elem_of_cons in Hx as [-> | Hx].
        -- split; [lia |]. unfold is_unused. exists c. split; assumption.
        -- destruct (Hmem x Hx) as [Hxc (cx & Hcx & Hux)].
           split; [exact Hxc |]. unfold is_unused. exists cx. split; [| exact Hux].
           rewrite <- Hm2; [exact Hcx |]. apply (increasing_from_ge _ _ _ Hinc Hx).
      * rewrite Hsplit. cbn [count_unused length]. rewrite Hcl.
        destruct (decide (used c = 0)); [| contradiction].
        change (hdr_cluster_count g3) with (hdr_cluster_count g) in Hcnt.
        rewrite (count_unused_agree _ _ _ _ Hm2) in Hcnt. lia.
      * destruct Hex as [[-> Hex] | [-> Hex]]; [left | right]; (split; [reflexivity |]).
        -- destruct Hex as [Hex | [-> Hex]]; [left; exact Hex | left; cbn [length]; lia].
        -- exact Hex.
  - (* the cluster is in use *)
    destruct (IH count zero prev first (pos + 1) alloc g)
      as (l & ex & g' & Hrun & Hcl' & Hcc & Hst & Hroot & Hfr & Hinc & Hmem & Hcnt & Hex);
      [exact Hc | lia | lia | lia | exact Hfp | |].
    { intros p Hp. destruct (Hprev p Hp). split; [lia | assumption]. }
    exists l, ex, g'. split_and!; try assumption.
    + apply (increasing_from_weaken (pos + 1)); [lia | exact Hinc].
    + rewrite Hsplit. cbn [count_unused]. rewrite Hcl.
      destruct (decide (used c = 0)); [contradiction | lia].
Qed.

(** ** Allocator: chains and the undo loop *)

Lemma u16_small x : 0 <= x < 2 ^ 16 -> u16 x = x.
Proof. intros H. unfold u16. apply Z.mod_small. exact H. Qed.

Lemma iter_u16_add (k : nat) d x :
  0 <= x < 2 ^ 16 ->
  Nat.iter k (fun f => u16 (f + d)) x = u16 (x + Z.of_nat k * d).
Proof.
  intros Hx. induction k as [| k IH].
  - change (Nat.iter 0 (fun f => u16 (f + d)) x) with x. cbn [Z.of_nat].
    rewrite Z.mul_0_l, Z.add_0_r, u16_small; [reflexivity | exact Hx].
  - rewrite Nat.iter_succ, IH. unfold u16.
    rewrite Zplus_mod_idemp_l. f_equal. lia.
Qed.

Lemma link_claimed_other zero prev l (m : gmap Z cluster) x :
  x ∉ l -> prev <> Some x -> link_claimed zero prev l m !! x = m !! x.
Proof.
  revert prev m. induction l as [| a l IH]; intros prev m Hx Hp; [reflexivity |].
  cbn [link_claimed]. apply not_elem_of_cons in Hx as [Hxa Hxl].
  rewrite IH; [| exact Hxl | congruence].
  destruct prev as [p |].
  - rewrite lookup_alter_ne by congruence. rewrite lookup_alter_ne by congruence. reflexivity.
  - rewrite lookup_alter_ne by congruence. reflexivity.
Qed.

Lemma link_claimed_is_Some zero prev l (m : gmap Z cluster) x :
  is_Some (link_claimed zero prev l m !! x) <-> is_Some (m !! x).
Proof.
  revert prev m. induction l as [| a l IH]; intros prev m; [reflexivity |].
  cbn [link_claimed]. rewrite IH.
  destruct prev as [p |]; rewrite ?is_Some_alter; reflexivity.
Qed.

(** Outside the claimed clusters the [used] bits are what they were. *)
Lemma link_claimed_used_other zero prev l (m : gmap Z cluster) x :
  x ∉ l -> used <$> link_claimed zero prev l m !! x = used <$> m !! x.
Proof.
  revert prev m. induction l as [| a l IH]; intros prev m Hx; [reflexivity |].
  cbn [link_claimed]. apply not_elem_of_cons in Hx as [Hxa Hxl].
  rewrite IH by exact Hxl.
  destruct prev as [p |].
  - rewrite lookup_alter. destruct (decide (p = x)) as [-> | ?].
    + rewrite lookup_alter_ne by congruence. destruct (m !! x); reflexivity.
    + rewrite lookup_alter_ne by congruence. reflexivity.
  - rewrite lookup_alter_ne by congruence. reflexivity.
Qed.

Lemma release_all_other l (m : gmap Z cluster) x :
  x ∉ l -> release_all l m !! x = m !! x.
Proof.
  revert m. induction l as [| a l IH]; intros m Hx; [reflexivity |].
  cbn [release_all]. apply not_elem_of_cons in Hx as [Hxa Hxl].
  rewrite IH by exact Hxl. rewrite lookup_alter_ne by congruence. reflexivity.
Qed.

(** A released cluster keeps its payload and its link; its [used] bit is 0. *)
Lemma release_all_member l (m : gmap Z cluster) x c :
  x ∈ l -> m !! x = Some c ->
  exists c', release_all l m !! x = Some c' /\
             used c' = 0 /\ data c' = data c /\ next c' = next c.
Proof.
  revert m c. induction l as [| a l IH]; intros m c Hx Hm; [inversion Hx |].
  cbn [release_all].
  destruct (decide (x ∈ l)) as [Hin | Hnot].
  - destruct (decide (a = x)) as [-> | Hne].
    + destruct (IH (alter release_cluster x m) (release_cluster c) Hin) as (c' & H1 & H2 & H3 & H4).
      { rewrite lookup_alter_eq, Hm. reflexivity. }
      exists c'. split_and!; assumption.
    + apply (IH (alter release_cluster a m) c Hin).
      rewrite lookup_alter_ne by exact Hne. exact Hm.
  - apply elem_of_cons in Hx as [-> | Hx]; [| contradiction].
    rewrite release_all_other by exact Hnot.
    rewrite lookup_alter_eq, Hm. exists (release_cluster c). split_and!; reflexivity.
Qed.

Lemma linked_alter (m : gmap Z cluster) f a l :
  (forall c, next (f c) = next c) -> linked m l -> linked (alter f a m) l.
Proof.
  intros Hf. induction l as [| x l IH]; [trivial |].
  cbn [linked]. destruct l as [| y l].
  - rewrite is_Some_alter. trivial.
  - intros [(c & Hc & Hn) Hl]. split; [| apply IH; exact Hl].
    rewrite lookup_alter. destruct (decide (a = x)) as [-> | ?].
    + exists (f c). rewrite Hc. split; [reflexivity | rewrite Hf; exact Hn].
    + exists c. split; assumption.
Qed.

Lemma linked_head (m : gmap Z cluster) a l : linked m (a :: l) -> is_Some (m !! a).
Proof. cbn [linked]. destruct l; [trivial | intros [(c & Hc & _) _]; eauto]. Qed.

Lemma linked_tail (m : gmap Z cluster) a l : linked m (a :: l) -> linked m l.
Proof. cbn [linked]. destruct l; [intros _; exact I | intros [_ H]; exact H]. Qed.

(** The loop under [undo] releases a linked chain cluster by cluster. *)
Lemma alloc_undo_spec l :
  forall e g,
    linked (clusters g) l ->
    (forall x, x ∈ l -> x < hdr_cluster_count g) ->
    exists g',
      alloc_undo (length l) (hd 0 l) e g = (Err e, g') /\
      clusters g' = release_all l (clusters g) /\
      hdr_cluster_count g' = hdr_cluster_count g /\
      gfs_stegger g' = gfs_stegger g /\
      root_entry g' = root_entry g /\
      gfs_free_clusters g' = Nat.iter (length l) (fun f => u16 (f + 1)) (gfs_free_clusters g).
Proof.
  induction l as [| a l IH]; intros e g Hl Hlt.
  - exists g. split_and!; reflexivity.
  - cbn [length alloc_undo hd].
    destruct (linked_head _ _ _ Hl) as [c Hc].
    assert (Ha : a < hdr_cluster_count g) by (apply Hlt; left).
    rewrite (bind_Ok _ _ _ _ _ (cluster_get_cached g a c Hc Ha)).
    rewrite (bind_Ok _ _ _ _ _ (update_cluster_Some g a c release_cluster Hc)).
    rewrite (bind_Ok (free_clusters_add 1) _ _ tt _ eq_refl).
    set (g2 := with_free_clusters _ _).
    assert (Hc2 : clusters g2 !! a = Some (release_cluster c)).
    { subst g2. cbn [clusters with_free_clusters with_clusters].
      rewrite lookup_alter_eq, Hc. reflexivity. }
    rewrite (bind_Ok _ _ _ _ _ (deref_Some _ _ _ Hc2)).
    assert (Hnext : next (release_cluster c) = hd (next c) l).
    { destruct l as [| b l]; [reflexivity |].
      cbn [linked] in Hl. destruct Hl as [(c' & Hc' & Hn) _].
      rewrite Hc in Hc'. injection Hc' as <-. exact Hn. }
    destruct (IH e g2) as (g' & Hrun & Hcl & Hcc & Hst & Hroot & Hfr).
    + subst g2. cbn [clusters with_free_clusters with_clusters].
      apply linked_alter; [reflexivity |]. apply (linked_tail _ a). exact Hl.
    + intros x Hx. apply Hlt. right. exact Hx.
    + exists g'. split_and!; try assumption.
      * destruct l as [| b l].
        -- cbn [length alloc_undo] in *. exact Hrun.
        -- cbn [hd] in Hnext. rewrite Hnext. exact Hrun.
      * rewrite Hfr. cbn [length]. rewrite Nat.iter_succ_r. reflexivity.
Qed.

Lemma in_range_increasing lo l x : increasing_from lo l -> x < lo -> x ∉ l.
Proof.
  intros Hinc Hx Hin. pose proof (increasing_from_ge _ _ _ Hinc Hin). lia.
Qed.

(** After the scan the claimed clusters form a chain in the order in which
    they were claimed. *)
Lemma linked_link_claimed zero l :
  forall prev (m : gmap Z cluster) lo,
    increasing_from lo l ->
    (forall p, prev = Some p -> p < lo /\ is_Some (m !! p)) ->
    (forall x, x ∈ l -> is_Some (m !! x) /\ x < 2 ^ 16) ->
    0 <= lo ->
    linked (link_claimed zero prev l m) l /\
    (forall p, prev = Some p -> l <> [] ->
       exists c, link_claimed zero prev l m !! p = Some c /\ next c = hd 0 l).
Proof.
  induction l as [| a l IH]; intros prev m lo Hinc Hprev Hdom Hlo.
  - split; [exact I | intros p _ Hne; contradiction].
  - destruct Hinc as [Hla Hinc]. cbn [link_claimed].
    set (m1 := alter (claim_cluster zero) a m).
    set (m2 := match prev with Some p => alter (set_next a) p m1 | None => m1 end).
    assert (Hdom2 : forall x, is_Some (m2 !! x) <-> is_Some (m !! x)).
    { intros x. subst m2 m1. destruct prev; rewrite ?is_Some_alter; reflexivity. }
    destruct (IH (Some a) m2 (a + 1) Hinc) as [Hlinked Hhead].
    + intros p [= <-]. split; [lia |]. apply Hdom2. apply Hdom. left.
    + intros x Hx. split; [apply Hdom2 |]; apply Hdom; right; exact Hx.
    + lia.
    + split.
      * cbn [linked]. destruct l as [| b l].
        -- cbn [link_claimed]. apply Hdom2. apply Hdom. left.
        -- split; [| exact Hlinked].
           destruct (Hhead a eq_refl ltac:(discriminate)) as (c & Hc & Hn).
           exists c. split; [exact Hc | exact Hn].
      * intros p [= ->] _. cbn [hd].
        destruct (Hprev p eq_refl) as [Hp [cp Hcp]].
        rewrite link_claimed_other.
        -- subst m2 m1. rewrite lookup_alter_eq, lookup_alter_ne by lia. rewrite Hcp.
           exists (set_next a cp). split; [reflexivity |].
           cbn [set_next next]. apply u16_small.
           destruct (Hdom a ltac:(left)) as [_ Ha]. lia.
        -- apply (in_range_increasing (a + 1)); [| lia].
           apply (increasing_from_weaken (a + 1)); [lia | exact Hinc].
        -- intros [= <-]. lia.
Qed.

(** ** Claim C9: a failed allocation is rolled back *)

Lemma link_claimed_keeps_used zero l :
  forall prev (m : gmap Z cluster) x c,
    m !! x = Some c -> used c = 1 ->
    exists c', link_claimed zero prev l m !! x = Some c' /\ used c' = 1.
Proof.
  induction l as [| a l IH]; intros prev m x c Hc Hu; [exists c; split; assumption |].
  cbn [link_claimed].
  set (m1 := alter (claim_cluster zero) a m).
  assert (H1 : exists c1, m1 !! x = Some c1 /\ used c1 = 1).
  { subst m1. rewrite lookup_alter. destruct (decide (a = x)) as [-> | ?].
    - rewrite Hc. exists (claim_cluster zero c). split; reflexivity.
    - exists c. split; assumption. }
  destruct H1 as (c1 & Hc1 & Hu1).
  destruct prev as [p |].
  - destruct (decide (p = x)) as [-> | Hne].
    + apply (IH _ _ x (set_next a c1)); [| exact Hu1].
      rewrite lookup_alter_eq, Hc1. reflexivity.
    + apply (IH _ _ x c1); [| exact Hu1].
      rewrite lookup_alter_ne by exact Hne. exact Hc1.
  - apply (IH _ _ x c1); assumption.
Qed.

(** A claimed cluster has its [used] bit set. *)
Lemma link_claimed_used_member zero l :
  forall prev (m : gmap Z cluster) x,
    x ∈ l -> is_Some (m !! x) ->
    exists c', link_claimed zero prev l m !! x = Some c' /\ used c' = 1.
Proof.
  induction l as [| a l IH]; intros prev m x Hx [c Hc]; [inversion Hx |].
  cbn [link_claimed].
  set (m1 := alter (claim_cluster zero) a m).
  set (m2 := match prev with Some p => alter (set_next a) p m1 | None => m1 end).
  destruct (decide (x = a)) as [-> | Hne].
  - assert (H2 : exists c2, m2 !! a = Some c2 /\ used c2 = 1).
    { assert (H1 : m1 !! a = Some (claim_cluster zero c)).
      { subst m1. rewrite lookup_alter_eq, Hc. reflexivity. }
      subst m2. destruct prev as [p |]; [| eauto].
      rewrite lookup_alter. destruct (decide (p = a)) as [-> | ?]; rewrite H1; [| eauto].
      exists (set_next a (claim_cluster zero c)). split; reflexivity. }
    destruct H2 as (c2 & Hc2 & Hu2).
    apply (link_claimed_keeps_used zero l (Some a) m2 a c2 Hc2 Hu2).
  - apply elem_of_cons in Hx as [-> | Hx]; [contradiction |].
    apply IH; [exact Hx |].
    subst m2 m1. destruct prev; rewrite ?is_Some_alter; eauto.
Qed.

(** C9.  When fewer than [count] clusters of [1, cluster_count) are unused,
    the scan of [alloc_clusters] claims the clusters of some list [l] (each
    unused before, each with [used = 1] and the counter decremented once per
    cluster at the end of the scan) and leaves through [undo] with
    [ENOSPC]; the undo loop resets [used] to 0 in every cluster of [l] and
    increments the counter once per cluster.  The call returns [ENOSPC]; the
    [used] bit of every cluster and the counter are what they were. *)
Theorem alloc_clusters_rolls_back :
  forall (g : ghostfs) (count : Z) (zero : bool),
    all_cached g ->
    fields_in_range g ->
    0 < count ->
    unused_clusters g < count ->
    exists l g1 g',
      alloc_scan (S (Z.to_nat (hdr_cluster_count g))) count zero None 0 1 0 g
      = (Ok (ScanUndo ENOSPC, prev_after None l, first_after 0 l, Z.of_nat (length l)), g1) /\
      (forall x, x ∈ l ->
         is_unused (clusters g) x /\
         used <$> clusters g1 !! x = Some 1 /\
         used <$> clusters g' !! x = Some 0) /\
      gfs_free_clusters g1 = u16 (gfs_free_clusters g - Z.of_nat (length l)) /\
      alloc_clusters count zero g = (Err ENOSPC, g') /\
      (forall nr, used <$> clusters g' !! nr = used <$> clusters g !! nr) /\
      gfs_free_clusters g' = gfs_free_clusters g /\
      hdr_cluster_count g' = hdr_cluster_count g.
Proof.
  intros g count zero Hc [Hcc Hfree] Hcount Hfew.
  destruct (alloc_scan_spec (S (Z.to_nat (hdr_cluster_count g))) count zero None 0 1 0 g)
    as (l & ex & g1 & Hscan & Hcl1 & Hcc1 & Hst1 & Hroot1 & Hfr1 & Hinc & Hmem & Hcnt & Hex);
    [exact Hc | lia | lia | lia | split; reflexivity | intros p; discriminate |].
  change (0 + Z.of_nat (length l)) with (Z.of_nat (length l)) in *.
  unfold unused_clusters in Hfew.
  destruct Hex as [[-> Hdone] | [-> Hshort]]; [exfalso; lia |].
  assert (Hdom : forall x, x ∈ l -> is_Some (clusters g !! x) /\ x < 2 ^ 16).
  { intros x Hx. destruct (Hmem x Hx) as [Hlt (c & Hcx & _)]. split; [eauto | lia]. }
  destruct (linked_link_claimed zero l None (clusters g) 1 Hinc
              ltac:(intros p; discriminate) Hdom ltac:(lia)) as [Hlinked _].
  rewrite <- Hcl1 in Hlinked.
  destruct (alloc_undo_spec l ENOSPC g1 Hlinked) as (g' & Hundo & Hcl2 & Hcc2 & Hst2 & Hroot2 & Hfr2).
  { intros x Hx. rewrite Hcc1. apply Hmem. exact Hx. }
  assert (Hfr1' : gfs_free_clusters g1 = u16 (gfs_free_clusters g - Z.of_nat (length l))).
  { rewrite Hfr1.
    change (fun f => u16 (f - 1)) with (fun f => u16 (f + -1)).
    rewrite iter_u16_add by exact Hfree. f_equal. lia. }
  exists l, g1, g'. split_and!.
  - exact Hscan.
  - intros x Hx. destruct (Hmem x Hx) as [_ Hun]. split_and!.
    + exact Hun.
    + rewrite Hcl1.
      destruct (link_claimed_used_member zero l None (clusters g) x Hx (proj1 (Hdom x Hx)))
        as (c' & -> & Hu'). cbn. rewrite Hu'. reflexivity.
    + rewrite Hcl2.
      assert (Hs : is_Some (clusters g1 !! x)).
      { rewrite Hcl1. apply link_claimed_is_Some. apply Hdom. exact Hx. }
      destruct Hs as [c1 Hc1].
      destruct (release_all_member l (clusters g1) x c1 Hx Hc1) as (c' & -> & Hu' & _).
      cbn. rewrite Hu'. reflexivity.
  - exact Hfr1'.
  - unfold alloc_clusters.
    rewrite (bind_Ok get_gfs _ g g g eq_refl).
    rewrite (bind_Ok _ _ _ _ _ Hscan). cbv beta iota.
    rewrite Nat2Z.id.
    replace (first_after 0 l) with (hd 0 l) by reflexivity.
    exact Hundo.
  - intros nr. rewrite Hcl2. destruct (decide (nr ∈ l)) as [Hin | Hnot].
    + destruct (Hmem nr Hin) as [_ (c & Hcg & Hu)].
      assert (Hs : is_Some (clusters g1 !! nr)).
      { rewrite Hcl1. apply link_claimed_is_Some. eauto. }
      destruct Hs as [c1 Hc1].
      destruct (release_all_member l (clusters g1) nr c1 Hin Hc1) as (c' & -> & Hu' & _).
      rewrite Hcg. cbn. rewrite Hu, Hu'. reflexivity.
    + rewrite release_all_other by exact Hnot.
      rewrite Hcl1. apply link_claimed_used_other. exact Hnot.
  - rewrite Hfr2, Hfr1'.
    rewrite iter_u16_add by (unfold u16; apply Z.mod_pos_bound; lia).
    unfold u16. rewrite Zplus_mod_idemp_l.
    replace (gfs_free_clusters g - Z.of_nat (length l) + Z.of_nat (length l) * 1)
      with (gfs_free_clusters g) by lia.
    apply Z.mod_small. exact Hfree.
  - rewrite Hcc2. exact Hcc1.
Qed.

Lemma all_cached_made_d : all_cached made_d.
Proof.
  intros nr Hnr.
  assert (E : hdr_cluster_count made_d = 3) by (vm_compute; reflexivity).
  rewrite E in Hnr.
  assert (Hcases : nr = 1 \/ nr = 2) by lia.
  destruct Hcases as [-> | ->]; apply (bool_decide_unpack _); vm_compute; reflexivity.
Qed.

Lemma fields_in_range_made_d : fields_in_range made_d.
Proof.
  assert (E1 : hdr_cluster_count made_d = 3) by (vm_compute; reflexivity).
  assert (E2 : gfs_free_clusters made_d = 1) by (vm_compute; reflexivity).
  unfold fields_in_range. rewrite E1, E2. lia.
Qed.

Lemma alloc_clusters_rolls_back_witness :
  exists g',
    alloc_clusters 2 true made_d = (Err ENOSPC, g') /\
    (forall nr, used <$> clusters g' !! nr = used <$> clusters made_d !! nr) /\
    gfs_free_clusters g' = gfs_free_clusters made_d.
Proof.
  assert (E : unused_clusters made_d = 1) by (vm_compute; reflexivity).
  destruct (alloc_clusters_rolls_back made_d 2 true all_cached_made_d fields_in_range_made_d)
    as (l & g1 & g' & _ & _ & _ & Hrun & Hused & Hfree & _).
  - lia.
  - rewrite E. lia.
  - exists g'. split_and!; assumption.
Defined.

(** ** Walking a chain with [cluster_at] *)

Lemma linked_cons_next (m : gmap Z cluster) a b l :
  linked m (a :: b :: l) -> exists c, m !! a = Some c /\ next c = b.
Proof. cbn [linked]. intros [H _]. exact H. Qed.

(** [cluster_at] on a chain: index [k] is the [k]-th cluster. *)
Lemma cluster_at_loop_chain (k : nat) :
  forall l a c0 g,
    linked (clusters g) (a :: l) ->
    (forall x, x ∈ a :: l -> 1 <= x < hdr_cluster_count g) ->
    (k < length (a :: l))%nat ->
    cluster_at_loop (S k) a c0 g = (Ok ((a :: l) !! k), g).
Proof.
  induction k as [| k IH]; intros l a c0 g Hl Hm Hk.
  - cbn [cluster_at_loop].
    destruct (Hm a ltac:(left)) as [Ha1 Ha2].
    destruct (decide (a = 0)); [lia |].
    destruct (linked_head _ _ _ Hl) as [c Hc].
    rewrite (bind_Ok _ _ _ _ _ (cluster_get_cached g a c Hc Ha2)).
    rewrite (bind_Ok _ _ _ _ _ (deref_Some _ _ _ Hc)). reflexivity.
  - destruct l as [| b l]; [cbn [length] in Hk; lia |].
    cbn [cluster_at_loop].
    destruct (Hm a ltac:(left)) as [Ha1 Ha2].
    destruct (decide (a = 0)); [lia |].
    destruct (linked_cons_next _ _ _ _ Hl) as (c & Hc & Hn).
    rewrite (bind_Ok _ _ _ _ _ (cluster_get_cached g a c Hc Ha2)).
    rewrite (bind_Ok _ _ _ _ _ (deref_Some _ _ _ Hc)). rewrite Hn.
    change (cluster_at_loop (S k) b (Some a) g = (Ok ((b :: l) !! k), g)).
    apply IH.
    + apply (linked_tail _ a). exact Hl.
    + intros x Hx. apply Hm. right. exact Hx.
    + cbn [length] in *. lia.
Qed.

(** One step past the end of a chain whose last [next] is 0. *)
Lemma cluster_at_loop_past_end l :
  forall a c0 g,
    linked (clusters g) (a :: l) ->
    (forall x, x ∈ a :: l -> 1 <= x < hdr_cluster_count g) ->
    (forall x c, last (a :: l) = Some x -> clusters g !! x = Some c -> next c = 0) ->
    cluster_at_loop (S (length (a :: l))) a c0 g = (Err EIO, g).
Proof.
  induction l as [| b l IH]; intros a c0 g Hl Hm Hlast.
  - cbn [length cluster_at_loop].
    destruct (Hm a ltac:(left)) as [Ha1 Ha2].
    destruct (decide (a = 0)); [lia |].
    destruct (linked_head _ _ _ Hl) as [c Hc].
    rewrite (bind_Ok _ _ _ _ _ (cluster_get_cached g a c Hc Ha2)).
    rewrite (bind_Ok _ _ _ _ _ (deref_Some _ _ _ Hc)).
    rewrite (Hlast a c eq_refl Hc). reflexivity.
  - cbn [length]. cbn [cluster_at_loop].
    destruct (Hm a ltac:(left)) as [Ha1 Ha2].
    destruct (decide (a = 0)); [lia |].
    destruct (linked_cons_next _ _ _ _ Hl) as (c & Hc & Hn).
    rewrite (bind_Ok _ _ _ _ _ (cluster_get_cached g a c Hc Ha2)).
    rewrite (bind_Ok _ _ _ _ _ (deref_Some _ _ _ Hc)). rewrite Hn.
    change (cluster_at_loop (S (length (b :: l))) b (Some a) g = (Err EIO, g)).
    apply IH.
    + apply (linked_tail _ a). exact Hl.
    + intros x Hx. apply Hm. right. exact Hx.
    + intros x cx Hx. apply Hlast. exact Hx.
Qed.

Lemma cluster_at_loop_no_chain k c0 g : cluster_at_loop (S k) 0 c0 g = (Err EIO, g).
Proof. reflexivity. Qed.

(** ** Allocator: the whole call *)

Lemma increasing_from_NoDup lo l : increasing_from lo l -> NoDup l.
Proof.
  revert lo. induction l as [| a l IH]; intros lo Hinc; [constructor |].
  destruct Hinc as [_ Hinc]. constructor; [| exact (IH _ Hinc)].
  apply (in_range_increasing (a + 1)); [exact Hinc | lia].
Qed.

Lemma u16_range x : 0 <= u16 x < 2 ^ 16.
Proof. unfold u16. apply Z.mod_pos_bound. lia. Qed.

Lemma link_claimed_keeps_zeroed l :
  forall prev (m : gmap Z cluster) x c,
    m !! x = Some c -> used c = 1 -> data c = zeros CLUSTER_DATA ->
    exists c', link_claimed true prev l m !! x = Some c' /\
               used c' = 1 /\ data c' = zeros CLUSTER_DATA.
Proof.
  induction l as [| a l IH]; intros prev m x c Hc Hu Hd; [exists c; split_and!; assumption |].
  cbn [link_claimed].
  set (m1 := alter (claim_cluster true) a m).
  assert (H1 : exists c1, m1 !! x = Some c1 /\ used c1 = 1 /\ data c1 = zeros CLUSTER_DATA).
  { subst m1. rewrite lookup_alter. destruct (decide (a = x)) as [-> | ?].
    - rewrite Hc. exists (claim_cluster true c). split_and!; reflexivity.
    - exists c. split_and!; assumption. }
  destruct H1 as (c1 & Hc1 & Hu1 & Hd1).
  destruct prev as [p |].
  - destruct (decide (p = x)) as [-> | Hne].
    + apply (IH _ _ x (set_next a c1)); [| exact Hu1 | exact Hd1].
      rewrite lookup_alter_eq, Hc1. reflexivity.
    + apply (IH _ _ x c1); [| exact Hu1 | exact Hd1].
      rewrite lookup_alter_ne by exact Hne. exact Hc1.
  - apply (IH _ _ x c1); assumption.
Qed.

(** A cluster claimed with [zero] set is in use and holds zeros. *)
Lemma link_claimed_zeroed_member l :
  forall prev (m : gmap Z cluster) x,
    x ∈ l -> is_Some (m !! x) ->
    exists c', link_claimed true prev l m !! x = Some c' /\
               used c' = 1 /\ data c' = zeros CLUSTER_DATA.
Proof.
  induction l as [| a l IH]; intros prev m x Hx [c Hc]; [inversion Hx |].
  cbn [link_claimed].
  set (m1 := alter (claim_cluster true) a m).
  set (m2 := match prev with Some p => alter (set_next a) p m1 | None => m1 end).
  destruct (decide (x = a)) as [-> | Hne].
  - assert (H2 : exists c2, m2 !! a = Some c2 /\ used c2 = 1 /\ data c2 = zeros CLUSTER_DATA).
    { assert (H1 : m1 !! a = Some (claim_cluster true c)).
      { subst m1. rewrite lookup_alter_eq, Hc. reflexivity. }
      subst m2. destruct prev as [p |].
      - rewrite lookup_alter. destruct (decide (p = a)) as [-> | ?]; rewrite H1.
        + exists (set_next a (claim_cluster true c)). split_and!; reflexivity.
        + exists (claim_cluster true c). split_and!; reflexivity.
      - exists (claim_cluster true c). split_and!; [exact H1 | reflexivity | reflexivity]. }
    destruct H2 as (c2 & Hc2 & Hu2 & Hd2).
    apply (link_claimed_keeps_zeroed l (Some a) m2 a c2 Hc2 Hu2 Hd2).
  - apply elem_of_cons in Hx as [-> | Hx]; [contradiction |].
    apply IH; [exact Hx |].
    subst m2 m1. destruct prev; rewrite ?is_Some_alter; eauto.
Qed.

Lemma linked_alter_last (m : gmap Z cluster) f l p :
  NoDup l -> last l = Some p -> linked m l -> linked (alter f p m) l.
Proof.
  induction l as [| a l IH]; intros Hnd Hlast Hl; [exact I |].
  cbn [linked]. destruct l as [| b l].
  - rewrite is_Some_alter. exact Hl.
  - apply NoDup_cons in Hnd as [Ha Hnd].
    change (last (a :: b :: l)) with (last (b :: l)) in Hlast.
    cbn [linked] in Hl. destruct Hl as [(c & Hc & Hn) Hl].
    split; [| apply IH; assumption].
    assert (Hin : p ∈ b :: l) by (apply last_Some_elem_of; exact Hlast).
    rewrite lookup_alter_ne; [eauto |].
    intros ->. contradiction.
Qed.

Lemma release_all_is_Some l (m : gmap Z cluster) x :
  is_Some (release_all l m !! x) <-> is_Some (m !! x).
Proof.
  revert m. induction l as [| a l IH]; intros m; [reflexivity |].
  cbn [release_all]. rewrite IH, is_Some_alter. reflexivity.
Qed.

(** What [alloc_clusters] does, for either outcome.  Clusters that were not
    unused are left alone; on success the result heads a chain of [count]
    zeroed clusters ending with [next = 0]. *)
Lemma alloc_clusters_spec g count :
  all_cached g -> fields_in_range g -> 0 < count ->
  exists g',
    hdr_cluster_count g' = hdr_cluster_count g /\
    gfs_stegger g' = gfs_stegger g /\
    root_entry g' = root_entry g /\
    fields_in_range g' /\
    (forall x, is_Some (clusters g' !! x) <-> is_Some (clusters g !! x)) /\
    (forall x, x < 1 \/ ~ is_unused (clusters g) x -> clusters g' !! x = clusters g !! x) /\
    (alloc_clusters count true g = (Err ENOSPC, g') \/
     exists l,
       alloc_clusters count true g = (Ok (hd 0 l), g') /\
       Z.of_nat (length l) = count /\
       NoDup l /\
       (forall x, x ∈ l -> 1 <= x < hdr_cluster_count g /\ is_unused (clusters g) x) /\
       linked (clusters g') l /\
       (forall x c, last l = Some x -> clusters g' !! x = Some c -> next c = 0) /\
       (forall x, x ∈ l ->
          exists c, clusters g' !! x = Some c /\ used c = 1 /\ data c = zeros CLUSTER_DATA)).
Proof.
  intros Hc [Hcc Hfree] Hcount.
  destruct (alloc_scan_spec (S (Z.to_nat (hdr_cluster_count g))) count true None 0 1 0 g)
    as (l & ex & g1 & Hscan & Hcl1 & Hcc1 & Hst1 & Hroot1 & Hfr1 & Hinc & Hmem & Hcnt & Hex);
    [exact Hc | lia | lia | lia | split; reflexivity | intros p; discriminate |].
  change (0 + Z.of_nat (length l)) with (Z.of_nat (length l)) in *.
  assert (Hdom : forall x, x ∈ l -> is_Some (clusters g !! x) /\ x < 2 ^ 16).
  { intros x Hx. destruct (Hmem x Hx) as [Hlt (c & Hcx & _)]. split; [eauto | lia]. }
  assert (Hnot : forall x, x < 1 \/ ~ is_unused (clusters g) x -> x ∉ l).
  { intros x [Hx | Hx] Hin.
    - pose proof (increasing_from_ge _ _ _ Hinc Hin). lia.
    - apply Hx. apply Hmem. exact Hin. }
  destruct (linked_link_claimed true l None (clusters g) 1 Hinc
              ltac:(intros p; discriminate) Hdom ltac:(lia)) as [Hlinked _].
  rewrite <- Hcl1 in Hlinked.
  assert (Hfr1' : gfs_free_clusters g1 = u16 (gfs_free_clusters g - Z.of_nat (length l))).
  { rewrite Hfr1.
    change (fun f => u16 (f - 1)) with (fun f => u16 (f + -1)).
    rewrite iter_u16_add by exact Hfree. f_equal. lia. }
  assert (Hrun0 : alloc_clusters count true g
                  = match ex with
                    | ScanDone =>
                        match prev_after None l with
                        | Some p => (let* _ := update_cluster p (set_next 0) in ret (first_after 0 l)) g1
                        | None => (Undefined, g1)
                        end
                    | ScanUndo e => alloc_undo (length l) (hd 0 l) e g1
                    end).
  { unfold alloc_clusters.
    rewrite (bind_Ok get_gfs _ g g g eq_refl).
    rewrite (bind_Ok _ _ _ _ _ Hscan). cbv beta iota.
    destruct ex; [destruct (prev_after None l); reflexivity |].
    rewrite Nat2Z.id. reflexivity. }
  destruct Hex as [[-> Hdone] | [-> Hshort]].
  - (* the chain is complete *)
    assert (Hlen : Z.of_nat (length l) = count) by lia.
    destruct l as [| a l0] eqn:El; [cbn [length] in Hlen; lia |]. rewrite <- El in *.
    assert (Hlast : exists p, last l = Some p).
    { rewrite El, last_cons_Some. eauto. }
    destruct Hlast as [p Hp].
    assert (Hpin : p ∈ l) by (apply last_Some_elem_of; exact Hp).
    assert (Hs : is_Some (clusters g1 !! p)).
    { rewrite Hcl1. apply link_claimed_is_Some. apply Hdom. exact Hpin. }
    destruct Hs as [cp Hcp].
    unfold prev_after in Hrun0. rewrite Hp in Hrun0.
    rewrite (bind_Ok _ _ _ _ _ (update_cluster_Some g1 p cp (set_next 0) Hcp)) in Hrun0.
    set (g' := with_clusters _ g1) in Hrun0.
    exists g'. split_and!.
    + exact Hcc1.
    + exact Hst1.
    + exact Hroot1.
    + split; [change (hdr_cluster_count g') with (hdr_cluster_count g1); rewrite Hcc1; exact Hcc |].
      change (gfs_free_clusters g') with (gfs_free_clusters g1). rewrite Hfr1'. apply u16_range.
    + intros x. subst g'. cbn [clusters with_clusters].
      rewrite is_Some_alter, Hcl1. apply link_claimed_is_Some.
    + intros x Hx. subst g'. cbn [clusters with_clusters].
      rewrite lookup_alter_ne by (intros ->; exact (Hnot _ Hx Hpin)).
      rewrite Hcl1. apply link_claimed_other; [apply Hnot; exact Hx | discriminate].
    + right. exists l. split_and!.
      * rewrite Hrun0. unfold first_after. reflexivity.
      * exact Hlen.
      * exact (increasing_from_NoDup _ _ Hinc).
      * intros x Hx. destruct (Hmem x Hx). split; [| assumption].
        split; [exact (increasing_from_ge _ _ _ Hinc Hx) | assumption].
      * subst g'. cbn [clusters with_clusters].
        apply linked_alter_last; [exact (increasing_from_NoDup _ _ Hinc) | exact Hp | exact Hlinked].
      * intros x c Hx Hcx. rewrite Hp in Hx. injection Hx as <-.
        subst g'. cbn [clusters with_clusters] in Hcx.
        rewrite lookup_alter_eq, Hcp in Hcx. injection Hcx as <-. reflexivity.
      * intros x Hx. subst g'. cbn [clusters with_clusters].
        rewrite Hcl1 in Hcp |- *.
        destruct (link_claimed_zeroed_member l None (clusters g) x Hx (proj1 (Hdom x Hx)))
          as (c' & Hc' & Hu' & Hd').
        rewrite lookup_alter. destruct (decide (p = x)) as [-> | ?]; rewrite Hc'.
        -- exists (set_next 0 c'). split_and!; [reflexivity | exact Hu' | exact Hd'].
        -- exists c'. split_and!; [reflexivity | exact Hu' | exact Hd'].
  - (* not enough clusters: undo *)
    destruct (alloc_undo_spec l ENOSPC g1 Hlinked) as (g' & Hundo & Hcl2 & Hcc2 & Hst2 & Hroot2 & Hfr2).
    { intros x Hx. rewrite Hcc1. apply Hmem. exact Hx. }
    exists g'. split_and!.
    + rewrite Hcc2. exact Hcc1.
    + rewrite Hst2. exact Hst1.
    + rewrite Hroot2. exact Hroot1.
    + split; [rewrite Hcc2, Hcc1; exact Hcc |].
      rewrite Hfr2. rewrite iter_u16_add by (rewrite Hfr1'; apply u16_range). apply u16_range.
    + intros x. rewrite Hcl2, release_all_is_Some, Hcl1. apply link_claimed_is_Some.
    + intros x Hx. rewrite Hcl2, release_all_other by (apply Hnot; exact Hx).
      rewrite Hcl1. apply link_claimed_other; [apply Hnot; exact Hx | discriminate].
    + left. rewrite Hrun0. exact Hundo.
Qed.

(** ** Sizes, flags and directory records *)

Lemma s32_small x : 0 <= x < 2 ^ 31 -> s32 x = x.
Proof.
  intros H. unfold s32, u32. rewrite Z.mod_small by lia.
  destruct (decide (x < 2 ^ 31)); [reflexivity | lia].
Qed.

Lemma u64_small x : 0 <= x < 2 ^ 64 -> u64 x = x.
Proof. intros H. unfold u64. apply Z.mod_small. exact H. Qed.

Lemma s64_small x : 0 <= x < 2 ^ 63 -> s64 x = x.
Proof.
  intros H. unfold s64, u64. rewrite Z.mod_small by lia.
  destruct (decide (x < 2 ^ 63)); [reflexivity | lia].
Qed.

Lemma size_to_clusters_bounds s :
  0 <= s ->
  0 <= size_to_clusters s /\
  s <= CLUSTER_DATA * size_to_clusters s /\
  CLUSTER_DATA * size_to_clusters s < s + CLUSTER_DATA.
Proof.
  intros Hs. unfold size_to_clusters, CLUSTER_DATA.
  rewrite Z.quot_div_nonneg, Z.rem_mod_nonneg by lia.
  pose proof (Z.div_mod s 4092 ltac:(lia)) as Hdm.
  pose proof (Z.mod_pos_bound s 4092 ltac:(lia)) as Hm.
  assert (0 <= s / 4092) by (apply Z.div_pos; lia).
  destruct (decide (s mod 4092 <> 0)); lia.
Qed.

Lemma size_to_clusters_unique s n :
  0 <= s -> s <= CLUSTER_DATA * n -> CLUSTER_DATA * n < s + CLUSTER_DATA ->
  size_to_clusters s = n.
Proof.
  intros Hs H1 H2. pose proof (size_to_clusters_bounds s Hs) as (_ & H3 & H4).
  unfold CLUSTER_DATA in *. lia.
Qed.

Lemma is_directory_small e :
  0 <= size e < 2 ^ 31 -> dir_entry_is_directory e = false.
Proof.
  intros H. unfold dir_entry_is_directory.
  apply bool_decide_eq_false. intros Hne. apply Hne.
  change 0x80000000 with (2 ^ 31).
  apply Z.bits_inj'. intros n Hn. rewrite Z.land_spec, Z.bits_0.
  destruct (decide (n = 31)) as [-> | Hn31].
  - destruct (decide (size e = 0)) as [-> | Hnz]; [rewrite Z.bits_0; reflexivity |].
    rewrite Z.bits_above_log2; [reflexivity | lia |].
    apply Z.log2_lt_pow2; lia.
  - rewrite (Z.pow2_bits_false 31 n) by lia. apply andb_false_r.
Qed.

Lemma size_word_small v : 0 <= v <= FILESIZE_MAX -> dir_entry_size_word v false = v.
Proof.
  intros H. unfold dir_entry_size_word, u32, FILESIZE_MAX in *.
  rewrite Z.mod_small by lia.
  change 0x7FFFFFFF with (Z.ones 31). rewrite Z.land_ones by lia.
  apply Z.mod_small. lia.
Qed.

(** ** Records of a directory payload *)

Section Records.

Variables (d : list byte) (di : Z).
Hypothesis Hlen : Z.of_nat (length d) = CLUSTER_DATA.
Hypothesis Hdi : 0 <= di < CLUSTER_DIRENTS.

Lemma size_after_set_size v :
  size (entry_at (set_bytes (di * DIR_ENTRY_SIZE + FILENAME_SIZE) (le_encode 4 v) d) di)
  = v mod 2 ^ 32.
Proof.
  unfold entry_at. cbn [size].
  change 4 with (Z.of_nat (length (le_encode 4 v))) at 1.
  rewrite get_set_bytes_same by (rewrite ?length_le_encode; clia).
  apply le_decode_encode.
Qed.

Lemma cluster_after_set_size v :
  cluster_nr (entry_at (set_bytes (di * DIR_ENTRY_SIZE + FILENAME_SIZE) (le_encode 4 v) d) di)
  = cluster_nr (entry_at d di).
Proof.
  unfold entry_at. cbn [cluster_nr].
  rewrite get_set_bytes_other;
    rewrite ?length_le_encode; try reflexivity; try clia.
Qed.

Lemma cluster_after_set_cluster v :
  cluster_nr (entry_at (set_bytes (di * DIR_ENTRY_SIZE + (FILENAME_SIZE + 4)) (le_encode 2 v) d) di)
  = v mod 2 ^ 16.
Proof.
  unfold entry_at. cbn [cluster_nr].
  replace (di * DIR_ENTRY_SIZE + (FILENAME_SIZE + 4)) with (di * DIR_ENTRY_SIZE + FILENAME_SIZE + 4) by lia.
  change 2 with (Z.of_nat (length (le_encode 2 v))) at 1.
  rewrite get_set_bytes_same by (rewrite ?length_le_encode; clia).
  apply le_decode_encode.
Qed.

Lemma size_after_set_cluster v :
  size (entry_at (set_bytes (di * DIR_ENTRY_SIZE + (FILENAME_SIZE + 4)) (le_encode 2 v) d) di)
  = size (entry_at d di).
Proof.
  unfold entry_at. cbn [size].
  rewrite get_set_bytes_other;
    rewrite ?length_le_encode; try reflexivity; try clia.
Qed.

Lemma length_after_set_size v :
  Z.of_nat (length (set_bytes (di * DIR_ENTRY_SIZE + FILENAME_SIZE) (le_encode 4 v) d))
  = CLUSTER_DATA.
Proof. rewrite length_set_bytes; [exact Hlen | clia | rewrite ?length_le_encode; clia]. Qed.

Lemma length_after_set_cluster v :
  Z.of_nat (length (set_bytes (di * DIR_ENTRY_SIZE + (FILENAME_SIZE + 4)) (le_encode 2 v) d))
  = CLUSTER_DATA.
Proof. rewrite length_set_bytes; [exact Hlen | clia | rewrite ?length_le_encode; clia]. Qed.

End Records.

(** ** Byte strings: zeros and writes across a boundary *)

Lemma length_zeros n : length (zeros n) = Z.to_nat n.
Proof. unfold zeros. apply length_replicate. Qed.

Lemma lookup_zeros n (i : nat) :
  zeros n !! i = if decide (Z.of_nat i < n) then Some x00 else None.
Proof.
  unfold zeros. destruct (decide (Z.of_nat i < n)).
  - apply lookup_replicate_2. lia.
  - apply lookup_ge_None. rewrite length_replicate. lia.
Qed.

Lemma zeros_app a b : 0 <= a -> 0 <= b -> zeros a ++ zeros b = zeros (a + b).
Proof.
  intros Ha Hb. unfold zeros. rewrite Z2Nat.inj_add by lia.
  symmetry. apply replicate_add.
Qed.

Lemma set_bytes_nil off (d : list byte) :
  0 <= off -> set_bytes off [] d = d.
Proof.
  intros Hoff. unfold set_bytes. cbn [length app]. rewrite Nat.add_0_r.
  apply take_drop.
Qed.

Lemma set_bytes_app_l off bs (d1 d2 : list byte) :
  0 <= off -> off + Z.of_nat (length bs) <= Z.of_nat (length d1) ->
  set_bytes off bs (d1 ++ d2) = set_bytes off bs d1 ++ d2.
Proof.
  intros Hoff Hlen. unfold set_bytes.
  rewrite take_app_le by lia. rewrite drop_app_le by lia.
  rewrite <- !app_assoc. reflexivity.
Qed.

Lemma set_bytes_app_r off bs (d1 d2 : list byte) :
  Z.of_nat (length d1) <= off ->
  set_bytes off bs (d1 ++ d2) = d1 ++ set_bytes (off - Z.of_nat (length d1)) bs d2.
Proof.
  intros Hoff. unfold set_bytes.
  rewrite take_app_ge by lia. rewrite drop_app_ge by lia.
  rewrite <- !app_assoc.
  replace (Z.to_nat off - length d1)%nat with (Z.to_nat (off - Z.of_nat (length d1))) by lia.
  replace (Z.to_nat off + length bs - length d1)%nat
    with (Z.to_nat (off - Z.of_nat (length d1)) + length bs)%nat by lia.
  reflexivity.
Qed.

(** A write that starts in [d1] and runs into [d2]. *)
Lemma set_bytes_split off bs (d1 d2 : list byte) :
  0 <= off <= Z.of_nat (length d1) ->
  Z.of_nat (length d1) <= off + Z.of_nat (length bs) ->
  set_bytes off bs (d1 ++ d2)
  = set_bytes off (take (Z.to_nat (Z.of_nat (length d1) - off)) bs) d1
    ++ set_bytes 0 (drop (Z.to_nat (Z.of_nat (length d1) - off)) bs) d2.
Proof.
  intros Hoff Hlen. unfold set_bytes.
  set (w := Z.to_nat (Z.of_nat (length d1) - off)).
  assert (Hw : (w <= length bs)%nat) by lia.
  rewrite take_app_le by lia. rewrite drop_app_ge by lia.
  rewrite length_take, length_drop.
  rewrite (drop_ge d1) by lia.
  change (Z.to_nat 0) with 0%nat. rewrite take_0. cbn [app Nat.add].
  rewrite app_nil_r, <- !app_assoc. f_equal.
  rewrite <- (take_drop w bs) at 1. rewrite <- app_assoc. f_equal. f_equal.
  f_equal. lia.
Qed.

Lemma take_set_bytes (n : nat) off bs (d : list byte) :
  0 <= off -> off + Z.of_nat (length bs) <= Z.of_nat n -> (n <= length d)%nat ->
  take n (set_bytes off bs d) = set_bytes off bs (take n d).
Proof.
  intros Hoff Hn Hd. unfold set_bytes.
  rewrite take_app_ge by (rewrite length_take; lia).
  rewrite length_take.
  rewrite take_app_ge by lia.
  rewrite take_take.
  replace (min (Z.to_nat off) n) with (Z.to_nat off) by lia.
  f_equal. f_equal.
  rewrite take_drop_commute. f_equal. f_equal. lia.
Qed.

(** Zeroing everything after the first [length c] bytes. *)
Lemma set_bytes_zero_tail (c rest : list byte) :
  set_bytes (Z.of_nat (length c)) (zeros (Z.of_nat (length rest))) (c ++ rest)
  = c ++ zeros (Z.of_nat (length rest)).
Proof.
  unfold set_bytes. rewrite Nat2Z.id.
  rewrite take_app_length. rewrite drop_ge by (rewrite length_app, length_zeros; lia).
  rewrite app_nil_r. reflexivity.
Qed.

(** ** Chains and their payloads *)

Lemma chain_data_app (m : gmap Z cluster) l1 l2 :
  chain_data m (l1 ++ l2) = chain_data m l1 ++ chain_data m l2.
Proof.
  induction l1 as [| a l1 IH]; [reflexivity |].
  cbn [app chain_data]. rewrite IH, app_assoc. reflexivity.
Qed.

Lemma chain_data_ext (m m' : gmap Z cluster) l :
  (forall x, x ∈ l -> data <$> m' !! x = data <$> m !! x) ->
  chain_data m' l = chain_data m l.
Proof.
  induction l as [| a l IH]; intros H; [reflexivity |].
  cbn [chain_data]. rewrite IH by (intros x Hx; apply H; right; exact Hx).
  specialize (H a ltac:(left)).
  destruct (m' !! a), (m !! a); cbn in H; congruence.
Qed.

Lemma length_chain_data (m : gmap Z cluster) l :
  (forall x, x ∈ l -> exists c, m !! x = Some c /\ Z.of_nat (length (data c)) = CLUSTER_DATA) ->
  Z.of_nat (length (chain_data m l)) = CLUSTER_DATA * Z.of_nat (length l).
Proof.
  induction l as [| a l IH]; intros H; [cbn; lia |].
  cbn [chain_data length]. rewrite length_app.
  destruct (H a ltac:(left)) as (c & -> & Hc).
  specialize (IH ltac:(intros x Hx; apply H; right; exact Hx)). lia.
Qed.

Lemma chain_data_zeroed (m : gmap Z cluster) l :
  (forall x, x ∈ l -> exists c, m !! x = Some c /\ data c = zeros CLUSTER_DATA) ->
  chain_data m l = zeros (CLUSTER_DATA * Z.of_nat (length l)).
Proof.
  induction l as [| a l IH]; intros H; [reflexivity |].
  cbn [chain_data length]. destruct (H a ltac:(left)) as (c & -> & ->).
  rewrite IH by (intros x Hx; apply H; right; exact Hx).
  rewrite zeros_app by clia. f_equal. lia.
Qed.

Lemma linked_ext (m m' : gmap Z cluster) l :
  linked m l ->
  (forall x c, x ∈ l -> m !! x = Some c -> exists c', m' !! x = Some c' /\ next c' = next c) ->
  linked m' l.
Proof.
  induction l as [| a l IH]; intros Hl H; [exact I |].
  cbn [linked] in *. destruct l as [| b l].
  - destruct Hl as [c Hc]. destruct (H a c ltac:(left) Hc) as (c' & Hc' & _). eauto.
  - destruct Hl as [(c & Hc & Hn) Hl]. split.
    + destruct (H a c ltac:(left) Hc) as (c' & Hc' & Hn'). exists c'. split; [exact Hc' | congruence].
    + apply IH; [exact Hl |]. intros x cx Hx. apply H. right. exact Hx.
Qed.

Lemma linked_app (m : gmap Z cluster) l1 l2 :
  linked m l1 -> linked m l2 ->
  (forall p, last l1 = Some p -> l2 <> [] -> exists c, m !! p = Some c /\ next c = hd 0 l2) ->
  linked m (l1 ++ l2).
Proof.
  induction l1 as [| a l1 IH]; intros H1 H2 Hj; [exact H2 |].
  cbn [app linked]. destruct l1 as [| b l1].
  - cbn [app]. destruct l2 as [| b l2]; [exact H1 |].
    split; [| exact H2]. apply (Hj a eq_refl). discriminate.
  - cbn [app]. cbn [linked] in H1. destruct H1 as [Hab H1].
    split; [exact Hab |]. apply IH; [exact H1 | exact H2 |].
    intros p Hp. apply Hj. exact Hp.
Qed.

Lemma linked_members (m : gmap Z cluster) l x : linked m l -> x ∈ l -> is_Some (m !! x).
Proof.
  induction l as [| a l IH]; intros Hl Hx; [inversion Hx |].
  apply elem_of_cons in Hx as [-> | Hx]; [exact (linked_head _ _ _ Hl) |].
  apply IH; [exact (linked_tail _ _ _ Hl) | exact Hx].
Qed.

(** ** The invariant of an open file *)

Lemma bind_Ok_eq {A B : Type} (m : M A) (k : A -> M B) g a g' R :
  m g = (Ok a, g') -> k a g' = R -> bind m k g = R.
Proof. intros H1 H2. rewrite (bind_Ok _ _ _ _ _ H1). exact H2. Qed.

Lemma same_payload_refl c : same_payload c c.
Proof. split_and!; reflexivity. Qed.

Lemma same_payload_mark c : same_payload c (mark_cluster c).
Proof. split_and!; reflexivity. Qed.

(** The invariant only looks at the directory cluster and at the chain, and
    there only at payload, link and [used] bit. *)
Lemma file_state_transfer g g' it st bytes dc di l :
  file_state g it st bytes dc di l ->
  hdr_cluster_count g' = hdr_cluster_count g ->
  all_cached g' -> fields_in_range g' ->
  (forall x c, x = dc \/ x ∈ l -> clusters g !! x = Some c ->
     exists c', clusters g' !! x = Some c' /\ same_payload c c') ->
  file_state g' it st bytes dc di l.
Proof.
  intros [He Hcl Hdi (dcl & Hdcl & Hdlen & Hduse & Hsz & Hcn) Hmax Hlen Hchain Hlast Hmem Hnd
            Hapart Hcontent Hcached Hrange] Hcc Hcached' Hrange' Hsame.
  constructor; try assumption.
  - destruct (Hsame dc dcl (or_introl eq_refl) Hdcl) as (c' & Hc' & Hd & Hn & Hu).
    exists c'. rewrite Hd, Hu. split_and!; assumption.
  - apply (linked_ext (clusters g)); [exact Hchain |].
    intros x c Hx Hc. destruct (Hsame x c (or_intror Hx) Hc) as (c' & Hc' & Hd & Hn & Hu). eauto.
  - intros x c' Hx Hc'.
    assert (Hin : x ∈ l) by (apply last_Some_elem_of; exact Hx).
    destruct (Hmem x Hin) as [_ (c & Hc & _)].
    destruct (Hsame x c (or_intror Hin) Hc) as (c'' & Hc'' & Hd & Hn & Hu).
    rewrite Hc'' in Hc'. injection Hc' as <-. rewrite Hn. exact (Hlast x c Hx Hc).
  - intros x Hx. destruct (Hmem x Hx) as [Hr (c & Hc & Hu & Hd)].
    split; [rewrite Hcc; exact Hr |].
    destruct (Hsame x c (or_intror Hx) Hc) as (c' & Hc' & Hd' & Hn' & Hu').
    exists c'. rewrite Hd', Hu'. split_and!; assumption.
  - rewrite (chain_data_ext (clusters g) (clusters g') l); [exact Hcontent |].
    intros x Hx. destruct (Hmem x Hx) as [_ (c & Hc & _)].
    destruct (Hsame x c (or_intror Hx) Hc) as (c' & Hc' & Hd' & _).
    rewrite Hc, Hc'. cbn. rewrite Hd'. reflexivity.
Qed.

Lemma all_cached_preserved g g' :
  all_cached g -> hdr_cluster_count g' = hdr_cluster_count g ->
  (forall x, is_Some (clusters g !! x) -> is_Some (clusters g' !! x)) ->
  all_cached g'.
Proof. intros Hc Hcc H x Hx. apply H. apply Hc. rewrite <- Hcc. exact Hx. Qed.

(** Marking a cluster dirty does not disturb an open file. *)
Lemma file_state_mark g it st bytes dc di l p :
  file_state g it st bytes dc di l ->
  file_state (with_clusters (alter mark_cluster p (clusters g)) g) it st bytes dc di l.
Proof.
  intros H. apply (file_state_transfer g); [exact H | reflexivity | | exact (fi_range _ _ _ _ _ _ _ H) |].
  - apply (all_cached_preserved g); [exact (fi_cached _ _ _ _ _ _ _ H) | reflexivity |].
    intros x. cbn [clusters with_clusters]. rewrite is_Some_alter. trivial.
  - intros x c _ Hc. cbn [clusters with_clusters]. rewrite lookup_alter.
    destruct (decide (p = x)) as [-> | ?].
    + rewrite Hc. exists (mark_cluster c). split; [reflexivity | apply same_payload_mark].
    + exists c. split; [exact Hc | apply same_payload_refl].
Qed.

Lemma file_state_chain_length g it st bytes dc di l :
  file_state g it st bytes dc di l ->
  Z.of_nat (length (chain_data (clusters g) l)) = CLUSTER_DATA * Z.of_nat (length l).
Proof.
  intros H. apply length_chain_data. intros x Hx.
  destruct (fi_members _ _ _ _ _ _ _ H x Hx) as [_ (c & Hc & _ & Hd)]. eauto.
Qed.

Lemma file_state_read_entry g it st bytes dc di l :
  file_state g it st bytes dc di l ->
  exists e, read_entry (it_entry it) g = (Ok e, g) /\ size e = st /\ cluster_nr e = hd 0 l.
Proof.
  intros H. destruct (fi_dir _ _ _ _ _ _ _ H) as (dcl & Hdcl & _ & _ & Hsz & Hcn).
  exists (entry_at (data dcl) di). rewrite (fi_entry _ _ _ _ _ _ _ H).
  split_and!; [apply read_entry_cluster; exact Hdcl | exact Hsz | exact Hcn].
Qed.

(** ** Growing a file: zeroing the tail of the last cluster *)

Lemma file_state_bytes_prefix g it st bytes dc di l :
  file_state g it st bytes dc di l ->
  chain_data (clusters g) l
  = bytes ++ drop (length bytes) (chain_data (clusters g) l).
Proof.
  intros H. rewrite <- (take_drop (length bytes) (chain_data (clusters g) l)) at 1.
  rewrite <- (fi_content _ _ _ _ _ _ _ H). reflexivity.
Qed.

Lemma file_state_cluster_count g it st bytes dc di l :
  file_state g it st bytes dc di l ->
  Z.of_nat (length bytes) <= CLUSTER_DATA * Z.of_nat (length l)
  /\ CLUSTER_DATA * Z.of_nat (length l) < Z.of_nat (length bytes) + CLUSTER_DATA.
Proof.
  intros H. rewrite (fi_len _ _ _ _ _ _ _ H).
  pose proof (size_to_clusters_bounds (Z.of_nat (length bytes)) ltac:(lia)). tauto.
Qed.

(** The same, when the payloads of the chain change but not their sizes. *)
Lemma file_state_reshape g g' it st bytes bytes' dc di l :
  file_state g it st bytes dc di l ->
  hdr_cluster_count g' = hdr_cluster_count g ->
  all_cached g' -> fields_in_range g' ->
  (forall c, clusters g !! dc = Some c ->
     exists c', clusters g' !! dc = Some c' /\ same_payload c c') ->
  (forall x c, x ∈ l -> clusters g !! x = Some c ->
     exists c', clusters g' !! x = Some c' /\ next c' = next c /\ used c' = used c /\
                length (data c') = length (data c)) ->
  Z.of_nat (length bytes') <= FILESIZE_MAX ->
  size_to_clusters (Z.of_nat (length bytes')) = size_to_clusters (Z.of_nat (length bytes)) ->
  bytes' = take (length bytes') (chain_data (clusters g') l) ->
  file_state g' it st bytes' dc di l.
Proof.
  intros [He Hcl Hdi (dcl & Hdcl & Hdlen & Hduse & Hsz & Hcn) Hmax Hlen Hchain Hlast Hmem Hnd
            Hapart Hcontent Hcached Hrange] Hcc Hcached' Hrange' Hdc Hsame Hmax' Hlen' Hcontent'.
  constructor; try assumption.
  - destruct (Hdc dcl Hdcl) as (c' & Hc' & Hd & Hn & Hu).
    exists c'. rewrite Hd, Hu. split_and!; assumption.
  - rewrite Hlen'. exact Hlen.
  - apply (linked_ext (clusters g)); [exact Hchain |].
    intros x c Hx Hc. destruct (Hsame x c Hx Hc) as (c' & Hc' & Hn & _). eauto.
  - intros x c' Hx Hc'.
    assert (Hin : x ∈ l) by (apply last_Some_elem_of; exact Hx).
    destruct (Hmem x Hin) as [_ (c & Hc & _)].
    destruct (Hsame x c Hin Hc) as (c'' & Hc'' & Hn & _).
    rewrite Hc'' in Hc'. injection Hc' as <-. rewrite Hn. exact (Hlast x c Hx Hc).
  - intros x Hx. destruct (Hmem x Hx) as [Hr (c & Hc & Hu & Hd)].
    split; [rewrite Hcc; exact Hr |].
    destruct (Hsame x c Hx Hc) as (c' & Hc' & Hn' & Hu' & Hd').
    exists c'. rewrite Hd', Hu'. split_and!; assumption.
Qed.

(** The first step of a growing truncation: the bytes of the last cluster
    that lie after the end of the file are zeroed.  Afterwards the chain
    holds the content followed by zeros only. *)
Lemma zero_tail_spec g it content dc di l :
  file_inv g it content dc di l ->
  let ub := Z.of_nat (length content) mod CLUSTER_DATA in
  exists g1,
    (if decide (ub <> 0) then
       match last l with
       | Some p =>
           update_cluster p (fun x =>
             mark_cluster (set_data (set_bytes ub (zeros (CLUSTER_DATA - ub)) (data x)) x))
       | None => undefined
       end
     else ret tt) g = (Ok tt, g1) /\
    file_inv g1 it content dc di l /\
    chain_data (clusters g1) l
    = content ++ zeros (CLUSTER_DATA * Z.of_nat (length l) - Z.of_nat (length content)).
Proof.
  intros H ub.
  pose proof (file_state_cluster_count _ _ _ _ _ _ _ H) as [Hn1 Hn2].
  pose proof (file_state_chain_length _ _ _ _ _ _ _ H) as Hclen.
  pose proof (file_state_bytes_prefix _ _ _ _ _ _ _ H) as Hpre.
  pose proof (Z.div_mod (Z.of_nat (length content)) CLUSTER_DATA ltac:(clia)) as Hdm.
  pose proof (Z.mod_pos_bound (Z.of_nat (length content)) CLUSTER_DATA ltac:(clia)) as Hmb.
  fold ub in Hdm, Hmb.
  destruct (decide (ub <> 0)) as [Hub | Hub].
  - (* a partly used last cluster *)
    assert (Hne : l <> []) by (intros ->; cbn [length] in *; clia).
    destruct (last l) as [p |] eqn:Hp; [| apply last_None in Hp; contradiction].
    apply last_Some in Hp as [l0 Hl0].
    assert (Hpin : p ∈ l) by (rewrite Hl0; apply elem_of_app; right; left).
    destruct (fi_members _ _ _ _ _ _ _ H p Hpin) as [Hpr (cp & Hcp & Hup & Hdp)].
    set (f := fun x => mark_cluster (set_data (set_bytes ub (zeros (CLUSTER_DATA - ub)) (data x)) x)).
    rewrite (update_cluster_Some g p cp f Hcp).
    set (g1 := with_clusters _ g).
    assert (Hp0 : p ∉ l0).
    { pose proof (fi_nodup _ _ _ _ _ _ _ H) as Hnd. rewrite Hl0 in Hnd.
      apply NoDup_app in Hnd as (_ & Hd & _). intros Hin. apply (Hd p Hin). left. }
    assert (Hl0len : Z.of_nat (length (chain_data (clusters g) l0))
                     = CLUSTER_DATA * Z.of_nat (length l0)).
    { apply length_chain_data. intros x Hx.
      destruct (fi_members _ _ _ _ _ _ _ H x) as [_ (c & Hc & _ & Hd)]; [| eauto].
      rewrite Hl0. apply elem_of_app. left. exact Hx. }
    assert (Hlen_l : Z.of_nat (length l) = Z.of_nat (length l0) + 1).
    { rewrite Hl0, length_app. cbn [length]. lia. }
    assert (Hsize : Z.of_nat (length content) = CLUSTER_DATA * Z.of_nat (length l0) + ub).
    { unfold CLUSTER_DATA in *. lia. }
    assert (Hdata1 : chain_data (clusters g1) l
                     = chain_data (clusters g) l0 ++ take (Z.to_nat ub) (data cp)
                       ++ zeros (CLUSTER_DATA - ub)).
    { rewrite Hl0, chain_data_app. cbn [chain_data]. rewrite app_nil_r.
      subst g1. cbn [clusters with_clusters]. rewrite lookup_alter_eq, Hcp. cbn [fmap option_fmap option_map].
      rewrite (chain_data_ext (clusters g)).
      2:{ intros x Hx. rewrite lookup_alter_ne; [reflexivity | intros ->; contradiction]. }
      f_equal. subst f. cbn [data mark_cluster set_data]. unfold set_bytes.
      rewrite length_zeros. rewrite drop_ge by clia. rewrite app_nil_r. reflexivity. }
    assert (Hcontent0 : content = chain_data (clusters g) l0 ++ take (Z.to_nat ub) (data cp)).
    { rewrite (fi_content _ _ _ _ _ _ _ H) at 1.
      rewrite Hl0, chain_data_app. cbn [chain_data]. rewrite Hcp, app_nil_r.
      rewrite take_app_ge by lia. f_equal. f_equal. lia. }
    exists g1. split; [reflexivity |]. split.
    + apply (file_state_reshape g g1 it _ content content dc di l H); try reflexivity.
      * apply (all_cached_preserved g); [exact (fi_cached _ _ _ _ _ _ _ H) | reflexivity |].
        intros x. subst g1. cbn [clusters with_clusters]. rewrite is_Some_alter. trivial.
      * exact (fi_range _ _ _ _ _ _ _ H).
      * intros c Hc. subst g1. cbn [clusters with_clusters].
        rewrite lookup_alter_ne; [exists c; split; [exact Hc | apply same_payload_refl] |].
        intros <-. exact (fi_apart _ _ _ _ _ _ _ H Hpin).
      * intros x c Hx Hc. subst g1. cbn [clusters with_clusters]. rewrite lookup_alter.
        destruct (decide (p = x)) as [<- | Hne'].
        -- rewrite Hc. cbn. exists (f c). split_and!; try reflexivity.
           subst f. cbn [data mark_cluster set_data].
           rewrite Hcp in Hc. injection Hc as <-.
           apply length_set_bytes; [clia | rewrite length_zeros; clia].
        -- exists c. split_and!; [exact Hc | reflexivity | reflexivity | reflexivity].
      * exact (fi_size _ _ _ _ _ _ _ H).
      * rewrite Hdata1. rewrite app_assoc, <- Hcontent0.
        rewrite take_app_length. reflexivity.
    + rewrite Hdata1.
      replace (CLUSTER_DATA * Z.of_nat (length l) - Z.of_nat (length content))
        with (CLUSTER_DATA - ub) by (unfold CLUSTER_DATA in *; lia).
      rewrite app_assoc, <- Hcontent0. reflexivity.
  - (* the last cluster is full, or there is none *)
    assert (Hub0 : ub = 0) by (destruct (decide (ub = 0)); [assumption | contradiction]).
    exists g. split; [reflexivity |]. split; [exact H |].
    assert (Hfull : CLUSTER_DATA * Z.of_nat (length l) = Z.of_nat (length content)).
    { unfold CLUSTER_DATA in *. lia. }
    rewrite Hfull, Z.sub_diag. change (zeros 0) with (@nil byte). rewrite app_nil_r.
    symmetry. rewrite (fi_content _ _ _ _ _ _ _ H) at 1.
    apply take_ge. lia.
Qed.

(** ** Growing a file: the first steps of [do_truncate] *)

Lemma bind_assoc {A B C : Type} (m : M A) (k1 : A -> M B) (k2 : B -> M C) g :
  bind (bind m k1) k2 g = bind m (fun a => bind (k1 a) k2) g.
Proof. unfold bind. destruct (m g) as [[a | e | |] g']; reflexivity. Qed.

Lemma last_lookup_length (l : list Z) :
  l <> [] -> l !! Z.to_nat (Z.of_nat (length l) - 1) = last l.
Proof.
  intros Hne. rewrite last_lookup. f_equal.
  destruct l; [contradiction | cbn [length]; lia].
Qed.

(** The part of [do_truncate] that finds the last cluster of the file. *)
Lemma truncate_locate g it content dc di l e :
  file_inv g it content dc di l ->
  cluster_nr e = hd 0 l ->
  (if decide (Z.of_nat (length l) <> 0) then
     let* c := cluster_at (cluster_nr e) (Z.of_nat (length l) - 1) in
     match c with
     | Some p => let* cl := deref p in ret (c, next cl)
     | None => undefined
     end
   else ret (None, cluster_nr e)) g = (Ok (last l, 0), g).
Proof.
  intros H Hcn.
  destruct (decide (Z.of_nat (length l) <> 0)) as [Hne | He].
  - destruct l as [| a l0] eqn:El; [cbn [length] in Hne; lia |]. rewrite <- El in *.
    assert (Hl : l <> []) by (rewrite El; discriminate).
    unfold cluster_at.
    replace (Z.to_nat (Z.of_nat (length l) - 1 + 1)) with (S (Z.to_nat (Z.of_nat (length l) - 1))) by lia.
    assert (Hat : cluster_at_loop (S (Z.to_nat (Z.of_nat (length l) - 1))) (cluster_nr e) None g
                  = (Ok (last l), g)).
    { rewrite Hcn, El. cbn [hd]. rewrite <- El.
      rewrite <- (last_lookup_length l Hl). rewrite El.
      apply cluster_at_loop_chain.
      - rewrite <- El. exact (fi_chain _ _ _ _ _ _ _ H).
      - rewrite <- El. intros x Hx. apply (fi_members _ _ _ _ _ _ _ H x Hx).
      - rewrite <- El. lia. }
    rewrite (bind_Ok _ _ _ _ _ Hat).
    destruct (last l) as [p |] eqn:Hp; [| apply last_None in Hp; contradiction].
    assert (Hpin : p ∈ l) by (apply last_Some_elem_of; exact Hp).
    destruct (fi_members _ _ _ _ _ _ _ H p Hpin) as [_ (cp & Hcp & _)].
    rewrite (bind_Ok _ _ _ _ _ (deref_Some _ _ _ Hcp)).
    rewrite (fi_last _ _ _ _ _ _ _ H p cp Hp Hcp). reflexivity.
  - assert (l = []) as -> by (destruct l; [reflexivity | cbn [length] in He; lia]).
    rewrite Hcn. reflexivity.
Qed.

(** A growing [do_truncate], up to the point where the tail of the last
    cluster has been zeroed. *)
Lemma do_truncate_grow_unfold fuel g it content dc di l new_size :
  file_inv g it content dc di l ->
  Z.of_nat (length content) < new_size <= FILESIZE_MAX ->
  exists g1,
    file_inv g1 it content dc di l /\
    chain_data (clusters g1) l
    = content ++ zeros (CLUSTER_DATA * Z.of_nat (length l) - Z.of_nat (length content)) /\
    hdr_cluster_count g1 = hdr_cluster_count g /\
    do_truncate fuel it new_size g
    = (let alloc := size_to_clusters new_size - Z.of_nat (length l) in
       (if decide (alloc <> 0) then
          let* r := alloc_clusters alloc true in
          match last l with
          | Some p => update_cluster p (fun x => mark_cluster (set_next r x))
          | None => entry_store_cluster (it_entry it) r
          end
        else ret tt);;
       dir_entry_set_size (it_entry it) new_size false;;
       update_cluster (it_cluster it) mark_cluster) g1.
Proof.
  intros H Hnew.
  destruct (file_state_read_entry _ _ _ _ _ _ _ H) as (e & Hread & Hsz & Hcn).
  destruct (zero_tail_spec g it content dc di l H) as (g1 & Hz & H1 & Hdata).
  exists g1. split; [exact H1 |]. split; [exact Hdata |].
  assert (Hcc : hdr_cluster_count g1 = hdr_cluster_count g).
  { destruct (decide (Z.of_nat (length content) mod CLUSTER_DATA <> 0)).
    - destruct (last l); [| discriminate].
      unfold update_cluster in Hz. destruct (clusters g !! z); [| discriminate].
      injection Hz as <-. reflexivity.
    - injection Hz as <-. reflexivity. }
  split; [exact Hcc |].
  pose proof (fi_size _ _ _ _ _ _ _ H) as Hmax.
  unfold do_truncate.
  destruct (decide (new_size < 0)); [lia |].
  destruct (decide (new_size > FILESIZE_MAX)); [lia |].
  rewrite (bind_Ok _ _ _ _ _ Hread).
  rewrite is_directory_small by (rewrite Hsz; unfold FILESIZE_MAX in *; lia).
  rewrite Hsz.
  rewrite Z.min_l by lia.
  rewrite s32_small by (unfold FILESIZE_MAX in *; lia).
  rewrite (s32_small new_size) by (unfold FILESIZE_MAX in *; lia).
  rewrite <- (fi_len _ _ _ _ _ _ _ H).
  rewrite (bind_Ok _ _ _ _ _ (truncate_locate g it content dc di l e H Hcn)).
  cbn [fst snd].
  destruct (decide (new_size > Z.of_nat (length content))); [| lia].
  rewrite bind_assoc.
  rewrite (bind_Ok _ _ _ _ _ Hz).
  reflexivity.
Qed.

(** ** Growing a file: storing the new size *)

Lemma take_zeros (k : nat) n : Z.of_nat k <= n -> take k (zeros n) = zeros (Z.of_nat k).
Proof.
  intros H. unfold zeros. rewrite take_replicate. f_equal. lia.
Qed.

Lemma take_app_zeros (k : nat) (c : list byte) n :
  (length c <= k)%nat -> Z.of_nat k <= Z.of_nat (length c) + n ->
  take k (c ++ zeros n) = c ++ zeros (Z.of_nat k - Z.of_nat (length c)).
Proof.
  intros H1 H2. rewrite take_app_ge by lia. f_equal.
  rewrite take_zeros by lia. f_equal. lia.
Qed.

Lemma length_app_zeros (c : list byte) n :
  0 <= n -> Z.of_nat (length (c ++ zeros n)) = Z.of_nat (length c) + n.
Proof. intros H. rewrite length_app, length_zeros. lia. Qed.

(** The last step of [do_truncate]: the new size is stored in the record
    and the directory cluster is marked. *)
Lemma set_size_spec g it st bytes dc di l :
  file_state g it st bytes dc di l ->
  exists g',
    (dir_entry_set_size (it_entry it) (Z.of_nat (length bytes)) false;;
     update_cluster (it_cluster it) mark_cluster) g = (Ok tt, g') /\
    file_inv g' it bytes dc di l.
Proof.
  intros H.
  destruct H as [He Hcl Hdi (dcl & Hdcl & Hdlen & Hduse & Hsz & Hcn) Hmax Hlen Hchain Hlast Hmem
                   Hnd Hapart Hcontent Hcached Hrange].
  rewrite He, Hcl. unfold dir_entry_set_size. cbn [write_entry].
  set (f := fun c => set_data (set_bytes (di * DIR_ENTRY_SIZE + FILENAME_SIZE)
                       (le_encode 4 (dir_entry_size_word (Z.of_nat (length bytes)) false))
                       (data c)) c).
  rewrite (bind_Ok _ _ _ _ _ (update_cluster_Some g dc dcl f Hdcl)).
  set (g4 := with_clusters _ g).
  assert (H4 : clusters g4 !! dc = Some (f dcl)).
  { subst g4. cbn [clusters with_clusters]. rewrite lookup_alter_eq, Hdcl. reflexivity. }
  rewrite (update_cluster_Some g4 dc (f dcl) mark_cluster H4).
  set (g5 := with_clusters _ g4).
  assert (H5 : clusters g5 !! dc = Some (mark_cluster (f dcl))).
  { subst g5. cbn [clusters with_clusters]. rewrite lookup_alter_eq, H4. reflexivity. }
  assert (Hother : forall x, x <> dc -> clusters g5 !! x = clusters g !! x).
  { intros x Hx. subst g5 g4. cbn [clusters with_clusters].
    rewrite !lookup_alter_ne by congruence. reflexivity. }
  assert (Hinl : forall x, x ∈ l -> clusters g5 !! x = clusters g !! x).
  { intros x Hx. apply Hother. intros ->. contradiction. }
  exists g5. split; [reflexivity |].
  constructor; try assumption.
  - exists (mark_cluster (f dcl)). split; [exact H5 |].
    subst f. cbn [data mark_cluster set_data used].
    split_and!.
    + apply length_after_set_size; assumption.
    + exact Hduse.
    + rewrite size_after_set_size by assumption.
      rewrite size_word_small by lia. apply Z.mod_small. unfold FILESIZE_MAX in *. lia.
    + rewrite cluster_after_set_size by assumption. exact Hcn.
  - apply (linked_ext (clusters g)); [exact Hchain |].
    intros x c Hx Hc. rewrite (Hinl x Hx). eauto.
  - intros x c Hx Hc. rewrite Hinl in Hc by (apply last_Some_elem_of; exact Hx).
    exact (Hlast x c Hx Hc).
  - intros x Hx. rewrite (Hinl x Hx). exact (Hmem x Hx).
  - rewrite (chain_data_ext (clusters g)); [exact Hcontent |].
    intros x Hx. rewrite (Hinl x Hx). reflexivity.
  - apply (all_cached_preserved g); [exact Hcached | reflexivity |].
    intros x. subst g5 g4. cbn [clusters with_clusters]. rewrite !is_Some_alter. trivial.
Qed.

(** ** Growing a file: attaching the new clusters *)

Section Attach.

Variables (g1 g2 : ghostfs) (it : dir_iter) (content : list byte) (dc di : Z) (l l2 : list Z).
Variable new_size : Z.

Hypothesis H1 : file_inv g1 it content dc di l.
Hypothesis Hdata : chain_data (clusters g1) l
  = content ++ zeros (CLUSTER_DATA * Z.of_nat (length l) - Z.of_nat (length content)).
Hypothesis Hnew : Z.of_nat (length content) < new_size <= FILESIZE_MAX.
Hypothesis Hcount : Z.of_nat (length l) + Z.of_nat (length l2) = size_to_clusters new_size.
Hypothesis Hl2 : l2 <> [].
Hypothesis Hcc2 : hdr_cluster_count g2 = hdr_cluster_count g1.
Hypothesis Hrange2 : fields_in_range g2.
Hypothesis Hdom2 : forall x, is_Some (clusters g2 !! x) <-> is_Some (clusters g1 !! x).
Hypothesis Hframe : forall x, x < 1 \/ ~ is_unused (clusters g1) x ->
  clusters g2 !! x = clusters g1 !! x.
Hypothesis Hnd2 : NoDup l2.
Hypothesis Hmem2 : forall x, x ∈ l2 -> 1 <= x < hdr_cluster_count g1 /\ is_unused (clusters g1) x.
Hypothesis Hlinked2 : linked (clusters g2) l2.
Hypothesis Hlast2 : forall x c, last l2 = Some x -> clusters g2 !! x = Some c -> next c = 0.
Hypothesis Hzero2 : forall x, x ∈ l2 ->
  exists c, clusters g2 !! x = Some c /\ used c = 1 /\ data c = zeros CLUSTER_DATA.

Let content' := content ++ zeros (new_size - Z.of_nat (length content)).

Lemma attach_members_kept x :
  x ∈ l -> clusters g2 !! x = clusters g1 !! x.
Proof.
  intros Hx. apply Hframe. right. intros (c & Hc & Hu).
  destruct (fi_members _ _ _ _ _ _ _ H1 x Hx) as [_ (c' & Hc' & Hu' & _)].
  congruence.
Qed.

Lemma attach_dir_kept : clusters g2 !! dc = clusters g1 !! dc.
Proof.
  destruct (fi_dir _ _ _ _ _ _ _ H1) as (dcl & Hdcl & _ & Hduse & _).
  apply Hframe. destruct Hduse as [-> | Hu]; [left; lia |].
  right. intros (c & Hc & Hu'). congruence.
Qed.

Lemma attach_disjoint x : x ∈ l -> x ∉ l2.
Proof.
  intros Hx Hx2. destruct (Hmem2 x Hx2) as [_ (c & Hc & Hu)].
  destruct (fi_members _ _ _ _ _ _ _ H1 x Hx) as [_ (c' & Hc' & Hu' & _)].
  congruence.
Qed.

Lemma attach_dir_apart : dc ∉ l2.
Proof.
  intros Hx2. destruct (Hmem2 dc Hx2) as [Hr (c & Hc & Hu)].
  destruct (fi_dir _ _ _ _ _ _ _ H1) as (dcl & Hdcl & _ & Hduse & _).
  destruct Hduse as [-> | Hu']; [lia | congruence].
Qed.

Lemma attach_head_range : 1 <= hd 0 l2 < 2 ^ 16.
Proof.
  destruct l2 as [| a l2']; [contradiction |]. cbn [hd].
  destruct (Hmem2 a ltac:(left)) as [Hr _].
  destruct (fi_range _ _ _ _ _ _ _ H1) as [Hcc _]. lia.
Qed.

Lemma attach_bytes :
  forall m : gmap Z cluster,
    chain_data m l = chain_data (clusters g1) l ->
    chain_data m l2 = chain_data (clusters g2) l2 ->
    content' = take (length content') (chain_data m (l ++ l2)).
Proof.
  intros m Hm1 Hm2.
  rewrite chain_data_app, Hm1, Hm2, Hdata.
  rewrite (chain_data_zeroed (clusters g2) l2).
  2:{ intros x Hx. destruct (Hzero2 x Hx) as (c & Hc & _ & Hd). eauto. }
  pose proof (size_to_clusters_bounds new_size ltac:(lia)) as (Hb0 & Hb1 & Hb2).
  pose proof (file_state_cluster_count _ _ _ _ _ _ _ H1) as [Hn1 Hn2].
  rewrite <- app_assoc, zeros_app by (unfold CLUSTER_DATA in *; lia).
  subst content'.
  rewrite take_app_zeros.
  - f_equal. f_equal. rewrite length_app, length_zeros. lia.
  - rewrite length_app. lia.
  - rewrite length_app, length_zeros. unfold CLUSTER_DATA in *. lia.
Qed.

Lemma attach_length' : Z.of_nat (length content') = new_size.
Proof. subst content'. rewrite length_app, length_zeros. lia. Qed.

Lemma attach_to_last p :
  last l = Some p ->
  exists g3,
    update_cluster p (fun x => mark_cluster (set_next (hd 0 l2) x)) g2 = (Ok tt, g3) /\
    file_state g3 it (Z.of_nat (length content)) content' dc di (l ++ l2).
Proof.
  intros Hp.
  assert (Hpin : p ∈ l) by (apply last_Some_elem_of; exact Hp).
  assert (Hlne : l <> []) by (intros ->; inversion Hpin).
  destruct (fi_members _ _ _ _ _ _ _ H1 p Hpin) as [Hpr (cp & Hcp & Hup & Hdp)].
  assert (Hcp2 : clusters g2 !! p = Some cp) by (rewrite attach_members_kept; assumption).
  set (fa := fun x => mark_cluster (set_next (hd 0 l2) x)).
  rewrite (update_cluster_Some g2 p cp fa Hcp2).
  set (g3 := with_clusters _ g2).
  assert (K1 : forall x, x <> p -> clusters g3 !! x = clusters g2 !! x).
  { intros x Hx. subst g3. cbn [clusters with_clusters]. rewrite lookup_alter_ne by congruence. reflexivity. }
  assert (K2 : clusters g3 !! p = Some (fa cp)).
  { subst g3. cbn [clusters with_clusters]. rewrite lookup_alter_eq, Hcp2. reflexivity. }
  assert (Hp2 : p ∉ l2) by (apply attach_disjoint; exact Hpin).
  assert (K3 : forall x, x ∈ l2 -> clusters g3 !! x = clusters g2 !! x).
  { intros x Hx. apply K1. intros ->. contradiction. }
  assert (Hdcp : dc <> p) by (intros ->; exact (fi_apart _ _ _ _ _ _ _ H1 Hpin)).
  destruct (fi_dir _ _ _ _ _ _ _ H1) as (dcl & Hdcl & Hdlen & Hduse & Hsz & Hcn).
  exists g3. split; [reflexivity |].
  constructor.
  - exact (fi_entry _ _ _ _ _ _ _ H1).
  - exact (fi_cluster _ _ _ _ _ _ _ H1).
  - exact (fi_idx _ _ _ _ _ _ _ H1).
  - exists dcl. rewrite (K1 dc Hdcp), attach_dir_kept. split_and!; try assumption.
    rewrite Hcn. destruct l; [contradiction | reflexivity].
  - rewrite attach_length'. lia.
  - rewrite attach_length', length_app. lia.
  - apply linked_app.
    + subst g3. cbn [clusters with_clusters].
      apply linked_alter_last; [exact (fi_nodup _ _ _ _ _ _ _ H1) | exact Hp |].
      apply (linked_ext (clusters g1)); [exact (fi_chain _ _ _ _ _ _ _ H1) |].
      intros x c Hx Hc. rewrite (attach_members_kept x Hx). eauto.
    + apply (linked_ext (clusters g2)); [exact Hlinked2 |].
      intros x c Hx Hc. rewrite (K3 x Hx). eauto.
    + intros p' Hp' _. rewrite Hp in Hp'. injection Hp' as <-.
      exists (fa cp). split; [exact K2 |]. subst fa. cbn [next mark_cluster set_next].
      apply u16_small. pose proof attach_head_range. lia.
  - intros x c Hx Hc. rewrite last_app in Hx.
    destruct (last l2) as [y |] eqn:Hy; [| apply last_None in Hy; contradiction].
    injection Hx as <-.
    assert (Hyin : y ∈ l2) by (apply last_Some_elem_of; exact Hy).
    rewrite (K3 y Hyin) in Hc. exact (Hlast2 y c eq_refl Hc).
  - intros x Hx. apply elem_of_app in Hx as [Hx | Hx].
    + destruct (fi_members _ _ _ _ _ _ _ H1 x Hx) as [Hr (c & Hc & Hu & Hd)].
      split; [change (hdr_cluster_count g3) with (hdr_cluster_count g2); rewrite Hcc2; exact Hr |].
      destruct (decide (x = p)) as [-> | Hne].
      * exists (fa cp). rewrite Hcp in Hc. injection Hc as <-.
        split_and!; [exact K2 | exact Hu | exact Hd].
      * exists c. rewrite (K1 x Hne), (attach_members_kept x Hx). split_and!; assumption.
    + destruct (Hmem2 x Hx) as [Hr _].
      split; [change (hdr_cluster_count g3) with (hdr_cluster_count g2); rewrite Hcc2; exact Hr |].
      destruct (Hzero2 x Hx) as (c & Hc & Hu & Hd).
      exists c. rewrite (K3 x Hx). split_and!; [exact Hc | lia |].
      rewrite Hd, length_zeros. clia.
  - apply NoDup_app. split_and!; [exact (fi_nodup _ _ _ _ _ _ _ H1) | | exact Hnd2].
    intros x Hx. apply attach_disjoint. exact Hx.
  - intros Hx. apply elem_of_app in Hx as [Hx | Hx];
      [exact (fi_apart _ _ _ _ _ _ _ H1 Hx) | exact (attach_dir_apart Hx)].
  - apply attach_bytes.
    + apply chain_data_ext. intros x Hx.
      destruct (decide (x = p)) as [-> | Hne].
      * rewrite K2, Hcp. reflexivity.
      * rewrite (K1 x Hne), (attach_members_kept x Hx). reflexivity.
    + apply chain_data_ext. intros x Hx. rewrite (K3 x Hx). reflexivity.
  - apply (all_cached_preserved g1); [exact (fi_cached _ _ _ _ _ _ _ H1) | exact Hcc2 |].
    intros x Hx. subst g3. cbn [clusters with_clusters]. rewrite is_Some_alter. apply Hdom2. exact Hx.
  - exact Hrange2.
Qed.

Lemma attach_first :
  l = [] ->
  exists g3,
    entry_store_cluster (it_entry it) (hd 0 l2) g2 = (Ok tt, g3) /\
    file_state g3 it (Z.of_nat (length content)) content' dc di (l ++ l2).
Proof.
  intros Hnil.
  destruct (fi_dir _ _ _ _ _ _ _ H1) as (dcl & Hdcl & Hdlen & Hduse & Hsz & Hcn).
  pose proof (fi_idx _ _ _ _ _ _ _ H1) as Hdi.
  pose proof attach_head_range as Hhr.
  pose proof attach_length' as Hlen'.
  pose proof attach_dir_apart as Hda.
  pose proof attach_bytes as Hbytes.
  assert (Hdcl2 : clusters g2 !! dc = Some dcl) by (rewrite attach_dir_kept; exact Hdcl).
  unfold entry_store_cluster. rewrite (fi_entry _ _ _ _ _ _ _ H1). cbn [write_entry].
  set (fs := fun c => set_data (set_bytes (di * DIR_ENTRY_SIZE + (FILENAME_SIZE + 4))
                        (le_encode 2 (hd 0 l2)) (data c)) c).
  rewrite (update_cluster_Some g2 dc dcl fs Hdcl2).
  set (g3 := with_clusters _ g2).
  assert (K2 : clusters g3 !! dc = Some (fs dcl)).
  { subst g3. cbn [clusters with_clusters]. rewrite lookup_alter_eq, Hdcl2. reflexivity. }
  assert (K3 : forall x, x ∈ l2 -> clusters g3 !! x = clusters g2 !! x).
  { intros x Hx. subst g3. cbn [clusters with_clusters].
    rewrite lookup_alter_ne; [reflexivity |]. intros <-. exact (Hda Hx). }
  exists g3. split; [reflexivity |].
  assert (Hcount' : Z.of_nat (length l2) = size_to_clusters new_size).
  { rewrite <- Hcount, Hnil. reflexivity. }
  specialize (Hbytes (clusters g3)).
  rewrite Hnil in Hbytes |- *. cbn [app chain_data] in Hbytes |- *.
  specialize (Hbytes eq_refl).
  constructor.
  - exact (fi_entry _ _ _ _ _ _ _ H1).
  - exact (fi_cluster _ _ _ _ _ _ _ H1).
  - exact Hdi.
  - exists (fs dcl). split; [exact K2 |]. subst fs. cbn [data set_data used].
    split_and!.
    + apply length_after_set_cluster; assumption.
    + exact Hduse.
    + rewrite size_after_set_cluster by assumption. exact Hsz.
    + rewrite cluster_after_set_cluster by assumption.
      apply Z.mod_small. lia.
  - rewrite Hlen'. lia.
  - rewrite Hlen'. exact Hcount'.
  - apply (linked_ext (clusters g2)); [exact Hlinked2 |].
    intros x c Hx Hc. rewrite (K3 x Hx). eauto.
  - intros x c Hx Hc.
    rewrite (K3 x) in Hc by (apply last_Some_elem_of; exact Hx). exact (Hlast2 x c Hx Hc).
  - intros x Hx. destruct (Hmem2 x Hx) as [Hr _].
    split; [change (hdr_cluster_count g3) with (hdr_cluster_count g2); rewrite Hcc2; exact Hr |].
    destruct (Hzero2 x Hx) as (c & Hc & Hu & Hd).
    exists c. rewrite (K3 x Hx). split_and!; [exact Hc | lia |].
    rewrite Hd, length_zeros. clia.
  - exact Hnd2.
  - exact Hda.
  - apply Hbytes.
    apply chain_data_ext. intros x Hx. rewrite (K3 x Hx). reflexivity.
  - apply (all_cached_preserved g1); [exact (fi_cached _ _ _ _ _ _ _ H1) | exact Hcc2 |].
    intros x Hx. subst g3. cbn [clusters with_clusters]. rewrite is_Some_alter. apply Hdom2. exact Hx.
  - exact Hrange2.
Qed.

End Attach.

(** ** Growing a file: the whole of [do_truncate] *)

(** A growing [do_truncate] either fails with [ENOSPC] and leaves the file
    as it was, or succeeds and appends zeros up to the new size. *)
Lemma do_truncate_grow fuel g it content dc di l new_size :
  file_inv g it content dc di l ->
  Z.of_nat (length content) < new_size <= FILESIZE_MAX ->
  exists g',
    (do_truncate fuel it new_size g = (Err ENOSPC, g') /\ file_inv g' it content dc di l) \/
    (exists l',
       do_truncate fuel it new_size g = (Ok tt, g') /\
       file_inv g' it (content ++ zeros (new_size - Z.of_nat (length content))) dc di l').
Proof.
  intros H Hnew.
  destruct (do_truncate_grow_unfold fuel g it content dc di l new_size H Hnew)
    as (g1 & H1 & Hdata & Hcc1 & Hrun).
  set (content' := content ++ zeros (new_size - Z.of_nat (length content))).
  assert (Hlen' : Z.of_nat (length content') = new_size).
  { subst content'. rewrite length_app, length_zeros. lia. }
  pose proof (size_to_clusters_bounds new_size ltac:(lia)) as (Hb0 & Hb1 & Hb2).
  pose proof (file_state_cluster_count _ _ _ _ _ _ _ H1) as [Hn1 Hn2].
  cbv zeta in Hrun.
  destruct (decide (size_to_clusters new_size - Z.of_nat (length l) <> 0)) as [Ha | Ha].
  - (* clusters are needed *)
    destruct (alloc_clusters_spec g1 (size_to_clusters new_size - Z.of_nat (length l)))
      as (g2 & Hcc2 & _ & _ & Hrange2 & Hdom2 & Hframe & Hres).
    { exact (fi_cached _ _ _ _ _ _ _ H1). }
    { exact (fi_range _ _ _ _ _ _ _ H1). }
    { unfold CLUSTER_DATA in *. lia. }
    destruct Hres as [Hfail | (l2 & Hok & Hlen2 & Hnd2 & Hmem2 & Hlinked2 & Hlast2 & Hzero2)].
    + exists g2. left. split.
      * rewrite Hrun. rewrite bind_assoc. rewrite (bind_Err _ _ _ _ _ Hfail). reflexivity.
      * apply (file_state_transfer g1); [exact H1 | exact Hcc2 | | exact Hrange2 |].
        -- apply (all_cached_preserved g1); [exact (fi_cached _ _ _ _ _ _ _ H1) | exact Hcc2 |].
           intros x. apply Hdom2.
        -- intros x c Hx Hc. exists c. split; [| apply same_payload_refl].
           rewrite Hframe; [exact Hc |].
           destruct Hx as [-> | Hx].
           ++ destruct (fi_dir _ _ _ _ _ _ _ H1) as (dcl & Hdcl & _ & Hduse & _).
              destruct Hduse as [-> | Hu]; [left; lia |].
              right. intros (c' & Hc' & Hu'). congruence.
           ++ right. intros (c' & Hc' & Hu').
              destruct (fi_members _ _ _ _ _ _ _ H1 x Hx) as [_ (c'' & Hc'' & Hu'' & _)].
              congruence.
    + assert (Hl2 : l2 <> []) by (intros ->; cbn [length] in Hlen2; lia).
      assert (Hcount : Z.of_nat (length l) + Z.of_nat (length l2) = size_to_clusters new_size) by lia.
      assert (Hstep : exists g3,
                 (match last l with
                  | Some p => update_cluster p (fun x => mark_cluster (set_next (hd 0 l2) x))
                  | None => entry_store_cluster (it_entry it) (hd 0 l2)
                  end) g2 = (Ok tt, g3) /\
                 file_state g3 it (Z.of_nat (length content)) content' dc di (l ++ l2)).
      { destruct (last l) as [p |] eqn:Hp.
        - apply (attach_to_last g1 g2 it content dc di l l2 new_size); assumption.
        - apply last_None in Hp.
          apply (attach_first g1 g2 it content dc di l l2 new_size); assumption. }
      destruct Hstep as (g3 & Hattach & H3).
      destruct (set_size_spec g3 it _ content' dc di (l ++ l2) H3) as (g' & Hset & H').
      rewrite Hlen' in Hset.
      exists g'. right. exists (l ++ l2). split; [| exact H'].
      rewrite Hrun. rewrite bind_assoc.
      rewrite (bind_Ok _ _ _ _ _ Hok).
      rewrite (bind_Ok _ _ _ _ _ Hattach). exact Hset.
  - (* the last cluster has room *)
    assert (Ha0 : size_to_clusters new_size = Z.of_nat (length l)) by lia.
    assert (H3 : file_state g1 it (Z.of_nat (length content)) content' dc di l).
    { apply (file_state_reshape g1 g1 it _ content content' dc di l H1); try reflexivity.
      - exact (fi_cached _ _ _ _ _ _ _ H1).
      - exact (fi_range _ _ _ _ _ _ _ H1).
      - intros c Hc. exists c. split; [exact Hc | apply same_payload_refl].
      - intros x c Hx Hc. exists c. split_and!; [exact Hc | reflexivity | reflexivity | reflexivity].
      - lia.
      - rewrite Hlen', Ha0. exact (fi_len _ _ _ _ _ _ _ H1).
      - rewrite Hdata. subst content'. rewrite take_app_zeros.
        + f_equal. f_equal. rewrite length_app, length_zeros. lia.
        + rewrite length_app. lia.
        + rewrite length_app, length_zeros. unfold CLUSTER_DATA in *. lia. }
    destruct (set_size_spec g1 it _ content' dc di l H3) as (g' & Hset & H').
    rewrite Hlen' in Hset.
    exists g'. right. exists l. split; [| exact H'].
    rewrite Hrun. exact Hset.
Qed.

(** ** Writing: the copy loop *)

Lemma chunk_eq size_ o :
  0 <= o < CLUSTER_DATA -> 0 <= size_ -> chunk size_ o = Z.min size_ (CLUSTER_DATA - o).
Proof.
  intros Ho Hs. unfold chunk, CLUSTER_DATA in *.
  destruct (decide (o + Z.min size_ 4092 > 4092)); lia.
Qed.

(** The copy loop of [ghostfs_write] on a chain with enough room: the bytes
    land in the payloads of the chain at offset [o], nothing else changes
    but dirty flags. *)
Lemma write_loop_spec (n : nat) :
  forall ls p buf o written g,
    linked (clusters g) (p :: ls) ->
    NoDup (p :: ls) ->
    (forall x, x ∈ p :: ls ->
       1 <= x < hdr_cluster_count g /\
       exists c, clusters g !! x = Some c /\ Z.of_nat (length (data c)) = CLUSTER_DATA) ->
    0 <= o < CLUSTER_DATA ->
    o + Z.of_nat (length buf) <= CLUSTER_DATA * Z.of_nat (length (p :: ls)) ->
    (length buf < n)%nat ->
    exists g',
      write_loop n p buf o written g = (Ok (written + Z.of_nat (length buf)), g') /\
      chain_data (clusters g') (p :: ls) = set_bytes o buf (chain_data (clusters g) (p :: ls)) /\
      hdr_cluster_count g' = hdr_cluster_count g /\
      gfs_free_clusters g' = gfs_free_clusters g /\
      (forall x, x ∉ p :: ls -> clusters g' !! x = clusters g !! x) /\
      (forall x c, x ∈ p :: ls -> clusters g !! x = Some c ->
         exists c', clusters g' !! x = Some c' /\ next c' = next c /\ used c' = used c /\
                    length (data c') = length (data c)).
Proof.
  induction n as [| n IH]; intros ls p buf o written g Hl Hnd Hm Ho Hfit Hn; [lia |].
  cbn [write_loop].
  destruct (Hm p ltac:(left)) as [Hpr (cp & Hcp & Hdp)].
  rewrite chunk_eq by lia.
  set (w := Z.min (Z.of_nat (length buf)) (CLUSTER_DATA - o)).
  set (f := fun x => mark_cluster (set_data (set_bytes o (take (Z.to_nat w) buf) (data x)) x)).
  rewrite (bind_Ok _ _ _ _ _ (update_cluster_Some g p cp f Hcp)).
  set (g1 := with_clusters _ g).
  assert (K2 : clusters g1 !! p = Some (f cp)).
  { subst g1. cbn [clusters with_clusters]. rewrite lookup_alter_eq, Hcp. reflexivity. }
  assert (K1 : forall x, x <> p -> clusters g1 !! x = clusters g !! x).
  { intros x Hx. subst g1. cbn [clusters with_clusters]. rewrite lookup_alter_ne by congruence. reflexivity. }
  assert (Hlenf : length (data (f cp)) = length (data cp)).
  { subst f. cbn [data mark_cluster set_data].
    apply length_set_bytes; [lia |]. rewrite length_take. unfold CLUSTER_DATA in *. lia. }
  apply NoDup_cons in Hnd as [Hpls Hnd].
  assert (Htail : chain_data (clusters g1) ls = chain_data (clusters g) ls).
  { apply chain_data_ext. intros x Hx. rewrite K1; [reflexivity |]. intros ->. contradiction. }
  destruct (decide (Z.of_nat (length buf) - w = 0)) as [Hdone | Hmore].
  - (* everything fits into this cluster *)
    assert (Hw : Z.to_nat w = length buf) by lia.
    exists g1. split_and!.
    + unfold ret. f_equal. f_equal. lia.
    + cbn [chain_data]. rewrite K2, Hcp, Htail.
      rewrite set_bytes_app_l by lia.
      f_equal. subst f. cbn [data mark_cluster set_data]. rewrite Hw, take_ge by lia. reflexivity.
    + reflexivity.
    + reflexivity.
    + intros x Hx. apply K1. intros ->. apply Hx. left.
    + intros x c Hx Hc. destruct (decide (x = p)) as [-> | Hne].
      * rewrite Hcp in Hc. injection Hc as <-. exists (f cp).
        split_and!; [exact K2 | reflexivity | reflexivity | exact Hlenf].
      * exists c. rewrite (K1 x Hne). split_and!; [exact Hc | reflexivity | reflexivity | reflexivity].
  - (* the rest goes to the next cluster *)
    assert (Hw : w = CLUSTER_DATA - o) by lia.
    destruct ls as [| q ls']; [cbn [length] in Hfit; unfold CLUSTER_DATA in *; lia |].
    destruct (linked_cons_next _ _ _ _ Hl) as (cp' & Hcp' & Hnq).
    rewrite Hcp in Hcp'. injection Hcp' as <-.
    destruct (Hm q ltac:(right; left)) as [Hqr (cq & Hcq & Hdq)].
    assert (Hqp : q <> p) by (intros ->; apply Hpls; left).
    assert (Hnext : cluster_get_next p g1 = (Ok q, g1)).
    { apply (cluster_get_next_follow g1 p (f cp)); [exact K2 | | ].
      - subst f. cbn [next mark_cluster set_data]. lia.
      - subst f. cbn [next mark_cluster set_data]. rewrite Hnq.
        apply (cluster_get_cached g1 q cq); [rewrite (K1 q Hqp); exact Hcq | exact (proj2 Hqr)]. }
    rewrite (bind_Ok _ _ _ _ _ Hnext).
    destruct (IH ls' q (drop (Z.to_nat w) buf) 0 (written + w) g1)
      as (g' & Hrun & Hdata & Hcc & Hfr & Hout & Hin).
    + apply (linked_ext (clusters g)); [exact (linked_tail _ _ _ Hl) |].
      intros x c Hx Hc. exists c. rewrite K1; [eauto |]. intros ->. contradiction.
    + exact Hnd.
    + intros x Hx. destruct (Hm x ltac:(right; exact Hx)) as [Hr (c & Hc & Hd)].
      split; [exact Hr |]. exists c. rewrite K1; [eauto |]. intros ->. contradiction.
    + unfold CLUSTER_DATA. lia.
    + rewrite length_drop. cbn [length] in *. unfold CLUSTER_DATA in *. lia.
    + rewrite length_drop. unfold CLUSTER_DATA in *. lia.
    + exists g'. split_and!.
      * rewrite Hrun. f_equal. f_equal. rewrite length_drop. unfold CLUSTER_DATA in *. lia.
      * change (chain_data (clusters g') (p :: q :: ls'))
          with ((match clusters g' !! p with Some c => data c | None => [] end)
                ++ chain_data (clusters g') (q :: ls')).
        rewrite Hdata, Hout, K2, Htail by exact Hpls.
        change (chain_data (clusters g) (p :: q :: ls'))
          with ((match clusters g !! p with Some c => data c | None => [] end)
                ++ chain_data (clusters g) (q :: ls')).
        rewrite Hcp.
        rewrite (set_bytes_split o buf (data cp)) by (unfold CLUSTER_DATA in *; lia).
        subst f. cbn [data mark_cluster set_data].
        replace (Z.to_nat (Z.of_nat (length (data cp)) - o)) with (Z.to_nat w) by lia.
        reflexivity.
      * rewrite Hcc. reflexivity.
      * rewrite Hfr. reflexivity.
      * intros x Hx. rewrite Hout by (intros Hx'; apply Hx; right; exact Hx').
        apply K1. intros ->. apply Hx. left.
      * intros x c Hx Hc. destruct (decide (x = p)) as [-> | Hne].
        -- rewrite Hcp in Hc. injection Hc as <-. exists (f cp).
           rewrite Hout by exact Hpls.
           split_and!; [exact K2 | reflexivity | reflexivity | exact Hlenf].
        -- apply elem_of_cons in Hx as [-> | Hx]; [contradiction |].
           apply (Hin x c Hx). rewrite (K1 x Hne). exact Hc.
Qed.

(** ** Reading: the copy loop *)

Lemma get_bytes_app_l off n (d1 d2 : list byte) :
  0 <= off -> 0 <= n -> off + n <= Z.of_nat (length d1) ->
  get_bytes off n (d1 ++ d2) = get_bytes off n d1.
Proof.
  intros Ho Hn Hlen. unfold get_bytes.
  rewrite drop_app_le by lia. rewrite take_app_le by (rewrite length_drop; lia).
  reflexivity.
Qed.

Lemma get_bytes_split off n (d1 d2 : list byte) :
  0 <= off <= Z.of_nat (length d1) -> Z.of_nat (length d1) <= off + n ->
  get_bytes off n (d1 ++ d2)
  = get_bytes off (Z.of_nat (length d1) - off) d1
    ++ get_bytes 0 (n - (Z.of_nat (length d1) - off)) d2.
Proof.
  intros Ho Hn. unfold get_bytes.
  rewrite drop_app_le by lia. rewrite take_app_ge by (rewrite length_drop; lia).
  rewrite length_drop. change (Z.to_nat 0) with 0%nat. rewrite drop_0.
  rewrite (take_ge (drop (Z.to_nat off) d1)) by (rewrite length_drop; lia).
  f_equal. f_equal. lia.
Qed.

Lemma get_bytes_0 n (d : list byte) : get_bytes 0 n d = take (Z.to_nat n) d.
Proof. unfold get_bytes. change (Z.to_nat 0) with 0%nat. rewrite drop_0. reflexivity. Qed.

(** The copy loop of [ghostfs_read] on a chain that holds the range: it
    returns the bytes of the payloads from offset [o] on and leaves the
    handle alone. *)
Lemma read_loop_spec (n : nat) :
  forall ls p size_ o acc nread g,
    linked (clusters g) (p :: ls) ->
    (forall x, x ∈ p :: ls ->
       1 <= x < hdr_cluster_count g /\
       exists c, clusters g !! x = Some c /\ Z.of_nat (length (data c)) = CLUSTER_DATA) ->
    0 <= o < CLUSTER_DATA -> 0 <= size_ ->
    o + size_ <= CLUSTER_DATA * Z.of_nat (length (p :: ls)) ->
    (Z.to_nat size_ < n)%nat ->
    read_loop n p size_ o acc nread g
    = (Ok (nread + size_, acc ++ get_bytes o size_ (chain_data (clusters g) (p :: ls))), g).
Proof.
  induction n as [| n IH]; intros ls p size_ o acc nread g Hl Hm Ho Hs Hfit Hn; [lia |].
  cbn [read_loop].
  destruct (Hm p ltac:(left)) as [Hpr (cp & Hcp & Hdp)].
  rewrite chunk_eq by lia.
  set (r := Z.min size_ (CLUSTER_DATA - o)).
  rewrite (bind_Ok _ _ _ _ _ (deref_Some _ _ _ Hcp)).
  cbn [chain_data]. rewrite Hcp.
  destruct (decide (size_ - r = 0)) as [Hdone | Hmore].
  - assert (Hr : r = size_) by lia.
    unfold ret. rewrite Hr. rewrite get_bytes_app_l by lia. reflexivity.
  - assert (Hr : r = CLUSTER_DATA - o) by lia.
    destruct ls as [| q ls']; [cbn [length] in Hfit; unfold CLUSTER_DATA in *; lia |].
    destruct (linked_cons_next _ _ _ _ Hl) as (cp' & Hcp' & Hnq).
    rewrite Hcp in Hcp'. injection Hcp' as <-.
    destruct (Hm q ltac:(right; left)) as [Hqr (cq & Hcq & Hdq)].
    assert (Hnext : cluster_get_next p g = (Ok q, g)).
    { apply (cluster_get_next_follow g p cp); [exact Hcp | lia |].
      rewrite Hnq. apply (cluster_get_cached g q cq); [exact Hcq | exact (proj2 Hqr)]. }
    rewrite (bind_Ok _ _ _ _ _ Hnext).
    rewrite (IH ls' q (size_ - r) 0 _ (nread + r) g).
    + rewrite (get_bytes_split o size_ (data cp)) by (unfold CLUSTER_DATA in *; lia).
      rewrite Hdp, <- Hr. rewrite <- app_assoc.
      replace (nread + r + (size_ - r)) with (nread + size_) by lia.
      reflexivity.
    + exact (linked_tail _ _ _ Hl).
    + intros x Hx. apply Hm. right. exact Hx.
    + unfold CLUSTER_DATA. lia.
    + lia.
    + cbn [length] in *. unfold CLUSTER_DATA in *. lia.
    + unfold CLUSTER_DATA in *. lia.
Qed.

(** ** Locating and reading back the content *)

Lemma linked_drop (m : gmap Z cluster) (k : nat) : forall l, linked m l -> linked m (drop k l).
Proof.
  induction k as [| k IH]; intros l Hl; [rewrite drop_0; exact Hl |].
  destruct l as [| a l]; [exact I |].
  cbn [drop]. apply IH. exact (linked_tail _ _ _ Hl).
Qed.

Lemma size_to_clusters_zero s : 0 <= s -> size_to_clusters s = 0 -> s = 0.
Proof.
  intros Hs H. pose proof (size_to_clusters_bounds s Hs) as (_ & Hb & _).
  rewrite H in Hb. lia.
Qed.

Lemma file_state_empty_chain g it st bytes dc di :
  file_state g it st bytes dc di [] -> bytes = [].
Proof.
  intros Hst. pose proof (fi_len _ _ _ _ _ _ _ Hst) as Hlen. cbn [length] in Hlen.
  symmetry in Hlen. apply size_to_clusters_zero in Hlen; [| lia].
  destruct bytes; [reflexivity | cbn [length] in Hlen; lia].
Qed.

Lemma file_state_member_range g it st bytes dc di l x :
  file_state g it st bytes dc di l -> x ∈ l -> 1 <= x < hdr_cluster_count g.
Proof. intros Hst Hx. exact (proj1 (fi_members _ _ _ _ _ _ _ Hst x Hx)). Qed.

(** The lookup of the cluster that holds [offset], as both [ghostfs_write]
    and [ghostfs_read] do it. *)
Lemma file_state_cluster_at g it st bytes dc di l offset :
  file_state g it st bytes dc di l ->
  0 <= offset < CLUSTER_DATA * Z.of_nat (length l) ->
  exists p, l !! Z.to_nat (offset / CLUSTER_DATA) = Some p /\
    cluster_at (hd 0 l) (s32 (offset / CLUSTER_DATA)) g = (Ok (Some p), g).
Proof.
  intros Hst Ho.
  pose proof (file_state_cluster_count _ _ _ _ _ _ _ Hst) as [Hlo Hhi].
  pose proof (fi_size _ _ _ _ _ _ _ Hst) as Hmax.
  assert (Hq : 0 <= offset / CLUSTER_DATA < Z.of_nat (length l)).
  { split; [apply Z.div_pos; unfold CLUSTER_DATA; lia |].
    apply Z.div_lt_upper_bound; unfold CLUSTER_DATA in *; lia. }
  assert (Hcap : Z.of_nat (length l) < 2 ^ 31) by (unfold CLUSTER_DATA, FILESIZE_MAX in *; lia).
  rewrite s32_small.
  2:{ lia. }
  destruct l as [| a l']; [cbn [length] in Hq; lia |].
  unfold cluster_at. cbn [hd].
  replace (Z.to_nat (offset / CLUSTER_DATA + 1)) with (S (Z.to_nat (offset / CLUSTER_DATA))) by lia.
  rewrite (cluster_at_loop_chain _ l' a None g).
  - destruct (lookup_lt_is_Some_2 (a :: l') (Z.to_nat (offset / CLUSTER_DATA)) ltac:(lia)) as [p Hp].
    exists p. rewrite Hp. split; reflexivity.
  - exact (fi_chain _ _ _ _ _ _ _ Hst).
  - intros x Hx. exact (file_state_member_range _ _ _ _ _ _ _ _ Hst Hx).
  - lia.
Qed.

(** Past the last cluster of the chain the lookup fails. *)
Lemma file_state_cluster_at_end g it st bytes dc di l :
  file_state g it st bytes dc di l ->
  Z.of_nat (length bytes) = CLUSTER_DATA * Z.of_nat (length l) ->
  cluster_at (hd 0 l) (s32 (Z.of_nat (length bytes) / CLUSTER_DATA)) g = (Err EIO, g).
Proof.
  intros Hst Hfull.
  pose proof (fi_size _ _ _ _ _ _ _ Hst) as Hmax.
  assert (Hq : Z.of_nat (length bytes) / CLUSTER_DATA = Z.of_nat (length l)).
  { rewrite Hfull, Z.mul_comm. apply Z.div_mul. unfold CLUSTER_DATA. lia. }
  rewrite Hq. rewrite s32_small by (unfold CLUSTER_DATA, FILESIZE_MAX in *; lia).
  unfold cluster_at.
  replace (Z.to_nat (Z.of_nat (length l) + 1)) with (S (length l)) by lia.
  destruct l as [| a l'].
  - cbn [hd length]. apply cluster_at_loop_no_chain.
  - cbn [hd]. apply cluster_at_loop_past_end.
    + exact (fi_chain _ _ _ _ _ _ _ Hst).
    + intros x Hx. exact (file_state_member_range _ _ _ _ _ _ _ _ Hst Hx).
    + exact (fi_last _ _ _ _ _ _ _ Hst).
Qed.

(** Reading the whole file back. *)
Lemma ghostfs_read_whole g it content dc di l :
  file_inv g it content dc di l ->
  ghostfs_read it (Z.of_nat (length content)) 0 g
  = (Ok (Z.of_nat (length content), content), g).
Proof.
  intros Hinv. unfold file_inv in Hinv.
  pose proof (fi_size _ _ _ _ _ _ _ Hinv) as Hmax.
  unfold ghostfs_read.
  destruct (decide (0 < 0)) as [? | _]; [lia |].
  rewrite Z.add_0_r, Z.add_0_l.
  rewrite u64_small by (unfold FILESIZE_MAX in *; lia).
  destruct (decide (Z.of_nat (length content) < Z.of_nat (length content))) as [? | _]; [lia |].
  destruct (file_state_read_entry _ _ _ _ _ _ _ Hinv) as (e & He & Hsz & Hcn).
  rewrite (bind_Ok _ _ _ _ _ He). rewrite Hsz, Hcn.
  destruct (decide (0 > Z.of_nat (length content))) as [? | _]; [lia |].
  destruct (decide (Z.of_nat (length content) > Z.of_nat (length content))) as [? | _]; [lia |].
  destruct (decide (Z.of_nat (length content) = 0)) as [Hz | Hnz].
  - destruct content; [reflexivity | cbn [length] in Hz; lia].
  - pose proof (file_state_cluster_count _ _ _ _ _ _ _ Hinv) as [Hlo0 Hhi0].
    destruct (file_state_cluster_at _ _ _ _ _ _ _ 0 Hinv ltac:(lia)) as (p & Hp & Hat).
    rewrite (bind_Ok _ _ _ _ _ Hat).
    change (0 / CLUSTER_DATA) with 0 in Hp. change (Z.to_nat 0) with 0%nat in Hp.
    destruct l as [| a l']; [discriminate Hp |].
    cbn in Hp. injection Hp as <-.
    change (0 mod CLUSTER_DATA) with 0.
    pose proof (file_state_cluster_count _ _ _ _ _ _ _ Hinv) as [Hlo Hhi].
    rewrite (read_loop_spec _ l' a).
    + rewrite Z.add_0_l, app_nil_l, get_bytes_0, Nat2Z.id.
      rewrite <- (fi_content _ _ _ _ _ _ _ Hinv). reflexivity.
    + exact (fi_chain _ _ _ _ _ _ _ Hinv).
    + intros x Hx. destruct (fi_members _ _ _ _ _ _ _ Hinv x Hx) as [Hr (c & Hc & _ & Hd)].
      split; [exact Hr | eauto].
    + unfold CLUSTER_DATA. lia.
    + lia.
    + lia.
    + lia.
Qed.

(** The second half of [ghostfs_write], once the file is long enough: the
    range is overwritten in place; only a write of no bytes at the very end
    of a file that fills its chain finds no cluster. *)
Lemma ghostfs_write_in_place g it content dc di l buf offset :
  file_inv g it content dc di l ->
  0 <= offset -> offset + Z.of_nat (length buf) <= Z.of_nat (length content) ->
  (exists g',
     (let* e' := read_entry (it_entry it) in
      let* c := cluster_at (cluster_nr e') (s32 (offset / CLUSTER_DATA)) in
      match c with
      | Some p => write_loop (S (length buf)) p buf (offset mod CLUSTER_DATA) 0
      | None => undefined
      end) g = (Ok (Z.of_nat (length buf)), g') /\
     file_inv g' it (set_bytes offset buf content) dc di l)
  \/ (buf = [] /\
      (let* e' := read_entry (it_entry it) in
       let* c := cluster_at (cluster_nr e') (s32 (offset / CLUSTER_DATA)) in
       match c with
       | Some p => write_loop (S (length buf)) p buf (offset mod CLUSTER_DATA) 0
       | None => undefined
       end) g = (Err EIO, g)).
Proof.
  intros Hinv Ho Hfit. unfold file_inv in Hinv.
  pose proof (fi_size _ _ _ _ _ _ _ Hinv) as Hmax.
  pose proof (file_state_cluster_count _ _ _ _ _ _ _ Hinv) as [Hlo Hhi].
  destruct (file_state_read_entry _ _ _ _ _ _ _ Hinv) as (e & He & Hsz & Hcn).
  rewrite !(bind_Ok _ _ _ _ _ He). rewrite Hcn.
  destruct (decide (offset < CLUSTER_DATA * Z.of_nat (length l))) as [Hin | Hout].
  - left.
    destruct (file_state_cluster_at _ _ _ _ _ _ _ offset Hinv ltac:(lia)) as (p & Hp & Hat).
    rewrite (bind_Ok _ _ _ _ _ Hat).
    set (i := Z.to_nat (offset / CLUSTER_DATA)) in *.
    assert (Hdiv : offset = CLUSTER_DATA * Z.of_nat i + offset mod CLUSTER_DATA).
    { unfold i. rewrite Z2Nat.id by (apply Z.div_pos; unfold CLUSTER_DATA; lia).
      apply Z.div_mod. unfold CLUSTER_DATA. lia. }
    assert (Hmod : 0 <= offset mod CLUSTER_DATA < CLUSTER_DATA)
      by (apply Z.mod_pos_bound; unfold CLUSTER_DATA; lia).
    pose proof (take_drop_middle l i p Hp) as Hsplit.
    pose proof (lookup_lt_Some _ _ _ Hp) as Hilt.
    set (ls := drop (S i) l) in *.
    assert (Hsuffix : drop i l = p :: ls).
    { rewrite <- Hsplit at 1. rewrite drop_app_length'; [reflexivity |].
      rewrite length_take. lia. }
    assert (Hlen_s : Z.of_nat (length (p :: ls)) = Z.of_nat (length l) - Z.of_nat i).
    { rewrite <- Hsuffix, length_drop. lia. }
    assert (Hsub : forall x, x ∈ p :: ls -> x ∈ l).
    { intros x Hx. rewrite <- Hsplit. apply elem_of_app. right. exact Hx. }
    assert (Hnd : NoDup (take i l ++ p :: ls)) by (rewrite Hsplit; exact (fi_nodup _ _ _ _ _ _ _ Hinv)).
    apply NoDup_app in Hnd as (Hnd1 & Hdisj & Hnd2).
    destruct (write_loop_spec (S (length buf)) ls p buf (offset mod CLUSTER_DATA) 0 g)
      as (g' & Hrun & Hdata & Hcc & Hfree & Hother & Hmemb).
    { rewrite <- Hsuffix. apply linked_drop. exact (fi_chain _ _ _ _ _ _ _ Hinv). }
    { exact Hnd2. }
    { intros x Hx. destruct (fi_members _ _ _ _ _ _ _ Hinv x (Hsub x Hx)) as [Hr (c & Hc & _ & Hd)].
      split; [exact Hr | eauto]. }
    { exact Hmod. }
    { rewrite Hlen_s. unfold CLUSTER_DATA in *. lia. }
    { lia. }
    exists g'. split; [rewrite Hrun; rewrite Z.add_0_l; reflexivity |].
    assert (Hkeep : forall x c, x ∈ l -> clusters g !! x = Some c ->
              exists c', clusters g' !! x = Some c' /\ next c' = next c /\ used c' = used c /\
                         length (data c') = length (data c)).
    { intros x c Hx Hc. destruct (decide (x ∈ p :: ls)) as [Hxs | Hxs].
      - exact (Hmemb x c Hxs Hc).
      - exists c. rewrite (Hother x Hxs). split_and!; [exact Hc | reflexivity..]. }
    assert (Hall : forall x, is_Some (clusters g !! x) -> is_Some (clusters g' !! x)).
    { intros x [c Hc]. destruct (decide (x ∈ p :: ls)) as [Hxs | Hxs].
      - destruct (Hmemb x c Hxs Hc) as (c' & Hc' & _). eauto.
      - rewrite (Hother x Hxs). eauto. }
    assert (Hlen' : length (set_bytes offset buf content) = length content)
      by (apply length_set_bytes; lia).
    unfold file_inv. rewrite Hlen'.
    apply (file_state_reshape g g' it _ content); try assumption.
    + exact (all_cached_preserved g g' (fi_cached _ _ _ _ _ _ _ Hinv) Hcc Hall).
    + destruct (fi_range _ _ _ _ _ _ _ Hinv) as [R1 R2].
      split; [rewrite Hcc; exact R1 | rewrite Hfree; exact R2].
    + intros c Hc. exists c. split; [| apply same_payload_refl].
      rewrite Hother; [exact Hc |].
      intros Hx. exact (fi_apart _ _ _ _ _ _ _ Hinv (Hsub _ Hx)).
    + rewrite Hlen'. lia.
    + rewrite Hlen'. reflexivity.
    + rewrite Hlen'.
      assert (Hpre : chain_data (clusters g') (take i l) = chain_data (clusters g) (take i l)).
      { apply chain_data_ext. intros x Hx. rewrite Hother; [reflexivity |].
        intros Hxs. exact (Hdisj x Hx Hxs). }
      assert (Hprelen : Z.of_nat (length (chain_data (clusters g) (take i l)))
                        = CLUSTER_DATA * Z.of_nat i).
      { rewrite length_chain_data.
        - rewrite length_take. f_equal. lia.
        - intros x Hx. apply elem_of_take in Hx as (j & Hj & _).
          apply list_elem_of_lookup_2 in Hj.
          destruct (fi_members _ _ _ _ _ _ _ Hinv x Hj) as [_ (c & Hc & _ & Hd)]. eauto. }
      assert (Hwhole : chain_data (clusters g') l
                       = set_bytes offset buf (chain_data (clusters g) l)).
      { rewrite <- Hsplit at 1 2. rewrite !chain_data_app, Hpre, Hdata.
        rewrite set_bytes_app_r by lia. rewrite Hprelen. do 2 f_equal. lia. }
      rewrite Hwhole.
      pose proof (file_state_chain_length _ _ _ _ _ _ _ Hinv) as Hcl.
      rewrite take_set_bytes by lia.
      rewrite <- (fi_content _ _ _ _ _ _ _ Hinv). reflexivity.
  - right.
    assert (Hbuf : buf = []) by (destruct buf; [reflexivity | cbn [length] in Hfit; lia]).
    split; [exact Hbuf |].
    assert (Hoff : offset = Z.of_nat (length content)) by (subst buf; cbn [length] in Hfit; lia).
    assert (Hfull : Z.of_nat (length content) = CLUSTER_DATA * Z.of_nat (length l)) by lia.
    rewrite Hoff. rewrite (bind_Err _ _ _ _ _ (file_state_cluster_at_end _ _ _ _ _ _ _ Hinv Hfull)).
    reflexivity.
Qed.

(** ** Writes and the content of the file *)

(** The reference semantics byte by byte: inside the written range the
    byte of the buffer wins, outside it the old byte stays, and the gap
    between the old end and the range holds zeros. *)
Lemma lookup_apply_write content offset (buf : list byte) (i : nat) :
  0 <= offset ->
  apply_write content offset buf !! i =
    if decide (offset <= Z.of_nat i < offset + Z.of_nat (length buf))
    then buf !! (i - Z.to_nat offset)%nat
    else if decide (Z.of_nat i < Z.of_nat (length content)) then content !! i
    else if decide (Z.of_nat i < offset) then Some x00
    else None.
Proof.
  intros Ho. unfold apply_write.
  rewrite lookup_set_bytes by (rewrite ?length_app, ?length_zeros; lia).
  destruct (decide (Z.of_nat i < offset)) as [Hlt | Hge].
  - destruct (decide (offset <= Z.of_nat i < offset + Z.of_nat (length buf))); [lia |].
    destruct (decide (Z.of_nat i < Z.of_nat (length content))).
    + apply lookup_app_l. lia.
    + rewrite lookup_app_r by lia. rewrite lookup_zeros.
      destruct (decide _); [reflexivity | lia].
  - destruct (decide (Z.of_nat i < offset + Z.of_nat (length buf))) as [Hin | Hout].
    + destruct (decide (offset <= Z.of_nat i < offset + Z.of_nat (length buf))); [reflexivity | lia].
    + destruct (decide (offset <= Z.of_nat i < offset + Z.of_nat (length buf))); [lia |].
      destruct (decide (Z.of_nat i < Z.of_nat (length content))).
      * apply lookup_app_l. lia.
      * rewrite lookup_app_r by lia. rewrite lookup_zeros.
        destruct (decide _); [lia | reflexivity].
Qed.


Lemma zeros_nonpos n : n <= 0 -> zeros n = [].
Proof. intros H. unfold zeros. replace (Z.to_nat n) with 0%nat by lia. reflexivity. Qed.

Lemma length_apply_write content offset (buf : list byte) :
  0 <= offset ->
  Z.of_nat (length (apply_write content offset buf))
  = Z.max (Z.of_nat (length content)) (offset + Z.of_nat (length buf)).
Proof.
  intros Ho. unfold apply_write.
  rewrite length_set_bytes; rewrite ?length_app, ?length_zeros; lia.
Qed.

(** Zeros that follow the content stay behind it, or are absorbed, when a
    write is applied. *)
Lemma apply_write_padded content k offset (buf : list byte) :
  0 <= offset -> 0 <= k ->
  exists k', 0 <= k' /\ (k = 0 -> k' = 0) /\
    apply_write (content ++ zeros k) offset buf = apply_write content offset buf ++ zeros k'.
Proof.
  intros Ho Hk. unfold apply_write.
  set (n := Z.of_nat (length content)). set (m := offset + Z.of_nat (length buf)).
  rewrite length_app, length_zeros.
  replace (m - Z.of_nat (length content + Z.to_nat k)) with (m - n - k) by lia.
  rewrite <- app_assoc.
  destruct (decide (m <= n)) as [H1 | H1].
  - exists k. split_and!; [lia | tauto |].
    rewrite (zeros_nonpos (m - n - k)), (zeros_nonpos (m - n)) by lia.
    rewrite !app_nil_r. apply set_bytes_app_l; [lia | fold n; lia].
  - destruct (decide (m <= n + k)) as [H2 | H2].
    + exists (k - (m - n)). split_and!; [lia | lia |].
      rewrite (zeros_nonpos (m - n - k)) by lia. rewrite app_nil_r.
      replace k with ((m - n) + (k - (m - n))) at 1 by lia.
      rewrite <- zeros_app by lia. rewrite app_assoc.
      apply set_bytes_app_l; [lia |].
      rewrite length_app, length_zeros. fold n. lia.
    + exists 0. split_and!; [lia | tauto |].
      rewrite zeros_app by lia. rewrite (zeros_nonpos 0), app_nil_r by lia.
      do 3 f_equal. lia.
Qed.

Lemma do_truncate_negative fuel it n g : n < 0 -> do_truncate fuel it n g = (Err EINVAL, g).
Proof. intros H. unfold do_truncate. destruct (decide (n < 0)); [reflexivity | lia]. Qed.

Lemma do_truncate_too_big fuel it n g :
  n > FILESIZE_MAX -> do_truncate fuel it n g = (Err EFBIG, g).
Proof.
  intros H. unfold do_truncate.
  destruct (decide (n < 0)); [unfold FILESIZE_MAX in *; lia |].
  destruct (decide (n > FILESIZE_MAX)); [reflexivity | lia].
Qed.

(** One call of [ghostfs_write] on an open file, with arguments of the C
    types: either it returns the length of the buffer and the content is the
    old one with the write applied, or it fails and the content is the old
    one, possibly followed by zeros when the buffer is empty. *)
Lemma ghostfs_write_spec fuel g it content dc di l (buf : list byte) offset :
  file_inv g it content dc di l ->
  offset < 2 ^ 63 -> Z.of_nat (length buf) < 2 ^ 64 ->
  exists g' l',
    (ghostfs_write fuel it buf offset g = (Ok (Z.of_nat (length buf)), g') /\
     0 <= offset /\
     file_inv g' it (apply_write content offset buf) dc di l')
    \/ (exists e k,
          ghostfs_write fuel it buf offset g = (Err e, g') /\
          0 <= k /\ (buf <> [] -> k = 0) /\
          file_inv g' it (content ++ zeros k) dc di l').
Proof.
  intros Hinv Ho Hs.
  assert (Hsame : file_inv g it (content ++ zeros 0) dc di l)
    by (rewrite (zeros_nonpos 0), app_nil_r by lia; exact Hinv).
  pose proof (fi_size _ _ _ _ _ _ _ Hinv) as Hmax.
  unfold ghostfs_write.
  destruct (decide (offset < 0)) as [Hneg | Hpos].
  { exists g, l. right. exists EINVAL, 0. split_and!; [reflexivity | lia | tauto | exact Hsame]. }
  destruct (decide (u64 (Z.of_nat (length buf) + offset) < Z.of_nat (length buf))) as [Hov | Hnov].
  { exists g, l. right. exists EOVERFLOW, 0. split_and!; [reflexivity | lia | tauto | exact Hsame]. }
  assert (Hsum : Z.of_nat (length buf) + offset < 2 ^ 64).
  { destruct (decide (Z.of_nat (length buf) + offset < 2 ^ 64)) as [? | Hbig]; [assumption |].
    exfalso. apply Hnov. unfold u64.
    replace (Z.of_nat (length buf) + offset)
      with ((Z.of_nat (length buf) + offset - 2 ^ 64) + 1 * 2 ^ 64) by lia.
    rewrite Z.mod_add by lia. rewrite Z.mod_small by lia. lia. }
  destruct (file_state_read_entry _ _ _ _ _ _ _ Hinv) as (e & He & Hsz & Hcn).
  rewrite (bind_Ok _ _ _ _ _ He). rewrite Hsz.
  rewrite (u64_small (offset + Z.of_nat (length buf))) by lia.
  destruct (decide (Z.of_nat (length content) < offset + Z.of_nat (length buf))) as [Hgrow | Hstay].
  - destruct (decide (offset + Z.of_nat (length buf) < 2 ^ 63)) as [Hoff | Hoff].
    + rewrite s64_small by lia.
      destruct (decide (offset + Z.of_nat (length buf) > FILESIZE_MAX)) as [Hbig | Hok].
      { exists g, l. right. exists EFBIG, 0.
        split_and!; [| lia | tauto | exact Hsame].
        apply bind_Err. apply do_truncate_too_big. exact Hbig. }
      destruct (do_truncate_grow fuel g it content dc di l (offset + Z.of_nat (length buf)) Hinv
                  ltac:(lia)) as (g1 & [[Ht Hi] | (l1 & Ht & Hi)]).
      { exists g1, l. right. exists ENOSPC, 0.
        split_and!; [| lia | tauto |].
        - apply bind_Err. exact Ht.
        - rewrite (zeros_nonpos 0), app_nil_r by lia. exact Hi. }
      rewrite (bind_Ok _ _ _ _ _ Ht).
      destruct (ghostfs_write_in_place g1 it _ dc di l1 buf offset Hi ltac:(lia))
        as [(g' & Hrun & Hinv') | (Hbuf & Hrun)].
      { rewrite length_app, length_zeros. lia. }
      * exists g', l1. left. split_and!; [exact Hrun | lia | exact Hinv'].
      * exists g1, l1. right. exists EIO, (offset + Z.of_nat (length buf) - Z.of_nat (length content)).
        split_and!; [exact Hrun | lia | intros Hne; contradiction | exact Hi].
    + exists g, l. right. exists EINVAL, 0.
      split_and!; [| lia | tauto | exact Hsame].
      apply bind_Err. apply do_truncate_negative.
      unfold s64. rewrite u64_small by lia.
      destruct (decide (offset + Z.of_nat (length buf) < 2 ^ 63)); lia.
  - rewrite (bind_Ok _ _ _ _ _ (eq_refl : ret tt g = (Ok tt, g))).
    destruct (ghostfs_write_in_place g it content dc di l buf offset Hinv ltac:(lia) ltac:(lia))
      as [(g' & Hrun & Hinv') | (Hbuf & Hrun)].
    * exists g', l. left. split_and!; [exact Hrun | lia |].
      unfold apply_write. rewrite zeros_nonpos, app_nil_r by lia. exact Hinv'.
    * exists g, l. right. exists EIO, 0.
      split_and!; [exact Hrun | lia | tauto | exact Hsame].
Qed.

(** A sequence of calls: the content at the end is the replay of the calls
    that returned a count, followed by the zeros that failed calls with an
    empty buffer have appended. *)
Lemma write_all_spec fuel it dc di :
  forall ws g content k l,
    file_inv g it (content ++ zeros k) dc di l -> 0 <= k ->
    Forall (fun w => fst w < 2 ^ 63 /\ Z.of_nat (length (snd w)) < 2 ^ 64) ws ->
    exists oks g' k' l',
      write_all fuel it ws g = (Ok oks, g') /\
      Forall (fun r => snd r = Z.of_nat (length (snd (fst r)))) oks /\
      0 <= k' /\
      (k = 0 -> Forall (fun w => snd w <> []) ws -> k' = 0) /\
      file_inv g' it (replay_from content (map fst oks) ++ zeros k') dc di l'.
Proof.
  induction ws as [| [off buf] ws IH]; intros g content k l Hinv Hk Hty.
  - exists [], g, k, l. split_and!; [reflexivity | constructor | lia | tauto | exact Hinv].
  - apply Forall_cons in Hty as [[Ho Hs] Hty]. cbn [fst snd] in Ho, Hs.
    cbn [write_all fst snd].
    destruct (ghostfs_write_spec fuel g it _ dc di l buf off Hinv Ho Hs)
      as (g1 & l1 & [(Hrun & Hoff & Hinv1) | (e & k1 & Hrun & Hk1 & Hne & Hinv1)]).
    + destruct (apply_write_padded content k off buf Hoff Hk) as (k2 & Hk2 & Hz & Heq).
      rewrite Heq in Hinv1.
      destruct (IH g1 _ k2 l1 Hinv1 Hk2 Hty) as (oks & g' & k' & l' & Hall & Hcnt & Hk' & Hzero & Hinv').
      exists ((off, buf, Z.of_nat (length buf)) :: oks), g', k', l'.
      split_and!.
      * rewrite (bind_Ok _ _ _ _ _ (try_Ok _ _ _ _ Hrun)).
        rewrite (bind_Ok _ _ _ _ _ Hall). reflexivity.
      * constructor; [reflexivity | exact Hcnt].
      * exact Hk'.
      * intros K0 Hnon. apply Forall_cons in Hnon as [_ Hnon]. apply Hzero; [auto | exact Hnon].
      * exact Hinv'.
    + rewrite <- app_assoc, zeros_app in Hinv1 by lia.
      destruct (IH g1 content (k + k1) l1 Hinv1 ltac:(lia) Hty)
        as (oks & g' & k' & l' & Hall & Hcnt & Hk' & Hzero & Hinv').
      exists oks, g', k', l'.
      split_and!.
      * rewrite (bind_Ok _ _ _ _ _ (try_Err _ _ _ _ Hrun)).
        rewrite (bind_Ok _ _ _ _ _ Hall). reflexivity.
      * exact Hcnt.
      * exact Hk'.
      * intros K0 Hnon. apply Forall_cons in Hnon as [Hb Hnon]. cbn [snd] in Hb.
        apply Hzero; [rewrite (Hne Hb); lia | exact Hnon].
      * exact Hinv'.
Qed.

(** A file as [ghostfs_create] leaves it, alone on the handle, then any
    sequence of [ghostfs_write] calls with arguments of the C types and
    nothing else done on the handle: every call that
    does not fail returns the length of its buffer, and reading the whole
    file from offset 0 afterwards returns the replay of those calls on the
    empty file -- each write zero-extends the content up to its end, then
    overwrites its range -- followed by zeros; there are no such trailing
    zeros when no call had an empty buffer.  The size in the record of the
    file is the length of that byte string. *)
Theorem read_returns_replay_of_writes fuel g it ws :
  fresh_file g it ->
  Forall (fun w => fst w < 2 ^ 63 /\ Z.of_nat (length (snd w)) < 2 ^ 64) ws ->
  exists oks g' k,
    write_all fuel it ws g = (Ok oks, g') /\
    Forall (fun r => snd r = Z.of_nat (length (snd (fst r)))) oks /\
    0 <= k /\
    (Forall (fun w => snd w <> []) ws -> k = 0) /\
    (exists e, read_entry (it_entry it) g' = (Ok e, g') /\
               size e = Z.of_nat (length (replay (map fst oks) ++ zeros k))) /\
    ghostfs_read it (Z.of_nat (length (replay (map fst oks) ++ zeros k))) 0 g'
    = (Ok (Z.of_nat (length (replay (map fst oks) ++ zeros k)),
           replay (map fst oks) ++ zeros k), g').
Proof.
  intros (dc & di & Hinv) Hty.
  destruct (write_all_spec fuel it dc di ws g [] 0 [] Hinv ltac:(lia) Hty)
    as (oks & g' & k & l' & Hall & Hcnt & Hk & Hzero & Hinv').
  exists oks, g', k. split_and!.
  - exact Hall.
  - exact Hcnt.
  - exact Hk.
  - intros Hnon. apply Hzero; [reflexivity | exact Hnon].
  - destruct (file_state_read_entry _ _ _ _ _ _ _ Hinv') as (e & He & Hsz & _). eauto.
  - exact (ghostfs_read_whole _ _ _ _ _ _ Hinv').
Qed.

(** ** The round trip on a concrete file *)

(** ["/a"], just created in the root and opened, is a fresh file. *)
Lemma fresh_file_created_a : fresh_file created_a opened_a.
Proof.
  exists 0, 0. unfold file_inv. constructor.
  - vm_compute. reflexivity.
  - vm_compute. reflexivity.
  - unfold CLUSTER_DIRENTS. lia.
  - exists (default dirty_cluster (clusters created_a !! 0)).
    split_and!; [vm_compute; reflexivity | vm_compute; reflexivity | left; reflexivity
                | vm_compute; reflexivity | vm_compute; reflexivity].
  - cbn [length]. unfold FILESIZE_MAX. lia.
  - vm_compute. reflexivity.
  - exact I.
  - intros x c Hx. discriminate Hx.
  - intros x Hx. inversion Hx.
  - constructor.
  - intros Hx. inversion Hx.
  - reflexivity.
  - intros nr Hnr.
    assert (E : hdr_cluster_count created_a = 3) by (vm_compute; reflexivity).
    rewrite E in Hnr.
    assert (Hcases : nr = 1 \/ nr = 2) by lia.
    destruct Hcases as [-> | ->]; apply (bool_decide_unpack _); vm_compute; reflexivity.
  - assert (E1 : hdr_cluster_count created_a = 3) by (vm_compute; reflexivity).
    assert (E2 : gfs_free_clusters created_a = 2) by (vm_compute; reflexivity).
    unfold fields_in_range. rewrite E1, E2. lia.
Qed.

Lemma read_returns_replay_of_writes_witness :
  exists oks g' k,
    write_all 100 opened_a [(0, path_of "hello")] created_a = (Ok oks, g') /\
    Forall (fun r => snd r = Z.of_nat (length (snd (fst r)))) oks /\
    0 <= k /\
    (Forall (fun w => snd w <> []) [(0, path_of "hello")] -> k = 0) /\
    (exists e, read_entry (it_entry opened_a) g' = (Ok e, g') /\
               size e = Z.of_nat (length (replay (map fst oks) ++ zeros k))) /\
    ghostfs_read opened_a (Z.of_nat (length (replay (map fst oks) ++ zeros k))) 0 g'
    = (Ok (Z.of_nat (length (replay (map fst oks) ++ zeros k)),
           replay (map fst oks) ++ zeros k), g').
Proof.
  apply (read_returns_replay_of_writes 100 created_a opened_a [(0, path_of "hello")]).
  - exact fresh_file_created_a.
  - constructor; [split; vm_compute; reflexivity | constructor].
Defined.

(** The sequence above on the concrete handle: the call returns 5 and the
    five bytes are read back. *)
Lemma hello_is_read_back :
  write_all 100 opened_a [(0, path_of "hello")] created_a
  = (Ok [(0, path_of "hello", 5)], written_a) /\
  ghostfs_read opened_a 5 0 written_a = (Ok (5, path_of "hello"), written_a).
Proof. split; vm_compute; reflexivity. Qed.

(** ** Mount and the digest of the superblock *)

Lemma stegger_read_in_range s n off :
  0 <= off -> off + n <= capacity s ->
  stegger_read s n off = Ok (get_bytes off n (carrier s)).
Proof.
  intros H1 H2. unfold stegger_read.
  destruct (decide (0 <= off ∧ off + n <= capacity s)) as [_ | Hn]; [reflexivity | tauto].
Qed.

Lemma stegger_read_result s n off :
  stegger_read s n off = Ok (get_bytes off n (carrier s)) \/ stegger_read s n off = Err ERANGE.
Proof. unfold stegger_read. destruct (decide _); auto. Qed.

(** [cluster_get] loads a cluster or fails with the error of the read. *)
Lemma cluster_get_result nr g :
  exists g',
    (cluster_get nr g = (Ok nr, g') /\ is_Some (clusters g' !! nr) /\
     hdr_cluster_count g' = hdr_cluster_count g /\ gfs_stegger g' = gfs_stegger g)
    \/ cluster_get nr g = (Err ERANGE, g').
Proof.
  unfold cluster_get.
  destruct (decide (nr >= hdr_cluster_count g)); [exists g; right; reflexivity |].
  destruct (clusters g !! nr) as [c |] eqn:Hc.
  - exists g. left. rewrite Hc. split_and!; eauto.
  - unfold read_cluster.
    destruct (stegger_read_result (gfs_stegger g) CLUSTER_SIZE (c0_offset + nr * CLUSTER_SIZE))
      as [-> | ->].
    + eexists. left. split_and!; [reflexivity | | reflexivity | reflexivity].
      cbn [clusters with_clusters]. rewrite lookup_insert_eq. eauto.
    + exists g. right. reflexivity.
Qed.

Lemma cluster_get_readable nr g :
  0 <= nr < hdr_cluster_count g ->
  c0_offset + (nr + 1) * CLUSTER_SIZE <= capacity (gfs_stegger g) ->
  exists g',
    cluster_get nr g = (Ok nr, g') /\ is_Some (clusters g' !! nr) /\
    hdr_cluster_count g' = hdr_cluster_count g /\ gfs_stegger g' = gfs_stegger g.
Proof.
  intros Hnr Hcap. unfold cluster_get.
  destruct (decide (nr >= hdr_cluster_count g)); [lia |].
  destruct (clusters g !! nr) as [c |] eqn:Hc.
  - exists g. rewrite Hc. split_and!; eauto.
  - unfold read_cluster. rewrite stegger_read_in_range by (unfold c0_offset, HEADER_BYTES, CLUSTER_SIZE in *; lia).
    eexists. split_and!; [reflexivity | | reflexivity | reflexivity].
    cbn [clusters with_clusters]. rewrite lookup_insert_eq. eauto.
Qed.

Lemma mount_loop_step n i g g1 :
  cluster_get i g = (Ok i, g1) -> is_Some (clusters g1 !! i) ->
  exists g2, mount_loop (S n) i g = mount_loop n (i + 1) g2 /\
    hdr_cluster_count g2 = hdr_cluster_count g1 /\ gfs_stegger g2 = gfs_stegger g1.
Proof.
  intros Hget [c Hc]. cbn [mount_loop].
  rewrite (bind_Ok _ _ _ _ _ Hget).
  rewrite (bind_Ok _ _ _ _ _ (deref_Some _ _ _ Hc)).
  destruct (decide (used c = 0)).
  - exists (with_free_clusters (gfs_free_clusters g1 + 1) g1). split_and!; reflexivity.
  - exists g1. split_and!; reflexivity.
Qed.

(** The loop of [ghostfs_mount] ends, and fails only with the error of a
    read. *)
Lemma mount_loop_result n :
  forall i g, exists g',
    (mount_loop n i g = (Ok tt, g') /\
     hdr_cluster_count g' = hdr_cluster_count g /\ gfs_stegger g' = gfs_stegger g)
    \/ mount_loop n i g = (Err ERANGE, g').
Proof.
  induction n as [| n IH]; intros i g.
  - exists g. left. split_and!; reflexivity.
  - destruct (cluster_get_result i g) as (g1 & [(Hget & Hsome & Hcc & Hst) | Hget]).
    + destruct (mount_loop_step n i g g1 Hget Hsome) as (g2 & -> & Hcc2 & Hst2).
      destruct (IH (i + 1) g2) as (g' & [(Hrun & Hcc' & Hst') | Hrun]).
      * exists g'. left. split_and!; [exact Hrun | congruence | congruence].
      * exists g'. right. exact Hrun.
    + exists g1. right. cbn [mount_loop]. apply bind_Err. exact Hget.
Qed.

(** It succeeds when the carrier holds every cluster the header counts. *)
Lemma mount_loop_readable n :
  forall i g,
    0 <= i -> (n <> 0%nat -> i + Z.of_nat n <= hdr_cluster_count g) ->
    c0_offset + hdr_cluster_count g * CLUSTER_SIZE <= capacity (gfs_stegger g) ->
    exists g',
      mount_loop n i g = (Ok tt, g') /\
      hdr_cluster_count g' = hdr_cluster_count g /\ gfs_stegger g' = gfs_stegger g.
Proof.
  induction n as [| n IH]; intros i g Hi Hn Hcap.
  - exists g. split_and!; reflexivity.
  - specialize (Hn ltac:(discriminate)).
    destruct (cluster_get_readable i g) as (g1 & Hget & Hsome & Hcc & Hst).
    { lia. }
    { unfold CLUSTER_SIZE in *. nia. }
    destruct (mount_loop_step n i g g1 Hget Hsome) as (g2 & -> & Hcc2 & Hst2).
    destruct (IH (i + 1) g2) as (g' & Hrun & Hcc' & Hst').
    { lia. }
    { intros _. rewrite Hcc2, Hcc. lia. }
    { rewrite Hcc2, Hcc, Hst2, Hst. exact Hcap. }
    exists g'. split_and!; [exact Hrun | congruence | congruence].
Qed.

Lemma header_bytes_decode (hdr : list byte) :
  Z.of_nat (length hdr) = HEADER_BYTES -> header_bytes (u16 (le_decode hdr)) = hdr.
Proof.
  intros Hlen. pose proof (le_decode_range hdr) as Hr.
  assert (Hl : length hdr = 2%nat) by (unfold HEADER_BYTES in Hlen; lia).
  rewrite Hl in Hr. unfold u16. rewrite Z.mod_small by (change (256 ^ Z.of_nat 2) with (2 ^ 16) in Hr; lia).
  unfold header_bytes. change (Z.to_nat HEADER_BYTES) with 2%nat. rewrite <- Hl.
  apply le_encode_decode.
Qed.

Section MountCheck.

Variable md5 : list byte -> list byte.

(** What [ghostfs_check] does on a carrier that holds a superblock and a
    root cluster. *)
Lemma ghostfs_check_spec (s : stegger) :
  c0_offset + CLUSTER_SIZE <= capacity s ->
  ghostfs_check md5 (fresh_gfs s)
  = (if decide (md5 (get_bytes 16 HEADER_BYTES (carrier s)
                     ++ get_bytes c0_offset CLUSTER_SIZE (carrier s))
                = get_bytes 0 16 (carrier s))
     then Ok tt else Err EIO,
     with_cluster_count (le_decode (get_bytes 16 HEADER_BYTES (carrier s))) (fresh_gfs s)).
Proof.
  intros Hcap. unfold ghostfs_check.
  cbn [gfs_stegger fresh_gfs with_cluster_count].
  unfold c0_offset, HEADER_BYTES, CLUSTER_SIZE in Hcap.
  rewrite !stegger_read_in_range by (unfold c0_offset, HEADER_BYTES, CLUSTER_SIZE; lia).
  change (hdr_cluster_count (with_cluster_count ?n ?g)) with (u16 n).
  rewrite header_bytes_decode.
  2:{ rewrite length_get_bytes; unfold HEADER_BYTES, capacity in *; lia. }
  destruct (decide _); reflexivity.
Qed.

End MountCheck.


(** One flipped bit in the root cluster: mount reports corruption. *)
Lemma tampered3_is_rejected : ghostfs_mount md5_digest tampered3 = Err EIO.
Proof. vm_compute. reflexivity. Qed.

(** ** What every operation keeps *)

Lemma sound_ret n {A : Type} (a : A) (Q : A -> Prop) : Q a -> sound n (ret a) Q.
Proof.
  intros HQ g r g' Hwf Hn Hrun. injection Hrun as <- <-.
  split_and!; [assumption.. |]. intros a' [= <-]. exact HQ.
Qed.

Lemma sound_fail n {A : Type} e (Q : A -> Prop) : sound n (fail e) Q.
Proof.
  intros g r g' Hwf Hn Hrun. injection Hrun as <- <-.
  split_and!; [assumption.. |]. intros a' [=].
Qed.

Lemma sound_undefined n {A : Type} (Q : A -> Prop) : sound n undefined Q.
Proof.
  intros g r g' Hwf Hn Hrun. injection Hrun as <- <-.
  split_and!; [assumption.. |]. intros a' [=].
Qed.

Lemma sound_out_of_fuel n {A : Type} (Q : A -> Prop) : sound n out_of_fuel Q.
Proof.
  intros g r g' Hwf Hn Hrun. injection Hrun as <- <-.
  split_and!; [assumption.. |]. intros a' [=].
Qed.

Lemma sound_bind n {A B : Type} (m : M A) (k : A -> M B) (Q1 : A -> Prop) (Q2 : B -> Prop) :
  sound n m Q1 -> (forall a, Q1 a -> sound n (k a) Q2) -> sound n (bind m k) Q2.
Proof.
  intros Hm Hk g r g' Hwf Hn Hrun. unfold bind in Hrun.
  destruct (m g) as [r1 g1] eqn:E.
  destruct (Hm g r1 g1 Hwf Hn E) as (W1 & N1 & Q1').
  destruct r1 as [a | e | |].
  - exact (Hk a (Q1' a eq_refl) g1 r g' W1 N1 Hrun).
  - injection Hrun as <- <-. split_and!; [assumption.. |]. intros a' [=].
  - injection Hrun as <- <-. split_and!; [assumption.. |]. intros a' [=].
  - injection Hrun as <- <-. split_and!; [assumption.. |]. intros a' [=].
Qed.

Lemma sound_weaken n {A : Type} (m : M A) (Q Q' : A -> Prop) :
  sound n m Q -> (forall a, Q a -> Q' a) -> sound n m Q'.
Proof.
  intros Hm Himp g r g' Hwf Hn Hrun.
  destruct (Hm g r g' Hwf Hn Hrun) as (W & N & HQ). split_and!; auto.
Qed.

Lemma sound_try n {A : Type} (m : M A) (Q : A -> Prop) :
  sound n m Q ->
  sound n (try m) (fun r => match r with inr a => Q a | inl _ => True end).
Proof.
  intros Hm g r g' Hwf Hn Hrun. unfold try in Hrun.
  destruct (m g) as [r1 g1] eqn:E.
  destruct (Hm g r1 g1 Hwf Hn E) as (W1 & N1 & Q1').
  destruct r1 as [a | e | |]; injection Hrun as <- <-; split_and!; try assumption.
  - intros a' [= <-]. apply Q1'. reflexivity.
  - intros a' [= <-]. exact I.
  - intros a' [=].
  - intros a' [=].
Qed.

(** A computation that leaves the handle alone. *)
Lemma sound_reader n {A : Type} (m : M A) :
  (forall g, snd (m g) = g) -> sound n m (fun _ => True).
Proof.
  intros Hm g r g' Hwf Hn Hrun. pose proof (Hm g) as E. rewrite Hrun in E. cbn in E. subst g'.
  split_and!; auto.
Qed.

Lemma sound_get_gfs n : sound n get_gfs (fun g => hdr_cluster_count g = n).
Proof.
  intros g r g' Hwf Hn Hrun. injection Hrun as <- <-.
  split_and!; [assumption.. |]. intros a' [= <-]. exact Hn.
Qed.

Lemma sound_deref n p : sound n (deref p) (fun _ => True).
Proof. apply sound_reader. intros g. unfold deref. destruct (clusters g !! p); reflexivity. Qed.

Lemma sound_read_entry n r : sound n (read_entry r) (fun _ => True).
Proof.
  apply sound_reader. intros g. destruct r as [| nr idx]; [reflexivity |].
  cbn [read_entry]. unfold bind, deref. destruct (clusters g !! nr); reflexivity.
Qed.

Lemma sound_free_clusters_add n d : sound n (free_clusters_add d) (fun _ => True).
Proof.
  intros g r g' Hwf Hn Hrun. injection Hrun as <- <-. split_and!; auto.
Qed.

Lemma sound_cluster_get n nr : sound n (cluster_get nr) (fun p => p = nr).
Proof.
  intros g r g' Hwf Hn Hrun. unfold cluster_get in Hrun.
  destruct (decide (nr >= hdr_cluster_count g)).
  { injection Hrun as <- <-. split_and!; [assumption.. |]. intros a' [=]. }
  destruct (clusters g !! nr) as [c |] eqn:Hc.
  { injection Hrun as <- <-. split_and!; [assumption.. |]. intros a' [= <-]. reflexivity. }
  unfold read_cluster, stegger_read in Hrun.
  destruct (decide (0 <= c0_offset + nr * CLUSTER_SIZE
                    ∧ c0_offset + nr * CLUSTER_SIZE + CLUSTER_SIZE <= capacity (gfs_stegger g)))
    as [[H1 H2] | Hout].
  - injection Hrun as <- <-. split_and!.
    + unfold cache_sized. cbn [clusters with_clusters].
      apply map_Forall_insert_2; [| exact Hwf].
      cbn [data unmark_cluster cluster_of_bytes].
      unfold capacity, CLUSTER_SIZE, CLUSTER_DATA in *.
      rewrite length_get_bytes; [lia | lia | lia |].
      rewrite length_get_bytes; lia.
    + exact Hn.
    + intros a' [= <-]. reflexivity.
  - injection Hrun as <- <-. split_and!; [assumption.. |]. intros a' [=].
Qed.

Lemma sound_update_cluster n p (f : cluster -> cluster) :
  (forall c, Z.of_nat (length (data c)) = CLUSTER_DATA ->
             Z.of_nat (length (data (f c))) = CLUSTER_DATA) ->
  sound n (update_cluster p f) (fun _ => True).
Proof.
  intros Hf g r g' Hwf Hn Hrun. unfold update_cluster in Hrun.
  destruct (clusters g !! p) as [c |] eqn:Hc; injection Hrun as <- <-.
  - split_and!; [| exact Hn | auto].
    unfold cache_sized. cbn [clusters with_clusters].
    apply map_Forall_insert_2; [| exact Hwf]. apply Hf. exact (Hwf p c Hc).
  - split_and!; auto.
Qed.

Lemma sound_mark n p : sound n (update_cluster p mark_cluster) (fun _ => True).
Proof. apply sound_update_cluster. intros c Hc. exact Hc. Qed.

Lemma sound_write_entry n r off bs :
  slot_ok r -> 0 <= off -> off + Z.of_nat (length bs) <= DIR_ENTRY_SIZE ->
  sound n (write_entry r off bs) (fun _ => True).
Proof.
  intros Hr Hoff Hfit. destruct r as [| nr idx]; cbn [write_entry].
  - intros g res g' Hwf Hn Hrun. injection Hrun as <- <-. split_and!; auto.
  - apply sound_update_cluster. intros c Hc. cbn [data set_data].
    cbn [slot_ok] in Hr. unfold CLUSTER_DIRENTS, DIR_ENTRY_SIZE, CLUSTER_DATA in *.
    rewrite length_set_bytes; lia.
Qed.

Lemma sound_dir_iter_init n nr : sound n (dir_iter_init nr) iter_shape.
Proof.
  unfold dir_iter_init. eapply sound_bind; [apply sound_cluster_get |].
  intros c _. apply sound_ret. split; [reflexivity |]. cbn. unfold CLUSTER_DIRENTS. lia.
Qed.

Lemma sound_cluster_get_next n p : sound n (cluster_get_next p) (fun _ => True).
Proof.
  unfold cluster_get_next. eapply sound_bind; [apply sound_deref |].
  intros c _. destruct (decide (next c = 0)); [apply sound_fail |].
  eapply sound_weaken; [apply sound_cluster_get | auto].
Qed.

Lemma sound_dir_iter_next n it : iter_shape it -> sound n (dir_iter_next it) iter_shape.
Proof.
  intros [Hent Hnr]. unfold dir_iter_next.
  destruct (decide (it_entry_nr it >= CLUSTER_DIRENTS - 1)).
  - eapply sound_bind; [apply sound_deref |]. intros c _.
    destruct (decide (next c = 0)); [apply sound_fail |].
    eapply sound_bind; [apply sound_cluster_get_next |]. intros c' _.
    apply sound_ret. split; [reflexivity |]. cbn. unfold CLUSTER_DIRENTS. lia.
  - rewrite Hent. cbn [entry_succ].
    eapply (sound_bind _ _ _ (fun r => r = ClusterEntry (it_cluster it) (it_entry_nr it + 1)));
      [apply sound_ret; reflexivity |].
    intros r ->. apply sound_ret. split; [reflexivity |]. cbn. lia.
Qed.

Lemma sound_dir_iter_next_used n fuel :
  forall it, iter_shape it -> sound n (dir_iter_next_used fuel it) iter_shape.
Proof.
  induction fuel as [| fuel IH]; intros it Hit; cbn [dir_iter_next_used].
  - apply sound_out_of_fuel.
  - eapply sound_bind; [apply (sound_dir_iter_next n it Hit) |]. intros it' Hit'.
    eapply sound_bind; [apply sound_read_entry |]. intros e _.
    destruct (dir_entry_used e); [apply sound_ret; exact Hit' | apply IH; exact Hit'].
Qed.

Lemma sound_dir_iter_lookup_loop n fuel skip_last :
  forall it comp, iter_shape it ->
    sound n (dir_iter_lookup_loop fuel skip_last it comp) iter_shape.
Proof.
  induction fuel as [| fuel IH]; intros it comp Hit; cbn [dir_iter_lookup_loop].
  - apply sound_out_of_fuel.
  - eapply sound_bind; [apply sound_read_entry |]. intros e _.
    destruct (component_eq comp (filename e) (Z.to_nat FILENAME_SIZE)).
    + destruct (strchr comp slash) as [nx |]; [| apply sound_ret; exact Hit].
      destruct (skip_last && bool_decide (strchr (tl nx) slash = None));
        [apply sound_ret; exact Hit |].
      destruct (negb (dir_entry_is_directory e)); [apply sound_fail |].
      eapply sound_bind; [apply sound_dir_iter_init |]. intros it' Hit'.
      apply IH. exact Hit'.
    + eapply sound_bind; [apply (sound_dir_iter_next_used n fuel it Hit) |]. intros it' Hit'.
      apply IH. exact Hit'.
Qed.

Lemma iter_shape_slot it : iter_shape it -> slot_ok (it_entry it).
Proof. intros [-> H]. exact H. Qed.

Lemma sound_dir_iter_lookup n fuel path skip_last :
  sound n (dir_iter_lookup fuel path skip_last) (fun it => slot_ok (it_entry it)).
Proof.
  unfold dir_iter_lookup. destruct (decide (hd x00 path ≠ slash)); [apply sound_fail |].
  eapply sound_bind; [apply sound_dir_iter_init |]. intros it Hit.
  destruct (bool_decide (hd x00 (tl path) = x00)
            || skip_last && bool_decide (strchr (tl path) slash = None)).
  - apply sound_ret. exact I.
  - eapply sound_weaken; [apply sound_dir_iter_lookup_loop; exact Hit |].
    intros it'. apply iter_shape_slot.
Qed.

Lemma sound_find_empty_entry_loop n fuel :
  forall it, iter_shape it ->
    sound n (find_empty_entry_loop fuel it) (fun p => iter_shape (fst p)).
Proof.
  induction fuel as [| fuel IH]; intros it Hit; cbn [find_empty_entry_loop].
  - apply sound_out_of_fuel.
  - eapply sound_bind; [apply sound_read_entry |]. intros e _.
    destruct (dir_entry_used e); [| apply sound_ret; exact Hit].
    eapply sound_bind; [apply sound_try; apply (sound_dir_iter_next n it Hit) |].
    intros [err | it'] Hit'.
    + destruct err; try apply sound_fail. apply sound_ret. exact Hit.
    + apply IH. exact Hit'.
Qed.

Lemma sound_find_empty_entry n fuel nr :
  sound n (find_empty_entry fuel nr) (fun p => iter_shape (fst p)).
Proof.
  unfold find_empty_entry. eapply sound_bind; [apply sound_dir_iter_init |].
  intros it Hit. apply sound_find_empty_entry_loop. exact Hit.
Qed.

Lemma sound_dir_contains_loop n fuel name :
  forall it, iter_shape it -> sound n (dir_contains_loop fuel it name) (fun _ => True).
Proof.
  induction fuel as [| fuel IH]; intros it Hit; cbn [dir_contains_loop].
  - apply sound_out_of_fuel.
  - eapply sound_bind; [apply sound_read_entry |]. intros e _.
    destruct (strncmp_eq (filename e) name (Z.to_nat FILENAME_SIZE)); [apply sound_ret; exact I |].
    eapply sound_bind; [apply (sound_dir_iter_next_used n fuel it Hit) |]. intros it' Hit'.
    apply IH. exact Hit'.
Qed.

Lemma sound_dir_contains n fuel nr name : sound n (dir_contains fuel nr name) (fun _ => True).
Proof.
  unfold dir_contains. eapply sound_bind; [apply sound_dir_iter_init |].
  intros it Hit. apply sound_dir_contains_loop. exact Hit.
Qed.

Lemma claim_cluster_sized zero c :
  Z.of_nat (length (data c)) = CLUSTER_DATA ->
  Z.of_nat (length (data (claim_cluster zero c))) = CLUSTER_DATA.
Proof.
  intros Hc. destruct zero; cbn; [| exact Hc].
  rewrite length_zeros. unfold CLUSTER_DATA. lia.
Qed.

Lemma sound_alloc_scan n k count zero :
  forall prev first pos alloc,
    sound n (alloc_scan k count zero prev first pos alloc) (fun _ => True).
Proof.
  induction k as [| k IH]; intros prev first pos alloc; cbn [alloc_scan];
    (destruct (decide (alloc < count)); [| apply sound_ret; exact I]).
  - apply sound_out_of_fuel.
  - eapply sound_bind; [apply sound_get_gfs |]. intros g0 _.
    destruct (decide (pos >= hdr_cluster_count g0)); [apply sound_ret; exact I |].
    eapply sound_bind; [apply sound_try; apply sound_cluster_get |].
    intros [e | c] _; [apply sound_ret; exact I |].
    eapply sound_bind; [apply sound_deref |]. intros cl _.
    destruct (decide (used cl = 0)); [| apply IH].
    eapply sound_bind; [apply sound_update_cluster; apply claim_cluster_sized |]. intros _ _.
    eapply sound_bind; [apply sound_free_clusters_add |]. intros _ _.
    eapply (sound_bind _ _ _ (fun _ => True)); [| intros _ _; apply IH].
    destruct (decide (first = 0)); [apply sound_ret; exact I |].
    destruct prev; [| apply sound_undefined].
    apply sound_update_cluster. intros c' Hc'. exact Hc'.
Qed.

(** The loop under [undo] always ends with the error. *)
Lemma sound_alloc_undo n k e : forall pos, sound n (alloc_undo k pos e) (fun _ => False).
Proof.
  induction k as [| k IH]; intros pos; cbn [alloc_undo]; [apply sound_fail |].
  eapply sound_bind; [apply sound_cluster_get |]. intros c _.
  eapply sound_bind; [apply sound_update_cluster; intros c' Hc'; exact Hc' |]. intros _ _.
  eapply sound_bind; [apply sound_free_clusters_add |]. intros _ _.
  eapply sound_bind; [apply sound_deref |]. intros cl _. apply IH.
Qed.

(** With a header that counts one cluster there is nothing to allocate. *)
Lemma alloc_clusters_no_room count zero g :
  hdr_cluster_count g <= 1 -> 0 < count ->
  alloc_clusters count zero g = (Err ENOSPC, g).
Proof.
  intros Hn Hc. unfold alloc_clusters.
  rewrite (bind_Ok _ _ _ _ _ (eq_refl : get_gfs g = (Ok g, g))).
  cbn [alloc_scan].
  destruct (decide (0 < count)); [| lia].
  rewrite bind_assoc.
  rewrite (bind_Ok _ _ _ _ _ (eq_refl : get_gfs g = (Ok g, g))).
  destruct (decide (1 >= hdr_cluster_count g)); [| lia].
  reflexivity.
Qed.

Lemma sound_alloc_clusters n count zero :
  sound n (alloc_clusters count zero) (fun _ => 0 < count -> 1 < n).
Proof.
  destruct (decide (0 < count /\ n <= 1)) as [[Hc Hn] | Hroom].
  - intros g r g' Hwf Hg Hrun.
    rewrite alloc_clusters_no_room in Hrun by lia.
    injection Hrun as <- <-. split_and!; [assumption.. |]. intros a [=].
  - assert (Hany : sound n (alloc_clusters count zero) (fun _ => True)).
    { unfold alloc_clusters. eapply sound_bind; [apply sound_get_gfs |]. intros g0 _.
      eapply sound_bind; [apply sound_alloc_scan |].
      intros [[[ex prev] first] alloc] _. destruct ex as [| e].
      - destruct prev; [| apply sound_undefined].
        eapply sound_bind; [apply sound_update_cluster; intros c' Hc'; exact Hc' |].
        intros _ _. apply sound_ret. exact I.
      - eapply sound_weaken; [apply sound_alloc_undo | intros a []]. }
    eapply sound_weaken; [exact Hany |]. intros _ _ Hc. lia.
Qed.

Lemma sound_free_clusters n fuel : forall c, sound n (free_clusters fuel c) (fun _ => True).
Proof.
  induction fuel as [| fuel IH]; intros c; cbn [free_clusters]; [apply sound_out_of_fuel |].
  eapply sound_bind; [apply sound_update_cluster; intros c' Hc'; exact Hc' |]. intros _ _.
  eapply sound_bind; [apply sound_free_clusters_add |]. intros _ _.
  eapply sound_bind; [apply sound_deref |]. intros cl _.
  destruct (decide (next cl = 0)); [apply sound_ret; exact I |].
  eapply sound_bind; [apply sound_cluster_get |]. intros c' _. apply IH.
Qed.

Lemma length_cstring s : Z.of_nat (length (cstring s)) = strlen s.
Proof.
  induction s as [| c s IH]; [reflexivity |].
  cbn [cstring strlen]. destruct (decide (c = x00)); [reflexivity |].
  cbn [length]. lia.
Qed.

(** [create_entry] hands back a record of a cluster, and cannot make a
    directory when the header counts a single cluster. *)
Lemma sound_create_entry n fuel path is_dir :
  sound n (create_entry fuel path is_dir)
    (fun r => (exists nr idx, r = ClusterEntry nr idx /\ 0 <= idx < CLUSTER_DIRENTS) /\
              (is_dir = true -> 1 < n)).
Proof.
  unfold create_entry.
  eapply sound_bind; [apply sound_dir_iter_lookup |]. intros it _.
  eapply sound_bind; [apply sound_read_entry |]. intros parent _.
  destruct (negb (dir_entry_is_directory parent)); [apply sound_fail |].
  destruct (decide (strlen (last_component path) > FILENAME_SIZE - 1)) as [| Hname];
    [apply sound_fail |].
  destruct (decide (hd x00 (last_component path) = x00)); [apply sound_fail |].
  eapply sound_bind; [apply sound_try; apply sound_dir_contains |].
  intros [e | []] _; [| apply sound_fail].
  eapply sound_bind; [apply sound_find_empty_entry |]. intros [it1 found] Hit1.
  cbn [fst] in Hit1.
  eapply (sound_bind _ _ _ (fun slot => iter_shape (fst slot))).
  { destruct found as [err |]; [| apply sound_ret; exact Hit1].
    eapply sound_bind; [apply sound_alloc_clusters |]. intros nr _.
    eapply sound_bind; [apply sound_try; apply sound_find_empty_entry |].
    intros again Hagain.
    eapply sound_bind; [apply sound_update_cluster; intros c' Hc'; exact Hc' |]. intros _ _.
    apply sound_ret. cbn [fst].
    destruct again as [e' | [i o]]; [exact Hit1 | exact Hagain]. }
  intros [it' undo] Hit'. cbn [fst snd] in *.
  pose proof (iter_shape_slot _ Hit') as Hslot.
  eapply (sound_bind _ _ _ (fun _ => is_dir = true -> 1 < n)).
  { destruct is_dir; [| apply sound_ret; discriminate].
    eapply sound_bind; [apply sound_try; apply sound_alloc_clusters |].
    intros [e' | nr] Hr.
    - eapply (sound_bind _ _ _ (fun _ => True)); [| intros _ _; apply sound_fail].
      destruct undo as [[nx prev] |]; [| apply sound_ret; exact I].
      eapply sound_bind; [apply sound_try; apply sound_free_clusters |]. intros _ _.
      apply sound_update_cluster. intros c' Hc'. exact Hc'.
    - apply sound_ret. intros _. apply Hr. lia. }
  intros nr Hroom.
  eapply sound_bind.
  { apply sound_write_entry; [exact Hslot | lia |].
    rewrite length_app, Nat2Z.inj_add, length_cstring. cbn [length].
    unfold FILENAME_SIZE, DIR_ENTRY_SIZE in *. lia. }
  intros _ _.
  eapply sound_bind.
  { apply sound_write_entry; [exact Hslot | unfold FILENAME_SIZE; lia |].
    rewrite length_le_encode. unfold FILENAME_SIZE, DIR_ENTRY_SIZE. lia. }
  intros _ _.
  eapply sound_bind.
  { apply sound_write_entry; [exact Hslot | unfold FILENAME_SIZE; lia |].
    rewrite length_le_encode. unfold FILENAME_SIZE, DIR_ENTRY_SIZE. lia. }
  intros _ _.
  eapply sound_bind; [apply sound_mark |]. intros _ _.
  apply sound_ret. split; [| exact Hroom].
  destruct Hit' as [-> Hidx]. eauto.
Qed.

Lemma sound_remove_entry n fuel path is_dir :
  sound n (remove_entry fuel path is_dir) (fun _ => True).
Proof.
  unfold remove_entry.
  eapply sound_bind; [apply sound_dir_iter_lookup |]. intros link Hlink.
  destruct (decide (it_entry link = RootEntry)); [apply sound_fail |].
  eapply sound_bind; [apply sound_read_entry |]. intros le _.
  destruct (negb (eqb is_dir (dir_entry_is_directory le))); [apply sound_fail |].
  eapply (sound_bind _ _ _ (fun _ => True)).
  { destruct (decide (cluster_nr le = 0)); [apply sound_ret; exact I |].
    eapply sound_bind; [apply sound_dir_iter_init |]. intros it Hit.
    eapply (sound_bind _ _ _ (fun _ => True)).
    - destruct is_dir; [| apply sound_ret; exact I].
      eapply sound_bind; [apply sound_read_entry |]. intros e _.
      destruct (dir_entry_used e); [apply sound_fail |].
      eapply sound_bind; [apply sound_try; apply (sound_dir_iter_next_used n fuel it Hit) |].
      intros [err | it'] _; [| apply sound_fail].
      destruct err; try apply sound_fail. apply sound_ret. exact I.
    - intros _ _.
      eapply sound_bind; [apply sound_try; apply sound_free_clusters |]. intros _ _.
      apply sound_ret. exact I. }
  intros _ _.
  eapply sound_bind.
  { apply sound_write_entry; [exact Hlink | lia | cbn [length]; unfold DIR_ENTRY_SIZE; lia]. }
  intros _ _. apply sound_mark.
Qed.

(** ** The smallest filesystem *)

Lemma stegger_write_in_range s buf off :
  0 <= off -> off + Z.of_nat (length buf) <= capacity s ->
  stegger_write s buf off = Ok (Stegger (set_bytes off buf (carrier s))).
Proof.
  intros H1 H2. unfold stegger_write.
  destruct (decide (0 <= off ∧ off + Z.of_nat (length buf) <= capacity s)) as [_ | Hn];
    [reflexivity | tauto].
Qed.

Lemma get_set_bytes_same_len (d bs : list byte) off n :
  n = Z.of_nat (length bs) -> 0 <= off -> off + n <= Z.of_nat (length d) ->
  get_bytes off n (set_bytes off bs d) = bs.
Proof. intros -> H1 H2. apply get_set_bytes_same; assumption. Qed.

Lemma length_clear_entries_loop (l : list nat) :
  forall d : list byte,
    Forall (fun i => (i < 66)%nat) l ->
    Z.of_nat (length d) = CLUSTER_DATA ->
    Z.of_nat (length (fold_left (fun acc i => set_bytes (Z.of_nat i * DIR_ENTRY_SIZE) [x00] acc) l d))
    = CLUSTER_DATA.
Proof.
  induction l as [| i l IH]; intros d Hl Hd; [exact Hd |].
  apply Forall_cons in Hl as [Hi Hl]. cbn [fold_left]. apply IH; [exact Hl |].
  rewrite length_set_bytes; [exact Hd | |];
    cbn [length]; unfold DIR_ENTRY_SIZE, CLUSTER_DATA in *; lia.
Qed.

Lemma length_clear_entries (d : list byte) :
  Z.of_nat (length d) = CLUSTER_DATA -> Z.of_nat (length (clear_entries d)) = CLUSTER_DATA.
Proof.
  intros Hd. unfold clear_entries. apply length_clear_entries_loop; [| exact Hd].
  apply Forall_forall. intros i Hi. apply elem_of_seq in Hi.
  change (Z.to_nat CLUSTER_DIRENTS) with 66%nat in Hi. lia.
Qed.

Lemma length_md5_digest bs : length (md5_digest bs) = 16%nat.
Proof.
  unfold md5_digest.
  destruct (md5_blocks _ _ _) as [[[a b] c] d].
  rewrite !length_app, !length_le_encode. reflexivity.
Qed.

Lemma cache_sized_empty g : clusters g = ∅ -> cache_sized g.
Proof. intros H. unfold cache_sized. rewrite H. apply map_Forall_empty. Qed.

(** Once [clear_entries] has run, every record has an empty name. *)
Lemma cleared_byte_loop (i : nat) (l : list nat) :
  forall d : list byte,
    Forall (fun j => (j < 66)%nat) l -> (i < 66)%nat ->
    Z.of_nat (length d) = CLUSTER_DATA ->
    i ∈ l \/ d !! (i * 62)%nat = Some x00 ->
    fold_left (fun acc j => set_bytes (Z.of_nat j * DIR_ENTRY_SIZE) [x00] acc) l d !! (i * 62)%nat
    = Some x00.
Proof.
  induction l as [| j l IH]; intros d Hl Hi Hd Hin.
  - destruct Hin as [Hin | Hin]; [inversion Hin | exact Hin].
  - apply Forall_cons in Hl as [Hj Hl]. cbn [fold_left].
    apply IH; [exact Hl | exact Hi | |].
    + rewrite length_set_bytes; [exact Hd | |];
        cbn [length]; unfold DIR_ENTRY_SIZE, CLUSTER_DATA in *; lia.
    + destruct (decide (i = j)) as [<- | Hne].
      * right. rewrite lookup_set_bytes by (unfold DIR_ENTRY_SIZE, CLUSTER_DATA in *; lia).
        cbn [length]. unfold DIR_ENTRY_SIZE.
        destruct (decide (Z.of_nat (i * 62) < Z.of_nat i * 62)); [lia |].
        destruct (decide (Z.of_nat (i * 62) < Z.of_nat i * 62 + Z.of_nat 1)); [| lia].
        replace (i * 62 - Z.to_nat (Z.of_nat i * 62))%nat with 0%nat by lia. reflexivity.
      * destruct Hin as [Hin | Hin].
        -- left. apply elem_of_cons in Hin as [? | Hin]; [contradiction | exact Hin].
        -- right. rewrite lookup_set_bytes by (unfold DIR_ENTRY_SIZE, CLUSTER_DATA in *; lia).
           cbn [length]. unfold DIR_ENTRY_SIZE.
           destruct (decide (Z.of_nat (i * 62) < Z.of_nat j * 62)); [exact Hin |].
           destruct (decide (Z.of_nat (i * 62) < Z.of_nat j * 62 + Z.of_nat 1)); [lia | exact Hin].
Qed.

Lemma cleared_entry_unused (d : list byte) i :
  Z.of_nat (length d) = CLUSTER_DATA -> 0 <= i < CLUSTER_DIRENTS ->
  hd x00 (filename (entry_at (clear_entries d) i)) = x00.
Proof.
  intros Hd Hi. unfold entry_at. cbn [filename].
  assert (H0 : get_bytes (i * DIR_ENTRY_SIZE) FILENAME_SIZE (clear_entries d) !! 0%nat = Some x00).
  { rewrite lookup_get_bytes by (unfold DIR_ENTRY_SIZE, FILENAME_SIZE, CLUSTER_DIRENTS in *; lia).
    destruct (decide (Z.of_nat 0 < FILENAME_SIZE)) as [_ | Hn]; [| unfold FILENAME_SIZE in Hn; lia].
    unfold clear_entries, CLUSTER_DIRENTS, DIR_ENTRY_SIZE in *.
    replace (Z.to_nat (i * 62) + 0)%nat with (Z.to_nat i * 62)%nat by lia.
    apply cleared_byte_loop.
    - apply Forall_forall. intros j Hj. apply elem_of_seq in Hj.
      change (Z.to_nat 66) with 66%nat in Hj. lia.
    - lia.
    - exact Hd.
    - left. apply elem_of_seq. change (Z.to_nat 66) with 66%nat. lia. }
  destruct (get_bytes (i * DIR_ENTRY_SIZE) FILENAME_SIZE (clear_entries d)) as [| b l];
    [discriminate H0 |].
  cbn in H0. injection H0 as ->. reflexivity.
Qed.

(** What is read back from the bytes of a cluster. *)
Lemma cluster_of_cluster_bytes c :
  Z.of_nat (length (data c)) = CLUSTER_DATA -> 0 <= next c < 2 ^ 16 ->
  data (cluster_of_bytes (cluster_bytes c)) = data c /\
  next (cluster_of_bytes (cluster_bytes c)) = next c.
Proof.
  intros Hd Hn. unfold cluster_of_bytes, cluster_bytes. cbn [data next].
  unfold CLUSTER_DATA in *. split.
  - rewrite get_bytes_app_l by lia. rewrite get_bytes_0.
    apply take_ge. lia.
  - unfold get_bytes. rewrite drop_app_length' by lia.
    change (Z.to_nat 2) with (length (le_encode 2 (next c))).
    rewrite take_app_length. rewrite le_decode_encode.
    apply Z.mod_small. exact Hn.
Qed.

(** In a directory cluster without a used record and without a successor,
    the search for the next used record ends with [ENOENT]. *)
Lemma next_used_in_empty_cluster (k : nat) :
  forall fuel g r0 j,
    clusters g !! 0 = Some r0 -> next r0 = 0 ->
    (forall i, 0 <= i < CLUSTER_DIRENTS -> hd x00 (filename (entry_at (data r0) i)) = x00) ->
    j = 65 - Z.of_nat k -> 0 <= j -> (k < fuel)%nat ->
    dir_iter_next_used fuel {| it_cluster := 0; it_entry := ClusterEntry 0 j; it_entry_nr := j |} g
    = (Err ENOENT, g).
Proof.
  induction k as [| k IH]; intros fuel g r0 j Hr0 Hnext Hunused Hj Hj0 Hfuel;
    (destruct fuel as [| fuel]; [lia |]); cbn [dir_iter_next_used].
  - apply bind_Err. unfold dir_iter_next. cbn [it_entry_nr it_cluster].
    destruct (decide (j >= CLUSTER_DIRENTS - 1)) as [_ | Hn]; [| unfold CLUSTER_DIRENTS in Hn; lia].
    rewrite (bind_Ok _ _ _ _ _ (deref_Some _ _ _ Hr0)).
    destruct (decide (next r0 = 0)); [reflexivity | contradiction].
  - assert (Hstep : dir_iter_next {| it_cluster := 0; it_entry := ClusterEntry 0 j; it_entry_nr := j |} g
                    = (Ok {| it_cluster := 0; it_entry := ClusterEntry 0 (j + 1);
                             it_entry_nr := j + 1 |}, g)).
    { unfold dir_iter_next. cbn [it_entry_nr it_cluster it_entry].
      destruct (decide (j >= CLUSTER_DIRENTS - 1)) as [Hn | _]; [unfold CLUSTER_DIRENTS in Hn; lia |].
      reflexivity. }
    rewrite (bind_Ok _ _ _ _ _ Hstep). cbn [it_entry].
    rewrite (bind_Ok _ _ _ _ _ (read_entry_cluster _ _ (j + 1) _ Hr0)).
    unfold dir_entry_used. rewrite Hunused by (unfold CLUSTER_DIRENTS; lia).
    cbn [bool_decide decide_rel]. 
    destruct (bool_decide (x00 ≠ x00)) eqn:E; [apply bool_decide_eq_true in E; contradiction |].
    apply (IH fuel g r0 (j + 1)); try assumption; lia.
Qed.

Lemma update_cluster_runs g p f c :
  clusters g !! p = Some c ->
  exists g' c', update_cluster p f g = (Ok tt, g') /\ clusters g' !! p = Some c'.
Proof.
  intros Hc. unfold update_cluster. rewrite Hc. eexists _, _. split; [reflexivity |].
  cbn [clusters with_clusters]. apply lookup_insert_eq.
Qed.

Lemma write_entry_runs g nr idx off bs c :
  clusters g !! nr = Some c ->
  exists g' c', write_entry (ClusterEntry nr idx) off bs g = (Ok tt, g') /\
    clusters g' !! nr = Some c'.
Proof. intros Hc. cbn [write_entry]. eapply update_cluster_runs. exact Hc. Qed.

(** [create("/a")] in a root directory whose cluster has no used record. *)
Lemma create_in_empty_root fuel g g1 r0 :
  cluster_get 0 g = (Ok 0, g1) ->
  clusters g1 !! 0 = Some r0 -> 0 < hdr_cluster_count g1 ->
  dir_entry_is_directory (root_entry g1) = true ->
  cluster_nr (root_entry g1) = 0 ->
  next r0 = 0 ->
  (forall i, 0 <= i < CLUSTER_DIRENTS -> hd x00 (filename (entry_at (data r0) i)) = x00) ->
  (67 <= fuel)%nat ->
  exists g', ghostfs_create fuel (path_of "/a") g = (Ok tt, g').
Proof.
  intros Hget Hr0 Hcount Hdir Hroot Hnext Hunused Hfuel.
  destruct fuel as [| fuel]; [lia |].
  pose proof (cluster_get_cached g1 0 r0 Hr0 ltac:(lia)) as Hget1.
  set (it0 := {| it_cluster := 0; it_entry := ClusterEntry 0 0; it_entry_nr := 0 |}).
  assert (Hunused0 : dir_entry_used (entry_at (data r0) 0) = false).
  { unfold dir_entry_used. rewrite Hunused by (unfold CLUSTER_DIRENTS; lia).
    apply bool_decide_eq_false. intros H. apply H. reflexivity. }
  assert (E1 : dir_iter_lookup (S fuel) (path_of "/a") true g = (Ok (with_entry RootEntry it0), g1)).
  { unfold dir_iter_lookup.
    destruct (decide (hd x00 (path_of "/a") ≠ slash)) as [H | _]; [exfalso; apply H; reflexivity |].
    unfold dir_iter_init. rewrite bind_assoc. rewrite (bind_Ok _ _ _ _ _ Hget).
    reflexivity. }
  assert (E2 : read_entry RootEntry g1 = (Ok (root_entry g1), g1)) by reflexivity.
  assert (Einit : dir_iter_init 0 g1 = (Ok it0, g1)).
  { unfold dir_iter_init. rewrite (bind_Ok _ _ _ _ _ Hget1). reflexivity. }
  assert (E3 : try (dir_contains (S fuel) 0 [x61]) g1 = (Ok (inl ENOENT), g1)).
  { apply try_Err. unfold dir_contains. rewrite (bind_Ok _ _ _ _ _ Einit).
    cbn [dir_contains_loop]. unfold it0 at 1. cbn [it_entry].
    rewrite (bind_Ok _ _ _ _ _ (read_entry_cluster _ _ 0 _ Hr0)).
    change (Z.to_nat FILENAME_SIZE) with 56%nat. cbn [strncmp_eq].
    rewrite Hunused by (unfold CLUSTER_DIRENTS; lia).
    destruct (decide (x00 = hd x00 [x61])) as [H | _]; [discriminate H |].
    apply bind_Err.
    apply (next_used_in_empty_cluster 65 fuel g1 r0 0); try assumption; lia. }
  assert (E4 : find_empty_entry (S fuel) 0 g1 = (Ok (it0, None), g1)).
  { unfold find_empty_entry. rewrite (bind_Ok _ _ _ _ _ Einit).
    cbn [find_empty_entry_loop]. unfold it0 at 1. cbn [it_entry].
    rewrite (bind_Ok _ _ _ _ _ (read_entry_cluster _ _ 0 _ Hr0)).
    rewrite Hunused0. reflexivity. }
  unfold ghostfs_create, create_entry.
  rewrite bind_assoc. rewrite (bind_Ok _ _ _ _ _ E1).
  rewrite bind_assoc. cbn [it_entry with_entry]. rewrite (bind_Ok _ _ _ _ _ E2).
  rewrite Hdir, Hroot. cbn [negb].
  change (last_component (path_of "/a")) with [x61].
  destruct (decide (strlen [x61] > FILENAME_SIZE - 1)) as [H | _]; [vm_compute in H; discriminate H |].
  destruct (decide (hd x00 [x61] = x00)) as [H | _]; [discriminate H |].
  rewrite bind_assoc. rewrite (bind_Ok _ _ _ _ _ E3).
  rewrite bind_assoc. rewrite (bind_Ok _ _ _ _ _ E4).
  rewrite bind_assoc. rewrite (bind_Ok _ _ _ _ _ (eq_refl : ret (it0, None) g1 = (Ok (it0, None), g1))).
  cbn [fst snd].
  rewrite bind_assoc. rewrite (bind_Ok _ _ _ _ _ (eq_refl : ret 0 g1 = (Ok 0, g1))).
  unfold it0. cbn [it_entry it_cluster].
  unfold dir_entry_set_size, entry_store_cluster.
  destruct (write_entry_runs g1 0 0 0 (cstring [x61] ++ [x00]) r0 Hr0) as (ga & ca & Ea & Hca).
  rewrite bind_assoc. rewrite (bind_Ok _ _ _ _ _ Ea).
  destruct (write_entry_runs ga 0 0 FILENAME_SIZE (le_encode 4 (dir_entry_size_word 0 false)) ca Hca)
    as (gb & cb & Eb & Hcb).
  rewrite bind_assoc. rewrite (bind_Ok _ _ _ _ _ Eb).
  destruct (write_entry_runs gb 0 0 (FILENAME_SIZE + 4) (le_encode 2 0) cb Hcb)
    as (gc & cc & Ec & Hcc).
  rewrite bind_assoc. rewrite (bind_Ok _ _ _ _ _ Ec).
  destruct (update_cluster_runs gc 0 mark_cluster cc Hcc) as (gd & cd & Ed & Hcd).
  rewrite bind_assoc. rewrite (bind_Ok _ _ _ _ _ Ed).
  exists gd. reflexivity.
Qed.

Section SmallStore.

Variable md5 : list byte -> list byte.
Hypothesis md5_length : forall bs, length (md5 bs) = 16%nat.

(** Formatting a carrier that holds the superblock and one cluster, and what
    the result holds: the digest, the header, and a root cluster whose
    records are all unused. *)
Lemma format_single_cluster (s : stegger) :
  capacity s = c0_offset + CLUSTER_SIZE ->
  exists s' c0,
    ghostfs_format md5 s = Ok s' /\
    capacity s' = capacity s /\
    Z.of_nat (length (data c0)) = CLUSTER_DATA /\
    next c0 = 0 /\
    (forall i, 0 <= i < CLUSTER_DIRENTS -> hd x00 (filename (entry_at (data c0) i)) = x00) /\
    get_bytes 0 16 (carrier s') = md5 (header_bytes 1 ++ cluster_bytes c0) /\
    get_bytes 16 HEADER_BYTES (carrier s') = header_bytes 1 /\
    get_bytes c0_offset CLUSTER_SIZE (carrier s') = cluster_bytes c0.
Proof.
  intros Hcap. unfold ghostfs_format.
  destruct (decide (capacity s < 16 + HEADER_BYTES + CLUSTER_SIZE)) as [Hlt | _];
    [unfold c0_offset in Hcap; lia |].
  assert (Hq : (capacity s - (16 + HEADER_BYTES)) / CLUSTER_SIZE = 1)
    by (rewrite Hcap; reflexivity).
  rewrite Hq.
  destruct (decide (1 > 0xFFFF)) as [? | _]; [lia |].
  unfold read_cluster.
  rewrite stegger_read_in_range by (rewrite ?Hcap; unfold c0_offset, HEADER_BYTES, CLUSTER_SIZE; lia).
  cbn [result_bind].
  change (Z.to_nat (1 - 1)) with 0%nat. cbn [format_loop].
  set (c := unmark_cluster (cluster_of_bytes
              (get_bytes (c0_offset + 0 * CLUSTER_SIZE) CLUSTER_SIZE (carrier s)))).
  set (c0 := set_data (clear_entries (data c)) (set_next 0 c)).
  assert (Hc : Z.of_nat (length (data c)) = CLUSTER_DATA).
  { unfold c. cbn [data unmark_cluster cluster_of_bytes].
    unfold capacity, c0_offset, HEADER_BYTES, CLUSTER_SIZE, CLUSTER_DATA in *.
    rewrite length_get_bytes; [lia | lia | lia |].
    rewrite length_get_bytes; lia. }
  assert (Hdata0 : Z.of_nat (length (data c0)) = CLUSTER_DATA).
  { unfold c0. cbn [data set_data]. apply length_clear_entries. exact Hc. }
  assert (Hc0 : Z.of_nat (length (cluster_bytes c0)) = CLUSTER_SIZE)
    by (apply length_cluster_bytes; exact Hdata0).
  change (u16 1) with 1.
  set (digest := md5 (header_bytes 1 ++ cluster_bytes c0)).
  assert (Hd : length digest = 16%nat) by apply md5_length.
  assert (Hh : length (header_bytes 1) = 2%nat) by reflexivity.
  unfold write_header. fold digest.
  unfold capacity, c0_offset, HEADER_BYTES, CLUSTER_SIZE in Hcap, Hc0.
  rewrite (stegger_write_in_range s digest 0) by (unfold capacity; lia).
  cbn [result_bind].
  rewrite (stegger_write_in_range _ (header_bytes 1) 16)
    by (unfold capacity; cbn [carrier]; rewrite ?length_set_bytes; lia).
  cbn [result_bind]. unfold write_cluster.
  rewrite (stegger_write_in_range _ (cluster_bytes c0) (c0_offset + 0 * CLUSTER_SIZE))
    by (unfold capacity, c0_offset, HEADER_BYTES, CLUSTER_SIZE; cbn [carrier];
        rewrite ?length_set_bytes; rewrite ?length_set_bytes; lia).
  cbn [carrier fst].
  exists (Stegger (set_bytes (c0_offset + 0 * CLUSTER_SIZE) (cluster_bytes c0)
            (set_bytes 16 (header_bytes 1) (set_bytes 0 digest (carrier s))))), c0.
  assert (L1 : length (set_bytes 0 digest (carrier s)) = length (carrier s))
    by (apply length_set_bytes; lia).
  assert (L2 : length (set_bytes 16 (header_bytes 1) (set_bytes 0 digest (carrier s)))
               = length (carrier s))
    by (rewrite length_set_bytes; lia).
  split_and!.
  - reflexivity.
  - unfold capacity, c0_offset, HEADER_BYTES, CLUSTER_SIZE. cbn [carrier].
    rewrite length_set_bytes; rewrite ?L2; lia.
  - exact Hdata0.
  - reflexivity.
  - intros i Hi. unfold c0. cbn [data set_data]. apply cleared_entry_unused; assumption.
  - unfold c0_offset, HEADER_BYTES, CLUSTER_SIZE. cbn [carrier].
    rewrite get_set_bytes_other by (rewrite ?L2; lia).
    rewrite get_set_bytes_other by (rewrite ?L1; lia).
    apply get_set_bytes_same_len; rewrite ?md5_length; lia.
  - unfold c0_offset, HEADER_BYTES, CLUSTER_SIZE. cbn [carrier].
    rewrite get_set_bytes_other by (rewrite ?L2; lia).
    apply get_set_bytes_same_len; rewrite ?L1; lia.
  - unfold c0_offset, HEADER_BYTES, CLUSTER_SIZE. cbn [carrier].
    apply get_set_bytes_same_len; rewrite ?L2; lia.
Qed.

(** C6 (amended).  A carrier of exactly 18 + 4096 bytes can be formatted and
    then mounted; the handle counts one cluster and no free cluster, so the
    allocator fails with [ENOSPC] whatever number of clusters it is asked
    for, and [ghostfs_mkdir], which needs a cluster for the new directory,
    never succeeds, whatever the path.  [ghostfs_create] needs no cluster:
    with fuel for one pass over the root cluster, [create("/a")] succeeds. *)
Theorem single_cluster_store_has_no_room (s : stegger) :
  capacity s = c0_offset + CLUSTER_SIZE ->
  exists s' g,
    ghostfs_format md5 s = Ok s' /\
    ghostfs_mount md5 s' = Ok g /\
    hdr_cluster_count g = 1 /\
    gfs_free_clusters g = 0 /\
    (forall count zero, 0 < count -> alloc_clusters count zero g = (Err ENOSPC, g)) /\
    (forall fuel path r g', ghostfs_mkdir fuel path g = (r, g') -> r <> Ok tt) /\
    (forall fuel, (67 <= fuel)%nat ->
       exists g', ghostfs_create fuel (path_of "/a") g = (Ok tt, g')).
Proof.
  intros Hcap.
  destruct (format_single_cluster s Hcap)
    as (s' & c0 & Hfmt & Hcap' & Hdata0 & Hnext0 & Hunused & Hdig & Hhdr & Hc0).
  pose proof (ghostfs_check_spec md5 s' ltac:(lia)) as Hcheck.
  rewrite Hdig, Hhdr, Hc0 in Hcheck.
  destruct (decide (md5 (header_bytes 1 ++ cluster_bytes c0)
                    = md5 (header_bytes 1 ++ cluster_bytes c0))) as [_ | Hne];
    [| contradiction].
  set (g := with_cluster_count (le_decode (header_bytes 1)) (fresh_gfs s')) in *.
  assert (Hcount : hdr_cluster_count g = 1) by reflexivity.
  exists s', g. split_and!.
  - exact Hfmt.
  - unfold ghostfs_mount. rewrite Hcheck. rewrite Hcount. reflexivity.
  - exact Hcount.
  - reflexivity.
  - intros count zero Hpos. apply alloc_clusters_no_room; [rewrite Hcount; lia | exact Hpos].
  - intros fuel path r g' Hrun ->.
    unfold ghostfs_mkdir in Hrun.
    apply bind_inv_Ok in Hrun as (entry & g1 & Hcreate & _).
    destruct (sound_create_entry 1 fuel path true g (Ok entry) g1) as (_ & _ & Hpost).
    + apply cache_sized_empty. reflexivity.
    + exact Hcount.
    + exact Hcreate.
    + destruct (Hpost entry eq_refl) as [_ Hroom]. specialize (Hroom eq_refl). lia.
  - intros fuel Hfuel.
    destruct (cluster_of_cluster_bytes c0 Hdata0 ltac:(rewrite Hnext0; lia)) as [Hd Hn].
    set (r0 := unmark_cluster (cluster_of_bytes (cluster_bytes c0))).
    apply (create_in_empty_root fuel g (with_clusters (<[0 := r0]> (clusters g)) g) r0).
    + unfold cluster_get. rewrite Hcount.
      destruct (decide (0 >= 1)) as [? | _]; [lia |].
      change (clusters g !! 0) with (@None cluster).
      unfold read_cluster. change (gfs_stegger g) with s'.
      rewrite stegger_read_in_range
        by (rewrite ?Hcap', ?Hcap; unfold c0_offset, HEADER_BYTES, CLUSTER_SIZE; lia).
      change (c0_offset + 0 * CLUSTER_SIZE) with c0_offset. rewrite Hc0. reflexivity.
    + cbn [clusters with_clusters]. apply lookup_insert_eq.
    + cbn [hdr_cluster_count with_clusters]. rewrite Hcount. lia.
    + reflexivity.
    + reflexivity.
    + unfold r0. cbn [next unmark_cluster]. rewrite Hn. exact Hnext0.
    + intros i Hi. unfold r0. cbn [data unmark_cluster]. rewrite Hd. apply Hunused. exact Hi.
    + exact Hfuel.
Qed.

End SmallStore.

Lemma single_cluster_store_has_no_room_witness :
  exists s' g,
    ghostfs_format md5_digest carrier1 = Ok s' /\
    ghostfs_mount md5_digest s' = Ok g /\
    hdr_cluster_count g = 1 /\
    gfs_free_clusters g = 0 /\
    (forall count zero, 0 < count -> alloc_clusters count zero g = (Err ENOSPC, g)) /\
    (forall fuel path r g', ghostfs_mkdir fuel path g = (r, g') -> r <> Ok tt) /\
    (forall fuel, (67 <= fuel)%nat ->
       exists g', ghostfs_create fuel (path_of "/a") g = (Ok tt, g')).
Proof.
  apply (single_cluster_store_has_no_room md5_digest length_md5_digest carrier1).
  vm_compute. reflexivity.
Defined.

Lemma formatted1_is_formatted : ghostfs_format md5_digest carrier1 = Ok formatted1.
Proof. vm_compute. reflexivity. Qed.

Lemma mounted1_is_mounted : ghostfs_mount md5_digest formatted1 = Ok mounted1.
Proof. vm_compute. reflexivity. Qed.

(** C6, as stated, fails: on the smallest filesystem a regular file can
    still be created; the record goes into the root cluster and no cluster
    is allocated. *)
Lemma create_on_single_cluster_counterexample :
  capacity carrier1 = 18 + 4096 /\
  ghostfs_format md5_digest carrier1 = Ok formatted1 /\
  ghostfs_mount md5_digest formatted1 = Ok mounted1 /\
  hdr_cluster_count mounted1 = 1 /\
  outcome (ghostfs_create 100 (path_of "/a")) mounted1 = Ok tt.
Proof.
  split_and!;
    [vm_compute; reflexivity | exact formatted1_is_formatted | exact mounted1_is_mounted
    | vm_compute; reflexivity | vm_compute; reflexivity].
Qed.

(** There, making a directory in the root fails for want of a cluster. *)
Lemma mkdir_on_single_cluster : outcome (ghostfs_mkdir 100 (path_of "/d")) mounted1 = Err ENOSPC.
Proof. vm_compute. reflexivity. Qed.

(** ** Rename and the size word *)

Lemma read_entry_inv nr idx g e g' :
  read_entry (ClusterEntry nr idx) g = (Ok e, g') ->
  g' = g /\ exists c, clusters g !! nr = Some c /\ e = entry_at (data c) idx.
Proof.
  cbn [read_entry]. unfold bind, deref.
  destruct (clusters g !! nr) as [c |]; [| discriminate].
  intros [= <- <-]. split; [reflexivity | eauto].
Qed.

Lemma write_entry_inv nr idx off bs g g' :
  write_entry (ClusterEntry nr idx) off bs g = (Ok tt, g') ->
  exists c, clusters g !! nr = Some c /\
    g' = with_clusters
           (<[nr := set_data (set_bytes (idx * DIR_ENTRY_SIZE + off) bs (data c)) c]> (clusters g)) g.
Proof.
  cbn [write_entry]. unfold update_cluster.
  destruct (clusters g !! nr) as [c |]; [| discriminate].
  intros [= <-]. eauto.
Qed.

Lemma update_cluster_inv p f g g' :
  update_cluster p f g = (Ok tt, g') ->
  exists c, clusters g !! p = Some c /\ g' = with_clusters (<[p := f c]> (clusters g)) g.
Proof.
  unfold update_cluster. destruct (clusters g !! p) as [c |]; [| discriminate].
  intros [= <-]. eauto.
Qed.

(** A store into one record of a directory payload leaves the others. *)
Lemma entry_at_set_other (d : list byte) di dj off bs :
  Z.of_nat (length d) = CLUSTER_DATA ->
  0 <= di < CLUSTER_DIRENTS -> 0 <= dj < CLUSTER_DIRENTS -> di <> dj ->
  0 <= off -> off + Z.of_nat (length bs) <= DIR_ENTRY_SIZE ->
  entry_at (set_bytes (dj * DIR_ENTRY_SIZE + off) bs d) di = entry_at d di.
Proof.
  intros Hd Hdi Hdj Hne Hoff Hfit. unfold entry_at.
  unfold CLUSTER_DATA, CLUSTER_DIRENTS, DIR_ENTRY_SIZE, FILENAME_SIZE in *.
  f_equal; [| f_equal | f_equal]; apply get_set_bytes_other; lia.
Qed.

Lemma entry_word_ranges (d : list byte) di :
  Z.of_nat (length d) = CLUSTER_DATA -> 0 <= di < CLUSTER_DIRENTS ->
  0 <= size (entry_at d di) < 2 ^ 32 /\ 0 <= cluster_nr (entry_at d di) < 2 ^ 16.
Proof.
  intros Hd Hdi. unfold entry_at. cbn [size cluster_nr].
  unfold CLUSTER_DATA, CLUSTER_DIRENTS, DIR_ENTRY_SIZE, FILENAME_SIZE in *.
  split.
  - pose proof (le_decode_range (get_bytes (di * 62 + 56) 4 d)) as H.
    rewrite length_get_bytes in H by lia. exact H.
  - pose proof (le_decode_range (get_bytes (di * 62 + 56 + 4) 2 d)) as H.
    rewrite length_get_bytes in H by lia. exact H.
Qed.

(** Clearing the name of a record leaves its other two fields. *)
Lemma fields_after_clear_name (d : list byte) di :
  Z.of_nat (length d) = CLUSTER_DATA -> 0 <= di < CLUSTER_DIRENTS ->
  size (entry_at (set_bytes (di * DIR_ENTRY_SIZE + 0) [x00] d) di) = size (entry_at d di) /\
  cluster_nr (entry_at (set_bytes (di * DIR_ENTRY_SIZE + 0) [x00] d) di)
  = cluster_nr (entry_at d di).
Proof.
  intros Hd Hdi. unfold entry_at. cbn [size cluster_nr length].
  unfold CLUSTER_DATA, CLUSTER_DIRENTS, DIR_ENTRY_SIZE, FILENAME_SIZE in *.
  split; f_equal; apply get_set_bytes_other; cbn [length]; lia.
Qed.

(** The fields of a record after a store into a record of the same payload:
    either it is another record, and nothing changes, or the same. *)
Lemma size_after_store_size (d : list byte) di dj v :
  Z.of_nat (length d) = CLUSTER_DATA ->
  0 <= di < CLUSTER_DIRENTS -> 0 <= dj < CLUSTER_DIRENTS ->
  size (entry_at (set_bytes (dj * DIR_ENTRY_SIZE + FILENAME_SIZE) (le_encode 4 v) d) di)
  = if decide (di = dj) then v mod 2 ^ 32 else size (entry_at d di).
Proof.
  intros Hd Hdi Hdj. destruct (decide (di = dj)) as [-> | Hne].
  - apply size_after_set_size; assumption.
  - rewrite entry_at_set_other; try assumption; try reflexivity.
    + unfold FILENAME_SIZE. lia.
    + rewrite length_le_encode. unfold FILENAME_SIZE, DIR_ENTRY_SIZE. lia.
Qed.

Lemma cluster_after_store_size (d : list byte) di dj v :
  Z.of_nat (length d) = CLUSTER_DATA ->
  0 <= di < CLUSTER_DIRENTS -> 0 <= dj < CLUSTER_DIRENTS ->
  cluster_nr (entry_at (set_bytes (dj * DIR_ENTRY_SIZE + FILENAME_SIZE) (le_encode 4 v) d) di)
  = cluster_nr (entry_at d di).
Proof.
  intros Hd Hdi Hdj. destruct (decide (di = dj)) as [-> | Hne].
  - apply cluster_after_set_size; assumption.
  - rewrite entry_at_set_other; try assumption; try reflexivity.
    + unfold FILENAME_SIZE. lia.
    + rewrite length_le_encode. unfold FILENAME_SIZE, DIR_ENTRY_SIZE. lia.
Qed.

(** The last two stores of [ghostfs_rename]: the record created for the
    new path ends up with the size word and the first-cluster number that
    the record found at the old path has once the new one has been
    created. *)
Lemma rename_copies_created fuel path newpath g g' :
  cache_sized g ->
  ghostfs_rename fuel path newpath g = (Ok tt, g') ->
  exists it entry g0 rr g1 g2 old new,
    dir_iter_lookup fuel path false g = (Ok it, g0) /\
    it_entry it <> RootEntry /\
    cache_sized g0 /\ cache_sized g1 /\ slot_ok (it_entry it) /\
    try (remove_entry fuel newpath false) g0 = (Ok rr, g1) /\
    create_entry fuel newpath false g1 = (Ok entry, g2) /\
    read_entry (it_entry it) g2 = (Ok old, g2) /\
    read_entry entry g' = (Ok new, g') /\
    size new = size old /\
    cluster_nr new = cluster_nr old /\
    dir_entry_is_directory new = dir_entry_is_directory old.
Proof.
  intros Hwf Hrun. unfold ghostfs_rename in Hrun.
  apply bind_inv_Ok in Hrun as (it & g0 & Hlook & Hrun).
  destruct (decide (it_entry it = RootEntry)) as [| Hnroot]; [discriminate Hrun |].
  apply bind_inv_Ok in Hrun as (rr & g1 & Hrem & Hrun).
  apply bind_inv_Ok in Hrun as (entry & g2 & Hcreate & Hrun).
  apply bind_inv_Ok in Hrun as ([] & g3 & Hclear & Hrun).
  apply bind_inv_Ok in Hrun as ([] & g4 & Hmark & Hrun).
  apply bind_inv_Ok in Hrun as (old4 & g4' & Hold4 & Hrun).
  apply bind_inv_Ok in Hrun as ([] & g5 & Hst1 & Hrun).
  apply bind_inv_Ok in Hrun as (old5 & g5' & Hold5 & Hst2).
  set (n := hdr_cluster_count g).
  destruct (sound_dir_iter_lookup n fuel path false g _ _ Hwf eq_refl Hlook) as (W0 & N0 & Hslot).
  specialize (Hslot it eq_refl).
  destruct (sound_try n _ _ (sound_remove_entry n fuel newpath false) g0 _ _ W0 N0 Hrem)
    as (W1 & N1 & _).
  destruct (sound_create_entry n fuel newpath false g1 _ _ W1 N1 Hcreate) as (W2 & N2 & Hent).
  destruct (Hent entry eq_refl) as [(ce & ie & -> & Hie) _].
  destruct (it_entry it) as [| co io] eqn:Hit; [contradiction |].
  cbn [slot_ok] in Hslot.
  (* the old name is cleared *)
  unfold entry_clear_name in Hclear.
  apply write_entry_inv in Hclear as (c2 & Hc2 & Hg3).
  apply update_cluster_inv in Hmark as (cm & Hcm & Hg4).
  pose proof (Hwf2 := W2 co c2 Hc2). cbn beta in Hwf2.
  set (d3 := set_bytes (io * DIR_ENTRY_SIZE + 0) [x00] (data c2)) in *.
  assert (Hd3 : Z.of_nat (length d3) = CLUSTER_DATA).
  { unfold d3. rewrite length_set_bytes; [exact Hwf2 | |];
      cbn [length]; unfold CLUSTER_DIRENTS, DIR_ENTRY_SIZE, CLUSTER_DATA in *; lia. }
  destruct (fields_after_clear_name (data c2) io Hwf2 Hslot) as [Hsz3 Hcl3].
  fold d3 in Hsz3, Hcl3.
  assert (Hm3 : clusters g3 = <[co := set_data d3 c2]> (clusters g2))
    by (rewrite Hg3; reflexivity).
  assert (Hm4 : clusters g4 = <[it_cluster it := mark_cluster cm]> (clusters g3))
    by (rewrite Hg4; reflexivity).
  (* the state in which the fields are copied *)
  assert (W3 : cache_sized g3).
  { unfold cache_sized. rewrite Hm3. apply map_Forall_insert_2; [exact Hd3 | exact W2]. }
  assert (W4 : cache_sized g4).
  { unfold cache_sized. rewrite Hm4. apply map_Forall_insert_2; [| exact W3].
    exact (W3 _ _ Hcm). }
  assert (Hco3 : clusters g3 !! co = Some (set_data d3 c2))
    by (rewrite Hm3; apply lookup_insert_eq).
  assert (Hco4 : exists co4, clusters g4 !! co = Some co4 /\ data co4 = d3).
  { rewrite Hm4. destruct (decide (it_cluster it = co)) as [E | Hne].
    - rewrite E in *. rewrite lookup_insert_eq. rewrite Hco3 in Hcm. injection Hcm as <-. eauto.
    - rewrite lookup_insert_ne by exact Hne. eauto. }
  destruct Hco4 as (co4 & Hco4 & Hdo4).
  apply read_entry_inv in Hold4 as (-> & co4' & Hco4' & ->).
  rewrite Hco4 in Hco4'. injection Hco4' as <-.
  (* the size word is stored *)
  unfold entry_store_size in Hst1.
  apply write_entry_inv in Hst1 as (ce4 & Hce4 & Hg5).
  pose proof (Hwf4 := W4 ce ce4 Hce4). cbn beta in Hwf4.
  set (w := size (entry_at (data co4) io)) in *.
  set (d5 := set_bytes (ie * DIR_ENTRY_SIZE + FILENAME_SIZE) (le_encode 4 w) (data ce4)) in *.
  assert (Hd5 : Z.of_nat (length d5) = CLUSTER_DATA)
    by (apply length_after_set_size; assumption).
  assert (Hm5 : clusters g5 = <[ce := set_data d5 ce4]> (clusters g4))
    by (rewrite Hg5; reflexivity).
  apply read_entry_inv in Hold5 as (-> & co5 & Hco5 & ->).
  rewrite Hm5 in Hco5.
  (* the cluster number is stored *)
  unfold entry_store_cluster in Hst2.
  apply write_entry_inv in Hst2 as (ce5 & Hce5 & Hg').
  rewrite Hm5, lookup_insert_eq in Hce5. injection Hce5 as <-. cbn [data set_data] in Hg'.
  set (k := cluster_nr (entry_at (data co5) io)) in *.
  set (d6 := set_bytes (ie * DIR_ENTRY_SIZE + (FILENAME_SIZE + 4)) (le_encode 2 k) d5) in *.
  assert (Hce' : clusters g' !! ce = Some (set_data d6 (set_data d5 ce4))).
  { rewrite Hg'. cbn [clusters with_clusters]. apply lookup_insert_eq. }
  (* the fields of the old record when they are read *)
  destruct (entry_word_ranges (data co4) io ltac:(rewrite Hdo4; exact Hd3) Hslot) as [Rw Rk4].
  fold w in Rw.
  assert (Hw : w = size (entry_at (data c2) io))
    by (unfold w; rewrite Hdo4; exact Hsz3).
  assert (Hk : k = cluster_nr (entry_at (data c2) io)).
  { unfold k. destruct (decide (ce = co)) as [E | Hne].
    - rewrite E in *. rewrite lookup_insert_eq in Hco5. injection Hco5 as <-. cbn [data set_data].
      rewrite Hco4 in Hce4. injection Hce4 as <-.
      unfold d5. rewrite cluster_after_store_size by (rewrite ?Hdo4; assumption).
      rewrite Hdo4. exact Hcl3.
    - rewrite lookup_insert_ne in Hco5 by exact Hne.
      rewrite Hco4 in Hco5. injection Hco5 as <-. rewrite Hdo4. exact Hcl3. }
  assert (Rk : 0 <= k < 2 ^ 16).
  { rewrite Hk. exact (proj2 (entry_word_ranges (data c2) io Hwf2 Hslot)). }
  exists it, (ClusterEntry ce ie), g0, rr, g1, g2, (entry_at (data c2) io), (entry_at d6 ie).
  assert (Hsize : size (entry_at d6 ie) = size (entry_at (data c2) io)).
  { unfold d6. rewrite size_after_set_cluster by assumption.
    unfold d5. rewrite size_after_set_size by assumption.
    rewrite Z.mod_small by lia. exact Hw. }
  split_and!.
  - exact Hlook.
  - rewrite Hit. discriminate.
  - exact W0.
  - exact W1.
  - rewrite Hit. exact Hslot.
  - exact Hrem.
  - exact Hcreate.
  - rewrite Hit. apply read_entry_cluster. exact Hc2.
  - rewrite (read_entry_cluster _ _ ie _ Hce'). reflexivity.
  - exact Hsize.
  - unfold d6. rewrite cluster_after_set_cluster by assumption.
    rewrite Z.mod_small by lia. exact Hk.
  - unfold dir_entry_is_directory. rewrite Hsize. reflexivity.
Qed.

Lemma cache_sized_made_d : cache_sized made_d.
Proof. apply (bool_decide_unpack _). vm_compute. reflexivity. Qed.


(** ** The record of a new file *)

(** [ghostfs_create] leaves a record of size 0 without a first cluster:
    the state of a file from which the writes of C1 start. *)
Lemma create_entry_leaves_empty_file fuel path g entry g' :
  cache_sized g ->
  create_entry fuel path false g = (Ok entry, g') ->
  exists e, read_entry entry g' = (Ok e, g') /\
    size e = 0 /\ cluster_nr e = 0 /\ dir_entry_is_directory e = false.
Proof.
  intros Hwf Hrun. unfold create_entry in Hrun.
  set (n := hdr_cluster_count g).
  apply bind_inv_Ok in Hrun as (it & g0 & Hlook & Hrun).
  destruct (sound_dir_iter_lookup n fuel path true g _ _ Hwf eq_refl Hlook) as (W0 & N0 & _).
  apply bind_inv_Ok in Hrun as (parent & g0' & Hpar & Hrun).
  destruct (sound_read_entry n (it_entry it) g0 _ _ W0 N0 Hpar) as (W0' & N0' & _).
  destruct (negb (dir_entry_is_directory parent)); [discriminate Hrun |].
  destruct (decide (strlen (last_component path) > FILENAME_SIZE - 1)) as [| Hname];
    [discriminate Hrun |].
  destruct (decide (hd x00 (last_component path) = x00)); [discriminate Hrun |].
  apply bind_inv_Ok in Hrun as (dup & g1 & Hdup & Hrun).
  destruct (sound_try n _ _ (sound_dir_contains n fuel (cluster_nr parent) (last_component path))
              g0' _ _ W0' N0' Hdup) as (W1 & N1 & _).
  destruct dup as [err | []]; [| discriminate Hrun].
  apply bind_inv_Ok in Hrun as ([it1 found] & g2 & Hfound & Hrun).
  destruct (sound_find_empty_entry n fuel (cluster_nr parent) g1 _ _ W1 N1 Hfound)
    as (W2 & N2 & Hit1).
  specialize (Hit1 _ eq_refl). cbn [fst] in Hit1.
  apply bind_inv_Ok in Hrun as ([it' undo] & g3 & Hslot & Hrun).
  assert (Hblock : cache_sized g3 /\ hdr_cluster_count g3 = n /\ iter_shape it').
  { destruct found as [err' |].
    - assert (Hs : sound n
        (let* nr := alloc_clusters 1 true in
         let* again := try (find_empty_entry fuel nr) in
         update_cluster (it_cluster it1) (fun c => mark_cluster (set_next nr c));;
         ret (match again with inr (i, _) => i | inl _ => it1 end, Some (nr, it_cluster it1)))
        (fun slot => iter_shape (fst slot))).
      { eapply sound_bind; [apply sound_alloc_clusters |]. intros nr _.
        eapply sound_bind; [apply sound_try; apply sound_find_empty_entry |].
        intros again Hagain.
        eapply sound_bind; [apply sound_update_cluster; intros c' Hc'; exact Hc' |]. intros _ _.
        apply sound_ret. cbn [fst].
        destruct again as [e' | [i o]]; [exact Hit1 | exact Hagain]. }
      destruct (Hs g2 _ _ W2 N2 Hslot) as (W3 & N3 & Hpost).
      split_and!; [exact W3 | exact N3 | exact (Hpost _ eq_refl)].
    - injection Hslot as <- <- <-. split_and!; assumption. }
  destruct Hblock as (W3 & N3 & [Hent Hidx]).
  cbn [fst snd] in Hrun.
  apply bind_inv_Ok in Hrun as (nr & g3' & Hnr & Hrun).
  injection Hnr as <- <-.
  rewrite Hent in Hrun.
  set (dc := it_cluster it') in *. set (di := it_entry_nr it') in *.
  apply bind_inv_Ok in Hrun as ([] & g4 & Hw1 & Hrun).
  assert (Hslot_ok : slot_ok (ClusterEntry dc di)) by exact Hidx.
  destruct (sound_write_entry n (ClusterEntry dc di) 0 (cstring (last_component path) ++ [x00])
              Hslot_ok ltac:(lia)
              ltac:(rewrite length_app, Nat2Z.inj_add, length_cstring; cbn [length];
                    unfold FILENAME_SIZE, DIR_ENTRY_SIZE in *; lia)
              g3 _ _ W3 N3 Hw1) as (W4 & N4 & _).
  apply bind_inv_Ok in Hrun as ([] & g5 & Hw2 & Hrun).
  apply bind_inv_Ok in Hrun as ([] & g6 & Hw3 & Hrun).
  apply bind_inv_Ok in Hrun as ([] & g7 & Hmark & Hrun).
  injection Hrun as <- <-.
  unfold dir_entry_set_size in Hw2. apply write_entry_inv in Hw2 as (c4 & Hc4 & Hg5).
  pose proof (Hd4 := W4 dc c4 Hc4). cbn beta in Hd4.
  set (d5 := set_bytes (di * DIR_ENTRY_SIZE + FILENAME_SIZE)
               (le_encode 4 (dir_entry_size_word 0 false)) (data c4)) in *.
  assert (Hd5 : Z.of_nat (length d5) = CLUSTER_DATA) by (apply length_after_set_size; assumption).
  unfold entry_store_cluster in Hw3. apply write_entry_inv in Hw3 as (c5 & Hc5 & Hg6).
  rewrite Hg5 in Hc5. cbn [clusters with_clusters] in Hc5.
  rewrite lookup_insert_eq in Hc5. injection Hc5 as <-. cbn [data set_data] in Hg6.
  set (d6 := set_bytes (di * DIR_ENTRY_SIZE + (FILENAME_SIZE + 4)) (le_encode 2 0) d5) in *.
  apply update_cluster_inv in Hmark as (c6 & Hc6 & Hg7).
  rewrite Hg6 in Hc6. cbn [clusters with_clusters] in Hc6.
  rewrite lookup_insert_eq in Hc6. injection Hc6 as <-.
  assert (Hc7 : clusters g7 !! dc = Some (mark_cluster (set_data d6 (set_data d5 c4)))).
  { rewrite Hg7. cbn [clusters with_clusters]. apply lookup_insert_eq. }
  exists (entry_at d6 di).
  assert (Hsize : size (entry_at d6 di) = 0).
  { unfold d6. rewrite size_after_set_cluster by assumption.
    unfold d5. rewrite size_after_set_size by assumption. reflexivity. }
  split_and!.
  - rewrite (read_entry_cluster _ _ di _ Hc7). reflexivity.
  - exact Hsize.
  - unfold d6. rewrite cluster_after_set_cluster by assumption. reflexivity.
  - unfold dir_entry_is_directory. rewrite Hsize. reflexivity.
Qed.

(** * Further properties of the code *)

(** ** Two concrete files for the examples *)

Lemma file_inv_created_a : file_inv created_a opened_a [] 0 0 [].
Proof.
  unfold file_inv. constructor.
  - vm_compute. reflexivity.
  - vm_compute. reflexivity.
  - unfold CLUSTER_DIRENTS. lia.
  - exists (default dirty_cluster (clusters created_a !! 0)).
    split_and!; [vm_compute; reflexivity | vm_compute; reflexivity | left; reflexivity
                | vm_compute; reflexivity | vm_compute; reflexivity].
  - cbn [length]. unfold FILESIZE_MAX. lia.
  - vm_compute. reflexivity.
  - exact I.
  - intros x c Hx. discriminate Hx.
  - intros x Hx. inversion Hx.
  - constructor.
  - intros Hx. inversion Hx.
  - reflexivity.
  - intros nr Hnr.
    assert (E : hdr_cluster_count created_a = 3) by (vm_compute; reflexivity).
    rewrite E in Hnr.
    assert (Hcases : nr = 1 \/ nr = 2) by lia.
    destruct Hcases as [-> | ->]; apply (bool_decide_unpack _); vm_compute; reflexivity.
  - assert (E1 : hdr_cluster_count created_a = 3) by (vm_compute; reflexivity).
    assert (E2 : gfs_free_clusters created_a = 2) by (vm_compute; reflexivity).
    unfold fields_in_range. rewrite E1, E2. lia.
Qed.

Lemma file_inv_written_a : file_inv written_a opened_a (path_of "hello") 0 0 [1].
Proof.
  unfold file_inv. constructor.
  - vm_compute. reflexivity.
  - vm_compute. reflexivity.
  - unfold CLUSTER_DIRENTS. lia.
  - exists (default dirty_cluster (clusters written_a !! 0)).
    split_and!; [vm_compute; reflexivity | vm_compute; reflexivity | left; reflexivity
                | vm_compute; reflexivity | vm_compute; reflexivity].
  - vm_compute. intros H. discriminate H.
  - vm_compute. reflexivity.
  - apply (bool_decide_unpack _). vm_compute. reflexivity.
  - intros x c Hx Hc. injection Hx as <-.
    assert (E : clusters written_a !! 1 = Some (default dirty_cluster (clusters written_a !! 1)))
      by (vm_compute; reflexivity).
    rewrite E in Hc. injection Hc as <-. vm_compute. reflexivity.
  - intros x Hx. apply list_elem_of_singleton in Hx as ->.
    split; [vm_compute; split; [intros H; discriminate H | reflexivity] |].
    exists (default dirty_cluster (clusters written_a !! 1)).
    split_and!; [vm_compute; reflexivity | vm_compute; intros H; discriminate H
                | vm_compute; reflexivity].
  - apply NoDup_singleton.
  - intros Hx. apply list_elem_of_singleton in Hx. discriminate Hx.
  - vm_compute. reflexivity.
  - intros nr Hnr.
    assert (E : hdr_cluster_count written_a = 3) by (vm_compute; reflexivity).
    rewrite E in Hnr.
    assert (Hcases : nr = 1 \/ nr = 2) by lia.
    destruct Hcases as [-> | ->]; apply (bool_decide_unpack _); vm_compute; reflexivity.
  - assert (E1 : hdr_cluster_count written_a = 3) by (vm_compute; reflexivity).
    assert (E2 : gfs_free_clusters written_a = 1) by (vm_compute; reflexivity).
    unfold fields_in_range. rewrite E1, E2. lia.
Qed.

(** ** The allocator when there is room *)

(** A scan that leaves through [undo] has claimed every unused cluster
    from [pos] on. *)
Lemma alloc_scan_undo_exhausts (n : nat) :
  forall count zero prev first pos alloc g e p' f' a' g',
    all_cached g ->
    1 <= pos -> hdr_cluster_count g - pos < Z.of_nat n ->
    (first = 0 <-> prev = None) ->
    (forall p, prev = Some p -> p < pos /\ is_Some (clusters g !! p)) ->
    alloc_scan n count zero prev first pos alloc g = (Ok (ScanUndo e, p', f', a'), g') ->
    a' = alloc + count_unused (clusters g) pos (Z.to_nat (hdr_cluster_count g - pos)).
Proof.
  induction n as [| n IH];
    intros count zero prev first pos alloc g e p' f' a' g' Hc Hpos Hn Hfp Hprev Hrun.
  { cbn [alloc_scan] in Hrun. destruct (decide (alloc < count)); discriminate Hrun. }
  cbn [alloc_scan] in Hrun.
  destruct (decide (alloc < count)) as [Hlt | Hge]; [| discriminate Hrun].
  rewrite (bind_Ok get_gfs _ g g g eq_refl) in Hrun.
  destruct (decide (pos >= hdr_cluster_count g)) as [Hend | Hin].
  { injection Hrun as <- <- <- <- <-.
    replace (Z.to_nat (hdr_cluster_count g - pos)) with 0%nat by lia. cbn [count_unused]. lia. }
  destruct (Hc pos ltac:(lia)) as [c Hcl].
  rewrite (bind_Ok _ _ _ _ _ (try_Ok _ _ _ _ (cluster_get_cached g pos c Hcl ltac:(lia)))) in Hrun.
  rewrite (bind_Ok _ _ _ _ _ (deref_Some _ _ _ Hcl)) in Hrun.
  assert (Hsplit : Z.to_nat (hdr_cluster_count g - pos)
                   = S (Z.to_nat (hdr_cluster_count g - (pos + 1)))) by lia.
  rewrite Hsplit. cbn [count_unused]. rewrite Hcl.
  destruct (decide (used c = 0)) as [Hfree | Hused].
  - rewrite (bind_Ok _ _ _ _ _ (update_cluster_Some g pos c (claim_cluster zero) Hcl)) in Hrun.
    set (m1 := alter (claim_cluster zero) pos (clusters g)) in *.
    rewrite (bind_Ok (free_clusters_add (-1)) _ _ tt _ eq_refl) in Hrun.
    set (g2 := with_free_clusters _ _) in Hrun.
    set (m2 := match prev with Some p => alter (set_next pos) p m1 | None => m1 end).
    set (g3 := with_clusters m2 g2).
    assert (Hlink : (if decide (first = 0) then ret tt
                     else match prev with
                          | Some p => update_cluster p (set_next pos)
                          | None => undefined
                          end) g2 = (Ok tt, g3)).
    { destruct (decide (first = 0)) as [Hf0 | Hf0].
      - apply Hfp in Hf0. subst g3 m2. rewrite Hf0. reflexivity.
      - destruct prev as [p |]; [| exfalso; apply Hf0, Hfp; reflexivity].
        destruct (Hprev p eq_refl) as [Hp [cp Hcp]].
        assert (Hp1 : clusters g2 !! p = Some cp).
        { subst g2 m1. cbn [clusters with_free_clusters with_clusters].
          rewrite lookup_alter_ne by lia. exact Hcp. }
        rewrite (update_cluster_Some g2 p cp (set_next pos) Hp1). reflexivity. }
    rewrite (bind_Ok _ _ _ _ _ Hlink) in Hrun.
    assert (Hm2 : forall x, pos + 1 <= x -> m2 !! x = clusters g !! x).
    { intros x Hx. subst m2 m1. destruct prev as [p |].
      - destruct (Hprev p eq_refl) as [Hp _].
        rewrite !lookup_alter_ne by lia. reflexivity.
      - rewrite lookup_alter_ne by lia. reflexivity. }
    assert (Hdom : forall x, is_Some (m2 !! x) <-> is_Some (clusters g !! x)).
    { intros x. subst m2 m1. destruct prev as [p |]; rewrite ?is_Some_alter; reflexivity. }
    rewrite (IH count zero (Some pos) (if decide (first = 0) then pos else first)
               (pos + 1) (alloc + 1) g3 e p' f' a' g'
               ltac:(intros x Hx; apply Hdom, Hc; exact Hx)
               ltac:(lia) ltac:(change (hdr_cluster_count g3) with (hdr_cluster_count g); lia)
               ltac:(split; [destruct (decide (first = 0)); lia | discriminate])
               ltac:(intros p [= <-]; split; [lia | apply Hdom; eauto]) Hrun).
    change (hdr_cluster_count g3) with (hdr_cluster_count g).
    change (clusters g3) with m2.
    rewrite (count_unused_agree _ _ _ _ Hm2). lia.
  - rewrite (IH count zero prev first (pos + 1) alloc g e p' f' a' g' Hc ltac:(lia) ltac:(lia) Hfp
               ltac:(intros p Hp; destruct (Hprev p Hp); split; [lia | assumption]) Hrun).
    lia.
Qed.

(** X1.  With the clusters of the filesystem in the cache and at least
    [count] of them unused, [alloc_clusters] succeeds: it returns the head
    of a chain of [count] distinct clusters, all of them unused before and
    in use (and zeroed) after, listed in increasing order of their numbers,
    each linked to the one listed after it, and ended by [next = 0]; the
    free counter goes down by [count] and no other cluster changes. *)
Theorem alloc_clusters_succeeds_with_room (g : ghostfs) (count : Z) :
  all_cached g -> fields_in_range g ->
  0 < count <= unused_clusters g ->
  exists l g',
    alloc_clusters count true g = (Ok (hd 0 l), g') /\
    Z.of_nat (length l) = count /\
    NoDup l /\
    increasing_from 1 l /\
    (forall x, x ∈ l -> 1 <= x < hdr_cluster_count g /\ is_unused (clusters g) x) /\
    linked (clusters g') l /\
    (forall x c, last l = Some x -> clusters g' !! x = Some c -> next c = 0) /\
    (forall x, x ∈ l ->
       exists c, clusters g' !! x = Some c /\ used c = 1 /\ data c = zeros CLUSTER_DATA) /\
    (forall x, x ∉ l -> clusters g' !! x = clusters g !! x) /\
    gfs_free_clusters g' = u16 (gfs_free_clusters g - count) /\
    hdr_cluster_count g' = hdr_cluster_count g.
Proof.
  intros Hc [Hcc Hfree] [Hpos Hroom].
  destruct (alloc_scan_spec (S (Z.to_nat (hdr_cluster_count g))) count true None 0 1 0 g)
    as (l & ex & g1 & Hscan & Hcl1 & Hcc1 & Hst1 & Hroot1 & Hfr1 & Hinc & Hmem & Hcnt & Hex);
    [exact Hc | lia | lia | lia | split; reflexivity | intros p; discriminate |].
  change (0 + Z.of_nat (length l)) with (Z.of_nat (length l)) in *.
  destruct Hex as [[-> Hdone] | [-> Hshort]].
  2:{ exfalso.
      pose proof (alloc_scan_undo_exhausts (S (Z.to_nat (hdr_cluster_count g))) count true None
                    0 1 0 g ENOSPC (prev_after None l) (first_after 0 l) (Z.of_nat (length l)) g1
                    Hc ltac:(lia) ltac:(lia)
                    ltac:(split; reflexivity) ltac:(intros p; discriminate) Hscan) as Hall.
      unfold unused_clusters in Hroom. lia. }
  assert (Hlen : Z.of_nat (length l) = count) by (destruct Hdone as [? | [_ ?]]; lia).
  assert (Hdom : forall x, x ∈ l -> is_Some (clusters g !! x) /\ x < 2 ^ 16).
  { intros x Hx. destruct (Hmem x Hx) as [Hlt (c & Hcx & _)]. split; [eauto | lia]. }
  destruct (linked_link_claimed true l None (clusters g) 1 Hinc
              ltac:(intros p; discriminate) Hdom ltac:(lia)) as [Hlinked _].
  rewrite <- Hcl1 in Hlinked.
  destruct l as [| a l0] eqn:El; [cbn [length] in Hlen; lia |]. rewrite <- El in *.
  assert (Hlast : exists p, last l = Some p) by (rewrite El, last_cons_Some; eauto).
  destruct Hlast as [p Hp].
  assert (Hpin : p ∈ l) by (apply last_Some_elem_of; exact Hp).
  assert (Hs : is_Some (clusters g1 !! p)).
  { rewrite Hcl1. apply link_claimed_is_Some. apply Hdom. exact Hpin. }
  destruct Hs as [cp Hcp].
  assert (Hrun : alloc_clusters count true g
                 = (Ok (hd 0 l), with_clusters (alter (set_next 0) p (clusters g1)) g1)).
  { unfold alloc_clusters.
    rewrite (bind_Ok get_gfs _ g g g eq_refl).
    rewrite (bind_Ok _ _ _ _ _ Hscan). cbv beta iota.
    unfold prev_after. rewrite Hp.
    rewrite (bind_Ok _ _ _ _ _ (update_cluster_Some g1 p cp (set_next 0) Hcp)).
    unfold first_after. reflexivity. }
  exists l, (with_clusters (alter (set_next 0) p (clusters g1)) g1).
  cbn [clusters with_clusters gfs_free_clusters hdr_cluster_count].
  split_and!.
  - exact Hrun.
  - exact Hlen.
  - exact (increasing_from_NoDup _ _ Hinc).
  - exact Hinc.
  - intros x Hx. destruct (Hmem x Hx). split; [| assumption].
    split; [exact (increasing_from_ge _ _ _ Hinc Hx) | assumption].
  - apply linked_alter_last; [exact (increasing_from_NoDup _ _ Hinc) | exact Hp | exact Hlinked].
  - intros x c Hx Hcx. rewrite Hp in Hx. injection Hx as <-.
    rewrite lookup_alter_eq, Hcp in Hcx. injection Hcx as <-. reflexivity.
  - intros x Hx. rewrite Hcl1 in Hcp |- *.
    destruct (link_claimed_zeroed_member l None (clusters g) x Hx (proj1 (Hdom x Hx)))
      as (c' & Hc' & Hu' & Hd').
    rewrite lookup_alter. destruct (decide (p = x)) as [-> | ?]; rewrite Hc'.
    + exists (set_next 0 c'). split_and!; [reflexivity | exact Hu' | exact Hd'].
    + exists c'. split_and!; [reflexivity | exact Hu' | exact Hd'].
  - intros x Hx.
    rewrite lookup_alter_ne by (intros ->; contradiction).
    rewrite Hcl1. apply link_claimed_other; [exact Hx | discriminate].
  - rewrite Hfr1. change (fun f => u16 (f - 1)) with (fun f => u16 (f + -1)).
    rewrite iter_u16_add by exact Hfree. f_equal. lia.
  - exact Hcc1.
Qed.

Lemma all_cached_mounted3 : all_cached mounted3.
Proof.
  intros nr Hnr.
  assert (E : hdr_cluster_count mounted3 = 3) by (vm_compute; reflexivity).
  rewrite E in Hnr.
  assert (Hcases : nr = 1 \/ nr = 2) by lia.
  destruct Hcases as [-> | ->]; apply (bool_decide_unpack _); vm_compute; reflexivity.
Qed.

Lemma fields_in_range_mounted3 : fields_in_range mounted3.
Proof.
  assert (E1 : hdr_cluster_count mounted3 = 3) by (vm_compute; reflexivity).
  assert (E2 : gfs_free_clusters mounted3 = 2) by (vm_compute; reflexivity).
  unfold fields_in_range. rewrite E1, E2. lia.
Qed.

Lemma alloc_clusters_succeeds_with_room_witness :
  exists l g',
    alloc_clusters 2 true mounted3 = (Ok (hd 0 l), g') /\
    Z.of_nat (length l) = 2 /\
    NoDup l /\
    increasing_from 1 l /\
    (forall x, x ∈ l -> 1 <= x < hdr_cluster_count mounted3 /\ is_unused (clusters mounted3) x) /\
    linked (clusters g') l /\
    (forall x c, last l = Some x -> clusters g' !! x = Some c -> next c = 0) /\
    (forall x, x ∈ l ->
       exists c, clusters g' !! x = Some c /\ used c = 1 /\ data c = zeros CLUSTER_DATA) /\
    (forall x, x ∉ l -> clusters g' !! x = clusters mounted3 !! x) /\
    gfs_free_clusters g' = u16 (gfs_free_clusters mounted3 - 2) /\
    hdr_cluster_count g' = hdr_cluster_count mounted3.
Proof.
  apply (alloc_clusters_succeeds_with_room mounted3 2 all_cached_mounted3 fields_in_range_mounted3).
  assert (E : unused_clusters mounted3 = 2) by (vm_compute; reflexivity).
  rewrite E. lia.
Defined.

(** ** Growing a file *)



(** ** Reading a part of a file *)

Lemma get_bytes_take (d : list byte) off n (m : nat) :
  0 <= off -> 0 <= n -> off + n <= Z.of_nat m ->
  get_bytes off n (take m d) = get_bytes off n d.
Proof.
  intros Ho Hn Hm. apply list_eq. intros i.
  rewrite !lookup_get_bytes by lia.
  destruct (decide (Z.of_nat i < n)); [| reflexivity].
  apply lookup_take_lt. lia.
Qed.

Lemma get_bytes_app_r (d1 d2 : list byte) off n :
  Z.of_nat (length d1) <= off -> 0 <= n ->
  get_bytes off n (d1 ++ d2) = get_bytes (off - Z.of_nat (length d1)) n d2.
Proof.
  intros Ho Hn. apply list_eq. intros i.
  rewrite !lookup_get_bytes by lia.
  destruct (decide (Z.of_nat i < n)); [| reflexivity].
  rewrite lookup_app_r by lia. f_equal. lia.
Qed.



(** ** Writes that cannot be done *)

(** X4.  A write, of a [size_t] size at an [off_t] offset, that would end
    beyond [FILESIZE_MAX] (2^31 - 1) fails and leaves the handle as it is:
    with [EINVAL] for a negative offset, with [EOVERFLOW] when
    [offset + size] does not fit in 64 bits, with [EFBIG] when the end is
    below 2^63, and with [EINVAL] for an end from 2^63 on, which is not an
    [off_t]. *)
Theorem ghostfs_write_beyond_max_fails fuel g it content dc di l (buf : list byte) offset :
  file_inv g it content dc di l ->
  - 2 ^ 63 <= offset < 2 ^ 63 -> Z.of_nat (length buf) < 2 ^ 64 ->
  FILESIZE_MAX < offset + Z.of_nat (length buf) ->
  ghostfs_write fuel it buf offset g
  = (Err (if decide (offset < 0) then EINVAL
          else if decide (2 ^ 64 <= offset + Z.of_nat (length buf)) then EOVERFLOW
          else if decide (offset + Z.of_nat (length buf) < 2 ^ 63) then EFBIG
          else EINVAL), g).
Proof.
  intros Hinv Ho Hs Hbig.
  destruct (decide (offset < 0)) as [Hneg | Hnn].
  { unfold ghostfs_write. destruct (decide (offset < 0)); [reflexivity | lia]. }
  destruct (decide (2 ^ 64 <= offset + Z.of_nat (length buf))) as [Hwrap | Hsum].
  { unfold ghostfs_write. destruct (decide (offset < 0)); [lia |].
    assert (Hu : u64 (Z.of_nat (length buf) + offset)
                 = Z.of_nat (length buf) + offset - 2 ^ 64).
    { unfold u64. symmetry. apply (Z.mod_unique _ _ 1); lia. }
    rewrite Hu.
    destruct (decide (Z.of_nat (length buf) + offset - 2 ^ 64 < Z.of_nat (length buf)));
      [reflexivity | lia]. }
  assert (Hsum' : offset + Z.of_nat (length buf) < 2 ^ 64) by lia.
  clear Hsum. rename Hsum' into Hsum.
  assert (Ho' : 0 <= offset < 2 ^ 63) by lia. clear Ho Hnn. rename Ho' into Ho.
  unfold file_inv in Hinv.
  pose proof (fi_size _ _ _ _ _ _ _ Hinv) as Hmax.
  unfold ghostfs_write.
  destruct (decide (offset < 0)) as [? | _]; [lia |].
  rewrite (u64_small (Z.of_nat (length buf) + offset)) by lia.
  destruct (decide (Z.of_nat (length buf) + offset < Z.of_nat (length buf))) as [? | _]; [lia |].
  destruct (file_state_read_entry _ _ _ _ _ _ _ Hinv) as (e & He & Hsz & Hcn).
  rewrite (bind_Ok _ _ _ _ _ He). rewrite Hsz.
  rewrite (u64_small (offset + Z.of_nat (length buf))) by lia.
  destruct (decide (Z.of_nat (length content) < offset + Z.of_nat (length buf))) as [_ | ?]; [| lia].
  apply bind_Err.
  destruct (decide (offset + Z.of_nat (length buf) < 2 ^ 63)) as [Hoff | Hoff].
  - rewrite s64_small by lia. apply do_truncate_too_big. lia.
  - apply do_truncate_negative. unfold s64. rewrite u64_small by lia.
    destruct (decide (offset + Z.of_nat (length buf) < 2 ^ 63)); lia.
Qed.

Lemma ghostfs_write_beyond_max_fails_witness :
  ghostfs_write 100 opened_a (path_of "hello") 0x7FFFFFFF written_a = (Err EFBIG, written_a) /\
  ghostfs_write 100 opened_a (path_of "hello") (2 ^ 63 - 1) written_a = (Err EINVAL, written_a).
Proof.
  split.
  - exact (ghostfs_write_beyond_max_fails 100 written_a opened_a (path_of "hello") 0 0 [1]
             (path_of "hello") 0x7FFFFFFF file_inv_written_a
             ltac:(lia) ltac:(vm_compute; reflexivity) ltac:(vm_compute; reflexivity)).
  - exact (ghostfs_write_beyond_max_fails 100 written_a opened_a (path_of "hello") 0 0 [1]
             (path_of "hello") (2 ^ 63 - 1) file_inv_written_a
             ltac:(lia) ltac:(vm_compute; reflexivity) ltac:(vm_compute; reflexivity)).
Defined.

(** ** The cluster store *)

Lemma cluster_of_cluster_bytes_used c :
  Z.of_nat (length (data c)) = CLUSTER_DATA -> 0 <= used c < 2 ^ 8 ->
  used (cluster_of_bytes (cluster_bytes c)) = used c.
Proof.
  intros Hd Hu. unfold cluster_of_bytes, cluster_bytes. cbn [used].
  unfold CLUSTER_DATA in *.
  rewrite get_bytes_app_r by lia.
  replace (4092 + 2 - Z.of_nat (length (data c))) with 2 by lia.
  change (le_encode 2 (next c) ++ [byte_of_Z (used c); byte_of_Z (dirty c)])
    with ([byte_of_Z (next c); byte_of_Z (next c / 256); byte_of_Z (used c); byte_of_Z (dirty c)]).
  change (get_bytes 2 1 [byte_of_Z (next c); byte_of_Z (next c / 256); byte_of_Z (used c);
                         byte_of_Z (dirty c)]) with [byte_of_Z (used c)].
  cbn [le_decode]. rewrite Z_of_byte_of_Z. unfold u8. rewrite Z.mod_small by lia. lia.
Qed.

(** X5.  What [write_cluster] has written, [read_cluster] reads back, with
    the dirty flag cleared; the other clusters of the store are as before. *)
Theorem write_then_read_cluster s c nr s' c' :
  Z.of_nat (length (data c)) = CLUSTER_DATA ->
  0 <= next c < 2 ^ 16 -> 0 <= used c < 2 ^ 8 -> 0 <= nr ->
  write_cluster s c nr = Ok (s', c') ->
  c' = unmark_cluster c /\
  capacity s' = capacity s /\
  read_cluster s' nr = Ok (unmark_cluster c) /\
  (forall nr2, 0 <= nr2 -> nr2 <> nr -> read_cluster s' nr2 = read_cluster s nr2).
Proof.
  intros Hd Hn Hu Hnr Hw. unfold write_cluster, stegger_write in Hw.
  pose proof (length_cluster_bytes c Hd) as Hlen.
  destruct (decide (0 <= c0_offset + nr * CLUSTER_SIZE
                    ∧ c0_offset + nr * CLUSTER_SIZE + Z.of_nat (length (cluster_bytes c))
                      <= capacity s)) as [[H1 H2] | ?]; [| discriminate Hw].
  injection Hw as <- <-.
  assert (Hcap : capacity (Stegger (set_bytes (c0_offset + nr * CLUSTER_SIZE) (cluster_bytes c)
                                      (carrier s))) = capacity s).
  { unfold capacity in *. cbn [carrier]. rewrite length_set_bytes; lia. }
  split_and!.
  - reflexivity.
  - exact Hcap.
  - unfold read_cluster, stegger_read. rewrite Hcap.
    destruct (decide (0 <= c0_offset + nr * CLUSTER_SIZE
                      ∧ c0_offset + nr * CLUSTER_SIZE + CLUSTER_SIZE <= capacity s)) as [_ | Hno];
      [| exfalso; apply Hno; lia].
    cbn [carrier]. rewrite get_set_bytes_same_len by (unfold capacity in *; lia).
    f_equal.
    destruct (cluster_of_cluster_bytes c Hd Hn) as [E1 E2].
    pose proof (cluster_of_cluster_bytes_used c Hd Hu) as E3.
    destruct (cluster_of_bytes (cluster_bytes c)) as [d' n' u' y'].
    destruct c as [d n u y]. cbn in *. subst. reflexivity.
  - intros nr2 Hnr2 Hne. unfold read_cluster, stegger_read. rewrite Hcap.
    destruct (decide (0 <= c0_offset + nr2 * CLUSTER_SIZE
                      ∧ c0_offset + nr2 * CLUSTER_SIZE + CLUSTER_SIZE <= capacity s))
      as [[H3 H4] | Hno]; [| reflexivity].
    cbn [carrier]. rewrite get_set_bytes_other; [reflexivity | | | | |];
      unfold capacity, CLUSTER_SIZE in *; lia.
Qed.

Lemma write_then_read_cluster_witness :
  exists s',
    write_cluster carrier3 dirty_cluster 1 = Ok (s', unmark_cluster dirty_cluster) /\
    read_cluster s' 1 = Ok (unmark_cluster dirty_cluster).
Proof.
  exists (value_or carrier3 (stegger_write carrier3 (cluster_bytes dirty_cluster)
                               (c0_offset + 1 * CLUSTER_SIZE))).
  assert (Hw : write_cluster carrier3 dirty_cluster 1
               = Ok (value_or carrier3 (stegger_write carrier3 (cluster_bytes dirty_cluster)
                                          (c0_offset + 1 * CLUSTER_SIZE)),
                     unmark_cluster dirty_cluster)) by (vm_compute; reflexivity).
  split; [exact Hw |].
  apply (write_then_read_cluster carrier3 dirty_cluster 1 _ _
           ltac:(vm_compute; reflexivity)
           ltac:(vm_compute; split; [intros H; discriminate H | reflexivity])
           ltac:(vm_compute; split; [intros H; discriminate H | reflexivity])
           ltac:(lia) Hw).
Defined.

(** X6.  [cluster_get] refuses a number at or beyond the cluster count with
    [ERANGE]; otherwise a success leaves the cluster in the cache, clean
    and as [read_cluster] delivers it when it was not cached before,
    touches no other cache slot and not the store, and a second call is a
    cache hit that changes nothing. *)
Theorem cluster_get_loads_once nr g :
  (hdr_cluster_count g <= nr -> cluster_get nr g = (Err ERANGE, g)) /\
  (forall p g', cluster_get nr g = (Ok p, g') ->
     p = nr /\ nr < hdr_cluster_count g /\
     (exists c, clusters g' !! nr = Some c /\
        (clusters g !! nr = None ->
           dirty c = 0 /\ read_cluster (gfs_stegger g) nr = Ok c)) /\
     (forall x, x <> nr -> clusters g' !! x = clusters g !! x) /\
     gfs_stegger g' = gfs_stegger g /\
     cluster_get nr g' = (Ok nr, g')).
Proof.
  split.
  - intros Hge. unfold cluster_get.
    destruct (decide (nr >= hdr_cluster_count g)); [reflexivity | lia].
  - intros p g' Hrun. unfold cluster_get in Hrun.
    destruct (decide (nr >= hdr_cluster_count g)) as [? | Hlt]; [discriminate Hrun |].
    destruct (clusters g !! nr) as [c |] eqn:Hc.
    + injection Hrun as <- <-. split_and!; [reflexivity | lia | | reflexivity.. |].
      * exists c. split; [exact Hc | intros H; discriminate H].
      * apply (cluster_get_cached g nr c Hc). lia.
    + destruct (read_cluster (gfs_stegger g) nr) as [c | e | |] eqn:Hread; try discriminate Hrun.
      injection Hrun as <- <-. cbn [clusters with_clusters gfs_stegger].
      split_and!; [reflexivity | lia | | | reflexivity |].
      * exists c. split; [apply lookup_insert_eq |]. intros _. split; [| reflexivity].
        unfold read_cluster in Hread.
        destruct (stegger_read _ _ _); try discriminate Hread.
        injection Hread as <-. reflexivity.
      * intros x Hx. apply lookup_insert_ne. congruence.
      * apply (cluster_get_cached _ nr c); [apply lookup_insert_eq |].
        cbn [hdr_cluster_count with_clusters]. lia.
Qed.

(** [cluster_at] beyond the end of a chain. *)
Lemma cluster_at_loop_beyond l :
  forall a c0 g (n : nat),
    linked (clusters g) (a :: l) ->
    (forall x, x ∈ a :: l -> 1 <= x < hdr_cluster_count g) ->
    (forall x c, last (a :: l) = Some x -> clusters g !! x = Some c -> next c = 0) ->
    (length (a :: l) < n)%nat ->
    cluster_at_loop n a c0 g = (Err EIO, g).
Proof.
  induction l as [| b l IH]; intros a c0 g n Hl Hr Hlast Hn;
    (destruct n as [| n]; [cbn [length] in Hn; lia |]); cbn [cluster_at_loop].
  - destruct (Hr a ltac:(left)) as [Ha1 Ha2].
    destruct (decide (a = 0)); [lia |].
    destruct (linked_head _ _ _ Hl) as [c Hc].
    rewrite (bind_Ok _ _ _ _ _ (cluster_get_cached g a c Hc Ha2)).
    rewrite (bind_Ok _ _ _ _ _ (deref_Some _ _ _ Hc)).
    rewrite (Hlast a c eq_refl Hc).
    destruct n as [| n]; [cbn [length] in Hn; lia |]. reflexivity.
  - destruct (Hr a ltac:(left)) as [Ha1 Ha2].
    destruct (decide (a = 0)); [lia |].
    destruct (linked_cons_next _ _ _ _ Hl) as (c & Hc & Hnext).
    rewrite (bind_Ok _ _ _ _ _ (cluster_get_cached g a c Hc Ha2)).
    rewrite (bind_Ok _ _ _ _ _ (deref_Some _ _ _ Hc)).
    rewrite Hnext. apply IH.
    + apply (linked_tail _ a). exact Hl.
    + intros x Hx. apply Hr. right. exact Hx.
    + intros x cx Hx. apply Hlast. exact Hx.
    + cbn [length] in *. lia.
Qed.

(** X7.  On a chain of cached clusters that ends with [next = 0],
    [cluster_at] returns the cluster at position [index] of the chain, and
    fails with [EIO] for an index at or beyond its length; the handle is
    unchanged. *)
Theorem cluster_at_follows_chain g a l index :
  linked (clusters g) (a :: l) ->
  (forall x, x ∈ a :: l -> 1 <= x < hdr_cluster_count g) ->
  (forall x c, last (a :: l) = Some x -> clusters g !! x = Some c -> next c = 0) ->
  0 <= index ->
  cluster_at a index g
  = (match (a :: l) !! Z.to_nat index with
     | Some p => Ok (Some p)
     | None => Err EIO
     end, g).
Proof.
  intros Hl Hr Hlast Hi. unfold cluster_at.
  replace (Z.to_nat (index + 1)) with (S (Z.to_nat index)) by lia.
  destruct ((a :: l) !! Z.to_nat index) as [p |] eqn:Hp.
  - rewrite (cluster_at_loop_chain _ l a None g Hl Hr (lookup_lt_Some _ _ _ Hp)).
    rewrite Hp. reflexivity.
  - apply (cluster_at_loop_beyond l); try assumption.
    apply lookup_ge_None in Hp. lia.
Qed.

Lemma cluster_at_follows_chain_witness :
  cluster_at 1 0 written_a
  = (match [1] !! Z.to_nat 0 with Some p => Ok (Some p) | None => Err EIO end, written_a)
  /\ cluster_at 1 1 written_a
     = (match [1] !! Z.to_nat 1 with Some p => Ok (Some p) | None => Err EIO end, written_a).
Proof.
  pose proof file_inv_written_a as H. unfold file_inv in H.
  split; apply cluster_at_follows_chain;
    try exact (fi_chain _ _ _ _ _ _ _ H);
    try exact (fi_last _ _ _ _ _ _ _ H);
    try (intros x Hx; exact (proj1 (fi_members _ _ _ _ _ _ _ H x Hx)));
    lia.
Defined.

(** ** Sizes and the size word *)

(** X8.  For a size that is not negative, [size_to_clusters] is the number
    of clusters of 4092 bytes that hold it: the quotient rounded up, and 0
    only for size 0. *)
Theorem size_to_clusters_rounds_up s :
  0 <= s ->
  size_to_clusters s = (s + CLUSTER_DATA - 1) / CLUSTER_DATA /\
  s <= CLUSTER_DATA * size_to_clusters s < s + CLUSTER_DATA /\
  (size_to_clusters s = 0 <-> s = 0).
Proof.
  intros Hs. pose proof (size_to_clusters_bounds s Hs) as (H0 & H1 & H2).
  split_and!; try assumption.
  - unfold CLUSTER_DATA in *.
    apply Z.div_unique with (r := s + 4092 - 1 - 4092 * size_to_clusters s); lia.
  - unfold CLUSTER_DATA in *. split; intros H; [lia |]. subst s. reflexivity.
Qed.

Lemma size_to_clusters_rounds_up_witness :
  size_to_clusters 4093 = (4093 + CLUSTER_DATA - 1) / CLUSTER_DATA /\
  4093 <= CLUSTER_DATA * size_to_clusters 4093 < 4093 + CLUSTER_DATA /\
  (size_to_clusters 4093 = 0 <-> 4093 = 0).
Proof. apply (size_to_clusters_rounds_up 4093). lia. Defined.

Lemma land_pow2_31 w :
  0 <= w < 2 ^ 32 ->
  Z.land w 0x80000000 = if decide (2 ^ 31 <= w) then 2 ^ 31 else 0.
Proof.
  intros Hw. change 0x80000000 with (2 ^ 31).
  destruct (decide (2 ^ 31 <= w)) as [Hhi | Hlo].
  - apply Z.bits_inj'. intros n Hn. rewrite Z.land_spec.
    destruct (decide (n = 31)) as [-> | Hne].
    + rewrite Z.pow2_bits_true by lia. rewrite andb_true_r.
      apply Z.testbit_true; [lia |].
      replace w with ((w - 2 ^ 31) + 1 * 2 ^ 31) by lia.
      rewrite Z.div_add by lia. rewrite Z.div_small by lia. reflexivity.
    + rewrite Z.pow2_bits_false by lia. apply andb_false_r.
  - apply Z.bits_inj'. intros n Hn. rewrite Z.land_spec, Z.bits_0.
    destruct (decide (n = 31)) as [-> | Hne].
    + destruct (decide (w = 0)) as [-> | Hnz]; [rewrite Z.bits_0; reflexivity |].
      rewrite Z.bits_above_log2; [reflexivity | lia |].
      apply Z.log2_lt_pow2; lia.
    + rewrite Z.pow2_bits_false by lia. apply andb_false_r.
Qed.

Lemma size_word_value new_size is_dir :
  dir_entry_size_word new_size is_dir
  = new_size mod 2 ^ 31 + (if is_dir then 2 ^ 31 else 0).
Proof.
  unfold dir_entry_size_word, u32.
  change 0x7FFFFFFF with (Z.ones 31). rewrite Z.land_ones by lia.
  assert (Hm : (new_size mod 2 ^ 32) mod 2 ^ 31 = new_size mod 2 ^ 31).
  { change (2 ^ 32) with (2 ^ 31 * 2). rewrite Z.rem_mul_r by lia.
    rewrite Z.mul_comm, Z.mod_add by lia. apply Z.mod_mod. lia. }
  rewrite Hm. pose proof (Z.mod_pos_bound new_size (2 ^ 31) ltac:(lia)) as Hr.
  destruct is_dir; [| lia].
  change 0x80000000 with (2 ^ 31).
  assert (Hland : Z.land (new_size mod 2 ^ 31) (2 ^ 31) = 0).
  { apply Z.bits_inj'. intros n Hn. rewrite Z.land_spec, Z.bits_0.
    destruct (decide (n = 31)) as [-> | Hne].
    + destruct (decide (new_size mod 2 ^ 31 = 0)) as [-> | Hnz]; [rewrite Z.bits_0; reflexivity |].
      rewrite Z.bits_above_log2; [reflexivity | lia |].
      apply Z.log2_lt_pow2; lia.
    + rewrite Z.pow2_bits_false by lia. apply andb_false_r. }
  rewrite <- (Z.lxor_lor _ _ Hland). symmetry. apply Z.add_nocarry_lxor. exact Hland.
Qed.

(** X9.  [dir_entry_set_size] on a record of a cached directory cluster,
    read back: the directory flag is the one given, the low 31 bits of the
    size word are those of the new size, and the name, the first cluster
    and the other records of the cluster are untouched. *)
Theorem dir_entry_set_size_read_back g nr idx c new_size is_dir :
  clusters g !! nr = Some c ->
  Z.of_nat (length (data c)) = CLUSTER_DATA ->
  0 <= idx < CLUSTER_DIRENTS ->
  exists g' e',
    dir_entry_set_size (ClusterEntry nr idx) new_size is_dir g = (Ok tt, g') /\
    read_entry (ClusterEntry nr idx) g' = (Ok e', g') /\
    dir_entry_is_directory e' = is_dir /\
    Z.land (size e') 0x7FFFFFFF = new_size mod 2 ^ 31 /\
    filename e' = filename (entry_at (data c) idx) /\
    cluster_nr e' = cluster_nr (entry_at (data c) idx) /\
    (forall j, 0 <= j < CLUSTER_DIRENTS -> j <> idx ->
       read_entry (ClusterEntry nr j) g' = (Ok (entry_at (data c) j), g')).
Proof.
  intros Hc Hd Hidx.
  set (w := dir_entry_size_word new_size is_dir).
  set (d' := set_bytes (idx * DIR_ENTRY_SIZE + FILENAME_SIZE) (le_encode 4 w) (data c)).
  set (g' := with_clusters (<[nr := set_data d' c]> (clusters g)) g).
  assert (Hrun : dir_entry_set_size (ClusterEntry nr idx) new_size is_dir g = (Ok tt, g')).
  { unfold dir_entry_set_size. cbn [write_entry]. unfold update_cluster. rewrite Hc. reflexivity. }
  assert (Hc' : clusters g' !! nr = Some (set_data d' c)) by apply lookup_insert_eq.
  pose proof (Z.mod_pos_bound new_size (2 ^ 31) ltac:(lia)) as Hr.
  assert (Hw : w = new_size mod 2 ^ 31 + (if is_dir then 2 ^ 31 else 0)) by apply size_word_value.
  assert (Hwr : 0 <= w < 2 ^ 32) by (rewrite Hw; destruct is_dir; lia).
  assert (Hsize : size (entry_at d' idx) = w).
  { unfold d'. rewrite size_after_set_size by assumption. apply Z.mod_small. exact Hwr. }
  exists g', (entry_at d' idx). split_and!.
  - exact Hrun.
  - exact (read_entry_cluster g' nr idx _ Hc').
  - unfold dir_entry_is_directory. rewrite Hsize, land_pow2_31 by exact Hwr.
    rewrite Hw. destruct is_dir.
    + destruct (decide (2 ^ 31 <= new_size mod 2 ^ 31 + 2 ^ 31)); [| lia].
      apply bool_decide_eq_true. lia.
    + destruct (decide (2 ^ 31 <= new_size mod 2 ^ 31 + 0)); [lia |].
      apply bool_decide_eq_false. lia.
  - rewrite Hsize. change 0x7FFFFFFF with (Z.ones 31). rewrite Z.land_ones by lia.
    rewrite Hw. destruct is_dir.
    + replace (new_size mod 2 ^ 31 + 2 ^ 31) with (new_size mod 2 ^ 31 + 1 * 2 ^ 31) by lia.
      rewrite Z.mod_add by lia. apply Z.mod_mod. lia.
    + rewrite Z.add_0_r. apply Z.mod_mod. lia.
  - unfold d', entry_at. cbn [filename].
    apply get_set_bytes_other; rewrite ?length_le_encode;
      unfold CLUSTER_DATA, CLUSTER_DIRENTS, DIR_ENTRY_SIZE, FILENAME_SIZE in *; lia.
  - unfold d'. apply cluster_after_set_size; assumption.
  - intros j Hj Hne. rewrite (read_entry_cluster g' nr j _ Hc'). cbn [data set_data].
    unfold d'. rewrite entry_at_set_other; try assumption; try reflexivity.
    + unfold FILENAME_SIZE. lia.
    + rewrite length_le_encode. unfold FILENAME_SIZE, DIR_ENTRY_SIZE. lia.
Qed.

Lemma dir_entry_set_size_read_back_witness :
  exists g' e',
    dir_entry_set_size (ClusterEntry 0 0) 7 true created_a = (Ok tt, g') /\
    read_entry (ClusterEntry 0 0) g' = (Ok e', g') /\
    dir_entry_is_directory e' = true /\
    Z.land (size e') 0x7FFFFFFF = 7 mod 2 ^ 31 /\
    filename e' = filename (entry_at (data (default dirty_cluster (clusters created_a !! 0))) 0) /\
    cluster_nr e'
    = cluster_nr (entry_at (data (default dirty_cluster (clusters created_a !! 0))) 0) /\
    (forall j, 0 <= j < CLUSTER_DIRENTS -> j <> 0 ->
       read_entry (ClusterEntry 0 j) g'
       = (Ok (entry_at (data (default dirty_cluster (clusters created_a !! 0))) j), g')).
Proof.
  apply (dir_entry_set_size_read_back created_a 0 0
           (default dirty_cluster (clusters created_a !! 0)) 7 true).
  - vm_compute. reflexivity.
  - vm_compute. reflexivity.
  - unfold CLUSTER_DIRENTS. lia.
Defined.

(** ** Paths *)

Lemma dir_iter_lookup_relative fuel path skip_last g :
  hd x00 path <> slash -> dir_iter_lookup fuel path skip_last g = (Err EINVAL, g).
Proof.
  intros H. unfold dir_iter_lookup.
  destruct (decide (hd x00 path ≠ slash)); [reflexivity | contradiction].
Qed.

(** X10.  Every operation that takes a path rejects one that does not start
    with ['/'] with [EINVAL], before it touches the handle. *)
Theorem relative_path_is_rejected fuel path g :
  hd x00 path <> slash ->
  ghostfs_create fuel path g = (Err EINVAL, g) /\
  ghostfs_mkdir fuel path g = (Err EINVAL, g) /\
  ghostfs_unlink fuel path g = (Err EINVAL, g) /\
  ghostfs_rmdir fuel path g = (Err EINVAL, g) /\
  (forall new_size, ghostfs_truncate fuel path new_size g = (Err EINVAL, g)) /\
  (forall newpath, ghostfs_rename fuel path newpath g = (Err EINVAL, g)) /\
  ghostfs_open fuel path g = (Err EINVAL, g) /\
  ghostfs_opendir fuel path g = (Err EINVAL, g) /\
  (forall uid gid mount_time,
     ghostfs_getattr uid gid mount_time fuel path g = (Err EINVAL, g)).
Proof.
  intros H.
  pose proof (fun s => dir_iter_lookup_relative fuel path s g H) as Hl.
  split_and!; intros;
    unfold ghostfs_create, ghostfs_mkdir, ghostfs_unlink, ghostfs_rmdir, ghostfs_truncate,
      ghostfs_rename, ghostfs_open, ghostfs_opendir, ghostfs_getattr, create_entry, remove_entry;
    rewrite ?bind_assoc; apply bind_Err; apply Hl.
Qed.

Lemma relative_path_is_rejected_witness :
  ghostfs_create 100 (path_of "a") mounted3 = (Err EINVAL, mounted3) /\
  ghostfs_mkdir 100 (path_of "a") mounted3 = (Err EINVAL, mounted3) /\
  ghostfs_unlink 100 (path_of "a") mounted3 = (Err EINVAL, mounted3) /\
  ghostfs_rmdir 100 (path_of "a") mounted3 = (Err EINVAL, mounted3) /\
  (forall new_size, ghostfs_truncate 100 (path_of "a") new_size mounted3 = (Err EINVAL, mounted3)) /\
  (forall newpath, ghostfs_rename 100 (path_of "a") newpath mounted3 = (Err EINVAL, mounted3)) /\
  ghostfs_open 100 (path_of "a") mounted3 = (Err EINVAL, mounted3) /\
  ghostfs_opendir 100 (path_of "a") mounted3 = (Err EINVAL, mounted3) /\
  (forall uid gid mount_time,
     ghostfs_getattr uid gid mount_time 100 (path_of "a") mounted3 = (Err EINVAL, mounted3)).
Proof.
  apply (relative_path_is_rejected 100 (path_of "a") mounted3).
  intros H. discriminate H.
Defined.

Lemma cluster_get_root nr g r g' :
  cluster_get nr g = (r, g') ->
  root_entry g' = root_entry g /\ hdr_cluster_count g' = hdr_cluster_count g.
Proof.
  unfold cluster_get. intros H.
  destruct (decide (nr >= hdr_cluster_count g)); [injection H as <- <-; auto |].
  destruct (clusters g !! nr); [injection H as <- <-; auto |].
  destruct (read_cluster (gfs_stegger g) nr); injection H as <- <-; auto.
Qed.

Lemma dir_iter_lookup_root fuel skip_last g g1 :
  cluster_get 0 g = (Ok 0, g1) ->
  dir_iter_lookup fuel [slash] skip_last g
  = (Ok {| it_cluster := 0; it_entry := RootEntry; it_entry_nr := 0 |}, g1).
Proof.
  intros Hget. unfold dir_iter_lookup.
  destruct (decide (hd x00 [slash] ≠ slash)) as [H | _]; [exfalso; apply H; reflexivity |].
  unfold dir_iter_init. rewrite bind_assoc. rewrite (bind_Ok _ _ _ _ _ Hget).
  reflexivity.
Qed.

(** X11.  The root directory, named by the path ["/"], cannot be unlinked,
    removed, renamed, created again, opened as a file or truncated: once
    cluster 0 is in the cache the first five calls fail with [EINVAL] and
    [ghostfs_open] with [EISDIR]; [ghostfs_truncate] tests the size first
    and fails with [EINVAL] for a negative size, with [EFBIG] for a size
    above [FILESIZE_MAX] and with [EISDIR] for every other size.  The root
    can be opened as a directory and [ghostfs_getattr] reports a directory
    of one cluster. *)
Theorem root_directory_is_protected fuel g g1 :
  cluster_get 0 g = (Ok 0, g1) ->
  dir_entry_is_directory (root_entry g) = true ->
  ghostfs_unlink fuel [slash] g = (Err EINVAL, g1) /\
  ghostfs_rmdir fuel [slash] g = (Err EINVAL, g1) /\
  (forall newpath, ghostfs_rename fuel [slash] newpath g = (Err EINVAL, g1)) /\
  ghostfs_create fuel [slash] g = (Err EINVAL, g1) /\
  ghostfs_mkdir fuel [slash] g = (Err EINVAL, g1) /\
  ghostfs_open fuel [slash] g = (Err EISDIR, g1) /\
  (forall new_size,
     ghostfs_truncate fuel [slash] new_size g
     = (Err (if decide (new_size < 0) then EINVAL
             else if decide (new_size > FILESIZE_MAX) then EFBIG
             else EISDIR), g1)) /\
  ghostfs_opendir fuel [slash] g = (Ok (Unstarted RootEntry), g1) /\
  (forall uid gid mount_time,
     exists st, ghostfs_getattr uid gid mount_time fuel [slash] g = (Ok st, g1) /\
       st_mode st = Z.lor (Z.lor S_IFDIR S_IXUSR) (Z.lor S_IRUSR S_IWUSR) /\
       st_size st = CLUSTER_SIZE /\ st_blocks st = 8 /\ st_nlink st = 1).
Proof.
  intros Hget Hdir.
  pose proof (fun s => dir_iter_lookup_root fuel s g g1 Hget) as Hl.
  destruct (cluster_get_root _ _ _ _ Hget) as [Hroot _].
  assert (Hdir1 : dir_entry_is_directory (root_entry g1) = true) by (rewrite Hroot; exact Hdir).
  assert (Hread : read_entry RootEntry g1 = (Ok (root_entry g1), g1)) by reflexivity.
  split_and!.
  - unfold ghostfs_unlink, remove_entry. rewrite (bind_Ok _ _ _ _ _ (Hl false)). reflexivity.
  - unfold ghostfs_rmdir, remove_entry. rewrite (bind_Ok _ _ _ _ _ (Hl false)). reflexivity.
  - intros newpath. unfold ghostfs_rename. rewrite (bind_Ok _ _ _ _ _ (Hl false)). reflexivity.
  - unfold ghostfs_create, create_entry. rewrite bind_assoc.
    rewrite (bind_Ok _ _ _ _ _ (Hl true)). cbn [it_entry]. rewrite bind_assoc.
    rewrite (bind_Ok _ _ _ _ _ Hread). rewrite Hdir1. reflexivity.
  - unfold ghostfs_mkdir, create_entry. rewrite bind_assoc.
    rewrite (bind_Ok _ _ _ _ _ (Hl true)). cbn [it_entry]. rewrite bind_assoc.
    rewrite (bind_Ok _ _ _ _ _ Hread). rewrite Hdir1. reflexivity.
  - unfold ghostfs_open. rewrite (bind_Ok _ _ _ _ _ (Hl false)). cbn [it_entry].
    rewrite (bind_Ok _ _ _ _ _ Hread). rewrite Hdir1. reflexivity.
  - intros new_size. unfold ghostfs_truncate. rewrite (bind_Ok _ _ _ _ _ (Hl false)).
    unfold do_truncate.
    destruct (decide (new_size < 0)); [reflexivity |].
    destruct (decide (new_size > FILESIZE_MAX)); [reflexivity |].
    cbn [it_entry]. rewrite (bind_Ok _ _ _ _ _ Hread). rewrite Hdir1. reflexivity.
  - unfold ghostfs_opendir. rewrite (bind_Ok _ _ _ _ _ (Hl false)). cbn [it_entry].
    rewrite (bind_Ok _ _ _ _ _ Hread). rewrite Hdir1. reflexivity.
  - intros uid gid mount_time. eexists. split.
    + unfold ghostfs_getattr. rewrite (bind_Ok _ _ _ _ _ (Hl false)). cbn [it_entry].
      rewrite (bind_Ok _ _ _ _ _ Hread). rewrite Hdir1. reflexivity.
    + cbn. split_and!; reflexivity.
Qed.

Lemma root_directory_is_protected_witness :
  ghostfs_unlink 100 [slash] created_a = (Err EINVAL, created_a) /\
  ghostfs_rmdir 100 [slash] created_a = (Err EINVAL, created_a) /\
  (forall newpath, ghostfs_rename 100 [slash] newpath created_a = (Err EINVAL, created_a)) /\
  ghostfs_create 100 [slash] created_a = (Err EINVAL, created_a) /\
  ghostfs_mkdir 100 [slash] created_a = (Err EINVAL, created_a) /\
  ghostfs_open 100 [slash] created_a = (Err EISDIR, created_a) /\
  (forall new_size,
     ghostfs_truncate 100 [slash] new_size created_a
     = (Err (if decide (new_size < 0) then EINVAL
             else if decide (new_size > FILESIZE_MAX) then EFBIG
             else EISDIR), created_a)) /\
  ghostfs_opendir 100 [slash] created_a = (Ok (Unstarted RootEntry), created_a) /\
  (forall uid gid mount_time,
     exists st, ghostfs_getattr uid gid mount_time 100 [slash] created_a = (Ok st, created_a) /\
       st_mode st = Z.lor (Z.lor S_IFDIR S_IXUSR) (Z.lor S_IRUSR S_IWUSR) /\
       st_size st = CLUSTER_SIZE /\ st_blocks st = 8 /\ st_nlink st = 1).
Proof.
  apply (root_directory_is_protected 100 created_a created_a).
  - vm_compute. reflexivity.
  - vm_compute. reflexivity.
Defined.

(** X12.  [ghostfs_create] and [ghostfs_mkdir] never succeed for a path
    whose last component is empty or longer than 55 bytes; when the parent
    directory is found, the error is [ENAMETOOLONG] for the long name and
    [EINVAL] for the empty one, and the handle is as the lookup left it. *)
Theorem create_rejects_bad_names fuel path is_dir g :
  FILENAME_SIZE - 1 < strlen (last_component path) \/ hd x00 (last_component path) = x00 ->
  (forall entry g', create_entry fuel path is_dir g <> (Ok entry, g')) /\
  (forall it g1 parent,
     dir_iter_lookup fuel path true g = (Ok it, g1) ->
     read_entry (it_entry it) g1 = (Ok parent, g1) ->
     dir_entry_is_directory parent = true ->
     create_entry fuel path is_dir g
     = (Err (if decide (strlen (last_component path) > FILENAME_SIZE - 1)
             then ENAMETOOLONG else EINVAL), g1)).
Proof.
  intros Hbad. split.
  - intros entry g' Hrun. unfold create_entry in Hrun.
    apply bind_inv_Ok in Hrun as (it & g0 & _ & Hrun).
    apply bind_inv_Ok in Hrun as (parent & g1 & _ & Hrun).
    destruct (negb (dir_entry_is_directory parent)); [discriminate Hrun |].
    destruct (decide (strlen (last_component path) > FILENAME_SIZE - 1)); [discriminate Hrun |].
    destruct (decide (hd x00 (last_component path) = x00)); [discriminate Hrun |].
    destruct Hbad; [lia | contradiction].
  - intros it g1 parent Hlook Hread Hdir. unfold create_entry.
    rewrite (bind_Ok _ _ _ _ _ Hlook). rewrite (bind_Ok _ _ _ _ _ Hread).
    rewrite Hdir. cbn [negb].
    destruct (decide (strlen (last_component path) > FILENAME_SIZE - 1)); [reflexivity |].
    destruct (decide (hd x00 (last_component path) = x00)); [reflexivity |].
    destruct Hbad; [lia | contradiction].
Qed.

(** On a directory ["/d"] the path ["/d/"] has a parent that is found and
    an empty last component; under the root a name of 56 bytes is one byte
    too long. *)
Lemma create_rejects_bad_names_witness :
  create_entry 100 (path_of "/d/") false made_d = (Err EINVAL, made_d) /\
  create_entry 100 (path_of "/d/") true made_d = (Err EINVAL, made_d) /\
  create_entry 100 (slash :: repeat "x"%byte 56) false created_a
  = (Err ENAMETOOLONG, created_a).
Proof.
  split_and!.
  - refine (proj2 (create_rejects_bad_names 100 (path_of "/d/") false made_d _)
              (value_or (DirIter 0 RootEntry 0)
                 (outcome (dir_iter_lookup 100 (path_of "/d/") true) made_d))
              made_d
              (entry_of (ClusterEntry 0 0) made_d) _ _ _).
    + right. vm_compute. reflexivity.
    + vm_compute. reflexivity.
    + vm_compute. reflexivity.
    + vm_compute. reflexivity.
  - refine (proj2 (create_rejects_bad_names 100 (path_of "/d/") true made_d _)
              (value_or (DirIter 0 RootEntry 0)
                 (outcome (dir_iter_lookup 100 (path_of "/d/") true) made_d))
              made_d
              (entry_of (ClusterEntry 0 0) made_d) _ _ _).
    + right. vm_compute. reflexivity.
    + vm_compute. reflexivity.
    + vm_compute. reflexivity.
    + vm_compute. reflexivity.
  - refine (proj2 (create_rejects_bad_names 100 (slash :: repeat "x"%byte 56) false created_a _)
              (DirIter 0 RootEntry 0) created_a (root_entry created_a) _ _ _).
    + left. vm_compute. reflexivity.
    + vm_compute. reflexivity.
    + vm_compute. reflexivity.
    + vm_compute. reflexivity.
Defined.

(** ** What mount establishes *)

Lemma count_unused_le (m : gmap Z cluster) lo n : count_unused m lo n <= Z.of_nat n.
Proof.
  revert lo. induction n as [| n IH]; intros lo; cbn [count_unused]; [lia |].
  specialize (IH (lo + 1)).
  destruct (m !! lo) as [c |]; [destruct (decide (used c = 0)) |]; lia.
Qed.

Lemma u16_add_l a b : u16 (u16 a + b) = u16 (a + b).
Proof. unfold u16. apply Zplus_mod_idemp_l. Qed.


Lemma cluster_get_miss nr g p g' :
  clusters g !! nr = None -> cluster_get nr g = (Ok p, g') ->
  exists c, read_cluster (gfs_stegger g) nr = Ok c /\
            p = nr /\ g' = with_clusters (<[nr := c]> (clusters g)) g /\
            nr < hdr_cluster_count g.
Proof.
  intros Hnone Hget. unfold cluster_get in Hget.
  destruct (decide (nr >= hdr_cluster_count g)); [discriminate Hget |].
  rewrite Hnone in Hget.
  destruct (read_cluster (gfs_stegger g) nr) as [c | | |]; try discriminate Hget.
  injection Hget as <- <-. exists c. split_and!; [reflexivity.. | lia].
Qed.

Lemma read_cluster_sized s nr c :
  read_cluster s nr = Ok c -> Z.of_nat (length (data c)) = CLUSTER_DATA.
Proof.
  unfold read_cluster, stegger_read. intros H.
  destruct (decide _) as [Hr | ]; [| discriminate H].
  injection H as <-. cbn [data unmark_cluster cluster_of_bytes].
  unfold capacity, CLUSTER_SIZE, CLUSTER_DATA, c0_offset, HEADER_BYTES in *.
  rewrite length_get_bytes; [lia | lia | lia |].
  rewrite length_get_bytes; lia.
Qed.

(** The loop of [ghostfs_mount] over clusters that are not cached yet: it
    loads each of them and counts the unused ones. *)
Lemma mount_loop_counts (n : nat) :
  forall i g g',
    cache_sized g -> 0 <= i ->
    (forall j, i <= j -> clusters g !! j = None) ->
    0 <= gfs_free_clusters g < 2 ^ 16 ->
    mount_loop n i g = (Ok tt, g') ->
    cache_sized g' /\
    hdr_cluster_count g' = hdr_cluster_count g /\
    gfs_stegger g' = gfs_stegger g /\
    root_entry g' = root_entry g /\
    gfs_free_clusters g' = u16 (gfs_free_clusters g + count_unused (clusters g') i n) /\
    (forall j, i <= j < i + Z.of_nat n ->
       exists c, clusters g' !! j = Some c /\ read_cluster (gfs_stegger g) j = Ok c) /\
    (forall j, j < i \/ i + Z.of_nat n <= j -> clusters g' !! j = clusters g !! j) /\
    (n <> 0%nat -> i + Z.of_nat n <= hdr_cluster_count g).
Proof.
  induction n as [| n IH]; intros i g g' Hwf Hi Hnone Hfree Hrun.
  - injection Hrun as <-. cbn [count_unused]. rewrite Z.add_0_r, u16_small by exact Hfree.
    split_and!; try reflexivity; try assumption.
    + intros j Hj. lia.
    + intros H. contradiction.
  - cbn [mount_loop] in Hrun.
    apply bind_inv_Ok in Hrun as (p & g1 & Hget & Hrun).
    destruct (cluster_get_miss i g p g1 (Hnone i ltac:(lia)) Hget) as (c & Hread & -> & -> & Hlt).
    assert (Hlen : Z.of_nat (length (data c)) = CLUSTER_DATA)
      by exact (read_cluster_sized _ _ _ Hread).
    set (g1 := with_clusters (<[i := c]> (clusters g)) g) in *.
    assert (Hc : clusters g1 !! i = Some c) by (unfold g1; cbn; apply lookup_insert_eq).
    assert (Hframe1 : forall x, x <> i -> clusters g1 !! x = clusters g !! x)
      by (intros x Hx; unfold g1; cbn; apply lookup_insert_ne; congruence).
    assert (W1 : cache_sized g1).
    { unfold cache_sized, g1. cbn. apply map_Forall_insert_2; assumption. }
    assert (N1 : hdr_cluster_count g1 = hdr_cluster_count g) by reflexivity.
    assert (Hst1 : gfs_stegger g1 = gfs_stegger g) by reflexivity.
    assert (Hroot1 : root_entry g1 = root_entry g) by reflexivity.
    assert (Hfree1 : gfs_free_clusters g1 = gfs_free_clusters g) by reflexivity.
    rewrite (bind_Ok _ _ _ _ _ (deref_Some _ _ _ Hc)) in Hrun.
    set (g2 := if decide (used c = 0) then with_free_clusters (gfs_free_clusters g1 + 1) g1 else g1).
    assert (Hstep : (if decide (used c = 0) then free_clusters_add 1 else ret tt) g1 = (Ok tt, g2)).
    { unfold g2. destruct (decide (used c = 0)); reflexivity. }
    rewrite (bind_Ok _ _ _ _ _ Hstep) in Hrun.
    assert (Hcl2 : clusters g2 = clusters g1) by (unfold g2; destruct (decide (used c = 0)); reflexivity).
    assert (Hcc2 : hdr_cluster_count g2 = hdr_cluster_count g1)
      by (unfold g2; destruct (decide (used c = 0)); reflexivity).
    assert (Hst2 : gfs_stegger g2 = gfs_stegger g1)
      by (unfold g2; destruct (decide (used c = 0)); reflexivity).
    assert (Hroot2 : root_entry g2 = root_entry g1)
      by (unfold g2; destruct (decide (used c = 0)); reflexivity).
    assert (Hfree2 : gfs_free_clusters g2
                     = u16 (gfs_free_clusters g + (if decide (used c = 0) then 1 else 0))).
    { unfold g2. destruct (decide (used c = 0)).
      - cbn [gfs_free_clusters with_free_clusters]. rewrite Hfree1. reflexivity.
      - rewrite Hfree1, Z.add_0_r, u16_small by exact Hfree. reflexivity. }
    destruct (IH (i + 1) g2 g') as (W' & N' & S' & R' & F' & Hsome & Hframe & Hbound).
    + unfold cache_sized. rewrite Hcl2. exact W1.
    + lia.
    + intros j Hj. rewrite Hcl2, Hframe1 by lia. apply Hnone. lia.
    + rewrite Hfree2. apply u16_range.
    + exact Hrun.
    + assert (Hci : clusters g' !! i = Some c).
      { rewrite Hframe by lia. rewrite Hcl2. exact Hc. }
      split_and!.
      * exact W'.
      * rewrite N', Hcc2. exact N1.
      * rewrite S', Hst2. exact Hst1.
      * rewrite R', Hroot2. exact Hroot1.
      * rewrite F', Hfree2. cbn [count_unused]. rewrite Hci.
        rewrite u16_add_l. f_equal. destruct (decide (used c = 0)); lia.
      * intros j Hj. destruct (decide (j = i)) as [-> | Hne]; [eauto |].
        destruct (Hsome j ltac:(lia)) as (cj & Hcj & Hrj).
        exists cj. split; [exact Hcj |]. rewrite <- Hst1, <- Hst2. exact Hrj.
      * intros j Hj. rewrite Hframe by lia. rewrite Hcl2. apply Hframe1. lia.
      * intros _. lia.
Qed.

(** X13.  A successful [ghostfs_mount] leaves a handle on the store it was
    given in which every cluster from 1 on is cached as [read_cluster]
    delivers it, with a payload of [CLUSTER_DATA] bytes, cluster 0 is not
    loaded, the cluster count is the
    16-bit word at offset 16 of the store, the root entry is a directory at
    cluster 0, the free counter is the number of clusters whose used byte
    is 0, and every cached cluster agrees with the store. *)
Theorem mount_establishes_invariants (md5 : list byte -> list byte) (s : stegger) (g : ghostfs) :
  ghostfs_mount md5 s = Ok g ->
  gfs_stegger g = s /\
  hdr_cluster_count g = le_decode (get_bytes 16 HEADER_BYTES (carrier s)) /\
  (forall nr, 1 <= nr < hdr_cluster_count g ->
     exists c, clusters g !! nr = Some c /\ read_cluster s nr = Ok c) /\
  all_cached g /\ cache_sized g /\ fields_in_range g /\
  clusters g !! 0 = None /\
  gfs_free_clusters g = unused_clusters g /\
  dir_entry_is_directory (root_entry g) = true /\ cluster_nr (root_entry g) = 0 /\
  coherent g.
Proof.
  intros Hm. unfold ghostfs_mount in Hm.
  destruct (ghostfs_check md5 (fresh_gfs s)) as [[[] | | |] g1] eqn:Hck; try discriminate Hm.
  destruct (mount_loop _ 1 g1) as [[[] | | |] g2] eqn:Hloop; try discriminate Hm.
  injection Hm as ->.
  assert (Hg1 : g1 = with_cluster_count (le_decode (get_bytes 16 HEADER_BYTES (carrier s)))
                       (fresh_gfs s)
                /\ 16 + HEADER_BYTES <= capacity s).
  { unfold ghostfs_check in Hck. cbn [gfs_stegger fresh_gfs] in Hck.
    unfold stegger_read at 1 in Hck.
    destruct (decide (0 <= 0 ∧ 0 + 16 <= capacity s)); [| discriminate Hck].
    unfold stegger_read at 1 in Hck.
    destruct (decide (0 <= 16 ∧ 16 + HEADER_BYTES <= capacity s)) as [[_ Hh] |]; [| discriminate Hck].
    split; [| exact Hh].
    destruct (stegger_read _ CLUSTER_SIZE c0_offset); try discriminate Hck.
    destruct (decide (md5 _ = _)); [injection Hck as <-; reflexivity | discriminate Hck]. }
  destruct Hg1 as [-> Hcap].
  pose proof (le_decode_range (get_bytes 16 HEADER_BYTES (carrier s))) as Hr.
  rewrite length_get_bytes in Hr by (unfold capacity, HEADER_BYTES in *; lia).
  change (256 ^ Z.of_nat (Z.to_nat HEADER_BYTES)) with (2 ^ 16) in Hr.
  set (n := le_decode (get_bytes 16 HEADER_BYTES (carrier s))) in *.
  assert (Hcc : hdr_cluster_count (with_cluster_count n (fresh_gfs s)) = n)
    by (cbn; apply u16_small; exact Hr).
  rewrite Hcc in Hloop.
  assert (W0 : cache_sized (with_cluster_count n (fresh_gfs s)))
    by (unfold cache_sized; cbn; apply map_Forall_empty).
  assert (E0 : forall j, 1 <= j -> clusters (with_cluster_count n (fresh_gfs s)) !! j = None)
    by (intros j _; cbn; apply lookup_empty).
  assert (F0 : 0 <= gfs_free_clusters (with_cluster_count n (fresh_gfs s)) < 2 ^ 16)
    by (cbn; lia).
  destruct (mount_loop_counts _ 1 _ g W0 ltac:(lia) E0 F0 Hloop)
    as (W & N & S & R & F & Hsome & Hframe & _); clear Hloop.
  rewrite Hcc in N.
  split_and!.
  - exact S.
  - exact N.
  - intros nr Hnr. apply Hsome. rewrite N in Hnr. lia.
  - intros nr Hnr. destruct (Hsome nr) as (c & Hc & _); [rewrite N in Hnr; lia | eauto].
  - exact W.
  - split; [rewrite N; exact Hr |]. rewrite F. apply u16_range.
  - rewrite Hframe by lia. cbn. apply lookup_empty.
  - rewrite F. unfold unused_clusters. rewrite N. cbn [gfs_free_clusters with_cluster_count fresh_gfs].
    rewrite Z.add_0_l. apply u16_small.
    pose proof (count_unused_le (clusters g) 1 (Z.to_nat (n - 1))) as Hle.
    assert (0 <= count_unused (clusters g) 1 (Z.to_nat (n - 1))) by apply count_unused_nonneg.
    lia.
  - rewrite R. reflexivity.
  - rewrite R. reflexivity.
  - intros nr c Hc _. rewrite S.
    destruct (decide (1 <= nr < 1 + Z.of_nat (Z.to_nat (n - 1)))) as [Hin | Hout].
    + destruct (Hsome nr Hin) as (c' & Hc' & Hread). rewrite Hc in Hc'. injection Hc' as <-.
      exact Hread.
    + rewrite Hframe in Hc by lia. cbn in Hc. rewrite lookup_empty in Hc. discriminate Hc.
Qed.

Lemma mount_establishes_invariants_witness :
  all_cached mounted3 /\ gfs_free_clusters mounted3 = unused_clusters mounted3.
Proof.
  destruct (mount_establishes_invariants md5_digest formatted3 mounted3)
    as (_ & _ & _ & H1 & _ & _ & _ & H2 & _).
  - exact mounted3_is_mounted.
  - split; assumption.
Defined.

(** ** Formatting a carrier of any size *)

Lemma read_cluster_in_range s nr :
  0 <= nr -> c0_offset + (nr + 1) * CLUSTER_SIZE <= capacity s ->
  read_cluster s nr
  = Ok (unmark_cluster (cluster_of_bytes
          (get_bytes (c0_offset + nr * CLUSTER_SIZE) CLUSTER_SIZE (carrier s)))).
Proof.
  intros Hnr Hcap. unfold read_cluster.
  rewrite stegger_read_in_range by (unfold c0_offset, HEADER_BYTES, CLUSTER_SIZE in *; lia).
  reflexivity.
Qed.

Lemma write_cluster_in_range s c nr :
  Z.of_nat (length (data c)) = CLUSTER_DATA ->
  0 <= nr -> c0_offset + (nr + 1) * CLUSTER_SIZE <= capacity s ->
  write_cluster s c nr
  = Ok (Stegger (set_bytes (c0_offset + nr * CLUSTER_SIZE) (cluster_bytes c) (carrier s)),
        unmark_cluster c).
Proof.
  intros Hd Hnr Hcap. unfold write_cluster.
  pose proof (length_cluster_bytes c Hd) as Hlen.
  rewrite stegger_write_in_range by (unfold c0_offset, HEADER_BYTES, CLUSTER_SIZE in *; lia).
  reflexivity.
Qed.

(** A cluster that went through [cluster_bytes] and back. *)
Lemma cluster_round_trip c :
  Z.of_nat (length (data c)) = CLUSTER_DATA ->
  0 <= next c < 2 ^ 16 -> 0 <= used c < 2 ^ 8 ->
  unmark_cluster (cluster_of_bytes (cluster_bytes c)) = unmark_cluster c.
Proof.
  intros Hd Hn Hu.
  destruct (cluster_of_cluster_bytes c Hd Hn) as [E1 E2].
  pose proof (cluster_of_cluster_bytes_used c Hd Hu) as E3.
  destruct (cluster_of_bytes (cluster_bytes c)) as [d' n' u' y'].
  destruct c as [d n u y]. cbn in *. subst. reflexivity.
Qed.

Lemma read_cluster_fields s nr c :
  read_cluster s nr = Ok c ->
  Z.of_nat (length (data c)) = CLUSTER_DATA /\ 0 <= next c < 2 ^ 16 /\
  0 <= used c < 2 ^ 8 /\ dirty c = 0.
Proof.
  intros H. pose proof (read_cluster_sized _ _ _ H) as Hd.
  unfold read_cluster in H.
  destruct (stegger_read s CLUSTER_SIZE (c0_offset + nr * CLUSTER_SIZE)) as [bs | | |];
    try discriminate H.
  injection H as <-. cbn [data next used dirty unmark_cluster cluster_of_bytes] in *.
  split; [exact Hd |]. split; [| split; [| reflexivity]].
  - pose proof (le_decode_range (get_bytes CLUSTER_DATA 2 bs)) as Hr.
    assert (length (get_bytes CLUSTER_DATA 2 bs) <= 2)%nat
      by (unfold get_bytes; rewrite length_take; lia).
    assert (256 ^ Z.of_nat (length (get_bytes CLUSTER_DATA 2 bs)) <= 256 ^ 2)
      by (apply Z.pow_le_mono_r; lia).
    lia.
  - pose proof (le_decode_range (get_bytes (CLUSTER_DATA + 2) 1 bs)) as Hr.
    assert (length (get_bytes (CLUSTER_DATA + 2) 1 bs) <= 1)%nat
      by (unfold get_bytes; rewrite length_take; lia).
    assert (256 ^ Z.of_nat (length (get_bytes (CLUSTER_DATA + 2) 1 bs)) <= 256 ^ 1)
      by (apply Z.pow_le_mono_r; lia).
    lia.
Qed.

(** The last loop of [ghostfs_format] clears the used byte of each cluster
    it visits and keeps the payload and the link; the bytes below the
    first cluster it visits stay. *)
Lemma format_loop_spec (n : nat) :
  forall i s,
    1 <= i -> c0_offset + (i + Z.of_nat n) * CLUSTER_SIZE <= capacity s ->
    exists s',
      format_loop n i s = Ok s' /\
      capacity s' = capacity s /\
      (forall off len, 0 <= off -> 0 <= len -> off + len <= c0_offset + i * CLUSTER_SIZE ->
         get_bytes off len (carrier s') = get_bytes off len (carrier s)) /\
      (forall j, i <= j < i + Z.of_nat n ->
         exists c, read_cluster s j = Ok c /\ read_cluster s' j = Ok (set_used 0 c)).
Proof.
  induction n as [| n IH]; intros i s Hi Hcap.
  - exists s. split_and!; [reflexivity.. | intros j Hj; lia].
  - cbn [format_loop].
    pose proof (read_cluster_in_range s i ltac:(lia)
                  ltac:(unfold CLUSTER_SIZE in *; lia)) as Hread.
    set (c := unmark_cluster (cluster_of_bytes
                (get_bytes (c0_offset + i * CLUSTER_SIZE) CLUSTER_SIZE (carrier s)))) in *.
    destruct (read_cluster_fields s i c Hread) as (Hd & Hn & Hu & Hy).
    rewrite Hread. cbn [result_bind].
    assert (Hd0 : Z.of_nat (length (data (set_used 0 c))) = CLUSTER_DATA) by exact Hd.
    rewrite (write_cluster_in_range s (set_used 0 c) i Hd0 ltac:(lia)
               ltac:(unfold CLUSTER_SIZE in *; lia)).
    cbn [result_bind fst].
    set (s1 := Stegger (set_bytes (c0_offset + i * CLUSTER_SIZE)
                          (cluster_bytes (set_used 0 c)) (carrier s))).
    pose proof (length_cluster_bytes _ Hd0) as Hlen.
    assert (Hcap1 : capacity s1 = capacity s).
    { unfold capacity, s1. cbn [carrier].
      rewrite length_set_bytes;
        unfold capacity, c0_offset, HEADER_BYTES, CLUSTER_SIZE in *; lia. }
    destruct (IH (i + 1) s1 ltac:(lia) ltac:(rewrite Hcap1; unfold CLUSTER_SIZE in *; lia))
      as (s' & Hrun & Hcap' & Hlow & Hvis).
    exists s'. split_and!.
    + exact Hrun.
    + congruence.
    + intros off len Ho Hl Hb. rewrite Hlow by (unfold CLUSTER_SIZE in *; lia).
      unfold s1. cbn [carrier].
      apply get_set_bytes_other;
        unfold capacity, c0_offset, HEADER_BYTES, CLUSTER_SIZE in *; lia.
    + intros j Hj. destruct (decide (j = i)) as [-> | Hne].
      * exists c. split; [exact Hread |].
        rewrite (read_cluster_in_range s' i) by (rewrite ?Hcap', ?Hcap1; unfold CLUSTER_SIZE in *; lia).
        rewrite Hlow by (unfold c0_offset, HEADER_BYTES, CLUSTER_SIZE in *; lia).
        unfold s1. cbn [carrier].
        rewrite get_set_bytes_same_len;
          [| unfold CLUSTER_SIZE in *; lia
           | unfold c0_offset, HEADER_BYTES, CLUSTER_SIZE; lia
           | clear - Hcap; unfold capacity, c0_offset, HEADER_BYTES, CLUSTER_SIZE in *; lia].
        rewrite cluster_round_trip; [| exact Hd0 | exact Hn | cbn [used set_used]; change (u8 0) with 0; lia].
        reflexivity.
      * destruct (Hvis j ltac:(lia)) as (cj & Hr1 & Hr').
        exists cj. split; [| exact Hr'].
        rewrite <- Hr1.
        rewrite (read_cluster_in_range s j), (read_cluster_in_range s1 j)
          by (rewrite ?Hcap1; unfold CLUSTER_SIZE in *; lia).
        unfold s1. cbn [carrier]. rewrite get_set_bytes_other;
          [reflexivity | | | | |];
          unfold capacity, c0_offset, HEADER_BYTES, CLUSTER_SIZE in *; lia.
Qed.

Lemma used_set_data d c : used (set_data d c) = used c.
Proof. reflexivity. Qed.

Lemma used_set_next n c : used (set_next n c) = used c.
Proof. reflexivity. Qed.

Lemma next_set_data d c : next (set_data d c) = next c.
Proof. reflexivity. Qed.

Lemma next_set_next n c : next (set_next n c) = u16 n.
Proof. reflexivity. Qed.

Lemma next_unmark_cluster c : next (unmark_cluster c) = next c.
Proof. reflexivity. Qed.

Lemma data_unmark_cluster c : data (unmark_cluster c) = data c.
Proof. reflexivity. Qed.

Lemma data_set_data d c : data (set_data d c) = d.
Proof. reflexivity. Qed.

Lemma count_unused_all (m : gmap Z cluster) (n : nat) :
  forall lo,
    (forall j, lo <= j < lo + Z.of_nat n -> exists c, m !! j = Some c /\ used c = 0) ->
    count_unused m lo n = Z.of_nat n.
Proof.
  induction n as [| n IH]; intros lo H; [reflexivity |].
  cbn [count_unused]. destruct (H lo ltac:(lia)) as (c & -> & Hu).
  destruct (decide (used c = 0)); [| contradiction].
  rewrite IH; [lia |]. intros j Hj. apply H. lia.
Qed.

Section FormatMount.

Variable md5 : list byte -> list byte.
Hypothesis md5_length : forall bs, length (md5 bs) = 16%nat.

(** What [write_header] leaves on a carrier that holds the superblock and
    the root cluster. *)
Lemma write_header_spec (s : stegger) (count : Z) (c0 : cluster) :
  Z.of_nat (length (data c0)) = CLUSTER_DATA ->
  c0_offset + CLUSTER_SIZE <= capacity s ->
  exists s',
    write_header md5 s count c0 = Ok (s', unmark_cluster c0) /\
    capacity s' = capacity s /\
    get_bytes 0 16 (carrier s') = md5 (header_bytes count ++ cluster_bytes c0) /\
    get_bytes 16 HEADER_BYTES (carrier s') = header_bytes count /\
    get_bytes c0_offset CLUSTER_SIZE (carrier s') = cluster_bytes c0 /\
    (forall off len, c0_offset + CLUSTER_SIZE <= off -> 0 <= len ->
       get_bytes off len (carrier s') = get_bytes off len (carrier s)).
Proof.
  intros Hdata0 Hcap.
  assert (Hc0 : Z.of_nat (length (cluster_bytes c0)) = CLUSTER_SIZE)
    by (apply length_cluster_bytes; exact Hdata0).
  set (digest := md5 (header_bytes count ++ cluster_bytes c0)).
  assert (Hd : length digest = 16%nat) by apply md5_length.
  assert (Hh : length (header_bytes count) = 2%nat) by apply length_le_encode.
  unfold write_header. fold digest.
  unfold capacity, c0_offset, HEADER_BYTES, CLUSTER_SIZE in Hcap, Hc0.
  rewrite (stegger_write_in_range s digest 0) by (unfold capacity; lia).
  cbn [result_bind].
  assert (L1 : length (set_bytes 0 digest (carrier s)) = length (carrier s))
    by (apply length_set_bytes; lia).
  rewrite (stegger_write_in_range _ (header_bytes count) 16)
    by (unfold capacity; cbn [carrier]; rewrite ?L1; lia).
  cbn [result_bind].
  assert (L2 : length (set_bytes 16 (header_bytes count) (set_bytes 0 digest (carrier s)))
               = length (carrier s))
    by (rewrite length_set_bytes; lia).
  rewrite write_cluster_in_range;
    [| exact Hdata0 | lia
     | unfold capacity, c0_offset, HEADER_BYTES, CLUSTER_SIZE; cbn [carrier]; rewrite L2; lia].
  cbn [carrier].
  eexists. split; [reflexivity |].
  unfold capacity, c0_offset, HEADER_BYTES, CLUSTER_SIZE. cbn [carrier].
  split_and!.
  - rewrite length_set_bytes; rewrite ?L2; lia.
  - rewrite get_set_bytes_other by (rewrite ?L2; lia).
    rewrite get_set_bytes_other by (rewrite ?L1; lia).
    apply get_set_bytes_same_len; lia.
  - rewrite get_set_bytes_other by (rewrite ?L2; lia).
    apply get_set_bytes_same_len; rewrite ?L1; lia.
  - apply get_set_bytes_same_len; rewrite ?L2; lia.
  - intros off len Ho Hl.
    rewrite get_set_bytes_other by (rewrite ?L2; lia).
    rewrite get_set_bytes_other by (rewrite ?L1; lia).
    apply get_set_bytes_other; lia.
Qed.

(** X14.  [ghostfs_format] fails with [ENOSPC] on a carrier that cannot
    hold the superblock and one cluster.  On any larger carrier it succeeds
    and the result mounts: the cluster count is the number of whole
    clusters behind the superblock, at most 0xFFFF; every cluster but the
    root is free, with the payload and the link the carrier held before,
    and [ghostfs_statvfs] reports these numbers; the root cluster has no
    successor and no used record. *)
Theorem format_then_mount (s : stegger) :
  (capacity s < c0_offset + CLUSTER_SIZE -> ghostfs_format md5 s = Err ENOSPC) /\
  (c0_offset + CLUSTER_SIZE <= capacity s ->
   exists s' g,
     ghostfs_format md5 s = Ok s' /\ capacity s' = capacity s /\
     ghostfs_mount md5 s' = Ok g /\
     hdr_cluster_count g = Z.min 0xFFFF ((capacity s - c0_offset) / CLUSTER_SIZE) /\
     gfs_free_clusters g = hdr_cluster_count g - 1 /\
     f_blocks (ghostfs_statvfs g) = Z.min 0xFFFF ((capacity s - c0_offset) / CLUSTER_SIZE) /\
     f_bfree (ghostfs_statvfs g) = f_blocks (ghostfs_statvfs g) - 1 /\
     (forall j, 1 <= j < hdr_cluster_count g ->
        exists c, read_cluster s j = Ok c /\ clusters g !! j = Some (set_used 0 c)) /\
     (exists r0, read_cluster s' 0 = Ok r0 /\ next r0 = 0 /\
        forall i, 0 <= i < CLUSTER_DIRENTS -> dir_entry_used (entry_at (data r0) i) = false)).
Proof.
  split.
  - intros Hsmall. unfold ghostfs_format.
    destruct (decide (capacity s < 16 + HEADER_BYTES + CLUSTER_SIZE)) as [_ | Hn];
      [reflexivity | unfold c0_offset in Hsmall; lia].
  - intros Hcap. unfold ghostfs_format.
    destruct (decide (capacity s < 16 + HEADER_BYTES + CLUSTER_SIZE)) as [Hlt | _];
      [unfold c0_offset in Hcap; lia |].
    change (16 + HEADER_BYTES) with c0_offset.
    set (count0 := (capacity s - c0_offset) / CLUSTER_SIZE).
    assert (H0 : 1 <= count0).
    { unfold count0. apply Z.div_le_lower_bound; unfold CLUSTER_SIZE in *; lia. }
    assert (H0' : CLUSTER_SIZE * count0 <= capacity s - c0_offset).
    { unfold count0. apply Z.mul_div_le. unfold CLUSTER_SIZE. lia. }
    set (count := if decide (count0 > 0xFFFF) then 0xFFFF else count0).
    assert (Hcount : count = Z.min 0xFFFF count0)
      by (unfold count; destruct (decide (count0 > 0xFFFF)); lia).
    assert (Hrange : 1 <= count <= 0xFFFF) by lia.
    assert (Hfit : c0_offset + count * CLUSTER_SIZE <= capacity s)
      by (unfold CLUSTER_SIZE in *; lia).
    rewrite (u16_small count) by lia.
    pose proof (read_cluster_in_range s 0 ltac:(lia) ltac:(unfold CLUSTER_SIZE in *; lia)) as Hr0.
    set (c := unmark_cluster (cluster_of_bytes
                (get_bytes (c0_offset + 0 * CLUSTER_SIZE) CLUSTER_SIZE (carrier s)))) in *.
    destruct (read_cluster_fields s 0 c Hr0) as (Hd & Hn & Hu & Hy).
    rewrite Hr0. cbn [result_bind].
    set (c0 := set_data (clear_entries (data c)) (set_next 0 c)).
    assert (Hdata0 : Z.of_nat (length (data c0)) = CLUSTER_DATA)
      by (unfold c0; cbn [data set_data]; apply length_clear_entries; exact Hd).
    destruct (write_header_spec s count c0 Hdata0 Hcap)
      as (s1 & Hwh & Hcap1 & Hdig & Hhdr & Hroot & Hhigh).
    rewrite Hwh. cbn [result_bind fst].
    destruct (format_loop_spec (Z.to_nat (count - 1)) 1 s1 ltac:(lia)
                ltac:(rewrite Hcap1; unfold CLUSTER_SIZE in *; lia))
      as (s' & Hloop & Hcap' & Hlow & Hvis).
    rewrite Hloop.
    (* the check of the superblock *)
    pose proof (ghostfs_check_spec md5 s' ltac:(rewrite Hcap', Hcap1; exact Hcap)) as Hcheck.
    rewrite (Hlow 16 HEADER_BYTES), (Hlow c0_offset CLUSTER_SIZE), (Hlow 0 16) in Hcheck
      by (unfold c0_offset, HEADER_BYTES, CLUSTER_SIZE; lia).
    rewrite Hdig, Hhdr, Hroot in Hcheck.
    destruct (decide (md5 (header_bytes count ++ cluster_bytes c0)
                      = md5 (header_bytes count ++ cluster_bytes c0))) as [_ | Hne];
      [| contradiction].
    set (g1 := with_cluster_count (le_decode (header_bytes count)) (fresh_gfs s')) in *.
    assert (Hcc : hdr_cluster_count g1 = count).
    { unfold g1. cbn [hdr_cluster_count with_cluster_count]. unfold header_bytes.
      rewrite le_decode_encode. change (256 ^ Z.of_nat (Z.to_nat HEADER_BYTES)) with (2 ^ 16).
      rewrite Z.mod_small by lia. apply u16_small. lia. }
    destruct (mount_loop_readable (Z.to_nat (count - 1)) 1 g1 ltac:(lia))
      as (g & Hmount & Hccg & Hstg).
    { intros _. rewrite Hcc. lia. }
    { rewrite Hcc. change (gfs_stegger g1) with s'. rewrite Hcap', Hcap1. exact Hfit. }
    assert (W0 : cache_sized g1) by (apply cache_sized_empty; reflexivity).
    assert (E0 : forall j, 1 <= j -> clusters g1 !! j = None)
      by (intros j _; cbn; apply lookup_empty).
    assert (F0 : 0 <= gfs_free_clusters g1 < 2 ^ 16) by (cbn; lia).
    destruct (mount_loop_counts _ 1 g1 g W0 ltac:(lia) E0 F0 Hmount)
      as (_ & _ & _ & _ & F & Hsome & _ & _).
    assert (Hfree : forall j, 1 <= j < count ->
              exists cj, read_cluster s j = Ok cj /\ clusters g !! j = Some (set_used 0 cj)).
    { intros j Hj.
      destruct (Hsome j ltac:(lia)) as (cj & Hcj & Hrj).
      destruct (Hvis j ltac:(lia)) as (c1 & Hr1 & Hr').
      change (gfs_stegger g1) with s' in Hrj. rewrite Hr' in Hrj. injection Hrj as <-.
      exists c1. split; [| exact Hcj].
      rewrite <- Hr1.
      rewrite (read_cluster_in_range s j), (read_cluster_in_range s1 j)
        by (rewrite ?Hcap1; unfold CLUSTER_SIZE in *; lia).
      rewrite Hhigh by (unfold CLUSTER_SIZE; lia). reflexivity. }
    assert (Hfc : gfs_free_clusters g = hdr_cluster_count g - 1).
    { rewrite F, Hccg, Hcc. change (gfs_free_clusters g1) with 0. rewrite Z.add_0_l.
      rewrite count_unused_all.
      - rewrite u16_small; lia.
      - intros j Hj. destruct (Hfree j ltac:(lia)) as (cj & _ & Hcj).
        exists (set_used 0 cj). split; [exact Hcj | reflexivity]. }
    exists s', g. split_and!.
    + reflexivity.
    + congruence.
    + unfold ghostfs_mount. rewrite Hcheck. rewrite Hcc, Hmount. reflexivity.
    + rewrite Hccg, Hcc. exact Hcount.
    + exact Hfc.
    + cbn [f_blocks ghostfs_statvfs]. rewrite Hccg, Hcc. exact Hcount.
    + cbn [f_blocks f_bfree ghostfs_statvfs]. exact Hfc.
    + intros j Hj. apply Hfree. rewrite Hccg, Hcc in Hj. exact Hj.
    + exists (unmark_cluster c0).
      rewrite (read_cluster_in_range s' 0)
        by (rewrite ?Hcap', ?Hcap1; unfold CLUSTER_SIZE in *; lia).
      change (c0_offset + 0 * CLUSTER_SIZE) with c0_offset.
      rewrite Hlow by (unfold c0_offset, HEADER_BYTES, CLUSTER_SIZE; lia).
      rewrite Hroot.
      rewrite cluster_round_trip;
        [| exact Hdata0
         | unfold c0; rewrite next_set_data, next_set_next; change (u16 0) with 0; lia
         | unfold c0; rewrite used_set_data, used_set_next; exact Hu].
      split_and!; [reflexivity | |].
      { unfold c0. rewrite next_unmark_cluster, next_set_data, next_set_next. reflexivity. }
      intros i Hi. unfold dir_entry_used. unfold c0. rewrite data_unmark_cluster, data_set_data.
      rewrite cleared_entry_unused by assumption.
      apply bool_decide_eq_false. intros H. apply H. reflexivity.
Qed.

End FormatMount.

Lemma format_then_mount_witness :
  exists s' g,
    ghostfs_format md5_digest carrier3 = Ok s' /\ capacity s' = capacity carrier3 /\
    ghostfs_mount md5_digest s' = Ok g /\
    hdr_cluster_count g = 3 /\ gfs_free_clusters g = hdr_cluster_count g - 1.
Proof.
  destruct (proj2 (format_then_mount md5_digest length_md5_digest carrier3))
    as (s' & g & H1 & H2 & H3 & H4 & H5 & _).
  - vm_compute. intros H. discriminate H.
  - exists s', g. split_and!; [exact H1 | exact H2 | exact H3 | | exact H5].
    rewrite H4. vm_compute. reflexivity.
Defined.

(** ** Writing the cache back *)

Lemma write_cluster_effect s c nr :
  Z.of_nat (length (data c)) = CLUSTER_DATA ->
  0 <= next c < 2 ^ 16 -> 0 <= used c < 2 ^ 8 ->
  0 <= nr -> c0_offset + (nr + 1) * CLUSTER_SIZE <= capacity s ->
  exists s',
    write_cluster s c nr = Ok (s', unmark_cluster c) /\
    capacity s' = capacity s /\
    read_cluster s' nr = Ok (unmark_cluster c) /\
    (forall j, 0 <= j -> j <> nr -> read_cluster s' j = read_cluster s j) /\
    (forall off len, 0 <= off -> 0 <= len -> off + len <= c0_offset + nr * CLUSTER_SIZE ->
       get_bytes off len (carrier s') = get_bytes off len (carrier s)).
Proof.
  intros Hd Hn Hu Hnr Hcap.
  rewrite (write_cluster_in_range s c nr Hd Hnr Hcap).
  pose proof (length_cluster_bytes c Hd) as Hlen.
  set (s1 := Stegger (set_bytes (c0_offset + nr * CLUSTER_SIZE) (cluster_bytes c) (carrier s))).
  assert (Hcap1 : capacity s1 = capacity s).
  { unfold capacity, s1. cbn [carrier].
    rewrite length_set_bytes; unfold capacity, c0_offset, HEADER_BYTES, CLUSTER_SIZE in *; lia. }
  exists s1. split_and!.
  - reflexivity.
  - exact Hcap1.
  - rewrite read_cluster_in_range by (rewrite ?Hcap1; lia).
    unfold s1. cbn [carrier].
    rewrite get_set_bytes_same_len;
      [| unfold CLUSTER_SIZE in *; lia
       | unfold c0_offset, HEADER_BYTES, CLUSTER_SIZE; lia
       | clear - Hcap; unfold capacity, c0_offset, HEADER_BYTES, CLUSTER_SIZE in *; lia].
    rewrite cluster_round_trip by assumption. reflexivity.
  - intros j Hj Hne. unfold read_cluster, stegger_read. rewrite Hcap1.
    destruct (decide (0 <= c0_offset + j * CLUSTER_SIZE
                      ∧ c0_offset + j * CLUSTER_SIZE + CLUSTER_SIZE <= capacity s))
      as [[H3 H4] | Hno]; [| reflexivity].
    unfold s1. cbn [carrier]. rewrite get_set_bytes_other; [reflexivity | | | | |];
      unfold capacity, c0_offset, HEADER_BYTES, CLUSTER_SIZE in *; lia.
  - intros off len Ho Hl Hb. unfold s1. cbn [carrier].
    apply get_set_bytes_other;
      unfold capacity, c0_offset, HEADER_BYTES, CLUSTER_SIZE in *; lia.
Qed.

(** The loop of [ghostfs_sync]: every cached dirty cluster it visits goes
    to the store and is clean afterwards; nothing else changes. *)
Lemma sync_loop_spec (n : nat) :
  forall i g,
    1 <= i -> cache_sized g -> cache_in_range g ->
    c0_offset + (i + Z.of_nat n) * CLUSTER_SIZE <= capacity (gfs_stegger g) ->
    exists g',
      sync_loop n i g = (Ok tt, g') /\
      hdr_cluster_count g' = hdr_cluster_count g /\
      gfs_free_clusters g' = gfs_free_clusters g /\
      root_entry g' = root_entry g /\
      capacity (gfs_stegger g') = capacity (gfs_stegger g) /\
      (forall off len, 0 <= off -> 0 <= len -> off + len <= c0_offset + i * CLUSTER_SIZE ->
         get_bytes off len (carrier (gfs_stegger g')) = get_bytes off len (carrier (gfs_stegger g))) /\
      (forall j c, i <= j < i + Z.of_nat n -> clusters g !! j = Some c -> is_dirty c = true ->
         clusters g' !! j = Some (unmark_cluster c) /\
         read_cluster (gfs_stegger g') j = Ok (unmark_cluster c)) /\
      (forall j, 0 <= j ->
         (j < i \/ i + Z.of_nat n <= j \/ clusters g !! j = None \/
          exists c, clusters g !! j = Some c /\ is_dirty c = false) ->
         clusters g' !! j = clusters g !! j /\
         read_cluster (gfs_stegger g') j = read_cluster (gfs_stegger g) j).
Proof.
  induction n as [| n IH]; intros i g Hi Hwf Hrg Hcap.
  - exists g. split_and!; try reflexivity.
    + intros j c Hj. lia.
    + intros j _ _. split; reflexivity.
  - cbn [sync_loop].
    assert (Hskip :
      (clusters g !! i = None \/ exists c, clusters g !! i = Some c /\ is_dirty c = false) ->
      exists g', sync_loop n (i + 1) g = (Ok tt, g') /\
      hdr_cluster_count g' = hdr_cluster_count g /\
      gfs_free_clusters g' = gfs_free_clusters g /\
      root_entry g' = root_entry g /\
      capacity (gfs_stegger g') = capacity (gfs_stegger g) /\
      (forall off len, 0 <= off -> 0 <= len -> off + len <= c0_offset + i * CLUSTER_SIZE ->
         get_bytes off len (carrier (gfs_stegger g')) = get_bytes off len (carrier (gfs_stegger g))) /\
      (forall j c, i <= j < i + Z.of_nat (S n) -> clusters g !! j = Some c -> is_dirty c = true ->
         clusters g' !! j = Some (unmark_cluster c) /\
         read_cluster (gfs_stegger g') j = Ok (unmark_cluster c)) /\
      (forall j, 0 <= j ->
         (j < i \/ i + Z.of_nat (S n) <= j \/ clusters g !! j = None \/
          exists c, clusters g !! j = Some c /\ is_dirty c = false) ->
         clusters g' !! j = clusters g !! j /\
         read_cluster (gfs_stegger g') j = read_cluster (gfs_stegger g) j)).
    { intros Hclean.
      destruct (IH (i + 1) g ltac:(lia) Hwf Hrg ltac:(unfold CLUSTER_SIZE in *; lia))
        as (g' & Hrun & Hcc & Hfc & Hre & Hcp & Hlow & Hdirty & Hrest).
      exists g'. split_and!; try assumption.
      - intros off len Ho Hl Hb. apply Hlow; unfold CLUSTER_SIZE in *; lia.
      - intros j c Hj Hc Hdc. destruct (decide (j = i)) as [-> | Hne].
        + exfalso. destruct Hclean as [Hnone | (c' & Hc' & Hcl)]; congruence.
        + apply Hdirty; [lia | assumption..].
      - intros j Hj0 Hj. destruct (decide (j = i)) as [-> | Hne].
        + apply Hrest; [lia |]. left. lia.
        + apply Hrest; [lia |].
          destruct Hj as [? | [? | [? | ?]]]; [left; lia | right; left; lia | auto | auto]. }
    destruct (clusters g !! i) as [c |] eqn:Hc; [| apply Hskip; left; reflexivity].
    destruct (is_dirty c) eqn:Hdc; [| apply Hskip; right; eauto].
    clear Hskip.
    pose proof (Hwf i c Hc) as Hd. cbn beta in Hd.
    destruct (Hrg i c Hc) as [Hn Hu].
    destruct (write_cluster_effect (gfs_stegger g) c i Hd Hn Hu ltac:(lia)
                ltac:(unfold CLUSTER_SIZE in *; lia))
      as (s1 & Hw & Hcap1 & Hback & Hother & Hbelow).
    rewrite Hw.
    set (g1 := with_stegger s1 (with_clusters (<[i := unmark_cluster c]> (clusters g)) g)).
    destruct (IH (i + 1) g1) as (g' & Hrun & Hcc & Hfc & Hre & Hcp & Hlow & Hdirty & Hrest).
    { lia. }
    { unfold cache_sized, g1. cbn. apply map_Forall_insert_2; [exact Hd | exact Hwf]. }
    { unfold cache_in_range, g1. cbn. apply map_Forall_insert_2; [split; assumption | exact Hrg]. }
    { unfold g1. cbn [gfs_stegger with_stegger]. rewrite Hcap1. unfold CLUSTER_SIZE in *. lia. }
    assert (Hcl1 : forall j, j <> i -> clusters g1 !! j = clusters g !! j)
      by (intros j Hj; unfold g1; cbn; apply lookup_insert_ne; congruence).
    assert (Hci : clusters g1 !! i = Some (unmark_cluster c))
      by (unfold g1; cbn; apply lookup_insert_eq).
    exists g'. split_and!.
    + exact Hrun.
    + rewrite Hcc. reflexivity.
    + rewrite Hfc. reflexivity.
    + rewrite Hre. reflexivity.
    + rewrite Hcp. exact Hcap1.
    + intros off len Ho Hl Hb. rewrite Hlow by (unfold CLUSTER_SIZE in *; lia).
      unfold g1. cbn [gfs_stegger with_stegger]. apply Hbelow; assumption.
    + intros j cj Hj Hcj Hdj. destruct (decide (j = i)) as [-> | Hne].
      * rewrite Hc in Hcj. injection Hcj as <-.
        destruct (Hrest i ltac:(lia) ltac:(left; lia)) as [E1 E2].
        rewrite E1, E2. split; [exact Hci | exact Hback].
      * apply Hdirty; [lia | rewrite Hcl1 by exact Hne; exact Hcj | exact Hdj].
    + intros j Hj0 Hj. destruct (decide (j = i)) as [-> | Hne].
      * exfalso. destruct Hj as [? | [? | [Hnone | (c' & Hc' & Hcl)]]]; [lia | lia | congruence |].
        rewrite Hc in Hc'. injection Hc' as <-. congruence.
      * destruct (Hrest j Hj0) as [E1 E2].
        { rewrite Hcl1 by exact Hne.
          destruct Hj as [? | [? | [? | ?]]]; [left; lia | right; left; lia | auto | auto]. }
        rewrite E1, E2. split; [apply Hcl1; exact Hne |].
        unfold g1. cbn [gfs_stegger with_stegger]. apply Hother; assumption.
Qed.

Lemma cluster_get_cases nr g :
  0 <= nr < hdr_cluster_count g ->
  c0_offset + (nr + 1) * CLUSTER_SIZE <= capacity (gfs_stegger g) ->
  exists c g1,
    cluster_get nr g = (Ok nr, g1) /\ clusters g1 !! nr = Some c /\
    ((clusters g !! nr = Some c /\ g1 = g) \/
     (clusters g !! nr = None /\ read_cluster (gfs_stegger g) nr = Ok c /\
      g1 = with_clusters (<[nr := c]> (clusters g)) g)).
Proof.
  intros Hnr Hcap. unfold cluster_get.
  destruct (decide (nr >= hdr_cluster_count g)); [lia |].
  destruct (clusters g !! nr) as [c |] eqn:Hc.
  - exists c, g. split_and!; [reflexivity | exact Hc | left; split; reflexivity].
  - rewrite (read_cluster_in_range _ nr) by lia.
    eexists _, _. split_and!; [reflexivity | cbn; apply lookup_insert_eq |].
    right. split_and!; reflexivity.
Qed.

Section WriteBack.

Variable md5 : list byte -> list byte.
Hypothesis md5_length : forall bs, length (md5 bs) = 16%nat.

(** What [ghostfs_sync] does on a handle whose store holds every cluster
    the header counts. *)
Lemma sync_effect (g : ghostfs) :
  cache_sized g -> cache_in_range g ->
  1 <= hdr_cluster_count g < 2 ^ 16 ->
  c0_offset + hdr_cluster_count g * CLUSTER_SIZE <= capacity (gfs_stegger g) ->
  exists g' r0,
    ghostfs_sync md5 g = (Ok tt, g') /\
    hdr_cluster_count g' = hdr_cluster_count g /\
    gfs_free_clusters g' = gfs_free_clusters g /\
    root_entry g' = root_entry g /\
    capacity (gfs_stegger g') = capacity (gfs_stegger g) /\
    fst (ghostfs_check md5 (fresh_gfs (gfs_stegger g'))) = Ok tt /\
    hdr_cluster_count (snd (ghostfs_check md5 (fresh_gfs (gfs_stegger g')))) = hdr_cluster_count g /\
    (clusters g !! 0 = Some r0 \/
     (clusters g !! 0 = None /\ read_cluster (gfs_stegger g) 0 = Ok r0)) /\
    clusters g' !! 0 = Some (unmark_cluster r0) /\
    read_cluster (gfs_stegger g') 0 = Ok (unmark_cluster r0) /\
    (forall j c, 1 <= j < hdr_cluster_count g -> clusters g !! j = Some c -> is_dirty c = true ->
       clusters g' !! j = Some (unmark_cluster c) /\
       read_cluster (gfs_stegger g') j = Ok (unmark_cluster c)) /\
    (forall j, 1 <= j ->
       (hdr_cluster_count g <= j \/ clusters g !! j = None \/
        exists c, clusters g !! j = Some c /\ is_dirty c = false) ->
       clusters g' !! j = clusters g !! j /\
       read_cluster (gfs_stegger g') j = read_cluster (gfs_stegger g) j).
Proof.
  intros Hwf Hrg Hcount Hcap.
  destruct (cluster_get_cases 0 g ltac:(lia) ltac:(unfold CLUSTER_SIZE in *; lia))
    as (r0 & g1 & Hget & Hr0 & Hcase).
  assert (Hg1 : hdr_cluster_count g1 = hdr_cluster_count g /\ gfs_stegger g1 = gfs_stegger g /\
                gfs_free_clusters g1 = gfs_free_clusters g /\ root_entry g1 = root_entry g /\
                (forall j, j <> 0 -> clusters g1 !! j = clusters g !! j))
    by (destruct Hcase as [[_ ->] | (_ & _ & ->)]; split_and!; try reflexivity;
        intros j Hj; cbn; apply lookup_insert_ne; congruence).
  destruct Hg1 as (Hcc1 & Hst1 & Hfc1 & Hre1 & Hcl1).
  assert (Hfields : Z.of_nat (length (data r0)) = CLUSTER_DATA /\
                    0 <= next r0 < 2 ^ 16 /\ 0 <= used r0 < 2 ^ 8).
  { destruct Hcase as [[Hc _] | (_ & Hread & _)].
    - split; [exact (Hwf 0 r0 Hc) | exact (Hrg 0 r0 Hc)].
    - destruct (read_cluster_fields _ _ _ Hread) as (? & ? & ? & _). auto. }
  destruct Hfields as (Hd0 & Hn0 & Hu0).
  assert (Hwf1 : cache_sized g1).
  { destruct Hcase as [[_ ->] | (_ & _ & ->)]; [exact Hwf |].
    unfold cache_sized. cbn. apply map_Forall_insert_2; assumption. }
  assert (Hrg1 : cache_in_range g1).
  { destruct Hcase as [[_ ->] | (_ & _ & ->)]; [exact Hrg |].
    unfold cache_in_range. cbn. apply map_Forall_insert_2; [split; assumption | exact Hrg]. }
  destruct (write_header_spec md5 md5_length (gfs_stegger g1) (hdr_cluster_count g1) r0 Hd0)
    as (s1 & Hwh & Hcap1 & Hdig & Hhdr & Hroot & Hhigh).
  { rewrite Hst1. unfold CLUSTER_SIZE in *. lia. }
  set (g2 := with_stegger s1 (with_clusters (<[0 := unmark_cluster r0]> (clusters g1)) g1)).
  destruct (sync_loop_spec (Z.to_nat (hdr_cluster_count g1 - 1)) 1 g2)
    as (g' & Hrun & Hcc & Hfc & Hre & Hcp & Hlow & Hdirty & Hrest).
  { lia. }
  { unfold cache_sized, g2. cbn. apply map_Forall_insert_2; [exact Hd0 | exact Hwf1]. }
  { unfold cache_in_range, g2. cbn. apply map_Forall_insert_2; [split; assumption | exact Hrg1]. }
  { unfold g2. cbn [gfs_stegger with_stegger]. rewrite Hcap1, Hst1, Hcc1.
    unfold CLUSTER_SIZE in *. lia. }
  assert (Hcl2 : forall j, j <> 0 -> clusters g2 !! j = clusters g !! j).
  { intros j Hj. unfold g2. cbn [clusters with_stegger with_clusters].
    rewrite lookup_insert_ne by congruence. apply Hcl1. exact Hj. }
  assert (Hrd2 : forall j, 1 <= j -> read_cluster s1 j = read_cluster (gfs_stegger g) j).
  { intros j Hj. rewrite <- Hst1. unfold read_cluster, stegger_read. rewrite Hcap1.
    destruct (decide _) as [[H3 H4] | ]; [| reflexivity].
    rewrite Hhigh by (unfold CLUSTER_SIZE in *; lia). reflexivity. }
  assert (Hsync : ghostfs_sync md5 g = (Ok tt, g')).
  { unfold ghostfs_sync.
    rewrite (bind_Ok _ _ _ _ _ Hget).
    rewrite (bind_Ok _ _ _ _ _ (deref_Some _ _ _ Hr0)).
    rewrite (bind_Ok _ _ _ _ _ (eq_refl : get_gfs g1 = (Ok g1, g1))).
    rewrite Hwh.
    rewrite (bind_Ok (modify_gfs (fun g => with_stegger s1
               (with_clusters (<[0 := unmark_cluster r0]> (clusters g)) g))) _ g1 tt g2 eq_refl).
    exact Hrun. }
  pose proof (ghostfs_check_spec md5 (gfs_stegger g')) as Hcheck.
  rewrite (Hlow 16 HEADER_BYTES), (Hlow c0_offset CLUSTER_SIZE), (Hlow 0 16) in Hcheck
    by (unfold c0_offset, HEADER_BYTES, CLUSTER_SIZE; lia).
  change (gfs_stegger g2) with s1 in Hcheck, Hcp.
  rewrite Hdig, Hhdr, Hroot in Hcheck.
  destruct (decide (md5 (header_bytes (hdr_cluster_count g1) ++ cluster_bytes r0)
                    = md5 (header_bytes (hdr_cluster_count g1) ++ cluster_bytes r0)))
    as [_ | Hne]; [| contradiction].
  specialize (Hcheck ltac:(rewrite Hcp, Hcap1, Hst1; unfold CLUSTER_SIZE in *; lia)).
  exists g', r0. split_and!.
  - exact Hsync.
  - rewrite Hcc. exact Hcc1.
  - rewrite Hfc. exact Hfc1.
  - rewrite Hre. exact Hre1.
  - rewrite Hcp, Hcap1, Hst1. reflexivity.
  - rewrite Hcheck. reflexivity.
  - rewrite Hcheck. cbn [snd hdr_cluster_count with_cluster_count]. unfold header_bytes.
    rewrite le_decode_encode. change (256 ^ Z.of_nat (Z.to_nat HEADER_BYTES)) with (2 ^ 16).
    rewrite Hcc1. rewrite Z.mod_small by lia. apply u16_small. lia.
  - destruct Hcase as [[Hc _] | (Hnone & Hread & _)]; [left; exact Hc | right; split; assumption].
  - destruct (Hrest 0 ltac:(lia) ltac:(left; lia)) as [E1 _]. rewrite E1.
    unfold g2. cbn. apply lookup_insert_eq.
  - destruct (Hrest 0 ltac:(lia) ltac:(left; lia)) as [_ E2]. rewrite E2.
    change (gfs_stegger g2) with s1.
    rewrite read_cluster_in_range by (rewrite ?Hcap1, ?Hst1; unfold CLUSTER_SIZE in *; lia).
    change (c0_offset + 0 * CLUSTER_SIZE) with c0_offset. rewrite Hroot.
    rewrite cluster_round_trip by assumption. reflexivity.
  - intros j c Hj Hc Hdc.
    apply Hdirty; [rewrite Hcc1; lia | rewrite Hcl2 by lia; exact Hc | exact Hdc].
  - intros j Hj Hcase'.
    destruct (Hrest j ltac:(lia)) as [E1 E2].
    { rewrite Hcl2 by lia. rewrite Hcc1.
      destruct Hcase' as [? | [? | ?]]; [right; left; lia | auto | auto]. }
    rewrite E1, E2. split; [apply Hcl2; lia |].
    change (gfs_stegger g2) with s1. apply Hrd2. exact Hj.
Qed.


End WriteBack.

Lemma cache_in_range_written_a : cache_in_range written_a.
Proof.
  apply (bool_decide_unpack _). vm_compute. reflexivity.
Qed.

Lemma cache_sized_written_a : cache_sized written_a.
Proof. apply (bool_decide_unpack _). vm_compute. reflexivity. Qed.


(** ** The string helpers on file names *)

Lemma component_eq_name (name : list byte) :
  forall (fname : list byte) (n : nat),
    x00 ∉ name -> slash ∉ name ->
    (length name < n)%nat -> (length name < length fname)%nat ->
    component_eq name fname n = bool_decide (cstring fname = name).
Proof.
  induction name as [| c name IH]; intros fname n H0 Hs Hn Hf.
  - destruct n as [| n]; [cbn in Hn; lia |]. cbn [component_eq hd].
    destruct fname as [| f fname]; [cbn in Hf; lia |]. cbn [hd cstring].
    rewrite (bool_decide_eq_false_2 (x00 ≠ x00)) by (intros H; apply H; reflexivity).
    cbn [andb]. rewrite (bool_decide_eq_true_2 (x00 = x00)) by reflexivity. cbn [orb andb].
    destruct (decide (f = x00)) as [-> | Hne].
    + rewrite !bool_decide_eq_true_2; reflexivity.
    + rewrite !bool_decide_eq_false_2; [reflexivity | discriminate | exact Hne].
  - destruct n as [| n]; [cbn in Hn; lia |]. cbn [component_eq hd tl].
    destruct fname as [| f fname]; [cbn in Hf; lia |]. cbn [hd tl cstring].
    apply not_elem_of_cons in H0 as [Hc0 H0]. apply not_elem_of_cons in Hs as [Hcs Hs].
    rewrite (bool_decide_eq_true_2 (c ≠ x00)) by congruence.
    rewrite (bool_decide_eq_true_2 (c ≠ slash)) by congruence.
    cbn [andb].
    destruct (decide (c = f)) as [<- | Hne].
    + rewrite (bool_decide_eq_true_2 (c = c)) by reflexivity.
      rewrite IH by (cbn in *; first [assumption | lia]).
      destruct (decide (c = x00)) as [? | _]; [congruence |].
      apply bool_decide_ext. split; [intros -> | intros [= ?]]; congruence.
    + rewrite (bool_decide_eq_false_2 (c = f)) by exact Hne.
      rewrite (bool_decide_eq_false_2 (c = x00)) by congruence.
      rewrite (bool_decide_eq_false_2 (c = slash)) by congruence.
      cbn [orb andb]. symmetry. apply bool_decide_eq_false_2.
      destruct (decide (f = x00)); [discriminate | intros [= ? ?]; congruence].
Qed.

Lemma strncmp_eq_name (name : list byte) :
  forall (fname : list byte) (n : nat),
    x00 ∉ name ->
    (length name < n)%nat -> (length name < length fname)%nat ->
    strncmp_eq fname name n = bool_decide (cstring fname = name).
Proof.
  induction name as [| c name IH]; intros fname n H0 Hn Hf.
  - destruct n as [| n]; [cbn in Hn; lia |]. cbn [strncmp_eq hd].
    destruct fname as [| f fname]; [cbn in Hf; lia |]. cbn [hd cstring].
    destruct (decide (f = x00)) as [-> | Hne].
    + destruct (decide (x00 = x00)); [| contradiction].
      rewrite bool_decide_eq_true_2; reflexivity.
    + rewrite bool_decide_eq_false_2 by discriminate. reflexivity.
  - destruct n as [| n]; [cbn in Hn; lia |]. cbn [strncmp_eq hd tl].
    destruct fname as [| f fname]; [cbn in Hf; lia |]. cbn [hd tl cstring].
    apply not_elem_of_cons in H0 as [Hc0 H0].
    destruct (decide (f = c)) as [-> | Hne].
    + destruct (decide (c = x00)) as [? | _]; [congruence |].
      rewrite IH by (cbn in *; first [assumption | lia]).
      apply bool_decide_ext. split; [intros -> | intros [= ?]]; congruence.
    + symmetry. apply bool_decide_eq_false_2.
      destruct (decide (f = x00)); [discriminate | intros [= ? ?]; congruence].
Qed.

Lemma strchr_absent (s : list byte) (ch : byte) : ch ∉ s -> strchr s ch = None.
Proof.
  induction s as [| c s IH]; intros H; [reflexivity |].
  apply not_elem_of_cons in H as [Hc H]. cbn [strchr].
  destruct (decide (c = ch)); [congruence |].
  destruct (decide (c = x00)); [reflexivity | apply IH; exact H].
Qed.

Lemma strlen_plain (s : list byte) : x00 ∉ s -> strlen s = Z.of_nat (length s).
Proof.
  induction s as [| c s IH]; intros H; [reflexivity |].
  apply not_elem_of_cons in H as [Hc H]. cbn [strlen length].
  destruct (decide (c = x00)); [congruence |]. rewrite IH by exact H. lia.
Qed.

Lemma cstring_plain (s r : list byte) : x00 ∉ s -> cstring (s ++ x00 :: r) = s.
Proof.
  induction s as [| c s IH]; intros H.
  - reflexivity.
  - apply not_elem_of_cons in H as [Hc H]. cbn [app cstring].
    destruct (decide (c = x00)); [congruence |]. rewrite IH by exact H. reflexivity.
Qed.

Lemma cstring_whole (s : list byte) : x00 ∉ s -> cstring s = s.
Proof.
  induction s as [| c s IH]; intros H; [reflexivity |].
  apply not_elem_of_cons in H as [Hc H]. cbn [cstring].
  destruct (decide (c = x00)); [congruence |]. rewrite IH by exact H. reflexivity.
Qed.

Lemma last_component_loop_plain (n : nat) (s : list byte) :
  slash ∉ s -> last_component_loop n s = s.
Proof.
  intros H. destruct n as [| n]; [reflexivity |]. cbn [last_component_loop].
  rewrite strchr_absent by exact H. reflexivity.
Qed.

Lemma last_component_of_root_path (name : list byte) :
  slash ∉ name -> last_component (slash :: name) = name.
Proof.
  intros H. unfold last_component. cbn [length last_component_loop strchr].
  destruct (decide (slash = slash)); [| contradiction]. cbn [tl].
  apply last_component_loop_plain. exact H.
Qed.

Lemma name_ok_hd (name : list byte) :
  name_ok name -> hd x00 name <> x00 /\ hd x00 name <> slash.
Proof.
  intros (Hne & H0 & Hs & _). destruct name as [| c name]; [contradiction |].
  apply not_elem_of_cons in H0 as [? _]. apply not_elem_of_cons in Hs as [? _].
  cbn [hd]. split; congruence.
Qed.

(** X16.  [last_component] returns a suffix of the path that contains no
    ['/'] before its terminator: the text behind the last ['/'] of the
    string, or the whole path when it has none. *)
Theorem last_component_is_the_tail (path : list byte) :
  strchr (last_component path) slash = None /\
  exists pre, path = pre ++ last_component path /\
              (pre = [] \/ exists p, pre = p ++ [slash]).
Proof.
  unfold last_component.
  assert (H : forall n s, (length s <= n)%nat ->
            strchr (last_component_loop n s) slash = None /\
            exists pre, s = pre ++ last_component_loop n s /\
                        (pre = [] \/ exists p, pre = p ++ [slash])).
  { induction n as [| n IH]; intros s Hlen.
    - destruct s; [| cbn in Hlen; lia]. cbn. split; [reflexivity |].
      exists []. split; [reflexivity | left; reflexivity].
    - cbn [last_component_loop].
      destruct (strchr s slash) as [r |] eqn:Hchr.
      + assert (Hr : exists p, s = p ++ r /\ hd x00 r = slash /\ r <> []).
        { clear - Hchr. induction s as [| c s IHs]; [discriminate Hchr |].
          cbn [strchr] in Hchr. destruct (decide (c = slash)) as [-> | Hne].
          - injection Hchr as <-. exists []. split_and!; [reflexivity | reflexivity | discriminate].
          - destruct (decide (c = x00)); [discriminate Hchr |].
            destruct (IHs Hchr) as (p & -> & Hhd & Hnil).
            exists (c :: p). split_and!; [reflexivity | exact Hhd | exact Hnil]. }
        destruct Hr as (p & -> & Hhd & Hnil).
        destruct r as [| c r]; [contradiction |]. cbn [hd] in Hhd. subst c. cbn [tl].
        destruct (IH r) as (Hnone & pre & Hpre & Hend).
        { rewrite length_app in Hlen. cbn [length] in Hlen. lia. }
        split; [exact Hnone |].
        exists ((p ++ [slash]) ++ pre). split.
        * rewrite <- !app_assoc. cbn [app]. rewrite <- Hpre. reflexivity.
        * right. destruct Hend as [-> | (q & ->)].
          -- exists p. rewrite app_nil_r. reflexivity.
          -- exists ((p ++ [slash]) ++ q). rewrite <- !app_assoc. reflexivity.
      + split; [exact Hchr |]. exists []. split; [reflexivity | left; reflexivity]. }
  apply H. lia.
Qed.

(** ** Scanning a directory of one cluster *)

Section SmallRoot.

Variables (g : ghostfs) (r0 : cluster).
Hypothesis Hroot : small_root g r0.

Lemma root_cached : clusters g !! 0 = Some r0.
Proof. exact (proj1 Hroot). Qed.

Lemma root_read j : read_entry (ClusterEntry 0 j) g = (Ok (entry_at (data r0) j), g).
Proof. apply read_entry_cluster. exact root_cached. Qed.

Lemma root_filename_length j :
  0 <= j < CLUSTER_DIRENTS -> length (filename (entry_at (data r0) j)) = 56%nat.
Proof.
  intros Hj. destruct Hroot as (_ & _ & Hd & _). cbn [filename entry_at].
  unfold CLUSTER_DIRENTS, CLUSTER_DATA, DIR_ENTRY_SIZE, FILENAME_SIZE in *.
  rewrite length_get_bytes; lia.
Qed.

Lemma root_next_step j :
  0 <= j < CLUSTER_DIRENTS - 1 ->
  dir_iter_next (root_slot j) g = (Ok (root_slot (j + 1)), g).
Proof.
  intros Hj. unfold dir_iter_next, root_slot. cbn [it_entry_nr it_cluster it_entry].
  destruct (decide (j >= CLUSTER_DIRENTS - 1)) as [Hn | _]; [lia |]. reflexivity.
Qed.

Lemma root_next_end j :
  CLUSTER_DIRENTS - 1 <= j -> dir_iter_next (root_slot j) g = (Err ENOENT, g).
Proof.
  intros Hj. unfold dir_iter_next, root_slot. cbn [it_entry_nr it_cluster it_entry].
  destruct (decide (j >= CLUSTER_DIRENTS - 1)) as [_ | Hn]; [| lia].
  rewrite (bind_Ok _ _ _ _ _ (deref_Some _ _ _ root_cached)).
  destruct Hroot as (_ & Hnext & _).
  destruct (decide (next r0 = 0)); [reflexivity | contradiction].
Qed.

(** [dir_iter_next_used] stops at the first used record behind the
    iterator. *)
Lemma root_next_used_found (k : nat) :
  forall j m fuel,
    m = j + 1 + Z.of_nat k -> 0 <= j -> m < CLUSTER_DIRENTS ->
    (forall i, j < i < m -> slot_used r0 i = false) -> slot_used r0 m = true ->
    (k < fuel)%nat ->
    dir_iter_next_used fuel (root_slot j) g = (Ok (root_slot m), g).
Proof.
  induction k as [| k IH]; intros j m fuel Hm Hj Hm' Hgap Hused Hfuel;
    (destruct fuel as [| fuel]; [lia |]); cbn [dir_iter_next_used];
    rewrite (bind_Ok _ _ _ _ _ (root_next_step j ltac:(lia)));
    unfold root_slot at 1; cbn [it_entry]; rewrite (bind_Ok _ _ _ _ _ (root_read (j + 1))).
  - replace (j + 1) with m by lia. fold (slot_used r0 m). rewrite Hused. reflexivity.
  - fold (slot_used r0 (j + 1)). rewrite Hgap by lia.
    apply (IH (j + 1) m fuel); try assumption; try lia.
    intros i Hi. apply Hgap. lia.
Qed.

(** ... and ends with [ENOENT] when there is none. *)
Lemma root_next_used_none (k : nat) :
  forall j fuel,
    j = CLUSTER_DIRENTS - 1 - Z.of_nat k -> 0 <= j ->
    (forall i, j < i < CLUSTER_DIRENTS -> slot_used r0 i = false) ->
    (k < fuel)%nat ->
    dir_iter_next_used fuel (root_slot j) g = (Err ENOENT, g).
Proof.
  induction k as [| k IH]; intros j fuel Hj Hj0 Hgap Hfuel;
    (destruct fuel as [| fuel]; [lia |]); cbn [dir_iter_next_used].
  - apply bind_Err. apply root_next_end. lia.
  - rewrite (bind_Ok _ _ _ _ _ (root_next_step j ltac:(lia))).
    unfold root_slot at 1. cbn [it_entry]. rewrite (bind_Ok _ _ _ _ _ (root_read (j + 1))).
    fold (slot_used r0 (j + 1)). rewrite Hgap by lia.
    apply (IH (j + 1) fuel); try lia.
    intros i Hi. apply Hgap. lia.
Qed.

(** The used records behind record [j]: the first of them, or none. *)
Lemma first_used_behind (k : nat) :
  forall j, j = CLUSTER_DIRENTS - 1 - Z.of_nat k -> 0 <= j ->
    (exists m, j < m < CLUSTER_DIRENTS /\ slot_used r0 m = true /\
               forall i, j < i < m -> slot_used r0 i = false) \/
    (forall i, j < i < CLUSTER_DIRENTS -> slot_used r0 i = false).
Proof.
  induction k as [| k IH]; intros j Hj Hj0.
  - right. intros i Hi. lia.
  - destruct (slot_used r0 (j + 1)) eqn:Hu.
    + left. exists (j + 1). split_and!; [lia | lia | exact Hu | intros i Hi; lia].
    + destruct (IH (j + 1) ltac:(lia) ltac:(lia)) as [(m & Hm & Hum & Hgap) | Hnone].
      * left. exists m. split_and!; [lia | lia | exact Hum |].
        intros i Hi. destruct (decide (i = j + 1)) as [-> | ?]; [exact Hu | apply Hgap; lia].
      * right. intros i Hi.
        destruct (decide (i = j + 1)) as [-> | ?]; [exact Hu | apply Hnone; lia].
Qed.

Lemma next_used_from j fuel :
  0 <= j < CLUSTER_DIRENTS -> (66 <= fuel + Z.to_nat j)%nat ->
  (exists m, j < m < CLUSTER_DIRENTS /\ slot_used r0 m = true /\
             (forall i, j < i < m -> slot_used r0 i = false) /\
             dir_iter_next_used fuel (root_slot j) g = (Ok (root_slot m), g)) \/
  ((forall i, j < i < CLUSTER_DIRENTS -> slot_used r0 i = false) /\
   dir_iter_next_used fuel (root_slot j) g = (Err ENOENT, g)).
Proof.
  intros Hj Hfuel.
  destruct (first_used_behind (Z.to_nat (65 - j)) j
              ltac:(unfold CLUSTER_DIRENTS in *; lia) ltac:(lia))
    as [(m & Hm & Hum & Hgap) | Hnone].
  - left. exists m. split_and!; [lia | lia | exact Hum | exact Hgap |].
    apply (root_next_used_found (Z.to_nat (m - j - 1))); try assumption;
      unfold CLUSTER_DIRENTS in *; lia.
  - right. split; [exact Hnone |].
    apply (root_next_used_none (Z.to_nat (65 - j))); try assumption;
      unfold CLUSTER_DIRENTS in *; lia.
Qed.

Section Name.

Variable name : list byte.
Hypothesis Hname : name_ok name.

Lemma named_used j : 0 <= j < CLUSTER_DIRENTS -> named r0 name j -> slot_used r0 j = true.
Proof.
  intros Hj Hn. unfold slot_used, dir_entry_used. apply bool_decide_eq_true_2.
  unfold named in Hn. destruct Hname as (Hne & _).
  destruct (filename (entry_at (data r0) j)) as [| f fn]; [cbn in Hn; congruence |].
  cbn [hd]. cbn [cstring] in Hn. destruct (decide (f = x00)); [congruence | assumption].
Qed.

Lemma component_eq_root j :
  0 <= j < CLUSTER_DIRENTS ->
  component_eq name (filename (entry_at (data r0) j)) (Z.to_nat FILENAME_SIZE)
  = bool_decide (named r0 name j).
Proof.
  intros Hj. destruct Hname as (_ & H0 & Hs & Hlen). unfold FILENAME_SIZE in *.
  apply component_eq_name; [assumption | assumption | lia |].
  rewrite root_filename_length by exact Hj. lia.
Qed.

Lemma strncmp_eq_root j :
  0 <= j < CLUSTER_DIRENTS ->
  strncmp_eq (filename (entry_at (data r0) j)) name (Z.to_nat FILENAME_SIZE)
  = bool_decide (named r0 name j).
Proof.
  intros Hj. destruct Hname as (_ & H0 & Hs & Hlen). unfold FILENAME_SIZE in *.
  apply strncmp_eq_name; [assumption | lia |].
  rewrite root_filename_length by exact Hj. lia.
Qed.

(** The loop of [dir_iter_lookup] on a last component: it stops at the
    first record that carries the name. *)
Lemma lookup_loop_found (skip_last : bool) (fuel : nat) :
  forall j m,
    0 <= j <= m -> m < CLUSTER_DIRENTS ->
    named r0 name m -> (forall i, j <= i < m -> ~ named r0 name i) ->
    (67 <= fuel + Z.to_nat j)%nat ->
    dir_iter_lookup_loop fuel skip_last (root_slot j) name g = (Ok (root_slot m), g).
Proof.
  induction fuel as [| fuel IH]; intros j m Hjm Hm Hnamed Hnot Hfuel;
    [unfold CLUSTER_DIRENTS in *; lia |].
  cbn [dir_iter_lookup_loop]. unfold root_slot at 1. cbn [it_entry].
  rewrite (bind_Ok _ _ _ _ _ (root_read j)).
  rewrite component_eq_root by lia.
  destruct (decide (j = m)) as [-> | Hne].
  - rewrite bool_decide_eq_true_2 by exact Hnamed.
    rewrite strchr_absent by (apply Hname). reflexivity.
  - rewrite bool_decide_eq_false_2 by (apply Hnot; lia).
    destruct (next_used_from j fuel ltac:(lia) ltac:(lia))
      as [(j' & Hj' & Hu & Hgap & Hrun) | (Hnone & _)].
    + rewrite (bind_Ok _ _ _ _ _ Hrun).
      assert (j' <= m).
      { destruct (decide (j' <= m)) as [? | Hgt]; [assumption |].
        pose proof (named_used m ltac:(lia) Hnamed) as Hum.
        rewrite Hgap in Hum by lia. discriminate Hum. }
      apply IH; try assumption; try lia.
      intros i Hi. apply Hnot. lia.
    + exfalso. pose proof (named_used m ltac:(lia) Hnamed) as Hum.
      rewrite Hnone in Hum by lia. discriminate Hum.
Qed.

Lemma lookup_loop_missing (skip_last : bool) (fuel : nat) :
  forall j,
    0 <= j < CLUSTER_DIRENTS ->
    (forall i, j <= i < CLUSTER_DIRENTS -> ~ named r0 name i) ->
    (67 <= fuel + Z.to_nat j)%nat ->
    dir_iter_lookup_loop fuel skip_last (root_slot j) name g = (Err ENOENT, g).
Proof.
  induction fuel as [| fuel IH]; intros j Hj Hnot Hfuel;
    [unfold CLUSTER_DIRENTS in *; lia |].
  cbn [dir_iter_lookup_loop]. unfold root_slot at 1. cbn [it_entry].
  rewrite (bind_Ok _ _ _ _ _ (root_read j)).
  rewrite component_eq_root by lia.
  rewrite bool_decide_eq_false_2 by (apply Hnot; lia).
  destruct (next_used_from j fuel ltac:(lia) ltac:(lia))
    as [(j' & Hj' & Hu & Hgap & Hrun) | (Hnone & Hrun)].
  - rewrite (bind_Ok _ _ _ _ _ Hrun).
    apply IH; try lia. intros i Hi. apply Hnot. lia.
  - apply bind_Err. exact Hrun.
Qed.

(** The loop of [dir_contains]. *)
Lemma contains_loop_found (fuel : nat) :
  forall j m,
    0 <= j <= m -> m < CLUSTER_DIRENTS ->
    named r0 name m -> (forall i, j <= i < m -> ~ named r0 name i) ->
    (67 <= fuel + Z.to_nat j)%nat ->
    dir_contains_loop fuel (root_slot j) name g = (Ok tt, g).
Proof.
  induction fuel as [| fuel IH]; intros j m Hjm Hm Hnamed Hnot Hfuel;
    [unfold CLUSTER_DIRENTS in *; lia |].
  cbn [dir_contains_loop]. unfold root_slot at 1. cbn [it_entry].
  rewrite (bind_Ok _ _ _ _ _ (root_read j)).
  rewrite strncmp_eq_root by lia.
  destruct (decide (j = m)) as [-> | Hne].
  - rewrite bool_decide_eq_true_2 by exact Hnamed. reflexivity.
  - rewrite bool_decide_eq_false_2 by (apply Hnot; lia).
    destruct (next_used_from j fuel ltac:(lia) ltac:(lia))
      as [(j' & Hj' & Hu & Hgap & Hrun) | (Hnone & _)].
    + rewrite (bind_Ok _ _ _ _ _ Hrun).
      assert (j' <= m).
      { destruct (decide (j' <= m)) as [? | Hgt]; [assumption |].
        pose proof (named_used m ltac:(lia) Hnamed) as Hum.
        rewrite Hgap in Hum by lia. discriminate Hum. }
      apply (IH j' m); try assumption; try lia.
      intros i Hi. apply Hnot. lia.
    + exfalso. pose proof (named_used m ltac:(lia) Hnamed) as Hum.
      rewrite Hnone in Hum by lia. discriminate Hum.
Qed.

Lemma contains_loop_missing (fuel : nat) :
  forall j,
    0 <= j < CLUSTER_DIRENTS ->
    (forall i, j <= i < CLUSTER_DIRENTS -> ~ named r0 name i) ->
    (67 <= fuel + Z.to_nat j)%nat ->
    dir_contains_loop fuel (root_slot j) name g = (Err ENOENT, g).
Proof.
  induction fuel as [| fuel IH]; intros j Hj Hnot Hfuel;
    [unfold CLUSTER_DIRENTS in *; lia |].
  cbn [dir_contains_loop]. unfold root_slot at 1. cbn [it_entry].
  rewrite (bind_Ok _ _ _ _ _ (root_read j)).
  rewrite strncmp_eq_root by lia.
  rewrite bool_decide_eq_false_2 by (apply Hnot; lia).
  destruct (next_used_from j fuel ltac:(lia) ltac:(lia))
    as [(j' & Hj' & Hu & Hgap & Hrun) | (Hnone & Hrun)].
  - rewrite (bind_Ok _ _ _ _ _ Hrun).
    apply IH; try lia. intros i Hi. apply Hnot. lia.
  - apply bind_Err. exact Hrun.
Qed.

End Name.

(** The loop of [find_empty_entry] stops at the first unused record. *)
Lemma find_empty_found (k : nat) :
  forall j m fuel,
    m = j + Z.of_nat k -> 0 <= j -> m < CLUSTER_DIRENTS ->
    (forall i, j <= i < m -> slot_used r0 i = true) -> slot_used r0 m = false ->
    (k < fuel)%nat ->
    find_empty_entry_loop fuel (root_slot j) g = (Ok (root_slot m, None), g).
Proof.
  induction k as [| k IH]; intros j m fuel Hm Hj Hm' Hfull Hfree Hfuel;
    (destruct fuel as [| fuel]; [lia |]); cbn [find_empty_entry_loop];
    unfold root_slot at 1; cbn [it_entry]; rewrite (bind_Ok _ _ _ _ _ (root_read j)).
  - replace j with m by lia. fold (slot_used r0 m). rewrite Hfree. reflexivity.
  - fold (slot_used r0 j). rewrite Hfull by lia.
    rewrite (bind_Ok _ _ _ _ _ (try_Ok _ _ _ _ (root_next_step j ltac:(lia)))).
    apply (IH (j + 1) m fuel); try assumption; try lia.
    intros i Hi. apply Hfull. lia.
Qed.

Lemma root_init : dir_iter_init 0 g = (Ok (root_slot 0), g).
Proof.
  destruct Hroot as (Hc & _ & _ & Hcount & _).
  unfold dir_iter_init.
  rewrite (bind_Ok _ _ _ _ _ (cluster_get_cached g 0 r0 Hc ltac:(lia))). reflexivity.
Qed.

End SmallRoot.

(** ** Creating and finding a file in the root directory *)

(** The least index below [n] that satisfies a decidable property. *)
Lemma least_below (P : Z -> Prop) `{!forall i, Decision (P i)} (n : nat) :
  (exists m, 0 <= m < Z.of_nat n /\ P m /\ forall i, 0 <= i < m -> ~ P i) \/
  (forall i, 0 <= i < Z.of_nat n -> ~ P i).
Proof.
  induction n as [| n IH].
  - right. intros i Hi. lia.
  - destruct IH as [(m & Hm & HP & Hleast) | Hnone].
    + left. exists m. split_and!; [lia | lia | exact HP | exact Hleast].
    + destruct (decide (P (Z.of_nat n))) as [HP | HnP].
      * left. exists (Z.of_nat n). split_and!; [lia | lia | exact HP | exact Hnone].
      * right. intros i Hi. destruct (decide (i = Z.of_nat n)) as [-> | ?];
          [exact HnP | apply Hnone; lia].
Qed.

(** The record [create_entry] fills in slot [k] of a directory payload. *)
Lemma entry_after_create (d : list byte) (k : Z) (name : list byte) (word nr : Z) :
  Z.of_nat (length d) = CLUSTER_DATA -> 0 <= k < CLUSTER_DIRENTS ->
  (x00 ∉ name) -> Z.of_nat (length name) <= FILENAME_SIZE - 1 ->
  let d1 := set_bytes (k * DIR_ENTRY_SIZE + 0) (name ++ [x00]) d in
  let d2 := set_bytes (k * DIR_ENTRY_SIZE + FILENAME_SIZE) (le_encode 4 word) d1 in
  let d3 := set_bytes (k * DIR_ENTRY_SIZE + (FILENAME_SIZE + 4)) (le_encode 2 nr) d2 in
  Z.of_nat (length d3) = CLUSTER_DATA /\
  cstring (filename (entry_at d3 k)) = name /\
  size (entry_at d3 k) = word mod 2 ^ 32 /\
  cluster_nr (entry_at d3 k) = nr mod 2 ^ 16 /\
  (forall i, 0 <= i < CLUSTER_DIRENTS -> i <> k -> entry_at d3 i = entry_at d i).
Proof.
  intros Hd Hk H0 Hlen d1 d2 d3.
  unfold CLUSTER_DATA, CLUSTER_DIRENTS, DIR_ENTRY_SIZE, FILENAME_SIZE in *.
  assert (L1 : length d1 = length d)
    by (unfold d1; apply length_set_bytes; rewrite ?length_app; cbn [length]; lia).
  assert (L2 : length d2 = length d)
    by (unfold d2; rewrite length_set_bytes; rewrite ?length_le_encode; lia).
  assert (L3 : length d3 = length d)
    by (unfold d3; rewrite length_set_bytes; rewrite ?length_le_encode; lia).
  split_and!.
  - lia.
  - unfold entry_at. cbn [filename].
    unfold d3, DIR_ENTRY_SIZE, FILENAME_SIZE.
    rewrite get_set_bytes_other by (rewrite ?length_le_encode; lia).
    unfold d2, DIR_ENTRY_SIZE, FILENAME_SIZE.
    rewrite get_set_bytes_other by (rewrite ?length_le_encode; lia).
    assert (Hfn : exists rest, get_bytes (k * 62) 56 d1 = name ++ x00 :: rest).
    { exists (get_bytes (k * 62 + Z.of_nat (length name) + 1)
                        (56 - Z.of_nat (length name) - 1) d1).
      apply list_eq. intros i.
      rewrite lookup_get_bytes by lia.
      destruct (decide (Z.of_nat i < 56)) as [Hi | Hi].
      - destruct (decide (i < length name)%nat) as [Hin | Hout].
        + rewrite lookup_app_l by exact Hin.
          unfold d1. rewrite lookup_set_bytes by lia.
          destruct (decide (Z.of_nat (Z.to_nat (k * 62) + i) < k * 62 + 0)); [lia |].
          rewrite length_app. cbn [length].
          destruct (decide (Z.of_nat (Z.to_nat (k * 62) + i)
                            < k * 62 + 0 + Z.of_nat (length name + 1))); [| lia].
          rewrite lookup_app_l by lia. f_equal. lia.
        + rewrite lookup_app_r by lia.
          destruct (decide (i = length name)) as [-> | Hne].
          * replace (length name - length name)%nat with 0%nat by lia. cbn [lookup list_lookup].
            unfold d1. rewrite lookup_set_bytes by lia.
            destruct (decide (Z.of_nat (Z.to_nat (k * 62) + length name) < k * 62 + 0)); [lia |].
            rewrite length_app. cbn [length].
            destruct (decide (Z.of_nat (Z.to_nat (k * 62) + length name)
                              < k * 62 + 0 + Z.of_nat (length name + 1))); [| lia].
            rewrite lookup_app_r by lia.
            replace (Z.to_nat (k * 62) + length name - Z.to_nat (k * 62 + 0) - length name)%nat
              with 0%nat by lia.
            reflexivity.
          * destruct (i - length name)%nat as [| i'] eqn:Ei; [lia |].
            cbn [lookup list_lookup].
            change ((x00 :: ?r) !! S i') with (r !! i').
            rewrite lookup_get_bytes by lia.
            destruct (decide (Z.of_nat i' < 56 - Z.of_nat (length name) - 1)); [| lia].
            f_equal. lia.
      - symmetry. apply lookup_ge_None.
        rewrite length_app. cbn [length]. rewrite length_get_bytes by lia. lia. }
    destruct Hfn as (rest & ->). apply cstring_plain. exact H0.
  - unfold entry_at. cbn [size]. unfold d3, DIR_ENTRY_SIZE, FILENAME_SIZE.
    rewrite get_set_bytes_other by (rewrite ?length_le_encode; lia).
    unfold d2, DIR_ENTRY_SIZE, FILENAME_SIZE.
    rewrite get_set_bytes_same_len by (rewrite ?length_le_encode; lia).
    apply le_decode_encode.
  - unfold entry_at. cbn [cluster_nr]. unfold d3, DIR_ENTRY_SIZE, FILENAME_SIZE.
    replace (k * 62 + (56 + 4)) with (k * 62 + 56 + 4) by lia.
    rewrite get_set_bytes_same_len by (rewrite ?length_le_encode; lia).
    apply le_decode_encode.
  - intros i Hi Hne.
    unfold d3. fold DIR_ENTRY_SIZE.
    rewrite entry_at_set_other;
      [| unfold CLUSTER_DATA; lia | unfold CLUSTER_DIRENTS; lia | unfold CLUSTER_DIRENTS; lia
       | exact Hne | lia | rewrite length_le_encode; unfold DIR_ENTRY_SIZE; lia].
    unfold d2. fold DIR_ENTRY_SIZE.
    rewrite entry_at_set_other;
      [| unfold CLUSTER_DATA; lia | unfold CLUSTER_DIRENTS; lia | unfold CLUSTER_DIRENTS; lia
       | exact Hne | lia | rewrite length_le_encode; unfold DIR_ENTRY_SIZE; lia].
    unfold d1. fold DIR_ENTRY_SIZE.
    rewrite entry_at_set_other;
      [| unfold CLUSTER_DATA; lia | unfold CLUSTER_DIRENTS; lia | unfold CLUSTER_DIRENTS; lia
       | exact Hne | lia | rewrite length_app; cbn [length]; unfold DIR_ENTRY_SIZE; lia].
    reflexivity.
Qed.

Lemma small_root_lookup_file (g : ghostfs) (r0 : cluster) (name : list byte)
    (skip_last : bool) (fuel : nat) :
  small_root g r0 -> name_ok name ->
  dir_iter_lookup fuel (slash :: name) skip_last g
  = if skip_last then (Ok (with_entry RootEntry (root_slot 0)), g)
    else dir_iter_lookup_loop fuel false (root_slot 0) name g.
Proof.
  intros Hroot Hname. unfold dir_iter_lookup. cbn [hd tl].
  destruct (decide (slash ≠ slash)) as [H | _]; [exfalso; apply H; reflexivity |].
  rewrite (bind_Ok _ _ _ _ _ (root_init g r0 Hroot)).
  destruct (name_ok_hd name Hname) as [Hh0 _].
  rewrite (bool_decide_eq_false_2 (hd x00 name = x00)) by exact Hh0.
  rewrite strchr_absent by (apply Hname).
  rewrite (bool_decide_eq_true_2 (None = None)) by reflexivity.
  destruct skip_last; reflexivity.
Qed.

(** [create_entry] for a file in a root directory of one cluster that has
    no record of that name and whose first unused record is [k]. *)
Lemma create_in_small_root (g : ghostfs) (r0 : cluster) (name : list byte) (k : Z) (fuel : nat) :
  small_root g r0 -> name_ok name ->
  (forall i, 0 <= i < CLUSTER_DIRENTS -> ~ named r0 name i) ->
  0 <= k < CLUSTER_DIRENTS ->
  (forall i, 0 <= i < k -> slot_used r0 i = true) -> slot_used r0 k = false ->
  (67 <= fuel)%nat ->
  exists g' r1,
    create_entry fuel (slash :: name) false g = (Ok (ClusterEntry 0 k), g') /\
    small_root g' r1 /\
    named r1 name k /\
    size (entry_at (data r1) k) = 0 /\ cluster_nr (entry_at (data r1) k) = 0 /\
    (forall i, 0 <= i < CLUSTER_DIRENTS -> i <> k ->
       entry_at (data r1) i = entry_at (data r0) i) /\
    (forall x, x <> 0 -> clusters g' !! x = clusters g !! x) /\
    hdr_cluster_count g' = hdr_cluster_count g /\
    gfs_free_clusters g' = gfs_free_clusters g /\
    gfs_stegger g' = gfs_stegger g /\
    root_entry g' = root_entry g /\
    is_dirty r1 = true.
Proof.
  intros Hroot Hname Hfresh Hk Hfull Hfree Hfuel.
  pose proof Hroot as (Hc0 & Hnext & Hd & Hcount & Hdir & Hcl).
  pose proof Hname as (Hne & H0 & Hs & Hlen).
  destruct (name_ok_hd name Hname) as [Hh0 _].
  unfold create_entry.
  assert (E1 : dir_iter_lookup fuel (slash :: name) true g
               = (Ok (with_entry RootEntry (root_slot 0)), g))
    by exact (small_root_lookup_file g r0 name true fuel Hroot Hname).
  rewrite (bind_Ok _ _ _ _ _ E1).
  cbn [it_entry with_entry].
  rewrite (bind_Ok _ _ _ _ _ (eq_refl : read_entry RootEntry g = (Ok (root_entry g), g))).
  rewrite Hdir, Hcl. cbn [negb].
  rewrite (last_component_of_root_path name Hs).
  rewrite (strlen_plain name H0).
  destruct (decide (Z.of_nat (length name) > FILENAME_SIZE - 1)) as [? | _]; [lia |].
  destruct (decide (hd x00 name = x00)) as [? | _]; [contradiction |].
  assert (E3 : try (dir_contains fuel 0 name) g = (Ok (inl ENOENT), g)).
  { apply try_Err. unfold dir_contains. rewrite (bind_Ok _ _ _ _ _ (root_init g r0 Hroot)).
    apply (contains_loop_missing g r0 Hroot name Hname fuel 0);
      [unfold CLUSTER_DIRENTS; lia | intros i Hi; apply Hfresh; lia | lia]. }
  rewrite (bind_Ok _ _ _ _ _ E3).
  assert (E4 : find_empty_entry fuel 0 g = (Ok (root_slot k, None), g)).
  { unfold find_empty_entry. rewrite (bind_Ok _ _ _ _ _ (root_init g r0 Hroot)).
    apply (find_empty_found g r0 Hroot (Z.to_nat k) 0 k fuel); try assumption;
      unfold CLUSTER_DIRENTS in *; lia. }
  rewrite (bind_Ok _ _ _ _ _ E4).
  rewrite (bind_Ok _ _ _ _ _ (eq_refl : ret (root_slot k, @None (Z * Z)) g = (Ok _, g))).
  cbn [fst snd].
  rewrite (bind_Ok _ _ _ _ _ (eq_refl : ret 0 g = (Ok 0, g))).
  unfold root_slot. cbn [it_entry it_cluster].
  unfold dir_entry_set_size, entry_store_cluster. cbn [write_entry].
  rewrite (cstring_whole name H0).
  change (dir_entry_size_word 0 false) with 0.
  destruct (entry_after_create (data r0) k name 0 0 Hd Hk H0 Hlen)
    as (L3 & Hnamed & Hsize & Hclus & Hother).
  set (d1 := set_bytes (k * DIR_ENTRY_SIZE + 0) (name ++ [x00]) (data r0)) in *.
  set (d2 := set_bytes (k * DIR_ENTRY_SIZE + FILENAME_SIZE) (le_encode 4 0) d1) in *.
  set (d3 := set_bytes (k * DIR_ENTRY_SIZE + (FILENAME_SIZE + 4)) (le_encode 2 0) d2) in *.
  set (c1 := set_data d1 r0).
  set (c2 := set_data d2 c1).
  set (c3 := set_data d3 c2).
  set (g1 := with_clusters (<[0 := c1]> (clusters g)) g).
  set (g2 := with_clusters (<[0 := c2]> (clusters g1)) g1).
  set (g3 := with_clusters (<[0 := c3]> (clusters g2)) g2).
  set (g4 := with_clusters (<[0 := mark_cluster c3]> (clusters g3)) g3).
  assert (U1 : update_cluster 0 (fun c => set_data (set_bytes (k * DIR_ENTRY_SIZE + 0)
                 (name ++ [x00]) (data c)) c) g = (Ok tt, g1))
    by (unfold update_cluster; rewrite Hc0; reflexivity).
  assert (U2 : update_cluster 0 (fun c => set_data (set_bytes (k * DIR_ENTRY_SIZE + FILENAME_SIZE)
                 (le_encode 4 0) (data c)) c) g1 = (Ok tt, g2)).
  { unfold update_cluster, g1. cbn [clusters with_clusters]. rewrite lookup_insert_eq. reflexivity. }
  assert (U3 : update_cluster 0 (fun c => set_data (set_bytes (k * DIR_ENTRY_SIZE + (FILENAME_SIZE + 4))
                 (le_encode 2 0) (data c)) c) g2 = (Ok tt, g3)).
  { unfold update_cluster, g2. cbn [clusters with_clusters]. rewrite lookup_insert_eq. reflexivity. }
  assert (U4 : update_cluster 0 mark_cluster g3 = (Ok tt, g4)).
  { unfold update_cluster, g3. cbn [clusters with_clusters]. rewrite lookup_insert_eq. reflexivity. }
  rewrite (bind_Ok _ _ _ _ _ U1), (bind_Ok _ _ _ _ _ U2), (bind_Ok _ _ _ _ _ U3),
    (bind_Ok _ _ _ _ _ U4).
  exists g4, (mark_cluster c3). split_and!.
  - reflexivity.
  - unfold small_root. split_and!.
    + unfold g4. cbn [clusters with_clusters]. apply lookup_insert_eq.
    + exact Hnext.
    + exact L3.
    + exact Hcount.
    + exact Hdir.
    + exact Hcl.
  - exact Hnamed.
  - exact Hsize.
  - exact Hclus.
  - exact Hother.
  - intros x Hx. unfold g4, g3, g2, g1. cbn [clusters with_clusters].
    rewrite !lookup_insert_ne by congruence. reflexivity.
  - reflexivity.
  - reflexivity.
  - reflexivity.
  - reflexivity.
  - reflexivity.
Qed.

Lemma small_root_lookup_found (g : ghostfs) (r0 : cluster) (name : list byte) (m : Z)
    (fuel : nat) :
  small_root g r0 -> name_ok name ->
  0 <= m < CLUSTER_DIRENTS -> named r0 name m ->
  (forall i, 0 <= i < m -> ~ named r0 name i) -> (67 <= fuel)%nat ->
  dir_iter_lookup fuel (slash :: name) false g = (Ok (root_slot m), g).
Proof.
  intros Hroot Hname Hm Hnamed Hleast Hfuel.
  rewrite (small_root_lookup_file g r0 name false fuel Hroot Hname).
  apply (lookup_loop_found g r0 Hroot name Hname false fuel 0 m);
    [lia | lia | exact Hnamed | intros i Hi; apply Hleast; lia | lia].
Qed.

Lemma small_root_lookup_missing (g : ghostfs) (r0 : cluster) (name : list byte) (fuel : nat) :
  small_root g r0 -> name_ok name ->
  (forall i, 0 <= i < CLUSTER_DIRENTS -> ~ named r0 name i) -> (67 <= fuel)%nat ->
  dir_iter_lookup fuel (slash :: name) false g = (Err ENOENT, g).
Proof.
  intros Hroot Hname Hnone Hfuel.
  rewrite (small_root_lookup_file g r0 name false fuel Hroot Hname).
  apply (lookup_loop_missing g r0 Hroot name Hname false fuel 0);
    [unfold CLUSTER_DIRENTS; lia | intros i Hi; apply Hnone; lia | lia].
Qed.

Lemma first_named (r0 : cluster) (name : list byte) :
  (exists m, 0 <= m < CLUSTER_DIRENTS /\ named r0 name m /\
             forall i, 0 <= i < m -> ~ named r0 name i) \/
  (forall i, 0 <= i < CLUSTER_DIRENTS -> ~ named r0 name i).
Proof. exact (least_below (named r0 name) 66). Qed.

(** X17.  In a root directory of one cluster that has a free record and
    no record called [name], [ghostfs_create] succeeds without taking a
    cluster; afterwards the path opens as a regular file of size 0 with no
    cluster, [ghostfs_getattr] reports it so, and every other name resolves
    as it did before. *)
Theorem create_then_open (uid gid mount_time : Z) (g : ghostfs) (r0 : cluster)
    (name : list byte) (fuel : nat) :
  small_root g r0 -> name_ok name ->
  (forall i, 0 <= i < CLUSTER_DIRENTS -> ~ named r0 name i) ->
  (exists i, 0 <= i < CLUSTER_DIRENTS /\ slot_used r0 i = false) ->
  (67 <= fuel)%nat ->
  exists g' it e st,
    ghostfs_create fuel (slash :: name) g = (Ok tt, g') /\
    gfs_free_clusters g' = gfs_free_clusters g /\
    ghostfs_open fuel (slash :: name) g' = (Ok it, g') /\
    read_entry (it_entry it) g' = (Ok e, g') /\
    cstring (filename e) = name /\ size e = 0 /\ cluster_nr e = 0 /\
    dir_entry_is_directory e = false /\
    ghostfs_getattr uid gid mount_time fuel (slash :: name) g' = (Ok st, g') /\
    st_size st = 0 /\ st_blocks st = 0 /\
    st_mode st = Z.lor S_IFREG (Z.lor S_IRUSR S_IWUSR) /\
    (forall name', name_ok name' -> name' <> name ->
       fst (dir_iter_lookup fuel (slash :: name') false g')
       = fst (dir_iter_lookup fuel (slash :: name') false g)).
Proof.
  intros Hroot Hname Hfresh Hroom Hfuel.
  destruct (least_below (fun i => slot_used r0 i = false) 66)
    as [(k & Hk & Hfree & Hfull) | Hnone].
  2:{ exfalso. destruct Hroom as (i & Hi & Hu). exact (Hnone i Hi Hu). }
  assert (Hfull' : forall i, 0 <= i < k -> slot_used r0 i = true).
  { intros i Hi. specialize (Hfull i Hi). destruct (slot_used r0 i); [reflexivity | contradiction]. }
  destruct (create_in_small_root g r0 name k fuel Hroot Hname Hfresh Hk Hfull' Hfree Hfuel)
    as (g' & r1 & Hcreate & Hroot' & Hnamed & Hsize & Hclus & Hother & _ & _ & Hfc & _ & _ & _).
  assert (Hlookup : dir_iter_lookup fuel (slash :: name) false g' = (Ok (root_slot k), g')).
  { apply (small_root_lookup_found g' r1 name k fuel Hroot' Hname Hk Hnamed); [| exact Hfuel].
    intros i Hi. unfold named. rewrite Hother by (unfold CLUSTER_DIRENTS in *; lia).
    apply Hfresh. unfold CLUSTER_DIRENTS in *. lia. }
  assert (Hread : read_entry (ClusterEntry 0 k) g' = (Ok (entry_at (data r1) k), g'))
    by (apply read_entry_cluster; apply Hroot').
  assert (Hfile : dir_entry_is_directory (entry_at (data r1) k) = false).
  { unfold dir_entry_is_directory. rewrite Hsize. reflexivity. }
  eexists g', (root_slot k), (entry_at (data r1) k), _. split_and!.
  - unfold ghostfs_create. rewrite (bind_Ok _ _ _ _ _ Hcreate). reflexivity.
  - exact Hfc.
  - unfold ghostfs_open. rewrite (bind_Ok _ _ _ _ _ Hlookup).
    unfold root_slot at 1. cbn [it_entry]. rewrite (bind_Ok _ _ _ _ _ Hread).
    rewrite Hfile. reflexivity.
  - exact Hread.
  - exact Hnamed.
  - exact Hsize.
  - exact Hclus.
  - exact Hfile.
  - unfold ghostfs_getattr. rewrite (bind_Ok _ _ _ _ _ Hlookup).
    unfold root_slot at 1. cbn [it_entry]. rewrite (bind_Ok _ _ _ _ _ Hread).
    rewrite Hfile, Hsize. reflexivity.
  - reflexivity.
  - reflexivity.
  - reflexivity.
  - intros name' Hname' Hdiff.
    assert (Hsame : forall i, 0 <= i < CLUSTER_DIRENTS ->
              named r1 name' i -> named r0 name' i /\ i <> k).
    { intros i Hi Hn. destruct (decide (i = k)) as [-> | Hne].
      - exfalso. apply Hdiff. unfold named in *. congruence.
      - split; [| exact Hne]. unfold named in *. rewrite <- Hother by assumption. exact Hn. }
    destruct (first_named r0 name') as [(m & Hm & Hnm & Hleast) | Hnone].
    + assert (Hmk : m <> k).
      { intros ->. pose proof (named_used r0 name' Hname' k Hk Hnm) as Hu. congruence. }
      rewrite (small_root_lookup_found g r0 name' m fuel Hroot Hname' Hm Hnm Hleast Hfuel).
      rewrite (small_root_lookup_found g' r1 name' m fuel Hroot' Hname' Hm); [reflexivity | | | exact Hfuel].
      * unfold named. rewrite Hother by assumption. exact Hnm.
      * intros i Hi Hn. apply (Hleast i Hi). apply (Hsame i); [lia | exact Hn].
    + rewrite (small_root_lookup_missing g r0 name' fuel Hroot Hname' Hnone Hfuel).
      rewrite (small_root_lookup_missing g' r1 name' fuel Hroot' Hname'); [reflexivity | | exact Hfuel].
      intros i Hi Hn. apply (Hnone i Hi). apply (Hsame i Hi Hn).
Qed.

(** X18.  Creating a file or a directory under a name the root directory
    already holds fails with [EEXIST] and changes nothing. *)
Theorem create_existing_name_fails (g : ghostfs) (r0 : cluster) (name : list byte)
    (fuel : nat) :
  small_root g r0 -> name_ok name ->
  (exists m, 0 <= m < CLUSTER_DIRENTS /\ named r0 name m) ->
  (67 <= fuel)%nat ->
  ghostfs_create fuel (slash :: name) g = (Err EEXIST, g) /\
  ghostfs_mkdir fuel (slash :: name) g = (Err EEXIST, g).
Proof.
  intros Hroot Hname Hex Hfuel.
  pose proof Hroot as (Hc0 & Hnext & Hd & Hcount & Hdir & Hcl).
  pose proof Hname as (Hne & H0 & Hs & Hlen).
  destruct (name_ok_hd name Hname) as [Hh0 _].
  destruct (first_named r0 name) as [(m & Hm & Hnm & Hleast) | Hnone].
  2:{ exfalso. destruct Hex as (i & Hi & Hn). exact (Hnone i Hi Hn). }
  assert (Hcreate : forall is_dir, create_entry fuel (slash :: name) is_dir g = (Err EEXIST, g)).
  { intros is_dir. unfold create_entry.
    assert (E1 : dir_iter_lookup fuel (slash :: name) true g
                 = (Ok (with_entry RootEntry (root_slot 0)), g))
      by exact (small_root_lookup_file g r0 name true fuel Hroot Hname).
    rewrite (bind_Ok _ _ _ _ _ E1). cbn [it_entry with_entry].
    rewrite (bind_Ok _ _ _ _ _ (eq_refl : read_entry RootEntry g = (Ok (root_entry g), g))).
    rewrite Hdir, Hcl. cbn [negb].
    rewrite (last_component_of_root_path name Hs).
    rewrite (strlen_plain name H0).
    destruct (decide (Z.of_nat (length name) > FILENAME_SIZE - 1)) as [? | _]; [lia |].
    destruct (decide (hd x00 name = x00)) as [? | _]; [contradiction |].
    assert (E3 : try (dir_contains fuel 0 name) g = (Ok (inr tt), g)).
    { apply try_Ok. unfold dir_contains. rewrite (bind_Ok _ _ _ _ _ (root_init g r0 Hroot)).
      apply (contains_loop_found g r0 Hroot name Hname fuel 0 m);
        [lia | lia | exact Hnm | intros i Hi; apply Hleast; lia | lia]. }
    rewrite (bind_Ok _ _ _ _ _ E3). reflexivity. }
  unfold ghostfs_create, ghostfs_mkdir. split; apply bind_Err; apply Hcreate.
Qed.

(** X19.  A name the root directory does not hold: every operation on the
    path fails with [ENOENT] and leaves the handle as it is. *)
Theorem missing_name_is_enoent (uid gid mount_time : Z) (g : ghostfs) (r0 : cluster)
    (name : list byte) (fuel : nat) :
  small_root g r0 -> name_ok name ->
  (forall i, 0 <= i < CLUSTER_DIRENTS -> ~ named r0 name i) ->
  (67 <= fuel)%nat ->
  ghostfs_open fuel (slash :: name) g = (Err ENOENT, g) /\
  ghostfs_opendir fuel (slash :: name) g = (Err ENOENT, g) /\
  ghostfs_getattr uid gid mount_time fuel (slash :: name) g = (Err ENOENT, g) /\
  ghostfs_unlink fuel (slash :: name) g = (Err ENOENT, g) /\
  ghostfs_rmdir fuel (slash :: name) g = (Err ENOENT, g) /\
  (forall new_size, ghostfs_truncate fuel (slash :: name) new_size g = (Err ENOENT, g)) /\
  (forall newpath, ghostfs_rename fuel (slash :: name) newpath g = (Err ENOENT, g)).
Proof.
  intros Hroot Hname Hnone Hfuel.
  pose proof (small_root_lookup_missing g r0 name fuel Hroot Hname Hnone Hfuel) as Hlookup.
  split_and!; try intros ?;
    unfold ghostfs_open, ghostfs_opendir, ghostfs_getattr, ghostfs_unlink, ghostfs_rmdir,
      remove_entry, ghostfs_truncate, ghostfs_rename;
    apply bind_Err; exact Hlookup.
Qed.

(** ** The root directory of [created_a] *)

Lemma range_Forall (P : Z -> Prop) (n : nat) :
  Forall (fun k => P (Z.of_nat k)) (seq 0 n) -> forall i, 0 <= i < Z.of_nat n -> P i.
Proof.
  intros H i Hi. rewrite Forall_forall in H.
  replace i with (Z.of_nat (Z.to_nat i)) by lia. apply H. apply elem_of_seq. lia.
Qed.

Lemma small_root_created_a : small_root created_a root_a.
Proof.
  unfold small_root. split_and!.
  - vm_compute. reflexivity.
  - reflexivity.
  - vm_compute. reflexivity.
  - vm_compute. reflexivity.
  - vm_compute. reflexivity.
  - reflexivity.
Qed.

Lemma name_ok_single (c : byte) : c <> x00 -> c <> slash -> name_ok [c].
Proof.
  intros H0 Hs. unfold name_ok. split_and!.
  - discriminate.
  - apply not_elem_of_cons. split; [congruence | apply not_elem_of_nil].
  - apply not_elem_of_cons. split; [congruence | apply not_elem_of_nil].
  - cbn. unfold FILENAME_SIZE. lia.
Qed.

Lemma root_a_has_no_b : forall i, 0 <= i < CLUSTER_DIRENTS -> ~ named root_a (path_of "b") i.
Proof.
  apply (range_Forall (fun i => ~ named root_a (path_of "b") i) 66).
  apply (bool_decide_unpack _). vm_compute. reflexivity.
Qed.

Lemma create_then_open_witness :
  exists g' it,
    ghostfs_create 100 (path_of "/b") created_a = (Ok tt, g') /\
    ghostfs_open 100 (path_of "/b") g' = (Ok it, g').
Proof.
  destruct (create_then_open 0 0 0 created_a root_a (path_of "b") 100)
    as (g' & it & e & st & H1 & _ & H2 & _).
  - exact small_root_created_a.
  - apply name_ok_single; discriminate.
  - exact root_a_has_no_b.
  - exists 1. split; [vm_compute; split; [intros H; discriminate H | reflexivity] |].
    vm_compute. reflexivity.
  - lia.
  - exists g', it. split; assumption.
Defined.

Lemma create_existing_name_fails_witness :
  ghostfs_create 100 (path_of "/a") created_a = (Err EEXIST, created_a).
Proof.
  apply (create_existing_name_fails created_a root_a (path_of "a") 100).
  - exact small_root_created_a.
  - apply name_ok_single; discriminate.
  - exists 0. split; [vm_compute; split; [intros H; discriminate H | reflexivity] |].
    vm_compute. reflexivity.
  - lia.
Defined.

Lemma missing_name_is_enoent_witness :
  ghostfs_open 100 (path_of "/b") created_a = (Err ENOENT, created_a).
Proof.
  apply (missing_name_is_enoent 0 0 0 created_a root_a (path_of "b") 100).
  - exact small_root_created_a.
  - apply name_ok_single; discriminate.
  - exact root_a_has_no_b.
  - lia.
Defined.

(** ** Removing a file from the root directory *)

Lemma keeps_root_refl g : keeps_root g g.
Proof. split_and!; reflexivity. Qed.

Lemma keeps_root_trans g1 g2 g3 : keeps_root g1 g2 -> keeps_root g2 g3 -> keeps_root g1 g3.
Proof. intros (A1 & A2 & A3) (B1 & B2 & B3). split_and!; congruence. Qed.

Lemma cluster_get_keeps_root nr g r g' :
  nr <> 0 -> cluster_get nr g = (r, g') -> keeps_root g g'.
Proof.
  intros Hnr H. unfold cluster_get in H.
  destruct (decide (nr >= hdr_cluster_count g)); [injection H as <- <-; apply keeps_root_refl |].
  destruct (clusters g !! nr); [injection H as <- <-; apply keeps_root_refl |].
  destruct (read_cluster (gfs_stegger g) nr); injection H as <- <-;
    try apply keeps_root_refl.
  split_and!; [| reflexivity..]. cbn. apply lookup_insert_ne. congruence.
Qed.

Lemma update_cluster_keeps_root p f g r g' :
  p <> 0 -> update_cluster p f g = (r, g') -> keeps_root g g'.
Proof.
  intros Hp H. unfold update_cluster in H.
  destruct (clusters g !! p); injection H as <- <-; [| apply keeps_root_refl].
  split_and!; [| reflexivity..]. cbn. apply lookup_insert_ne. congruence.
Qed.

(** [free_clusters] on a chain that starts behind cluster 0 never touches
    cluster 0, however it ends. *)
Lemma free_clusters_keeps_root (fuel : nat) :
  forall c g r g', c <> 0 -> free_clusters fuel c g = (r, g') -> keeps_root g g'.
Proof.
  induction fuel as [| fuel IH]; intros c g r g' Hc H.
  - injection H as <- <-. apply keeps_root_refl.
  - cbn [free_clusters] in H. unfold bind at 1 in H.
    destruct (update_cluster c release_cluster g) as [[[] | e | |] g1] eqn:Hu;
      pose proof (update_cluster_keeps_root _ _ _ _ _ Hc Hu) as K1;
      try (injection H as <- <-; exact K1).
    unfold bind at 1 in H. unfold free_clusters_add, modify_gfs in H.
    set (g2 := with_free_clusters (gfs_free_clusters g1 + 1) g1) in *.
    assert (K2 : keeps_root g g2) by (destruct K1 as (A & B & C); split_and!; assumption).
    unfold bind at 1 in H. unfold deref in H.
    destruct (clusters g2 !! c) as [cl |]; [| injection H as <- <-; exact K2].
    destruct (decide (next cl = 0)) as [Hz | Hnz]; [injection H as <- <-; exact K2 |].
    unfold bind at 1 in H.
    destruct (cluster_get (next cl) g2) as [[c' | e | |] g3] eqn:Hg;
      pose proof (cluster_get_keeps_root _ _ _ _ Hnz Hg) as K3;
      try (injection H as <- <-; exact (keeps_root_trans _ _ _ K2 K3)).
    pose proof (cluster_get_returns _ _ _ _ Hg) as ->.
    apply (keeps_root_trans _ g3); [exact (keeps_root_trans _ _ _ K2 K3) |].
    exact (IH _ _ _ _ Hnz H).
Qed.

Lemma read_entry_state r g x g' : read_entry r g = (x, g') -> g' = g.
Proof.
  destruct r as [| nr idx]; cbn [read_entry]; unfold bind, get_gfs, deref, ret.
  - intros [= _ <-]. reflexivity.
  - destruct (clusters g !! nr); intros [= _ <-]; reflexivity.
Qed.

Lemma dir_iter_next_keeps_root it g r g' :
  dir_iter_next it g = (r, g') -> keeps_root g g'.
Proof.
  unfold dir_iter_next. intros H.
  destruct (decide (it_entry_nr it >= CLUSTER_DIRENTS - 1)).
  - unfold bind at 1 in H. unfold deref at 1 in H.
    destruct (clusters g !! it_cluster it) as [c |] eqn:Hc;
      [| injection H as <- <-; apply keeps_root_refl].
    destruct (decide (next c = 0)) as [? | Hnz]; [injection H as <- <-; apply keeps_root_refl |].
    unfold bind at 1 in H. unfold cluster_get_next in H. unfold bind at 1 in H.
    unfold deref in H. rewrite Hc in H.
    destruct (decide (next c = 0)); [contradiction |].
    destruct (cluster_get (next c) g) as [[c' | e | |] g1] eqn:Hg;
      pose proof (cluster_get_keeps_root _ _ _ _ Hnz Hg) as K;
      injection H as <- <-; exact K.
  - unfold bind in H. destruct (it_entry it); injection H as <- <-; apply keeps_root_refl.
Qed.

Lemma dir_iter_next_used_keeps_root (fuel : nat) :
  forall it g r g', dir_iter_next_used fuel it g = (r, g') -> keeps_root g g'.
Proof.
  induction fuel as [| fuel IH]; intros it g r g' H.
  - injection H as <- <-. apply keeps_root_refl.
  - cbn [dir_iter_next_used] in H. unfold bind at 1 in H.
    destruct (dir_iter_next it g) as [[it' | e | |] g1] eqn:Hn;
      pose proof (dir_iter_next_keeps_root _ _ _ _ Hn) as K1;
      try (injection H as <- <-; exact K1).
    unfold bind at 1 in H.
    destruct (read_entry (it_entry it') g1) as [[e | e | |] g2] eqn:Hr;
      pose proof (read_entry_state _ _ _ _ Hr) as ->;
      try (injection H as <- <-; exact K1).
    destruct (dir_entry_used e); [injection H as <- <-; exact K1 |].
    exact (keeps_root_trans _ _ _ K1 (IH _ _ _ _ H)).
Qed.

(** Clearing the first character of a name. *)
Lemma entry_after_clear (d : list byte) (m : Z) :
  Z.of_nat (length d) = CLUSTER_DATA -> 0 <= m < CLUSTER_DIRENTS ->
  let d' := set_bytes (m * DIR_ENTRY_SIZE + 0) [x00] d in
  Z.of_nat (length d') = CLUSTER_DATA /\
  dir_entry_used (entry_at d' m) = false /\
  (forall i, 0 <= i < CLUSTER_DIRENTS -> i <> m -> entry_at d' i = entry_at d i).
Proof.
  intros Hd Hm d'.
  assert (L : length d' = length d).
  { unfold d'. apply length_set_bytes; cbn [length];
      unfold CLUSTER_DATA, CLUSTER_DIRENTS, DIR_ENTRY_SIZE in *; lia. }
  split_and!.
  - lia.
  - unfold dir_entry_used, entry_at. cbn [filename].
    apply bool_decide_eq_false_2. intros H. apply H. clear H.
    assert (H0 : get_bytes (m * DIR_ENTRY_SIZE) FILENAME_SIZE d' !! 0%nat = Some x00).
    { unfold CLUSTER_DATA, CLUSTER_DIRENTS, DIR_ENTRY_SIZE, FILENAME_SIZE in *.
      rewrite lookup_get_bytes by lia.
      destruct (decide (Z.of_nat 0 < 56)); [| lia].
      unfold d', DIR_ENTRY_SIZE. rewrite lookup_set_bytes by lia. cbn [length].
      destruct (decide (Z.of_nat (Z.to_nat (m * 62) + 0) < m * 62 + 0)); [lia |].
      destruct (decide (Z.of_nat (Z.to_nat (m * 62) + 0) < m * 62 + 0 + Z.of_nat 1)); [| lia].
      replace (Z.to_nat (m * 62) + 0 - Z.to_nat (m * 62 + 0))%nat with 0%nat by lia.
      reflexivity. }
    destruct (get_bytes (m * DIR_ENTRY_SIZE) FILENAME_SIZE d') as [| b l]; [discriminate H0 |].
    cbn in H0. injection H0 as ->. reflexivity.
  - intros i Hi Hne. unfold d'.
    apply entry_at_set_other; try assumption; cbn [length]; unfold DIR_ENTRY_SIZE; lia.
Qed.

(** [remove_entry] on a name the root directory holds: when it succeeds,
    the record is unused afterwards and the other records are as before. *)
Lemma remove_in_small_root (g : ghostfs) (r0 : cluster) (name : list byte) (m : Z)
    (is_dir : bool) (fuel : nat) (g' : ghostfs) :
  small_root g r0 -> name_ok name ->
  0 <= m < CLUSTER_DIRENTS -> named r0 name m ->
  (forall i, 0 <= i < m -> ~ named r0 name i) -> (67 <= fuel)%nat ->
  remove_entry fuel (slash :: name) is_dir g = (Ok tt, g') ->
  exists r1,
    small_root g' r1 /\ slot_used r1 m = false /\
    (forall i, 0 <= i < CLUSTER_DIRENTS -> i <> m ->
       entry_at (data r1) i = entry_at (data r0) i).
Proof.
  intros Hroot Hname Hm Hnamed Hleast Hfuel Hrun.
  pose proof Hroot as (Hc0 & Hnext & Hd & Hcount & Hdir & Hcl).
  unfold remove_entry in Hrun.
  rewrite (bind_Ok _ _ _ _ _ (small_root_lookup_found g r0 name m fuel Hroot Hname Hm Hnamed
                                Hleast Hfuel)) in Hrun.
  unfold root_slot in Hrun. cbn [it_entry it_cluster] in Hrun.
  destruct (decide (ClusterEntry 0 m = RootEntry)) as [? | _]; [discriminate |].
  rewrite (bind_Ok _ _ _ _ _ (root_read g r0 Hroot m)) in Hrun.
  destruct (negb (eqb is_dir (dir_entry_is_directory (entry_at (data r0) m))));
    [discriminate Hrun |].
  apply bind_inv_Ok in Hrun as ([] & g1 & Hfree & Hrun).
  assert (K : keeps_root g g1).
  { destruct (decide (cluster_nr (entry_at (data r0) m) = 0)) as [? | Hnz];
      [injection Hfree as <-; apply keeps_root_refl |].
    apply bind_inv_Ok in Hfree as (it & ga & Hinit & Hfree).
    assert (Ka : keeps_root g ga /\ it_cluster it = cluster_nr (entry_at (data r0) m)).
    { unfold dir_iter_init in Hinit.
      apply bind_inv_Ok in Hinit as (c & gx & Hget & Hret). injection Hret as <- <-.
      split; [exact (cluster_get_keeps_root _ _ _ _ Hnz Hget) |].
      cbn [it_cluster]. exact (cluster_get_returns _ _ _ _ Hget). }
    destruct Ka as [Ka Hitc].
    apply bind_inv_Ok in Hfree as ([] & gb & Hempty & Hfree).
    assert (Kb : keeps_root ga gb).
    { destruct is_dir; [| injection Hempty as <-; apply keeps_root_refl].
      apply bind_inv_Ok in Hempty as (e & gy & Hread & Hempty).
      pose proof (read_entry_state _ _ _ _ Hread) as ->.
      destruct (dir_entry_used e); [discriminate Hempty |].
      apply bind_inv_Ok in Hempty as (r & gz & Htry & Hempty).
      assert (Kz : keeps_root ga gz).
      { unfold try in Htry.
        destruct (dir_iter_next_used fuel it ga) as [[x | x | |] gw] eqn:Hnu;
          pose proof (dir_iter_next_used_keeps_root _ _ _ _ _ Hnu) as Kw;
          try discriminate Htry; injection Htry as _ <-; exact Kw. }
      destruct r as [[] | ?]; try discriminate Hempty.
      injection Hempty as <-. exact Kz. }
    apply bind_inv_Ok in Hfree as (r & gc & Htry & Hret). injection Hret as <-.
    assert (Hitnz : it_cluster it <> 0) by (rewrite Hitc; exact Hnz).
    assert (Kc : keeps_root gb gc).
    { unfold try in Htry.
      destruct (free_clusters fuel (it_cluster it) gb) as [[x | x | |] gw] eqn:Hfc;
        pose proof (free_clusters_keeps_root _ _ _ _ _ Hitnz Hfc) as Kw;
        try discriminate Htry; injection Htry as _ <-; exact Kw. }
    exact (keeps_root_trans _ _ _ Ka (keeps_root_trans _ _ _ Kb Kc)). }
  destruct K as (K0 & Kcount & Kroot).
  assert (Hc1 : clusters g1 !! 0 = Some r0) by (rewrite K0; exact Hc0).
  unfold entry_clear_name in Hrun. cbn [write_entry] in Hrun.
  apply bind_inv_Ok in Hrun as ([] & g2 & Hclear & Hmark).
  apply update_cluster_inv in Hclear as (c & Hc & ->). rewrite Hc1 in Hc. injection Hc as <-.
  apply update_cluster_inv in Hmark as (c & Hc & ->).
  cbn [clusters with_clusters] in Hc. rewrite lookup_insert_eq in Hc. injection Hc as <-.
  destruct (entry_after_clear (data r0) m Hd Hm) as (L & Hunused & Hother).
  eexists. split_and!.
  - unfold small_root. cbn [clusters with_clusters hdr_cluster_count root_entry].
    split_and!; [apply lookup_insert_eq | exact Hnext | exact L | lia | | ];
      rewrite Kroot; assumption.
  - exact Hunused.
  - exact Hother.
Qed.

(** X20.  Removing a name from a root directory of one cluster.  A regular
    file without clusters is unlinked with success.  Whenever
    [ghostfs_unlink] or [ghostfs_rmdir] succeeds on the name, the path no
    longer opens, a second removal fails with [ENOENT], and every other
    name resolves as it did before. *)
Theorem unlink_then_open (g : ghostfs) (r0 : cluster) (name : list byte) (m : Z)
    (fuel : nat) :
  small_root g r0 -> name_ok name ->
  0 <= m < CLUSTER_DIRENTS -> named r0 name m ->
  (forall i, 0 <= i < CLUSTER_DIRENTS -> i <> m -> ~ named r0 name i) ->
  (67 <= fuel)%nat ->
  (dir_entry_is_directory (entry_at (data r0) m) = false ->
   cluster_nr (entry_at (data r0) m) = 0 ->
   exists g', ghostfs_unlink fuel (slash :: name) g = (Ok tt, g') /\
              gfs_free_clusters g' = gfs_free_clusters g) /\
  (forall g',
     ghostfs_unlink fuel (slash :: name) g = (Ok tt, g') \/
     ghostfs_rmdir fuel (slash :: name) g = (Ok tt, g') ->
     ghostfs_open fuel (slash :: name) g' = (Err ENOENT, g') /\
     ghostfs_unlink fuel (slash :: name) g' = (Err ENOENT, g') /\
     (forall name', name_ok name' -> name' <> name ->
        fst (dir_iter_lookup fuel (slash :: name') false g')
        = fst (dir_iter_lookup fuel (slash :: name') false g))).
Proof.
  intros Hroot Hname Hm Hnamed Huniq Hfuel.
  assert (Hleast : forall i, 0 <= i < m -> ~ named r0 name i)
    by (intros i Hi; apply Huniq; lia).
  split.
  - intros Hfile Hnocl.
    pose proof Hroot as (Hc0 & Hnext & Hd & Hcount & Hdir & Hcl).
    unfold ghostfs_unlink, remove_entry.
    rewrite (bind_Ok _ _ _ _ _ (small_root_lookup_found g r0 name m fuel Hroot Hname Hm Hnamed
                                  Hleast Hfuel)).
    unfold root_slot. cbn [it_entry it_cluster].
    destruct (decide (ClusterEntry 0 m = RootEntry)) as [? | _]; [discriminate |].
    rewrite (bind_Ok _ _ _ _ _ (root_read g r0 Hroot m)).
    rewrite Hfile. cbn [eqb negb].
    destruct (decide (cluster_nr (entry_at (data r0) m) = 0)) as [_ | ?]; [| contradiction].
    rewrite (bind_Ok _ _ _ _ _ (eq_refl : ret tt g = (Ok tt, g))).
    unfold entry_clear_name. cbn [write_entry].
    destruct (update_cluster_runs g 0 (fun c => set_data (set_bytes (m * DIR_ENTRY_SIZE + 0)
                [x00] (data c)) c) r0 Hc0) as (ga & ca & Ea & Hca).
    rewrite (bind_Ok _ _ _ _ _ Ea).
    destruct (update_cluster_runs ga 0 mark_cluster ca Hca) as (gb & cb & Eb & Hcb).
    exists gb. split; [exact Eb |].
    apply update_cluster_inv in Ea as (? & _ & ->).
    apply update_cluster_inv in Eb as (? & _ & ->). reflexivity.
  - intros g' Hrun.
    assert (Hrem : exists is_dir, remove_entry fuel (slash :: name) is_dir g = (Ok tt, g'))
      by (destruct Hrun as [H | H]; [exists false | exists true]; exact H).
    destruct Hrem as (is_dir & Hrem).
    destruct (remove_in_small_root g r0 name m is_dir fuel g' Hroot Hname Hm Hnamed Hleast
                Hfuel Hrem) as (r1 & Hroot' & Hunused & Hother).
    assert (Hgone : forall i, 0 <= i < CLUSTER_DIRENTS -> ~ named r1 name i).
    { intros i Hi Hn. destruct (decide (i = m)) as [-> | Hne].
      - pose proof (named_used r1 name Hname m Hm Hn) as Hu. congruence.
      - apply (Huniq i Hi Hne). unfold named in *. rewrite <- Hother by assumption. exact Hn. }
    pose proof (small_root_lookup_missing g' r1 name fuel Hroot' Hname Hgone Hfuel) as Hlookup.
    split_and!.
    + unfold ghostfs_open. apply bind_Err. exact Hlookup.
    + unfold ghostfs_unlink, remove_entry. apply bind_Err. exact Hlookup.
    + intros name' Hname' Hdiff.
      assert (Hsame : forall i, 0 <= i < CLUSTER_DIRENTS ->
                named r1 name' i -> named r0 name' i /\ i <> m).
      { intros i Hi Hn. destruct (decide (i = m)) as [-> | Hne].
        - pose proof (named_used r1 name' Hname' m Hm Hn) as Hu. congruence.
        - split; [| exact Hne]. unfold named in *. rewrite <- Hother by assumption. exact Hn. }
      destruct (first_named r0 name') as [(j & Hj & Hnj & Hleastj) | Hnone].
      * assert (Hjm : j <> m) by (intros ->; apply Hdiff; unfold named in *; congruence).
        rewrite (small_root_lookup_found g r0 name' j fuel Hroot Hname' Hj Hnj Hleastj Hfuel).
        rewrite (small_root_lookup_found g' r1 name' j fuel Hroot' Hname' Hj);
          [reflexivity | | | exact Hfuel].
        -- unfold named. rewrite Hother by assumption. exact Hnj.
        -- intros i Hi Hn. apply (Hleastj i Hi). apply (Hsame i); [lia | exact Hn].
      * rewrite (small_root_lookup_missing g r0 name' fuel Hroot Hname' Hnone Hfuel).
        rewrite (small_root_lookup_missing g' r1 name' fuel Hroot' Hname');
          [reflexivity | | exact Hfuel].
        intros i Hi Hn. apply (Hnone i Hi). apply (Hsame i Hi Hn).
Qed.

Lemma root_a_only_a :
  forall i, 0 <= i < CLUSTER_DIRENTS -> i <> 0 -> ~ named root_a (path_of "a") i.
Proof.
  intros i Hi Hne.
  apply (range_Forall (fun i => i <> 0 -> ~ named root_a (path_of "a") i) 66); [| exact Hi | exact Hne].
  apply (bool_decide_unpack _). vm_compute. reflexivity.
Qed.

Lemma unlink_then_open_witness :
  exists g', ghostfs_unlink 100 (path_of "/a") created_a = (Ok tt, g') /\
             ghostfs_open 100 (path_of "/a") g' = (Err ENOENT, g').
Proof.
  destruct (unlink_then_open created_a root_a (path_of "a") 0 100) as [Hrun Hafter].
  - exact small_root_created_a.
  - apply name_ok_single; discriminate.
  - vm_compute. split; [intros H; discriminate H | reflexivity].
  - vm_compute. reflexivity.
  - exact root_a_only_a.
  - lia.
  - destruct Hrun as (g' & Hunlink & _); [vm_compute; reflexivity | vm_compute; reflexivity |].
    exists g'. split; [exact Hunlink |].
    exact (proj1 (Hafter g' (or_introl Hunlink))).
Defined.

(** X21.  The type of the record decides which operations a name admits:
    on a directory [ghostfs_unlink] and [ghostfs_open] fail with [EISDIR],
    on a regular file [ghostfs_rmdir] and [ghostfs_opendir] fail with
    [ENOTDIR]; the handle stays as it is. *)
Theorem wrong_type_is_rejected (g : ghostfs) (r0 : cluster) (name : list byte) (m : Z)
    (fuel : nat) :
  small_root g r0 -> name_ok name ->
  0 <= m < CLUSTER_DIRENTS -> named r0 name m ->
  (forall i, 0 <= i < m -> ~ named r0 name i) ->
  (67 <= fuel)%nat ->
  (dir_entry_is_directory (entry_at (data r0) m) = true ->
   ghostfs_unlink fuel (slash :: name) g = (Err EISDIR, g) /\
   ghostfs_open fuel (slash :: name) g = (Err EISDIR, g) /\
   exists s, ghostfs_opendir fuel (slash :: name) g = (Ok s, g)) /\
  (dir_entry_is_directory (entry_at (data r0) m) = false ->
   ghostfs_rmdir fuel (slash :: name) g = (Err ENOTDIR, g) /\
   ghostfs_opendir fuel (slash :: name) g = (Err ENOTDIR, g) /\
   exists it, ghostfs_open fuel (slash :: name) g = (Ok it, g)).
Proof.
  intros Hroot Hname Hm Hnamed Hleast Hfuel.
  pose proof (small_root_lookup_found g r0 name m fuel Hroot Hname Hm Hnamed Hleast Hfuel)
    as Hlookup.
  pose proof (root_read g r0 Hroot m) as Hread.
  split; intros Htype; split_and!.
  - unfold ghostfs_unlink, remove_entry. rewrite (bind_Ok _ _ _ _ _ Hlookup).
    unfold root_slot. cbn [it_entry it_cluster].
    destruct (decide (ClusterEntry 0 m = RootEntry)) as [? | _]; [discriminate |].
    rewrite (bind_Ok _ _ _ _ _ Hread). rewrite Htype. reflexivity.
  - unfold ghostfs_open. rewrite (bind_Ok _ _ _ _ _ Hlookup).
    unfold root_slot. cbn [it_entry]. rewrite (bind_Ok _ _ _ _ _ Hread).
    rewrite Htype. reflexivity.
  - eexists. unfold ghostfs_opendir. rewrite (bind_Ok _ _ _ _ _ Hlookup).
    unfold root_slot. cbn [it_entry]. rewrite (bind_Ok _ _ _ _ _ Hread).
    rewrite Htype. reflexivity.
  - unfold ghostfs_rmdir, remove_entry. rewrite (bind_Ok _ _ _ _ _ Hlookup).
    unfold root_slot. cbn [it_entry it_cluster].
    destruct (decide (ClusterEntry 0 m = RootEntry)) as [? | _]; [discriminate |].
    rewrite (bind_Ok _ _ _ _ _ Hread). rewrite Htype. reflexivity.
  - unfold ghostfs_opendir. rewrite (bind_Ok _ _ _ _ _ Hlookup).
    unfold root_slot. cbn [it_entry]. rewrite (bind_Ok _ _ _ _ _ Hread).
    rewrite Htype. reflexivity.
  - eexists. unfold ghostfs_open. rewrite (bind_Ok _ _ _ _ _ Hlookup).
    unfold root_slot. cbn [it_entry]. rewrite (bind_Ok _ _ _ _ _ Hread).
    rewrite Htype. reflexivity.
Qed.

Lemma wrong_type_is_rejected_witness :
  ghostfs_rmdir 100 (path_of "/a") created_a = (Err ENOTDIR, created_a).
Proof.
  destruct (wrong_type_is_rejected created_a root_a (path_of "a") 0 100) as [_ Hfile].
  - exact small_root_created_a.
  - apply name_ok_single; discriminate.
  - vm_compute. split; [intros H; discriminate H | reflexivity].
  - vm_compute. reflexivity.
  - intros i Hi. lia.
  - lia.
  - apply Hfile. vm_compute. reflexivity.
Defined.

(** ** Reading the root directory *)

Lemma used_from_none (r : cluster) (n : nat) :
  forall j, (forall i, j <= i < j + Z.of_nat n -> slot_used r i = false) ->
            used_from r j n = [].
Proof.
  induction n as [| n IH]; intros j H; [reflexivity |].
  cbn [used_from]. rewrite H by lia. apply IH. intros i Hi. apply H. lia.
Qed.

Lemma used_from_skip (r : cluster) (k : nat) :
  forall j m n,
    m = j + Z.of_nat k -> (k < n)%nat ->
    (forall i, j <= i < m -> slot_used r i = false) -> slot_used r m = true ->
    used_from r j n = m :: used_from r (m + 1) (n - k - 1).
Proof.
  induction k as [| k IH]; intros j m n Hm Hn Hgap Hused;
    (destruct n as [| n]; [lia |]); cbn [used_from].
  - replace j with m by lia. rewrite Hused. repeat f_equal. lia.
  - rewrite Hgap by lia.
    rewrite (IH (j + 1) m n); [reflexivity | lia | lia | | exact Hused].
    intros i Hi. apply Hgap. lia.
Qed.

Section ReadRoot.

Variables (g : ghostfs) (r0 : cluster).
Hypothesis Hroot : small_root g r0.

(** The calls of [ghostfs_next_entry] on a stream that stands on record
    [j]. *)
Lemma read_dir_started (k : nat) :
  forall j fuel n,
    0 <= j < CLUSTER_DIRENTS -> CLUSTER_DIRENTS - 1 - j <= Z.of_nat k ->
    (67 <= fuel)%nat -> (k < n)%nat ->
    read_dir fuel n (Started (root_slot j)) g
    = (Ok (map (fun i => filename (entry_at (data r0) i))
             (used_from r0 (j + 1) (Z.to_nat (CLUSTER_DIRENTS - 1 - j)))), g).
Proof.
  induction k as [| k IH]; intros j fuel n Hj Hk Hfuel Hn;
    (destruct n as [| n]; [lia |]); cbn [read_dir ghostfs_next_entry]; unfold stream_next_used.
  - destruct (next_used_from g r0 Hroot j fuel Hj ltac:(lia))
      as [(m & Hm & _) | (Hnone & Hrun)]; [lia |].
    rewrite bind_assoc. rewrite (bind_Ok _ _ _ _ _ (try_Err _ _ _ _ Hrun)).
    rewrite (bind_Ok _ _ _ _ _ (eq_refl : ret (Started (root_slot j), Some ENOENT) g = (Ok _, g))).
    replace (Z.to_nat (CLUSTER_DIRENTS - 1 - j)) with 0%nat by lia. reflexivity.
  - destruct (next_used_from g r0 Hroot j fuel Hj ltac:(lia))
      as [(m & Hm & Hum & Hgap & Hrun) | (Hnone & Hrun)].
    + rewrite bind_assoc. rewrite (bind_Ok _ _ _ _ _ (try_Ok _ _ _ _ Hrun)).
      rewrite (bind_Ok _ _ _ _ _ (eq_refl : ret (Started (root_slot m), @None errno) g = (Ok _, g))).
      unfold ghostfs_entry_name, root_slot at 1. cbn [it_entry].
      rewrite bind_assoc. rewrite (bind_Ok _ _ _ _ _ (root_read g r0 Hroot m)).
      rewrite (bind_Ok _ _ _ _ _ (eq_refl : ret (filename (entry_at (data r0) m)) g = (Ok _, g))).
      rewrite (bind_Ok _ _ _ _ _ (IH m fuel n ltac:(lia) ltac:(lia) Hfuel ltac:(lia))).
      rewrite (used_from_skip r0 (Z.to_nat (m - j - 1)) (j + 1) m
                 (Z.to_nat (CLUSTER_DIRENTS - 1 - j)));
        [| lia | unfold CLUSTER_DIRENTS in *; lia | intros i Hi; apply Hgap; lia | exact Hum].
      cbn [map]. unfold ret. repeat f_equal. unfold CLUSTER_DIRENTS in *. lia.
    + rewrite bind_assoc. rewrite (bind_Ok _ _ _ _ _ (try_Err _ _ _ _ Hrun)).
      rewrite (bind_Ok _ _ _ _ _ (eq_refl : ret (Started (root_slot j), Some ENOENT) g = (Ok _, g))).
      rewrite used_from_none; [reflexivity |].
      intros i Hi. apply Hnone. unfold CLUSTER_DIRENTS in *. lia.
Qed.

End ReadRoot.

(** X22.  Reading a root directory of one cluster: [ghostfs_opendir] on
    ["/"] succeeds, and the calls of [ghostfs_next_entry] deliver the used
    records in the order of their slots, each once, and then fail; no
    unused record is delivered. *)
Theorem readdir_lists_used_records (g : ghostfs) (r0 : cluster) (fuel n : nat) :
  small_root g r0 -> (67 <= fuel)%nat -> (67 <= n)%nat ->
  ghostfs_opendir fuel [slash] g = (Ok (Unstarted RootEntry), g) /\
  read_dir fuel n (Unstarted RootEntry) g
  = (Ok (map (fun j => filename (entry_at (data r0) j))
             (used_from r0 0 (Z.to_nat CLUSTER_DIRENTS))), g).
Proof.
  intros Hroot Hfuel Hn.
  pose proof Hroot as (Hc0 & Hnext & Hd & Hcount & Hdir & Hcl).
  split.
  - unfold ghostfs_opendir.
    rewrite (bind_Ok _ _ _ _ _ (dir_iter_lookup_root fuel false g g
                                  (cluster_get_cached g 0 r0 Hc0 ltac:(lia)))).
    cbn [it_entry].
    rewrite (bind_Ok _ _ _ _ _ (eq_refl : read_entry RootEntry g = (Ok (root_entry g), g))).
    rewrite Hdir. reflexivity.
  - destruct n as [| n]; [lia |]. cbn [read_dir ghostfs_next_entry].
    rewrite bind_assoc.
    rewrite (bind_Ok _ _ _ _ _ (eq_refl : read_entry RootEntry g = (Ok (root_entry g), g))).
    rewrite Hcl. rewrite bind_assoc.
    rewrite (bind_Ok _ _ _ _ _ (try_Ok _ _ _ _ (root_init g r0 Hroot))).
    unfold root_slot at 1. cbn [it_entry].
    rewrite bind_assoc. rewrite (bind_Ok _ _ _ _ _ (root_read g r0 Hroot 0)).
    change (Z.to_nat CLUSTER_DIRENTS) with (S (Z.to_nat (CLUSTER_DIRENTS - 1 - 0))).
    cbn [used_from]. fold (slot_used r0 0).
    destruct (slot_used r0 0) eqn:Hu0.
    + rewrite (bind_Ok _ _ _ _ _ (eq_refl : ret (Started (root_slot 0), @None errno) g = (Ok _, g))).
      unfold ghostfs_entry_name, root_slot at 1. cbn [it_entry].
      rewrite bind_assoc. rewrite (bind_Ok _ _ _ _ _ (root_read g r0 Hroot 0)).
      rewrite (bind_Ok _ _ _ _ _ (eq_refl : ret (filename (entry_at (data r0) 0)) g = (Ok _, g))).
      rewrite (bind_Ok _ _ _ _ _ (read_dir_started g r0 Hroot 65 0 fuel n
                 ltac:(unfold CLUSTER_DIRENTS; lia) ltac:(unfold CLUSTER_DIRENTS; lia)
                 Hfuel ltac:(lia))).
      reflexivity.
    + pose proof (read_dir_started g r0 Hroot 65 0 fuel (S n)
                    ltac:(unfold CLUSTER_DIRENTS; lia) ltac:(unfold CLUSTER_DIRENTS; lia)
                    Hfuel ltac:(lia)) as Hrest.
      cbn [read_dir ghostfs_next_entry] in Hrest. exact Hrest.
Qed.

Lemma readdir_lists_used_records_witness :
  exists rest,
    read_dir 100 100 (Unstarted RootEntry) created_a = (Ok [path_of "a" ++ rest], created_a).
Proof.
  destruct (readdir_lists_used_records created_a root_a 100 100 small_root_created_a
              ltac:(lia) ltac:(lia)) as [_ H].
  exists (zeros 55). rewrite H. vm_compute. reflexivity.
Defined.

(** ** Renaming a file in the root directory *)

(** The stores of [ghostfs_rename] into the size and cluster fields of
    record [k]. *)
Lemma entry_after_store (d : list byte) (k word nr : Z) :
  Z.of_nat (length d) = CLUSTER_DATA -> 0 <= k < CLUSTER_DIRENTS ->
  let d1 := set_bytes (k * DIR_ENTRY_SIZE + FILENAME_SIZE) (le_encode 4 word) d in
  let d2 := set_bytes (k * DIR_ENTRY_SIZE + (FILENAME_SIZE + 4)) (le_encode 2 nr) d1 in
  Z.of_nat (length d1) = CLUSTER_DATA /\
  Z.of_nat (length d2) = CLUSTER_DATA /\
  filename (entry_at d2 k) = filename (entry_at d k) /\
  size (entry_at d2 k) = word mod 2 ^ 32 /\
  cluster_nr (entry_at d2 k) = nr mod 2 ^ 16 /\
  (forall i, 0 <= i < CLUSTER_DIRENTS -> i <> k -> entry_at d1 i = entry_at d i) /\
  (forall i, 0 <= i < CLUSTER_DIRENTS -> i <> k -> entry_at d2 i = entry_at d i).
Proof.
  intros Hd Hk d1 d2.
  unfold CLUSTER_DATA, CLUSTER_DIRENTS, DIR_ENTRY_SIZE, FILENAME_SIZE in *.
  assert (L1 : length d1 = length d)
    by (unfold d1; rewrite length_set_bytes; rewrite ?length_le_encode; lia).
  assert (L2 : length d2 = length d)
    by (unfold d2; rewrite length_set_bytes; rewrite ?length_le_encode; lia).
  assert (O1 : forall i, 0 <= i < 66 -> i <> k -> entry_at d1 i = entry_at d i).
  { intros i Hi Hne. unfold d1. fold DIR_ENTRY_SIZE.
    apply entry_at_set_other;
      [unfold CLUSTER_DATA; lia | unfold CLUSTER_DIRENTS; lia | unfold CLUSTER_DIRENTS; lia
       | exact Hne | lia | rewrite length_le_encode; unfold DIR_ENTRY_SIZE; lia]. }
  split_and!.
  - lia.
  - lia.
  - unfold entry_at. cbn [filename]. unfold d2, DIR_ENTRY_SIZE, FILENAME_SIZE.
    rewrite get_set_bytes_other by (rewrite ?length_le_encode; lia).
    unfold d1, DIR_ENTRY_SIZE, FILENAME_SIZE.
    rewrite get_set_bytes_other by (rewrite ?length_le_encode; lia).
    reflexivity.
  - unfold entry_at. cbn [size]. unfold d2, DIR_ENTRY_SIZE, FILENAME_SIZE.
    rewrite get_set_bytes_other by (rewrite ?length_le_encode; lia).
    unfold d1, DIR_ENTRY_SIZE, FILENAME_SIZE.
    rewrite get_set_bytes_same_len by (rewrite ?length_le_encode; lia).
    apply le_decode_encode.
  - unfold entry_at. cbn [cluster_nr]. unfold d2, DIR_ENTRY_SIZE, FILENAME_SIZE.
    replace (k * 62 + (56 + 4)) with (k * 62 + 56 + 4) by lia.
    rewrite get_set_bytes_same_len by (rewrite ?length_le_encode; lia).
    apply le_decode_encode.
  - exact O1.
  - intros i Hi Hne. rewrite <- (O1 i Hi Hne). unfold d2. fold DIR_ENTRY_SIZE.
    apply entry_at_set_other;
      [unfold CLUSTER_DATA; lia | unfold CLUSTER_DIRENTS; lia | unfold CLUSTER_DIRENTS; lia
       | exact Hne | lia | rewrite length_le_encode; unfold DIR_ENTRY_SIZE; lia].
Qed.

Lemma update_root_cluster (g : ghostfs) (c : cluster) (f : cluster -> cluster) :
  clusters g !! 0 = Some c ->
  update_cluster 0 f g = (Ok tt, with_clusters (<[0 := f c]> (clusters g)) g).
Proof. intros H. unfold update_cluster. rewrite H. reflexivity. Qed.

Lemma small_root_update (g : ghostfs) (r0 c : cluster) :
  small_root g r0 -> next c = 0 -> Z.of_nat (length (data c)) = CLUSTER_DATA ->
  small_root (with_clusters (<[0 := c]> (clusters g)) g) c.
Proof.
  intros (_ & _ & _ & Hcount & Hdir & Hcl) Hn Hd. unfold small_root.
  cbn [clusters with_clusters hdr_cluster_count root_entry].
  split_and!; [apply lookup_insert_eq | assumption..].
Qed.

(** [ghostfs_rename] of a name of the root directory to a name the
    directory does not hold. *)
Lemma rename_in_small_root (g : ghostfs) (r0 : cluster) (old new : list byte) (m k : Z)
    (fuel : nat) :
  small_root g r0 -> name_ok old -> name_ok new ->
  0 <= m < CLUSTER_DIRENTS -> named r0 old m ->
  (forall i, 0 <= i < m -> ~ named r0 old i) ->
  (forall i, 0 <= i < CLUSTER_DIRENTS -> ~ named r0 new i) ->
  0 <= k < CLUSTER_DIRENTS ->
  (forall i, 0 <= i < k -> slot_used r0 i = true) -> slot_used r0 k = false ->
  (67 <= fuel)%nat ->
  exists g' r1,
    ghostfs_rename fuel (slash :: old) (slash :: new) g = (Ok tt, g') /\
    small_root g' r1 /\
    gfs_free_clusters g' = gfs_free_clusters g /\
    slot_used r1 m = false /\
    named r1 new k /\
    size (entry_at (data r1) k) = size (entry_at (data r0) m) /\
    cluster_nr (entry_at (data r1) k) = cluster_nr (entry_at (data r0) m) /\
    (forall i, 0 <= i < CLUSTER_DIRENTS -> i <> k -> i <> m ->
       entry_at (data r1) i = entry_at (data r0) i).
Proof.
  intros Hroot Hold Hnew Hm Hnamed Hleast Hfresh Hk Hfull Hfree Hfuel.
  assert (Hkm : k <> m).
  { intros ->. pose proof (named_used r0 old Hold m Hm Hnamed) as Hu. congruence. }
  pose proof Hroot as (Hc0 & Hnext & Hd & Hcount & Hdir & Hcl).
  unfold ghostfs_rename.
  rewrite (bind_Ok _ _ _ _ _ (small_root_lookup_found g r0 old m fuel Hroot Hold Hm Hnamed
                                Hleast Hfuel)).
  unfold root_slot. cbn [it_entry it_cluster].
  destruct (decide (ClusterEntry 0 m = RootEntry)) as [? | _]; [discriminate |].
  assert (Erm : remove_entry fuel (slash :: new) false g = (Err ENOENT, g)).
  { unfold remove_entry. apply bind_Err.
    exact (small_root_lookup_missing g r0 new fuel Hroot Hnew Hfresh Hfuel). }
  rewrite (bind_Ok _ _ _ _ _ (try_Err _ _ _ _ Erm)).
  destruct (create_in_small_root g r0 new k fuel Hroot Hnew Hfresh Hk Hfull Hfree Hfuel)
    as (g1 & r1 & Hcreate & Hroot1 & Hnamed1 & Hsize1 & Hclus1 & Hother1 & _ & _ & Hfc1 & _ & _ & _).
  rewrite (bind_Ok _ _ _ _ _ Hcreate).
  pose proof Hroot1 as (Hc1 & Hnext1 & Hd1 & _).
  unfold entry_clear_name, entry_store_size, entry_store_cluster. cbn [write_entry].
  (* the old name is cleared *)
  destruct (entry_after_clear (data r1) m Hd1 Hm) as (L2 & Hunused2 & Hother2).
  pose proof (fields_after_clear_name (data r1) m Hd1 Hm) as [Hsz2 Hcl2].
  set (d2 := set_bytes (m * DIR_ENTRY_SIZE + 0) [x00] (data r1)) in *.
  set (c2 := set_data d2 r1).
  set (g2 := with_clusters (<[0 := c2]> (clusters g1)) g1).
  rewrite (bind_Ok _ _ _ _ _ (update_root_cluster g1 r1 _ Hc1)). fold d2 c2 g2.
  assert (Hroot2 : small_root g2 c2) by (apply (small_root_update g1 r1); assumption).
  set (c3 := mark_cluster c2).
  set (g3 := with_clusters (<[0 := c3]> (clusters g2)) g2).
  rewrite (bind_Ok _ _ _ _ _ (update_root_cluster g2 c2 mark_cluster (proj1 Hroot2))).
  fold c3 g3.
  assert (Hroot3 : small_root g3 c3) by (apply (small_root_update g2 c2); assumption).
  rewrite (bind_Ok _ _ _ _ _ (root_read g3 c3 Hroot3 m)).
  change (data c3) with d2.
  (* the size and the cluster move to the new record *)
  destruct (entry_after_store d2 k (size (entry_at d2 m)) (cluster_nr (entry_at d2 m)) L2 Hk)
    as (L4 & L5 & Hname5 & Hsize5 & Hclus5 & Hother4 & Hother5).
  set (d4 := set_bytes (k * DIR_ENTRY_SIZE + FILENAME_SIZE)
               (le_encode 4 (size (entry_at d2 m))) d2) in *.
  set (c4 := set_data d4 c3).
  set (g4 := with_clusters (<[0 := c4]> (clusters g3)) g3).
  rewrite (bind_Ok _ _ _ _ _ (update_root_cluster g3 c3 _ (proj1 Hroot3))).
  change (data c3) with d2. fold d4 c4 g4.
  assert (Hroot4 : small_root g4 c4) by (apply (small_root_update g3 c3); assumption).
  rewrite (bind_Ok _ _ _ _ _ (root_read g4 c4 Hroot4 m)).
  change (data c4) with d4.
  rewrite (Hother4 m Hm ltac:(congruence)).
  set (d5 := set_bytes (k * DIR_ENTRY_SIZE + (FILENAME_SIZE + 4))
               (le_encode 2 (cluster_nr (entry_at d2 m))) d4) in *.
  set (c5 := set_data d5 c4).
  rewrite (update_root_cluster g4 c4 _ (proj1 Hroot4)).
  change (data c4) with d4. fold d5 c5.
  destruct (entry_word_ranges (data r0) m Hd Hm) as [Hrs Hrc].
  assert (Hm0 : entry_at (data r1) m = entry_at (data r0) m)
    by (apply Hother1; [exact Hm | congruence]).
  eexists _, c5. split_and!.
  - reflexivity.
  - apply (small_root_update g4 c4); assumption.
  - exact Hfc1.
  - unfold slot_used. change (data c5) with d5.
    rewrite (Hother5 m Hm ltac:(congruence)). exact Hunused2.
  - unfold named. change (data c5) with d5. rewrite Hname5.
    rewrite (Hother2 k Hk Hkm). exact Hnamed1.
  - change (data c5) with d5. rewrite Hsize5, Hsz2, Hm0. apply Z.mod_small. exact Hrs.
  - change (data c5) with d5. rewrite Hclus5, Hcl2, Hm0. apply Z.mod_small. exact Hrc.
  - intros i Hi Hik Him. change (data c5) with d5.
    rewrite (Hother5 i Hi Hik), (Hother2 i Hi Him). apply Hother1; assumption.
Qed.

(** X23.  Renaming a name of a one-cluster root directory to a name the
    directory does not hold, with an unused record at hand: [ghostfs_rename]
    succeeds without taking or releasing a cluster; the new path resolves
    to a record with the new name and the size word and first cluster of
    the old one; the old path fails with [ENOENT]; every other name
    resolves as before. *)
Theorem rename_moves_the_record (g : ghostfs) (r0 : cluster) (old new : list byte) (m : Z)
    (fuel : nat) :
  small_root g r0 -> name_ok old -> name_ok new ->
  0 <= m < CLUSTER_DIRENTS -> named r0 old m ->
  (forall i, 0 <= i < CLUSTER_DIRENTS -> i <> m -> ~ named r0 old i) ->
  (forall i, 0 <= i < CLUSTER_DIRENTS -> ~ named r0 new i) ->
  (exists i, 0 <= i < CLUSTER_DIRENTS /\ slot_used r0 i = false) ->
  (67 <= fuel)%nat ->
  exists g' e,
    ghostfs_rename fuel (slash :: old) (slash :: new) g = (Ok tt, g') /\
    gfs_free_clusters g' = gfs_free_clusters g /\
    stat_entry fuel (slash :: new) g' = (Ok e, g') /\
    cstring (filename e) = new /\
    size e = size (entry_at (data r0) m) /\
    cluster_nr e = cluster_nr (entry_at (data r0) m) /\
    stat_entry fuel (slash :: old) g' = (Err ENOENT, g') /\
    (forall name', name_ok name' -> name' <> old -> name' <> new ->
       fst (dir_iter_lookup fuel (slash :: name') false g')
       = fst (dir_iter_lookup fuel (slash :: name') false g)).
Proof.
  intros Hroot Hold Hnew Hm Hnamed Huniq Hfresh Hroom Hfuel.
  assert (Hleast : forall i, 0 <= i < m -> ~ named r0 old i)
    by (intros i Hi; apply Huniq; lia).
  destruct (least_below (fun i => slot_used r0 i = false) 66)
    as [(k & Hk & Hfree & Hfull) | Hnone].
  2:{ exfalso. destruct Hroom as (i & Hi & Hu). exact (Hnone i Hi Hu). }
  change (Z.of_nat 66) with CLUSTER_DIRENTS in Hk.
  assert (Hfull' : forall i, 0 <= i < k -> slot_used r0 i = true).
  { intros i Hi. specialize (Hfull i Hi). destruct (slot_used r0 i); [reflexivity | contradiction]. }
  destruct (rename_in_small_root g r0 old new m k fuel Hroot Hold Hnew Hm Hnamed Hleast Hfresh
              Hk Hfull' Hfree Hfuel)
    as (g' & r1 & Hrun & Hroot' & Hfc & Hgone & Hnamed' & Hsize & Hclus & Hother).
  assert (Hkm : k <> m).
  { intros ->. pose proof (named_used r0 old Hold m Hm Hnamed) as Hu. congruence. }
  assert (Hsame : forall name' i, name_ok name' -> 0 <= i < CLUSTER_DIRENTS ->
            i <> k -> named r1 name' i -> named r0 name' i /\ i <> m).
  { intros name' i Hname' Hi Hik Hn. destruct (decide (i = m)) as [-> | Him].
    - pose proof (named_used r1 name' Hname' m Hm Hn) as Hu. congruence.
    - split; [| exact Him]. unfold named in *. rewrite <- Hother by assumption. exact Hn. }
  assert (Hnewk : dir_iter_lookup fuel (slash :: new) false g' = (Ok (root_slot k), g')).
  { apply (small_root_lookup_found g' r1 new k fuel Hroot' Hnew Hk Hnamed'); [| exact Hfuel].
    intros i Hi Hn. destruct (Hsame new i Hnew ltac:(lia) ltac:(lia) Hn) as [Hn0 _].
    exact (Hfresh i ltac:(lia) Hn0). }
  assert (Holdgone : dir_iter_lookup fuel (slash :: old) false g' = (Err ENOENT, g')).
  { apply (small_root_lookup_missing g' r1 old fuel Hroot' Hold); [| exact Hfuel].
    intros i Hi Hn. destruct (decide (i = k)) as [-> | Hik].
    - assert (Heq : new = old) by (unfold named in Hn, Hnamed'; congruence).
      apply (Hfresh m Hm). rewrite Heq. exact Hnamed.
    - destruct (Hsame old i Hold Hi Hik Hn) as [Hn0 Him]. exact (Huniq i Hi Him Hn0). }
  exists g', (entry_at (data r1) k). split_and!.
  - exact Hrun.
  - exact Hfc.
  - unfold stat_entry. rewrite (bind_Ok _ _ _ _ _ Hnewk).
    unfold root_slot. cbn [it_entry]. apply (root_read g' r1 Hroot').
  - exact Hnamed'.
  - exact Hsize.
  - exact Hclus.
  - unfold stat_entry. apply bind_Err. exact Holdgone.
  - intros name' Hname' Hdo Hdn.
    destruct (first_named r0 name') as [(j & Hj & Hnj & Hleastj) | Hnone].
    + assert (Hjm : j <> m) by (intros ->; apply Hdo; unfold named in *; congruence).
      assert (Hjk : j <> k).
      { intros ->. pose proof (named_used r0 name' Hname' k Hk Hnj) as Hu. congruence. }
      rewrite (small_root_lookup_found g r0 name' j fuel Hroot Hname' Hj Hnj Hleastj Hfuel).
      rewrite (small_root_lookup_found g' r1 name' j fuel Hroot' Hname' Hj);
        [reflexivity | | | exact Hfuel].
      * unfold named. rewrite Hother by assumption. exact Hnj.
      * intros i Hi Hn. destruct (decide (i = k)) as [-> | Hik].
        -- apply Hdn. unfold named in *. congruence.
        -- destruct (Hsame name' i Hname' ltac:(lia) Hik Hn) as [Hn0 _].
           exact (Hleastj i Hi Hn0).
    + rewrite (small_root_lookup_missing g r0 name' fuel Hroot Hname' Hnone Hfuel).
      rewrite (small_root_lookup_missing g' r1 name' fuel Hroot' Hname');
        [reflexivity | | exact Hfuel].
      intros i Hi Hn. destruct (decide (i = k)) as [-> | Hik].
      * apply Hdn. unfold named in *. congruence.
      * destruct (Hsame name' i Hname' Hi Hik Hn) as [Hn0 _]. exact (Hnone i Hi Hn0).
Qed.

Lemma rename_moves_the_record_witness :
  exists g' e,
    ghostfs_rename 100 (path_of "/a") (path_of "/b") created_a = (Ok tt, g') /\
    stat_entry 100 (path_of "/b") g' = (Ok e, g') /\
    stat_entry 100 (path_of "/a") g' = (Err ENOENT, g').
Proof.
  destruct (rename_moves_the_record created_a root_a (path_of "a") (path_of "b") 0 100)
    as (g' & e & H1 & _ & H2 & _ & _ & _ & H3 & _).
  - exact small_root_created_a.
  - apply name_ok_single; discriminate.
  - apply name_ok_single; discriminate.
  - vm_compute. split; [intros H; discriminate H | reflexivity].
  - vm_compute. reflexivity.
  - exact root_a_only_a.
  - exact root_a_has_no_b.
  - exists 1. split; [vm_compute; split; [intros H; discriminate H | reflexivity] |].
    vm_compute. reflexivity.
  - lia.
  - exists g', e. split_and!; assumption.
Defined.

(** ** Shrinking a file *)

Lemma linked_take (m : gmap Z cluster) (k : nat) : forall l, linked m l -> linked m (take k l).
Proof.
  induction k as [| k IH]; intros l H; [exact I |].
  destruct l as [| a l]; [exact I |]. cbn [take].
  destruct l as [| b l].
  - destruct k; exact H.
  - destruct H as [Hab Hl]. specialize (IH _ Hl).
    destruct k as [| k]; cbn [take] in *.
    + destruct Hab as (c & Hc & _). cbn [linked]. eauto.
    + cbn [linked]. split; [exact Hab | exact IH].
Qed.

Lemma linked_lookup_next (m : gmap Z cluster) (k : nat) :
  forall l a b, linked m l -> l !! k = Some a -> l !! S k = Some b ->
                exists c, m !! a = Some c /\ next c = b.
Proof.
  induction k as [| k IH]; intros l a b H Ha Hb.
  - destruct l as [| a' [| b' l]]; try discriminate.
    cbn in Ha, Hb. injection Ha as ->. injection Hb as ->.
    exact (proj1 H).
  - destruct l as [| a' l]; [discriminate |].
    cbn in Ha, Hb. apply (IH l a b); [exact (linked_tail _ _ _ H) | exact Ha | exact Hb].
Qed.

(** A chain stays linked when its members keep their links, the last one
    apart. *)
Lemma linked_ext_last (m m' : gmap Z cluster) l :
  linked m l ->
  (forall x c, x ∈ l -> m !! x = Some c ->
     exists c', m' !! x = Some c' /\ (last l = Some x \/ next c' = next c)) ->
  NoDup l ->
  linked m' l.
Proof.
  induction l as [| a l IH]; intros H Hext Hnd; [exact I |].
  apply NoDup_cons in Hnd as [Ha Hnd].
  destruct l as [| b l].
  - destruct H as [c Hc]. destruct (Hext a c ltac:(left) Hc) as (c' & Hc' & _).
    cbn [linked]. eauto.
  - destruct H as [(c & Hc & Hn) Hl]. cbn [linked]. split.
    + destruct (Hext a c ltac:(left) Hc) as (c' & Hc' & [Hlast | Hnext]).
      * exfalso. apply Ha. rewrite last_cons_cons in Hlast.
        apply last_Some_elem_of. exact Hlast.
      * exists c'. split; [exact Hc' | congruence].
    + apply IH; [exact Hl | | exact Hnd].
      intros x cx Hx Hcx. destruct (Hext x cx ltac:(right; exact Hx) Hcx) as (c' & Hc' & Hor).
      exists c'. split; [exact Hc' |]. rewrite last_cons_cons in Hor. exact Hor.
Qed.

(** [free_clusters] on a chain of cached clusters: every member is
    released and counted. *)
Lemma free_clusters_chain (t : list Z) :
  forall a g fuel,
    linked (clusters g) (a :: t) ->
    (forall x c, last (a :: t) = Some x -> clusters g !! x = Some c -> next c = 0) ->
    (forall x, x ∈ a :: t -> 1 <= x < hdr_cluster_count g) ->
    (length t < fuel)%nat ->
    exists g',
      free_clusters fuel a g = (Ok tt, g') /\
      clusters g' = release_all (a :: t) (clusters g) /\
      gfs_free_clusters g' = Nat.iter (S (length t)) (fun f => u16 (f + 1)) (gfs_free_clusters g) /\
      hdr_cluster_count g' = hdr_cluster_count g /\
      gfs_stegger g' = gfs_stegger g /\ root_entry g' = root_entry g.
Proof.
  induction t as [| b t IH]; intros a g fuel Hl Hlast Hrange Hfuel;
    (destruct fuel as [| fuel]; [lia |]); cbn [free_clusters].
  - destruct Hl as [ca Hca].
    rewrite (bind_Ok _ _ _ _ _ (update_cluster_Some _ _ _ _ Hca)).
    rewrite (bind_Ok _ _ _ _ _ (eq_refl : free_clusters_add 1 _ = (Ok tt, _))).
    set (g2 := with_free_clusters _ _).
    assert (Hc2 : clusters g2 !! a = Some (release_cluster ca))
      by (unfold g2; cbn; rewrite lookup_alter_eq, Hca; reflexivity).
    rewrite (bind_Ok _ _ _ _ _ (deref_Some _ _ _ Hc2)).
    change (next (release_cluster ca)) with (next ca).
    rewrite (Hlast a ca eq_refl Hca).
    destruct (decide (0 = 0)); [| contradiction].
    exists g2. split_and!; reflexivity.
  - destruct Hl as [(ca & Hca & Hnext) Hl'].
    rewrite (bind_Ok _ _ _ _ _ (update_cluster_Some _ _ _ _ Hca)).
    rewrite (bind_Ok _ _ _ _ _ (eq_refl : free_clusters_add 1 _ = (Ok tt, _))).
    set (g2 := with_free_clusters _ _).
    assert (Hcl2 : clusters g2 = alter release_cluster a (clusters g)) by reflexivity.
    assert (Hc2 : clusters g2 !! a = Some (release_cluster ca))
      by (rewrite Hcl2, lookup_alter_eq, Hca; reflexivity).
    rewrite (bind_Ok _ _ _ _ _ (deref_Some _ _ _ Hc2)).
    change (next (release_cluster ca)) with (next ca). rewrite Hnext.
    pose proof (Hrange b ltac:(right; left)) as Hb.
    destruct (decide (b = 0)); [lia |].
    assert (Hl2 : linked (clusters g2) (b :: t)).
    { rewrite Hcl2. apply linked_alter; [reflexivity | exact Hl']. }
    destruct (linked_head _ _ _ Hl2) as [cb Hcb].
    rewrite (bind_Ok _ _ _ _ _ (cluster_get_cached g2 b cb Hcb ltac:(exact (proj2 Hb)))).
    destruct (IH b g2 fuel Hl2) as (g' & Hrun & Hcl & Hfc & Hcc & Hst & Hre).
    + intros x c Hx Hc. rewrite Hcl2 in Hc.
      assert (Hx0 : exists c0, clusters g !! x = Some c0 /\ next c = next c0).
      { destruct (decide (a = x)) as [<- | Hne].
        - rewrite lookup_alter_eq, Hca in Hc. injection Hc as <-. eauto.
        - rewrite lookup_alter_ne in Hc by exact Hne. eauto. }
      destruct Hx0 as (c0 & Hc0 & ->). apply (Hlast x c0); [| exact Hc0].
      rewrite last_cons_cons. exact Hx.
    + intros x Hx. apply Hrange. right. exact Hx.
    + cbn [length] in Hfuel. lia.
    + exists g'. split_and!.
      * exact Hrun.
      * rewrite Hcl, Hcl2. reflexivity.
      * rewrite Hfc. unfold g2. cbn [length].
        exact (eq_sym (Nat.iter_succ_r (S (length t)) (fun f => u16 (f + 1))
                         (gfs_free_clusters g))).
      * rewrite Hcc. reflexivity.
      * rewrite Hst. reflexivity.
      * rewrite Hre. reflexivity.
Qed.

(** The state of a file whose chain has been cut behind its first [n]
    clusters. *)
Lemma shrink_state g g2 it content dc di l new_size :
  file_inv g it content dc di l ->
  0 < new_size < Z.of_nat (length content) ->
  let l1 := take (Z.to_nat (size_to_clusters new_size)) l in
  hdr_cluster_count g2 = hdr_cluster_count g ->
  all_cached g2 -> fields_in_range g2 ->
  (forall x c, x = dc \/ x ∈ l1 -> clusters g !! x = Some c ->
     exists c', clusters g2 !! x = Some c' /\ data c' = data c /\ used c' = used c /\
                (last l1 = Some x \/ next c' = next c)) ->
  (forall x c', last l1 = Some x -> clusters g2 !! x = Some c' -> next c' = 0) ->
  file_state g2 it (Z.of_nat (length content)) (take (Z.to_nat new_size) content) dc di l1.
Proof.
  intros H Hnew l1 Hcc Hcached Hrange Hext Hlast.
  pose proof (size_to_clusters_bounds new_size ltac:(lia)) as (Hb0 & Hb1 & Hb2).
  pose proof (file_state_cluster_count _ _ _ _ _ _ _ H) as [Hn1 Hn2].
  set (n := size_to_clusters new_size) in *.
  assert (Hn : 1 <= n <= Z.of_nat (length l)) by (unfold CLUSTER_DATA in *; lia).
  assert (Hlen1 : length l1 = Z.to_nat n) by (unfold l1; rewrite length_take; lia).
  assert (Hsub : forall x, x ∈ l1 -> x ∈ l).
  { intros x Hx. unfold l1 in Hx. apply elem_of_take in Hx as (i & Hi & _).
    apply list_elem_of_lookup_2 in Hi. exact Hi. }
  assert (Hhd : hd 0 l1 = hd 0 l).
  { unfold l1. destruct l as [| a l0]; [cbn [length] in Hn; lia |].
    destruct (Z.to_nat n) as [| k] eqn:Ek; [lia |]. reflexivity. }
  assert (Hnd1 : NoDup l1).
  { unfold l1. eapply sublist_NoDup; [exact (fi_nodup _ _ _ _ _ _ _ H) | apply sublist_take]. }
  assert (Hlenb : length (take (Z.to_nat new_size) content) = Z.to_nat new_size)
    by (rewrite length_take; lia).
  constructor.
  - exact (fi_entry _ _ _ _ _ _ _ H).
  - exact (fi_cluster _ _ _ _ _ _ _ H).
  - exact (fi_idx _ _ _ _ _ _ _ H).
  - destruct (fi_dir _ _ _ _ _ _ _ H) as (dcl & Hdcl & Hdlen & Hduse & Hdsz & Hdcn).
    destruct (Hext dc dcl ltac:(left; reflexivity) Hdcl) as (c' & Hc' & Hdata & Hused & _).
    exists c'. rewrite Hdata, Hused, Hhd. split_and!; assumption.
  - rewrite Hlenb. pose proof (fi_size _ _ _ _ _ _ _ H). lia.
  - rewrite Hlen1, Hlenb. unfold n.
    rewrite !Z2Nat.id by lia. reflexivity.
  - apply (linked_ext_last (clusters g)); [| | exact Hnd1].
    + unfold l1. apply linked_take. exact (fi_chain _ _ _ _ _ _ _ H).
    + intros x c Hx Hc.
      destruct (Hext x c ltac:(right; exact Hx) Hc) as (c' & Hc' & _ & _ & Hor). eauto.
  - exact Hlast.
  - intros x Hx.
    destruct (fi_members _ _ _ _ _ _ _ H x (Hsub x Hx)) as [Hr (c & Hc & Hu & Hd)].
    split; [rewrite Hcc; exact Hr |].
    destruct (Hext x c ltac:(right; exact Hx) Hc) as (c' & Hc' & Hdata & Hused & _).
    exists c'. rewrite Hdata, Hused. split_and!; assumption.
  - exact Hnd1.
  - intros Hin. exact (fi_apart _ _ _ _ _ _ _ H (Hsub dc Hin)).
  - rewrite Hlenb.
    assert (Hcd : chain_data (clusters g2) l1 = chain_data (clusters g) l1).
    { apply chain_data_ext. intros x Hx.
      destruct (fi_members _ _ _ _ _ _ _ H x (Hsub x Hx)) as [_ (c & Hc & _)].
      destruct (Hext x c ltac:(right; exact Hx) Hc) as (c' & Hc' & Hdata & _).
      rewrite Hc, Hc'. cbn. f_equal. exact Hdata. }
    rewrite Hcd.
    assert (Hl1len : Z.of_nat (length (chain_data (clusters g) l1)) = CLUSTER_DATA * n).
    { rewrite length_chain_data.
      - rewrite Hlen1. lia.
      - intros x Hx.
        destruct (fi_members _ _ _ _ _ _ _ H x (Hsub x Hx)) as [_ (c & Hc & _ & Hd)]. eauto. }
    rewrite (fi_content _ _ _ _ _ _ _ H) at 1.
    rewrite take_take. rewrite Nat.min_l by lia.
    rewrite <- (take_drop (Z.to_nat n) l) at 1. fold l1.
    rewrite chain_data_app. rewrite take_app_le by lia. reflexivity.
  - exact Hcached.
  - exact Hrange.
Qed.

(** The last step of [do_truncate] touches the directory cluster only. *)
Lemma set_size_frame (it : dir_iter) (dc di v : Z) (g g' : ghostfs) :
  it_entry it = ClusterEntry dc di -> it_cluster it = dc ->
  (dir_entry_set_size (it_entry it) v false;;
   update_cluster (it_cluster it) mark_cluster) g = (Ok tt, g') ->
  gfs_free_clusters g' = gfs_free_clusters g /\
  (forall x, x <> dc -> clusters g' !! x = clusters g !! x).
Proof.
  intros He Hc Hrun. rewrite He, Hc in Hrun. unfold dir_entry_set_size in Hrun.
  apply bind_inv_Ok in Hrun as ([] & g1 & Hw & Hm).
  apply write_entry_inv in Hw as (c & _ & ->).
  apply update_cluster_inv in Hm as (c' & _ & ->).
  split; [reflexivity |].
  intros x Hx. cbn [clusters with_clusters].
  rewrite !lookup_insert_ne by congruence. reflexivity.
Qed.



(** ** Making and removing a directory *)

(** In a directory cluster without a used record and without a successor,
    the search for the next used record ends with [ENOENT]. *)
Lemma next_used_in_empty_dir (k : nat) :
  forall fuel g nr r j,
    clusters g !! nr = Some r -> next r = 0 ->
    (forall i, 0 <= i < CLUSTER_DIRENTS -> dir_entry_used (entry_at (data r) i) = false) ->
    j = 65 - Z.of_nat k -> 0 <= j -> (k < fuel)%nat ->
    dir_iter_next_used fuel {| it_cluster := nr; it_entry := ClusterEntry nr j; it_entry_nr := j |} g
    = (Err ENOENT, g).
Proof.
  induction k as [| k IH]; intros fuel g nr r j Hr Hnext Hunused Hj Hj0 Hfuel;
    (destruct fuel as [| fuel]; [lia |]); cbn [dir_iter_next_used].
  - apply bind_Err. unfold dir_iter_next. cbn [it_entry_nr it_cluster].
    destruct (decide (j >= CLUSTER_DIRENTS - 1)) as [_ | Hn]; [| unfold CLUSTER_DIRENTS in Hn; lia].
    rewrite (bind_Ok _ _ _ _ _ (deref_Some _ _ _ Hr)).
    destruct (decide (next r = 0)); [reflexivity | contradiction].
  - assert (Hstep : dir_iter_next {| it_cluster := nr; it_entry := ClusterEntry nr j; it_entry_nr := j |} g
                    = (Ok {| it_cluster := nr; it_entry := ClusterEntry nr (j + 1);
                             it_entry_nr := j + 1 |}, g)).
    { unfold dir_iter_next. cbn [it_entry_nr it_cluster it_entry].
      destruct (decide (j >= CLUSTER_DIRENTS - 1)) as [Hn | _]; [unfold CLUSTER_DIRENTS in Hn; lia |].
      reflexivity. }
    rewrite (bind_Ok _ _ _ _ _ Hstep). cbn [it_entry].
    rewrite (bind_Ok _ _ _ _ _ (read_entry_cluster _ _ (j + 1) _ Hr)).
    rewrite Hunused by (unfold CLUSTER_DIRENTS; lia).
    apply (IH fuel g nr r (j + 1)); try assumption; lia.
Qed.

(** No record of a zeroed payload is in use. *)
Lemma zeroed_entries_unused (i : Z) :
  0 <= i < CLUSTER_DIRENTS -> dir_entry_used (entry_at (zeros CLUSTER_DATA) i) = false.
Proof.
  intros Hi. unfold dir_entry_used, entry_at. cbn [filename].
  apply bool_decide_eq_false_2. intros H. apply H. clear H.
  assert (H0 : get_bytes (i * DIR_ENTRY_SIZE) FILENAME_SIZE (zeros CLUSTER_DATA) !! 0%nat
               = Some x00).
  { unfold CLUSTER_DATA, CLUSTER_DIRENTS, DIR_ENTRY_SIZE, FILENAME_SIZE in *.
    rewrite lookup_get_bytes by lia.
    destruct (decide (Z.of_nat 0 < 56)); [| lia].
    rewrite lookup_zeros.
    destruct (decide (Z.of_nat (Z.to_nat (i * 62) + 0) < 4092)); [reflexivity | lia]. }
  destruct (get_bytes (i * DIR_ENTRY_SIZE) FILENAME_SIZE (zeros CLUSTER_DATA)) as [| b l];
    [discriminate H0 |].
  cbn in H0. injection H0 as ->. reflexivity.
Qed.

(** [create_entry] for a directory in a root directory of one cluster that
    has no record of that name and whose first unused record is [k]: the
    allocator fails, or the record is written and names a zeroed cluster
    that was unused. *)
Lemma mkdir_in_small_root (g : ghostfs) (r0 : cluster) (name : list byte) (k : Z) (fuel : nat) :
  small_root g r0 -> all_cached g -> fields_in_range g -> name_ok name ->
  (forall i, 0 <= i < CLUSTER_DIRENTS -> ~ named r0 name i) ->
  0 <= k < CLUSTER_DIRENTS ->
  (forall i, 0 <= i < k -> slot_used r0 i = true) -> slot_used r0 k = false ->
  (67 <= fuel)%nat ->
  exists g',
    create_entry fuel (slash :: name) true g = (Err ENOSPC, g') \/
    exists r1 c cc,
      create_entry fuel (slash :: name) true g = (Ok (ClusterEntry 0 k), g') /\
      small_root g' r1 /\
      named r1 name k /\
      size (entry_at (data r1) k) = 2 ^ 31 /\ cluster_nr (entry_at (data r1) k) = c /\
      (forall i, 0 <= i < CLUSTER_DIRENTS -> i <> k ->
         entry_at (data r1) i = entry_at (data r0) i) /\
      1 <= c < hdr_cluster_count g /\ is_unused (clusters g) c /\
      clusters g' !! c = Some cc /\ used cc = 1 /\ next cc = 0 /\
      data cc = zeros CLUSTER_DATA /\
      all_cached g' /\ fields_in_range g' /\
      hdr_cluster_count g' = hdr_cluster_count g.
Proof.
  intros Hroot Hcached Hrange Hname Hfresh Hk Hfull Hfree Hfuel.
  pose proof Hroot as (Hc0 & Hnext & Hd & Hcount & Hdir & Hcl).
  pose proof Hname as (Hne & H0 & Hs & Hlen).
  destruct (name_ok_hd name Hname) as [Hh0 _].
  destruct (alloc_clusters_spec g 1 Hcached Hrange ltac:(lia))
    as (g1 & Hcc1 & _ & Hre1 & Hrange1 & Hdom1 & Hframe1 & Halloc).
  assert (Hc01 : clusters g1 !! 0 = Some r0) by (rewrite Hframe1; [exact Hc0 | left; lia]).
  assert (Hprefix : forall (k' : entry_ref -> M entry_ref),
            create_entry fuel (slash :: name) true g
            = (let* nr :=
                 (let* r := try (alloc_clusters 1 true) in
                  match r with
                  | inr n => ret n
                  | inl e => ret tt;; fail e
                  end) in
               write_entry (ClusterEntry 0 k) 0 (cstring name ++ [x00]);;
               dir_entry_set_size (ClusterEntry 0 k) 0 true;;
               entry_store_cluster (ClusterEntry 0 k) nr;;
               update_cluster 0 mark_cluster;;
               ret (ClusterEntry 0 k)) g).
  { intros _. unfold create_entry.
    assert (E1 : dir_iter_lookup fuel (slash :: name) true g
                 = (Ok (with_entry RootEntry (root_slot 0)), g))
      by exact (small_root_lookup_file g r0 name true fuel Hroot Hname).
    rewrite (bind_Ok _ _ _ _ _ E1). cbn [it_entry with_entry].
    rewrite (bind_Ok _ _ _ _ _ (eq_refl : read_entry RootEntry g = (Ok (root_entry g), g))).
    rewrite Hdir, Hcl. cbn [negb].
    rewrite (last_component_of_root_path name Hs).
    rewrite (strlen_plain name H0).
    destruct (decide (Z.of_nat (length name) > FILENAME_SIZE - 1)) as [? | _]; [lia |].
    destruct (decide (hd x00 name = x00)) as [? | _]; [contradiction |].
    assert (E3 : try (dir_contains fuel 0 name) g = (Ok (inl ENOENT), g)).
    { apply try_Err. unfold dir_contains. rewrite (bind_Ok _ _ _ _ _ (root_init g r0 Hroot)).
      apply (contains_loop_missing g r0 Hroot name Hname fuel 0);
        [unfold CLUSTER_DIRENTS; lia | intros i Hi; apply Hfresh; lia | lia]. }
    rewrite (bind_Ok _ _ _ _ _ E3).
    assert (E4 : find_empty_entry fuel 0 g = (Ok (root_slot k, None), g)).
    { unfold find_empty_entry. rewrite (bind_Ok _ _ _ _ _ (root_init g r0 Hroot)).
      apply (find_empty_found g r0 Hroot (Z.to_nat k) 0 k fuel); try assumption;
        unfold CLUSTER_DIRENTS in *; lia. }
    rewrite (bind_Ok _ _ _ _ _ E4).
    rewrite (bind_Ok _ _ _ _ _ (eq_refl : ret (root_slot k, @None (Z * Z)) g = (Ok _, g))).
    cbn [fst snd]. unfold root_slot. cbn [it_entry it_cluster]. reflexivity. }
  rewrite (Hprefix (fun r => ret r)). clear Hprefix.
  destruct Halloc as [Hfail | (l & Hok & Hlen1 & _ & Hmem & _ & Hlast & Hzero)].
  - exists g1. left.
    rewrite bind_assoc. rewrite (bind_Ok _ _ _ _ _ (try_Err _ _ _ _ Hfail)).
    reflexivity.
  - destruct l as [| c [| c' l']]; cbn [length] in Hlen1; try lia.
    cbn [hd] in Hok.
    destruct (Hmem c ltac:(left)) as [Hcr Hcu].
    destruct (Hzero c ltac:(left)) as (cc & Hcc & Hccu & Hccd).
    pose proof (Hlast c cc eq_refl Hcc) as Hccn.
    rewrite bind_assoc. rewrite (bind_Ok _ _ _ _ _ (try_Ok _ _ _ _ Hok)).
    rewrite (bind_Ok _ _ _ _ _ (eq_refl : ret c g1 = (Ok c, g1))).
    unfold dir_entry_set_size, entry_store_cluster. cbn [write_entry].
    rewrite (cstring_whole name H0).
    rewrite size_word_value. change (0 mod 2 ^ 31 + 2 ^ 31) with (2 ^ 31).
    destruct (entry_after_create (data r0) k name (2 ^ 31) c Hd Hk H0 Hlen)
      as (L3 & Hnamed & Hsize & Hclus & Hother).
    set (d1 := set_bytes (k * DIR_ENTRY_SIZE + 0) (name ++ [x00]) (data r0)) in *.
    set (d2 := set_bytes (k * DIR_ENTRY_SIZE + FILENAME_SIZE) (le_encode 4 (2 ^ 31)) d1) in *.
    set (d3 := set_bytes (k * DIR_ENTRY_SIZE + (FILENAME_SIZE + 4)) (le_encode 2 c) d2) in *.
    set (c1 := set_data d1 r0).
    set (c2 := set_data d2 c1).
    set (c3 := set_data d3 c2).
    set (ga := with_clusters (<[0 := c1]> (clusters g1)) g1).
    set (gb := with_clusters (<[0 := c2]> (clusters ga)) ga).
    set (gc := with_clusters (<[0 := c3]> (clusters gb)) gb).
    set (gd := with_clusters (<[0 := mark_cluster c3]> (clusters gc)) gc).
    assert (U1 : update_cluster 0 (fun x => set_data (set_bytes (k * DIR_ENTRY_SIZE + 0)
                   (name ++ [x00]) (data x)) x) g1 = (Ok tt, ga))
      by (unfold update_cluster; rewrite Hc01; reflexivity).
    assert (U2 : update_cluster 0 (fun x => set_data (set_bytes (k * DIR_ENTRY_SIZE + FILENAME_SIZE)
                   (le_encode 4 (2 ^ 31)) (data x)) x) ga = (Ok tt, gb)).
    { unfold update_cluster, ga. cbn [clusters with_clusters]. rewrite lookup_insert_eq. reflexivity. }
    assert (U3 : update_cluster 0 (fun x => set_data (set_bytes (k * DIR_ENTRY_SIZE + (FILENAME_SIZE + 4))
                   (le_encode 2 c) (data x)) x) gb = (Ok tt, gc)).
    { unfold update_cluster, gb. cbn [clusters with_clusters]. rewrite lookup_insert_eq. reflexivity. }
    assert (U4 : update_cluster 0 mark_cluster gc = (Ok tt, gd)).
    { unfold update_cluster, gc. cbn [clusters with_clusters]. rewrite lookup_insert_eq. reflexivity. }
    rewrite (bind_Ok _ _ _ _ _ U1), (bind_Ok _ _ _ _ _ U2), (bind_Ok _ _ _ _ _ U3),
      (bind_Ok _ _ _ _ _ U4).
    assert (Hgd : forall x, x <> 0 -> clusters gd !! x = clusters g1 !! x).
    { intros x Hx. unfold gd, gc, gb, ga. cbn [clusters with_clusters].
      rewrite !lookup_insert_ne by congruence. reflexivity. }
    destruct Hrange as [Hrc Hrf].
    exists gd. right. exists (mark_cluster c3), c, cc. split_and!.
    + reflexivity.
    + unfold small_root. split_and!.
      * unfold gd. cbn [clusters with_clusters]. apply lookup_insert_eq.
      * exact Hnext.
      * exact L3.
      * change (hdr_cluster_count gd) with (hdr_cluster_count g1). rewrite Hcc1. exact Hcount.
      * change (root_entry gd) with (root_entry g1). rewrite Hre1. exact Hdir.
      * change (root_entry gd) with (root_entry g1). rewrite Hre1. exact Hcl.
    + exact Hnamed.
    + change (data (mark_cluster c3)) with d3. rewrite Hsize. reflexivity.
    + change (data (mark_cluster c3)) with d3. rewrite Hclus. apply Z.mod_small. lia.
    + exact Hother.
    + lia.
    + lia.
    + exact Hcu.
    + rewrite Hgd by lia. exact Hcc.
    + exact Hccu.
    + exact Hccn.
    + exact Hccd.
    + apply (all_cached_preserved g); [exact Hcached | exact Hcc1 |].
      intros x Hx. destruct (decide (x = 0)) as [-> | Hx0].
      * unfold gd. cbn [clusters with_clusters]. rewrite lookup_insert_eq. eauto.
      * rewrite Hgd by exact Hx0. apply Hdom1. exact Hx.
    + exact Hrange1.
    + exact Hcc1.
Qed.

(** X25.  Making a directory in a one-cluster root directory with an
    unused record and no record of that name: [ghostfs_mkdir] fails with
    [ENOSPC] or succeeds.  After a success the path resolves to a directory
    whose cluster was unused before; reading it delivers no entry;
    [ghostfs_rmdir] succeeds on it, releases the cluster, and leaves a root
    directory in which every name resolves as before the [ghostfs_mkdir]. *)
Theorem mkdir_then_rmdir (g : ghostfs) (r0 : cluster) (name : list byte) (fuel n : nat) :
  small_root g r0 -> all_cached g -> fields_in_range g -> name_ok name ->
  (forall i, 0 <= i < CLUSTER_DIRENTS -> ~ named r0 name i) ->
  (exists i, 0 <= i < CLUSTER_DIRENTS /\ slot_used r0 i = false) ->
  (67 <= fuel)%nat ->
  exists g1,
    ghostfs_mkdir fuel (slash :: name) g = (Err ENOSPC, g1) \/
    (ghostfs_mkdir fuel (slash :: name) g = (Ok tt, g1) /\
     exists e h g2,
       stat_entry fuel (slash :: name) g1 = (Ok e, g1) /\
       dir_entry_is_directory e = true /\
       1 <= cluster_nr e < hdr_cluster_count g /\
       is_unused (clusters g) (cluster_nr e) /\
       ghostfs_opendir fuel (slash :: name) g1 = (Ok h, g1) /\
       read_dir fuel (S n) h g1 = (Ok [], g1) /\
       ghostfs_rmdir fuel (slash :: name) g1 = (Ok tt, g2) /\
       is_unused (clusters g2) (cluster_nr e) /\
       (forall name', name_ok name' ->
          fst (dir_iter_lookup fuel (slash :: name') false g2)
          = fst (dir_iter_lookup fuel (slash :: name') false g))).
Proof.
  intros Hroot Hcached Hrange Hname Hfresh Hroom Hfuel.
  destruct (least_below (fun i => slot_used r0 i = false) 66)
    as [(k & Hk & Hfree & Hfull) | Hnone].
  2:{ exfalso. destruct Hroom as (i & Hi & Hu). exact (Hnone i Hi Hu). }
  change (Z.of_nat 66) with CLUSTER_DIRENTS in Hk.
  assert (Hfull' : forall i, 0 <= i < k -> slot_used r0 i = true).
  { intros i Hi. specialize (Hfull i Hi). destruct (slot_used r0 i); [reflexivity | contradiction]. }
  destruct (mkdir_in_small_root g r0 name k fuel Hroot Hcached Hrange Hname Hfresh Hk Hfull'
              Hfree Hfuel)
    as (g1 & [Hfail | (r1 & c & cc & Hcreate & Hroot1 & Hnamed & Hsize & Hclus & Hother & Hcr
                        & Hcu & Hcc & Hccu & Hccn & Hccd & Hcached1 & Hrange1)]).
  { exists g1. left. unfold ghostfs_mkdir. apply bind_Err. exact Hfail. }
  exists g1. right. split.
  { unfold ghostfs_mkdir. rewrite (bind_Ok _ _ _ _ _ Hcreate). reflexivity. }
  pose proof Hroot1 as (Hc1 & Hnext1 & Hd1 & Hcount1 & Hdir1 & Hcl1).
  assert (Hlookup : dir_iter_lookup fuel (slash :: name) false g1 = (Ok (root_slot k), g1)).
  { apply (small_root_lookup_found g1 r1 name k fuel Hroot1 Hname Hk Hnamed); [| exact Hfuel].
    intros i Hi. unfold named. rewrite Hother by lia. apply Hfresh. lia. }
  assert (Hread : read_entry (ClusterEntry 0 k) g1 = (Ok (entry_at (data r1) k), g1))
    by (apply read_entry_cluster; exact Hc1).
  assert (Hisdir : dir_entry_is_directory (entry_at (data r1) k) = true).
  { unfold dir_entry_is_directory. rewrite Hsize. reflexivity. }
  set (itc := {| it_cluster := c; it_entry := ClusterEntry c 0; it_entry_nr := 0 |}).
  assert (Hinit : dir_iter_init c g1 = (Ok itc, g1)).
  { unfold dir_iter_init.
    rewrite (bind_Ok _ _ _ _ _ (cluster_get_cached g1 c cc Hcc ltac:(lia))). reflexivity. }
  assert (Hempty : forall i, 0 <= i < CLUSTER_DIRENTS ->
            dir_entry_used (entry_at (data cc) i) = false)
    by (intros i Hi; rewrite Hccd; apply zeroed_entries_unused; exact Hi).
  assert (Hread0 : read_entry (ClusterEntry c 0) g1 = (Ok (entry_at (data cc) 0), g1))
    by (apply read_entry_cluster; exact Hcc).
  assert (Hnone : dir_iter_next_used fuel itc g1 = (Err ENOENT, g1)).
  { apply (next_used_in_empty_dir 65 fuel g1 c cc 0); try assumption; lia. }
  (* the removal *)
  assert (Hc0 : c <> 0) by lia.
  destruct (free_clusters_chain [] c g1 fuel) as (ga & Hfc & Hcla & _ & Hcca & _ & Hrea).
  { cbn [linked]. eauto. }
  { intros x c' Hx Hc'. injection Hx as <-. rewrite Hcc in Hc'. injection Hc' as <-. exact Hccn. }
  { intros x Hx. apply list_elem_of_singleton in Hx as ->. lia. }
  { cbn [length]. lia. }
  cbn [release_all] in Hcla.
  assert (Hca0 : clusters ga !! 0 = Some r1)
    by (rewrite Hcla, lookup_alter_ne by exact Hc0; exact Hc1).
  destruct (update_cluster_runs ga 0 (fun x => set_data (set_bytes (k * DIR_ENTRY_SIZE + 0)
              [x00] (data x)) x) r1 Hca0) as (gb & cb & Eb & Hcb).
  destruct (update_cluster_runs gb 0 mark_cluster cb Hcb) as (g2 & c2 & E2 & Hc2).
  assert (Hrmdir : ghostfs_rmdir fuel (slash :: name) g1 = (Ok tt, g2)).
  { unfold ghostfs_rmdir, remove_entry. rewrite (bind_Ok _ _ _ _ _ Hlookup).
    unfold root_slot. cbn [it_entry it_cluster].
    destruct (decide (ClusterEntry 0 k = RootEntry)) as [? | _]; [discriminate |].
    rewrite (bind_Ok _ _ _ _ _ Hread). rewrite Hisdir. cbn [eqb negb].
    rewrite Hclus.
    destruct (decide (c = 0)) as [? | _]; [contradiction |].
    rewrite bind_assoc. rewrite (bind_Ok _ _ _ _ _ Hinit).
    unfold itc at 1. cbn [it_entry].
    rewrite !bind_assoc. rewrite (bind_Ok _ _ _ _ _ Hread0).
    rewrite (Hempty 0 ltac:(unfold CLUSTER_DIRENTS; lia)).
    rewrite bind_assoc. rewrite (bind_Ok _ _ _ _ _ (try_Err _ _ _ _ Hnone)).
    rewrite (bind_Ok _ _ _ _ _ (eq_refl : ret tt g1 = (Ok tt, g1))).
    unfold itc at 1. cbn [it_cluster].
    rewrite bind_assoc. rewrite (bind_Ok _ _ _ _ _ (try_Ok _ _ _ _ Hfc)).
    rewrite (bind_Ok _ _ _ _ _ (eq_refl : ret tt ga = (Ok tt, ga))).
    unfold entry_clear_name. cbn [write_entry].
    rewrite (bind_Ok _ _ _ _ _ Eb). exact E2. }
  destruct (remove_in_small_root g1 r1 name k true fuel g2 Hroot1 Hname Hk Hnamed)
    as (r2 & Hroot2 & Hunused2 & Hother2).
  { intros i Hi. unfold named. rewrite Hother by lia. apply Hfresh. lia. }
  { exact Hfuel. }
  { exact Hrmdir. }
  exists (entry_at (data r1) k), (Unstarted (ClusterEntry 0 k)), g2.
  rewrite Hclus. split_and!.
  - unfold stat_entry. rewrite (bind_Ok _ _ _ _ _ Hlookup).
    unfold root_slot. cbn [it_entry]. exact Hread.
  - exact Hisdir.
  - lia.
  - lia.
  - exact Hcu.
  - unfold ghostfs_opendir. rewrite (bind_Ok _ _ _ _ _ Hlookup).
    unfold root_slot. cbn [it_entry]. rewrite (bind_Ok _ _ _ _ _ Hread).
    rewrite Hisdir. reflexivity.
  - cbn [read_dir ghostfs_next_entry].
    rewrite !bind_assoc. rewrite (bind_Ok _ _ _ _ _ Hread). rewrite Hclus.
    rewrite bind_assoc. rewrite (bind_Ok _ _ _ _ _ (try_Ok _ _ _ _ Hinit)).
    unfold itc at 1. cbn [it_entry].
    rewrite bind_assoc. rewrite (bind_Ok _ _ _ _ _ Hread0).
    rewrite (Hempty 0 ltac:(unfold CLUSTER_DIRENTS; lia)).
    unfold stream_next_used.
    rewrite bind_assoc. rewrite (bind_Ok _ _ _ _ _ (try_Err _ _ _ _ Hnone)).
    reflexivity.
  - exact Hrmdir.
  - apply update_cluster_inv in Eb as (? & _ & ->).
    apply update_cluster_inv in E2 as (? & _ & ->).
    exists (release_cluster cc). split; [| reflexivity].
    cbn [clusters with_clusters]. rewrite !lookup_insert_ne by congruence.
    rewrite Hcla, lookup_alter_eq, Hcc. reflexivity.
  - intros name' Hname'.
    assert (Hiff : forall i, 0 <= i < CLUSTER_DIRENTS -> named r2 name' i <-> named r0 name' i).
    { intros i Hi. destruct (decide (i = k)) as [-> | Hne].
      - split; intros Hn.
        + pose proof (named_used r2 name' Hname' k Hk Hn) as Hu. congruence.
        + pose proof (named_used r0 name' Hname' k Hk Hn) as Hu. congruence.
      - unfold named. rewrite Hother2, Hother by assumption. reflexivity. }
    destruct (first_named r0 name') as [(j & Hj & Hnj & Hleastj) | Hnone0].
    + rewrite (small_root_lookup_found g r0 name' j fuel Hroot Hname' Hj Hnj Hleastj Hfuel).
      rewrite (small_root_lookup_found g2 r2 name' j fuel Hroot2 Hname' Hj);
        [reflexivity | | | exact Hfuel].
      * apply Hiff; assumption.
      * intros i Hi Hn. apply (Hleastj i Hi). apply Hiff; [lia | exact Hn].
    + rewrite (small_root_lookup_missing g r0 name' fuel Hroot Hname' Hnone0 Hfuel).
      rewrite (small_root_lookup_missing g2 r2 name' fuel Hroot2 Hname'); [reflexivity | | exact Hfuel].
      intros i Hi Hn. apply (Hnone0 i Hi). apply Hiff; assumption.
Qed.

Lemma mkdir_then_rmdir_witness :
  exists g1,
    ghostfs_mkdir 100 (path_of "/b") created_a = (Err ENOSPC, g1) \/
    (ghostfs_mkdir 100 (path_of "/b") created_a = (Ok tt, g1) /\
     exists h g2,
       ghostfs_opendir 100 (path_of "/b") g1 = (Ok h, g1) /\
       read_dir 100 1 h g1 = (Ok [], g1) /\
       ghostfs_rmdir 100 (path_of "/b") g1 = (Ok tt, g2)).
Proof.
  destruct (mkdir_then_rmdir created_a root_a (path_of "b") 100 0)
    as (g1 & [Hfail | (Hok & e & h & g2 & _ & _ & _ & _ & H1 & H2 & H3 & _)]).
  - exact small_root_created_a.
  - exact (fi_cached _ _ _ _ _ _ _ file_inv_created_a).
  - exact (fi_range _ _ _ _ _ _ _ file_inv_created_a).
  - apply name_ok_single; discriminate.
  - exact root_a_has_no_b.
  - exists 1. split; [vm_compute; split; [intros H; discriminate H | reflexivity] |].
    vm_compute. reflexivity.
  - lia.
  - exists g1. left. exact Hfail.
  - exists g1. right. split; [exact Hok |]. exists h, g2. split_and!; assumption.
Defined.

(** ** A file across sync and mount *)

Lemma unmark_clean (c : cluster) : is_dirty c = false -> unmark_cluster c = c.
Proof.
  unfold is_dirty. intros H. apply bool_decide_eq_false in H.
  destruct c as [d n u y]. unfold unmark_cluster. cbn in *. f_equal.
  destruct (decide (y = 0)) as [-> | Hne]; [reflexivity | contradiction].
Qed.

Lemma same_payload_unmark (c : cluster) : same_payload c (unmark_cluster c).
Proof. split_and!; reflexivity. Qed.

Section Durable.

Variable md5 : list byte -> list byte.
Hypothesis md5_length : forall bs, length (md5 bs) = 16%nat.


End Durable.

Lemma coherent_written_a : coherent written_a.
Proof. apply (bool_decide_unpack _). vm_compute. reflexivity. Qed.


(** ** Every change to a cached cluster is flagged *)

Lemma keeps_dirty_refl g : keeps_dirty g g.
Proof. intros p H. exact H. Qed.

Lemma keeps_dirty_trans g1 g2 g3 :
  keeps_dirty g1 g2 -> keeps_dirty g2 g3 -> keeps_dirty g1 g3.
Proof. intros H1 H2 p H. apply H2, H1, H. Qed.

Lemma keeps_dirty_same g g' : clusters g' = clusters g -> keeps_dirty g g'.
Proof. intros E p (c & Hc & Hd). exists c. rewrite E. split; assumption. Qed.

Lemma tracked_but_refl a g : tracked_but a g g.
Proof.
  split; [reflexivity |]. split; [auto |]. split; [apply keeps_dirty_refl |].
  intros nr c' _ H. right. left. exact H.
Qed.

Lemma tracked_but_relax a g0 g : tracked_but None g0 g -> tracked_but a g0 g.
Proof.
  intros (H1 & H2 & H3 & H4). split; [exact H1 |]. split; [exact H2 |]. split; [exact H3 |].
  intros nr c' _ H. apply H4; [discriminate | exact H].
Qed.

Lemma tracked_but_absent p g0 g :
  tracked_but (Some p) g0 g -> clusters g !! p = None -> tracked_but None g0 g.
Proof.
  intros (H1 & H2 & H3 & H4) Hp. split; [exact H1 |]. split; [exact H2 |]. split; [exact H3 |].
  intros nr c' _ H. apply H4; [| exact H]. intros E. injection E as ->. congruence.
Qed.

Lemma tracked_but_same a g0 g g' :
  clusters g' = clusters g -> gfs_stegger g' = gfs_stegger g ->
  tracked_but a g0 g -> tracked_but a g0 g'.
Proof.
  intros Ec Es (H1 & H2 & H3 & H4). unfold tracked_but, keeps_dirty, dirty_at.
  rewrite Ec, Es. split; [exact H1 |]. split; [exact H2 |]. split; [exact H3 | exact H4].
Qed.

Lemma tracked_coherent g g' : tracked_but None g g' -> coherent g -> coherent g'.
Proof.
  intros (H1 & _ & _ & H4) Hc nr c Hnr Hclean. rewrite H1.
  destruct (H4 nr c) as [Hd | [Hs | [_ Hl]]]; [discriminate | exact Hnr | congruence | | exact Hl].
  exact (Hc nr c Hs Hclean).
Qed.

(** *** Rules *)

Lemma tracks_ret {A : Type} a (P : ghostfs -> Prop) (x : A) (Q : A -> ghostfs -> Prop) :
  (forall g, P g -> Q x g) -> tracks a P (ret x) Q a.
Proof.
  intros HQ g0 g r g' Ht HP E. unfold ret in E. injection E as <- <-.
  split; [apply keeps_dirty_refl |]. split; [exact Ht | apply HQ, HP].
Qed.

Lemma tracks_fail {A : Type} (P : ghostfs -> Prop) e (Q : A -> ghostfs -> Prop) b :
  tracks None P (fail e) Q b.
Proof.
  intros g0 g r g' Ht HP E. unfold fail in E. injection E as <- <-.
  split; [apply keeps_dirty_refl | exact Ht].
Qed.

Lemma tracks_undefined {A : Type} (P : ghostfs -> Prop) (Q : A -> ghostfs -> Prop) b :
  tracks None P undefined Q b.
Proof.
  intros g0 g r g' Ht HP E. unfold undefined in E. injection E as <- <-.
  split; [apply keeps_dirty_refl | exact Ht].
Qed.

Lemma tracks_out_of_fuel {A : Type} (P : ghostfs -> Prop) (Q : A -> ghostfs -> Prop) b :
  tracks None P out_of_fuel Q b.
Proof.
  intros g0 g r g' Ht HP E. unfold out_of_fuel in E. injection E as <- <-.
  split; [apply keeps_dirty_refl | exact Ht].
Qed.

Lemma tracks_bind {A B : Type} a b c (P : ghostfs -> Prop) (m : M A) (k : A -> M B)
    (Q1 : A -> ghostfs -> Prop) (Q2 : B -> ghostfs -> Prop) :
  tracks a P m Q1 b -> (forall x, tracks b (Q1 x) (k x) Q2 c) -> tracks a P (bind m k) Q2 c.
Proof.
  intros Hm Hk g0 g r g' Ht HP E. unfold bind in E.
  destruct (m g) as [r1 g1] eqn:E1.
  destruct (Hm g0 g r1 g1 Ht HP E1) as [K1 H1].
  destruct r1 as [x | e | |].
  - destruct H1 as [T1 Q1x].
    destruct (Hk x g0 g1 r g' T1 Q1x E) as [K2 H2].
    split; [exact (keeps_dirty_trans _ _ _ K1 K2) | exact H2].
  - injection E as <- <-. split; assumption.
  - injection E as <- <-. split; assumption.
  - injection E as <- <-. split; assumption.
Qed.

Lemma tracks_conseq {A : Type} a b (P P' : ghostfs -> Prop) (m : M A)
    (Q Q' : A -> ghostfs -> Prop) :
  tracks a P m Q b -> (forall g, P' g -> P g) -> (forall x g, Q x g -> Q' x g) ->
  tracks a P' m Q' b.
Proof.
  intros Hm HP HQ g0 g r g' Ht HP' E.
  destruct (Hm g0 g r g' Ht (HP _ HP') E) as [K H]. split; [exact K |].
  destruct r; try exact H. destruct H as [T Qx]. split; [exact T | apply HQ, Qx].
Qed.

Lemma tracks_assume {A : Type} a b (phi : Prop) (P : ghostfs -> Prop) (m : M A)
    (Q : A -> ghostfs -> Prop) :
  (phi -> tracks a P m Q b) -> tracks a (fun g => phi /\ P g) m Q b.
Proof. intros H g0 g r g' Ht [Hphi HP] E. exact (H Hphi g0 g r g' Ht HP E). Qed.

Lemma tracks_frame {A : Type} a b (P R : ghostfs -> Prop) (m : M A)
    (Q : A -> ghostfs -> Prop) :
  mono R -> tracks a P m Q b ->
  tracks a (fun g => P g /\ R g) m (fun x g => Q x g /\ R g) b.
Proof.
  intros HR Hm g0 g r g' Ht [HP HRg] E.
  destruct (Hm g0 g r g' Ht HP E) as [K H]. split; [exact K |].
  destruct r; try exact H. destruct H as [T Qx].
  split; [exact T |]. split; [exact Qx | exact (HR _ _ K HRg)].
Qed.

Lemma tracks_enter {A : Type} p b (P : ghostfs -> Prop) (m : M A)
    (Q : A -> ghostfs -> Prop) :
  tracks p P m Q b -> tracks None P m Q b.
Proof. intros Hm g0 g r g' Ht. apply Hm, tracked_but_relax, Ht. Qed.

Lemma tracks_relax {A : Type} a b (P : ghostfs -> Prop) (m : M A)
    (Q : A -> ghostfs -> Prop) :
  tracks a P m Q None -> tracks a P m Q b.
Proof.
  intros Hm g0 g r g' Ht HP E.
  destruct (Hm g0 g r g' Ht HP E) as [K H]. split; [exact K |].
  destruct r; try exact H. destruct H as [T Qx]. split; [apply tracked_but_relax, T | exact Qx].
Qed.

Lemma tracks_try {A : Type} (P : ghostfs -> Prop) (m : M A) (Q : A -> ghostfs -> Prop)
    (R : ghostfs -> Prop) :
  mono R -> tracks None P m Q None ->
  tracks None (fun g => P g /\ R g) (try m)
    (fun r g => R g /\ match r with inr x => Q x g | inl _ => True end) None.
Proof.
  intros HR Hm g0 g r g' Ht [HP HRg] E. unfold try in E.
  destruct (m g) as [r1 g1] eqn:E1.
  destruct (Hm g0 g r1 g1 Ht HP E1) as [K H].
  destruct r1 as [x | e | |]; injection E as <- <-; (split; [exact K |]).
  - destruct H as [T Qx]. split; [exact T |]. split; [exact (HR _ _ K HRg) | exact Qx].
  - split; [exact H |]. split; [exact (HR _ _ K HRg) | exact I].
  - exact H.
  - exact H.
Qed.

(** A computation that leaves the handle alone. *)
Lemma tracks_reader {A : Type} a (P : ghostfs -> Prop) (m : M A) :
  (forall g, snd (m g) = g) -> (a = None \/ forall g, exists x, fst (m g) = Ok x) ->
  tracks a P m (fun _ g => P g) a.
Proof.
  intros Hm Ha g0 g r g' Ht HP E. pose proof (Hm g) as E'. rewrite E in E'. cbn in E'. subst g'.
  split; [apply keeps_dirty_refl |].
  destruct Ha as [-> | Ha].
  - destruct r; try exact Ht. split; assumption.
  - destruct (Ha g) as [x Hx]. rewrite E in Hx. cbn in Hx. subst r. split; assumption.
Qed.

Lemma mono_dirty_at p : mono (dirty_at p).
Proof. intros g g' K H. apply K, H. Qed.

Lemma mono_entry_dirty r : mono (entry_dirty r).
Proof. destruct r; [intros g g' _ H; exact H | apply mono_dirty_at]. Qed.

Lemma mono_prev_dirty prev : mono (prev_dirty prev).
Proof. destruct prev; [apply mono_dirty_at | intros g g' _ H; exact H]. Qed.

Lemma mono_true : mono (fun _ => True).
Proof. intros g g' _ H. exact H. Qed.

Lemma mono_and (R1 R2 : ghostfs -> Prop) : mono R1 -> mono R2 -> mono (fun g => R1 g /\ R2 g).
Proof. intros H1 H2 g g' K [A1 A2]. split; [exact (H1 _ _ K A1) | exact (H2 _ _ K A2)]. Qed.

(** *** Reading and writing through pointers *)

Lemma tracks_get_gfs a (P : ghostfs -> Prop) : tracks a P get_gfs (fun _ g => P g) a.
Proof. apply tracks_reader; [reflexivity | right; intros g; exists g; reflexivity]. Qed.

Lemma tracks_deref (P : ghostfs -> Prop) p : tracks None P (deref p) (fun _ g => P g) None.
Proof.
  apply tracks_reader; [| left; reflexivity].
  intros g. unfold deref. destruct (clusters g !! p); reflexivity.
Qed.

Lemma tracks_read_entry (P : ghostfs -> Prop) r :
  tracks None P (read_entry r) (fun _ g => P g) None.
Proof.
  apply tracks_reader; [| left; reflexivity].
  intros g. destruct r as [| nr idx]; [reflexivity |].
  unfold read_entry, bind, deref. destruct (clusters g !! nr); reflexivity.
Qed.

Lemma tracks_modify a (P Q : ghostfs -> Prop) (f : ghostfs -> ghostfs) :
  (forall g, clusters (f g) = clusters g) -> (forall g, gfs_stegger (f g) = gfs_stegger g) ->
  (forall g, P g -> Q (f g)) ->
  tracks a P (modify_gfs f) (fun _ g => Q g) a.
Proof.
  intros Hc Hs HQ g0 g r g' Ht HP E. unfold modify_gfs in E. injection E as <- <-.
  split; [apply keeps_dirty_same, Hc |].
  split; [exact (tracked_but_same _ _ _ _ (Hc g) (Hs g) Ht) | apply HQ, HP].
Qed.

Lemma dirty_at_same g g' p : clusters g' = clusters g -> dirty_at p g -> dirty_at p g'.
Proof. intros E H. exact (keeps_dirty_same _ _ E p H). Qed.

Lemma mono_same (R : ghostfs -> Prop) g g' : mono R -> clusters g' = clusters g -> R g -> R g'.
Proof. intros HR E. apply HR, keeps_dirty_same, E. Qed.

Lemma tracks_free_clusters_add a (R : ghostfs -> Prop) d :
  mono R -> tracks a R (free_clusters_add d) (fun _ g => R g) a.
Proof.
  intros HR. unfold free_clusters_add.
  apply tracks_modify; [reflexivity | reflexivity |].
  intros g. apply mono_same; [exact HR | reflexivity].
Qed.

Lemma update_effect a b g0 g p c (f : cluster -> cluster) :
  tracked_but a g0 g -> clusters g !! p = Some c ->
  a = None \/ a = Some p ->
  (is_dirty c = true -> is_dirty (f c) = true) ->
  b = Some p \/ is_dirty (f c) = true ->
  tracked_but b g0 (with_clusters (<[p := f c]> (clusters g)) g) /\
  keeps_dirty g (with_clusters (<[p := f c]> (clusters g)) g).
Proof.
  intros (H1 & H2 & H3 & H4) Hp Ha Hf Hb.
  assert (K : keeps_dirty g (with_clusters (<[p := f c]> (clusters g)) g)).
  { intros q (cq & Hq & Hd). unfold dirty_at. cbn.
    destruct (decide (q = p)) as [-> | Hne].
    - rewrite lookup_insert_eq. exists (f c). split; [reflexivity |].
      apply Hf. congruence.
    - rewrite lookup_insert_ne by congruence. exists cq. split; assumption. }
  split; [| exact K].
  split; [exact H1 |]. split; [| split].
  - intros nr Hnr. cbn. destruct (decide (nr = p)) as [-> | Hne].
    + rewrite lookup_insert_eq. eauto.
    + rewrite lookup_insert_ne by congruence. apply H2, Hnr.
  - exact (keeps_dirty_trans _ _ _ H3 K).
  - intros nr c' Hnb Hnr. cbn in Hnr. destruct (decide (nr = p)) as [-> | Hne].
    + rewrite lookup_insert_eq in Hnr. injection Hnr as <-.
      destruct Hb as [-> | Hb]; [congruence | left; exact Hb].
    + rewrite lookup_insert_ne in Hnr by congruence. apply H4; [| exact Hnr].
      destruct Ha as [-> | ->]; congruence.
Qed.

Lemma tracks_update_mark a (P : ghostfs -> Prop) p (f : cluster -> cluster) :
  a = None \/ a = Some p -> (forall c, is_dirty (f c) = true) ->
  tracks a P (update_cluster p f) (fun _ g => dirty_at p g) None.
Proof.
  intros Ha Hf g0 g r g' Ht HP E. unfold update_cluster in E.
  destruct (clusters g !! p) as [c |] eqn:Hp; injection E as <- <-.
  - destruct (update_effect a None g0 g p c f Ht Hp Ha (fun _ => Hf c) (or_intror (Hf c)))
      as [T K].
    split; [exact K |]. split; [exact T |].
    exists (f c). cbn. rewrite lookup_insert_eq. split; [reflexivity | apply Hf].
  - split; [apply keeps_dirty_refl |].
    destruct Ha as [-> | ->]; [exact Ht | exact (tracked_but_absent _ _ _ Ht Hp)].
Qed.

Lemma tracks_update_poke (P : ghostfs -> Prop) p (f : cluster -> cluster) :
  (forall c, is_dirty (f c) = is_dirty c) ->
  tracks (Some p) P (update_cluster p f) (fun _ _ => True) (Some p).
Proof.
  intros Hf g0 g r g' Ht HP E. unfold update_cluster in E.
  destruct (clusters g !! p) as [c |] eqn:Hp; injection E as <- <-.
  - destruct (update_effect (Some p) (Some p) g0 g p c f Ht Hp (or_intror eq_refl))
      as [T K]; [rewrite Hf; auto | left; reflexivity |].
    split; [exact K |]. split; [exact T | exact I].
  - split; [apply keeps_dirty_refl | exact (tracked_but_absent _ _ _ Ht Hp)].
Qed.

Lemma tracks_update_dirty p (f : cluster -> cluster) :
  (forall c, is_dirty (f c) = is_dirty c) ->
  tracks None (dirty_at p) (update_cluster p f) (fun _ g => dirty_at p g) None.
Proof.
  intros Hf g0 g r g' Ht (c & Hp & Hd) E. unfold update_cluster in E.
  rewrite Hp in E. injection E as <- <-.
  assert (Hd' : is_dirty (f c) = true) by (rewrite Hf; exact Hd).
  destruct (update_effect None None g0 g p c f Ht Hp (or_introl eq_refl) (fun _ => Hd')
              (or_intror Hd')) as [T K].
  split; [exact K |]. split; [exact T |].
  exists (f c). cbn. rewrite lookup_insert_eq. split; [reflexivity | exact Hd'].
Qed.

Lemma tracks_write_entry (P : ghostfs -> Prop) r off bs :
  tracks (pend r) P (write_entry r off bs) (fun _ _ => True) (pend r).
Proof.
  destruct r as [| nr idx]; cbn [pend write_entry].
  - apply tracks_modify; [reflexivity | reflexivity | auto].
  - apply tracks_update_poke. reflexivity.
Qed.

Lemma tracks_write_entry_dirty r off bs :
  tracks None (entry_dirty r) (write_entry r off bs) (fun _ g => entry_dirty r g) None.
Proof.
  destruct r as [| nr idx]; cbn [entry_dirty write_entry].
  - apply tracks_modify; [reflexivity | reflexivity | auto].
  - apply tracks_update_dirty. reflexivity.
Qed.

Lemma tracks_mark (P : ghostfs -> Prop) it :
  entry_in it ->
  tracks (pend (it_entry it)) P (update_cluster (it_cluster it) mark_cluster)
    (fun _ g => dirty_at (it_cluster it) g) None.
Proof.
  intros Hin. apply tracks_update_mark; [| reflexivity].
  destruct (it_entry it) as [| nr idx] eqn:E; [left; reflexivity |].
  right. cbn. f_equal. exact (Hin nr idx E).
Qed.

Lemma tracks_cluster_get (P : ghostfs -> Prop) nr :
  tracks None P (cluster_get nr) (fun _ _ => True) None.
Proof.
  intros g0 g r g' Ht HP E. unfold cluster_get in E.
  destruct (decide (nr >= hdr_cluster_count g)).
  { injection E as <- <-. split; [apply keeps_dirty_refl | exact Ht]. }
  destruct (clusters g !! nr) as [c |] eqn:Hc.
  { injection E as <- <-. split; [apply keeps_dirty_refl |]. split; [exact Ht | exact I]. }
  destruct (read_cluster (gfs_stegger g) nr) as [c | e | |] eqn:Hr; injection E as <- <-;
    try (split; [apply keeps_dirty_refl | exact Ht]).
  destruct Ht as (H1 & H2 & H3 & H4).
  assert (K : keeps_dirty g (with_clusters (<[nr := c]> (clusters g)) g)).
  { intros q (cq & Hq & Hd). exists cq. cbn. rewrite lookup_insert_ne by congruence.
    split; assumption. }
  split; [exact K |]. split; [| exact I].
  split; [exact H1 |]. split; [| split].
  - intros q Hq. cbn. destruct (decide (q = nr)) as [-> | Hne].
    + rewrite lookup_insert_eq. eauto.
    + rewrite lookup_insert_ne by congruence. apply H2, Hq.
  - exact (keeps_dirty_trans _ _ _ H3 K).
  - intros q c' _ Hq. cbn in Hq. destruct (decide (q = nr)) as [-> | Hne].
    + rewrite lookup_insert_eq in Hq. injection Hq as <-. right. right.
      split; [| rewrite <- H1; exact Hr].
      destruct (clusters g0 !! nr) eqn:E0; [| reflexivity].
      destruct (H2 nr) as [x Hx]; [rewrite E0; eauto | congruence].
    + rewrite lookup_insert_ne in Hq by congruence. apply H4; [discriminate | exact Hq].
Qed.

Lemma tracks_pre {A : Type} a b (P P' : ghostfs -> Prop) (m : M A) (Q : A -> ghostfs -> Prop) :
  tracks a P m Q b -> (forall g, P' g -> P g) -> tracks a P' m Q b.
Proof. intros Hm HP. apply (tracks_conseq a b P P' m Q Q Hm HP). auto. Qed.

Lemma tracks_post {A : Type} a b (P : ghostfs -> Prop) (m : M A) (Q Q' : A -> ghostfs -> Prop) :
  tracks a P m Q b -> (forall x g, Q x g -> Q' x g) -> tracks a P m Q' b.
Proof. intros Hm HQ. apply (tracks_conseq a b P P m Q Q' Hm); auto. Qed.

Lemma tracks_pure {A : Type} a b (phi : Prop) (m : M A) (Q : A -> ghostfs -> Prop) :
  (phi -> tracks a (fun _ => True) m Q b) -> tracks a (fun _ => phi) m Q b.
Proof. intros H g0 g r g' Ht Hphi E. exact (H Hphi g0 g r g' Ht I E). Qed.

Lemma tracks_keep {A : Type} a b (R : ghostfs -> Prop) (m : M A) (Q : A -> ghostfs -> Prop) :
  mono R -> tracks a (fun _ => True) m Q b -> tracks a R m (fun x g => Q x g /\ R g) b.
Proof.
  intros HR Hm. eapply tracks_pre; [apply (tracks_frame a b _ R m Q HR Hm) |].
  intros g H. split; [exact I | exact H].
Qed.

Lemma tracks_try_keep {A : Type} (R : ghostfs -> Prop) (m : M A) (Q : A -> ghostfs -> Prop) :
  mono R -> tracks None (fun _ => True) m Q None ->
  tracks None R (try m)
    (fun r g => R g /\ match r with inr x => Q x g | inl _ => True end) None.
Proof.
  intros HR Hm. eapply tracks_pre; [apply (tracks_try _ m Q R HR Hm) |].
  intros g H. split; [exact I | exact H].
Qed.

Ltac tr_side := first [intros ? H; exact H | intros; exact I | cbn; intros; tauto].
Ltac tr_pre L := eapply tracks_pre; [apply L | tr_side].
Ltac tr_bind L := eapply tracks_bind; [tr_pre L |].

(** *** The cluster cache and the iterators *)

Lemma tracks_cluster_get_next p :
  tracks None (fun _ => True) (cluster_get_next p) (fun _ _ => True) None.
Proof.
  unfold cluster_get_next. tr_bind tracks_deref. intros c.
  destruct (decide (next c = 0)); [apply tracks_fail | apply tracks_cluster_get].
Qed.

Lemma tracks_cluster_at_loop n :
  forall nr c, tracks None (fun _ => True) (cluster_at_loop n nr c) (fun _ _ => True) None.
Proof.
  induction n as [| n IH]; intros nr c; cbn [cluster_at_loop].
  - apply tracks_ret. auto.
  - destruct (decide (nr = 0)); [apply tracks_fail |].
    tr_bind tracks_cluster_get. intros p. tr_bind tracks_deref. intros cl. apply IH.
Qed.

Lemma tracks_cluster_at nr index :
  tracks None (fun _ => True) (cluster_at nr index) (fun _ _ => True) None.
Proof. apply tracks_cluster_at_loop. Qed.

Lemma tracks_dir_iter_init nr :
  tracks None (fun _ => True) (dir_iter_init nr) (fun it _ => entry_in it) None.
Proof.
  unfold dir_iter_init. tr_bind tracks_cluster_get. intros c.
  apply tracks_ret. intros _ _ q idx E. cbn in E. injection E as <- _. reflexivity.
Qed.

Lemma tracks_dir_iter_next it :
  entry_in it ->
  tracks None (fun _ => True) (dir_iter_next it) (fun it' _ => entry_in it') None.
Proof.
  intros Hin. unfold dir_iter_next.
  destruct (decide (it_entry_nr it >= CLUSTER_DIRENTS - 1)).
  - tr_bind tracks_deref. intros c.
    destruct (decide (next c = 0)); [apply tracks_fail |].
    tr_bind tracks_cluster_get_next. intros c'.
    apply tracks_ret. intros _ _ q idx E. cbn in E. injection E as <- _. reflexivity.
  - destruct (it_entry it) as [| nr idx] eqn:Hent; cbn [entry_succ].
    + apply tracks_bind with (b := None) (Q1 := fun _ _ => False); [apply tracks_undefined |].
      intros r. apply tracks_ret. intros g [].
    + apply tracks_bind with (b := None) (Q1 := fun r _ => r = ClusterEntry nr (idx + 1));
        [apply tracks_ret; reflexivity |].
      intros r. apply tracks_ret. intros g Hr q j E. cbn in E. cbn.
      apply (Hin q idx). rewrite Hent. rewrite Hr in E. injection E as <- _. reflexivity.
Qed.

Lemma tracks_dir_iter_next_used fuel :
  forall it, entry_in it ->
    tracks None (fun _ => True) (dir_iter_next_used fuel it) (fun it' _ => entry_in it') None.
Proof.
  induction fuel as [| fuel IH]; intros it Hin; cbn [dir_iter_next_used].
  - apply tracks_out_of_fuel.
  - eapply tracks_bind; [apply tracks_dir_iter_next, Hin |].
    intros it'. cbn beta. apply tracks_pure. intros Hin'.
    tr_bind tracks_read_entry. intros e.
    destruct (dir_entry_used e); [apply tracks_ret; auto | apply IH, Hin'].
Qed.

Lemma tracks_dir_iter_lookup_loop fuel skip_last :
  forall it comp, entry_in it ->
    tracks None (fun _ => True) (dir_iter_lookup_loop fuel skip_last it comp)
      (fun it' _ => entry_in it') None.
Proof.
  induction fuel as [| fuel IH]; intros it comp Hin; cbn [dir_iter_lookup_loop].
  - apply tracks_out_of_fuel.
  - tr_bind tracks_read_entry. intros e.
    destruct (component_eq comp (filename e) (Z.to_nat FILENAME_SIZE)).
    + destruct (strchr comp slash) as [nx |]; [| apply tracks_ret; auto].
      destruct (skip_last && bool_decide (strchr (tl nx) slash = None));
        [apply tracks_ret; auto |].
      destruct (negb (dir_entry_is_directory e)); [apply tracks_fail |].
      eapply tracks_bind; [apply tracks_dir_iter_init |].
      intros it'. cbn beta. apply tracks_pure. intros Hin'. apply IH, Hin'.
    + eapply tracks_bind; [apply tracks_dir_iter_next_used, Hin |].
      intros it'. cbn beta. apply tracks_pure. intros Hin'. apply IH, Hin'.
Qed.

Lemma tracks_dir_iter_lookup fuel path skip_last :
  tracks None (fun _ => True) (dir_iter_lookup fuel path skip_last)
    (fun it _ => entry_in it) None.
Proof.
  unfold dir_iter_lookup. destruct (decide (hd x00 path ≠ slash)); [apply tracks_fail |].
  eapply tracks_bind; [apply tracks_dir_iter_init |].
  intros it. cbn beta. apply tracks_pure. intros Hin.
  destruct (bool_decide (hd x00 (tl path) = x00) ||
            skip_last && bool_decide (strchr (tl path) slash = None)).
  - apply tracks_ret. intros _ _ nr idx E. discriminate E.
  - apply tracks_dir_iter_lookup_loop, Hin.
Qed.

Lemma tracks_find_empty_entry_loop fuel :
  forall it, entry_in it ->
    tracks None (fun _ => True) (find_empty_entry_loop fuel it)
      (fun p _ => entry_in (fst p)) None.
Proof.
  induction fuel as [| fuel IH]; intros it Hin; cbn [find_empty_entry_loop].
  - apply tracks_out_of_fuel.
  - tr_bind tracks_read_entry. intros e.
    destruct (dir_entry_used e); [| apply tracks_ret; auto].
    eapply tracks_bind;
      [apply (tracks_try_keep (fun _ => True)); [apply mono_true | apply tracks_dir_iter_next, Hin] |].
    intros [err | it']; cbn.
    + destruct err; try apply tracks_fail. apply tracks_ret. auto.
    + eapply tracks_pre; [apply (tracks_pure _ _ (entry_in it')); intros Hin'; apply IH, Hin' | cbn; tauto].
Qed.

Lemma tracks_find_empty_entry fuel nr :
  tracks None (fun _ => True) (find_empty_entry fuel nr) (fun p _ => entry_in (fst p)) None.
Proof.
  unfold find_empty_entry. eapply tracks_bind; [apply tracks_dir_iter_init |].
  intros it. cbn beta. apply tracks_pure. intros Hin. apply tracks_find_empty_entry_loop, Hin.
Qed.

Lemma tracks_dir_contains_loop fuel name :
  forall it, entry_in it ->
    tracks None (fun _ => True) (dir_contains_loop fuel it name) (fun _ _ => True) None.
Proof.
  induction fuel as [| fuel IH]; intros it Hin; cbn [dir_contains_loop].
  - apply tracks_out_of_fuel.
  - tr_bind tracks_read_entry. intros e.
    destruct (strncmp_eq (filename e) name (Z.to_nat FILENAME_SIZE)); [apply tracks_ret; auto |].
    eapply tracks_bind; [apply tracks_dir_iter_next_used, Hin |].
    intros it'. cbn beta. apply tracks_pure. intros Hin'. apply IH, Hin'.
Qed.

Lemma tracks_dir_contains fuel nr name :
  tracks None (fun _ => True) (dir_contains fuel nr name) (fun _ _ => True) None.
Proof.
  unfold dir_contains. eapply tracks_bind; [apply tracks_dir_iter_init |].
  intros it. cbn beta. apply tracks_pure. intros Hin. apply tracks_dir_contains_loop, Hin.
Qed.

(** *** The allocator *)

Lemma tracks_alloc_scan n :
  forall count zero prev first pos alloc,
    tracks None (prev_dirty prev) (alloc_scan n count zero prev first pos alloc)
      (fun r g => prev_dirty (snd (fst (fst r))) g) None.
Proof.
  induction n as [| n IH]; intros count zero prev first pos alloc; cbn [alloc_scan];
    (destruct (decide (alloc < count)); [| apply tracks_ret; auto]).
  - apply tracks_out_of_fuel.
  - tr_bind tracks_get_gfs. intros g1.
    destruct (decide (pos >= hdr_cluster_count g1)); [apply tracks_ret; auto |].
    eapply tracks_bind;
      [apply (tracks_try_keep (prev_dirty prev));
        [apply mono_prev_dirty | apply (tracks_cluster_get _ pos)] |].
    intros [e | c].
    + apply tracks_ret. cbn. tauto.
    + tr_bind tracks_deref. intros cl.
      destruct (decide (used cl = 0)).
      * eapply tracks_bind.
        { eapply tracks_pre;
            [apply (tracks_keep None None (prev_dirty prev) _ (fun _ g => dirty_at c g));
              [apply mono_prev_dirty |
               apply tracks_update_mark; [left; reflexivity | reflexivity]] |].
          cbn. tauto. }
        intros ?; cbn beta.
        eapply tracks_bind.
        { apply (tracks_free_clusters_add None (fun g => dirty_at c g /\ prev_dirty prev g)).
          apply mono_and; [apply mono_dirty_at | apply mono_prev_dirty]. }
        intros ?; cbn beta.
        eapply tracks_bind with (Q1 := fun _ g => dirty_at c g).
        { destruct (decide (first = 0)); [apply tracks_ret; cbn; tauto |].
          destruct prev as [p |]; [| apply tracks_undefined].
          eapply tracks_conseq;
            [apply (tracks_frame None None _ (dirty_at c) _ _ (mono_dirty_at c)
                      (tracks_update_dirty p (set_next pos) (fun _ => eq_refl))) | |];
            cbn; tauto. }
        intros ?; cbn beta. apply (IH count zero (Some c)).
      * eapply tracks_pre; [apply IH | cbn; tauto].
Qed.

Lemma tracks_alloc_undo n :
  forall pos e, tracks None (fun _ => True) (alloc_undo n pos e) (fun _ _ => True) None.
Proof.
  induction n as [| n IH]; intros pos e; cbn [alloc_undo].
  - apply tracks_fail.
  - tr_bind tracks_cluster_get. intros c.
    eapply tracks_bind;
      [apply (tracks_update_mark None (fun _ => True)); [left; reflexivity | reflexivity] |].
    intros ?; cbn beta. eapply tracks_bind; [apply (tracks_free_clusters_add None _ 1), mono_dirty_at |].
    intros ?; cbn beta. tr_bind tracks_deref. intros cl. tr_pre IH.
Qed.

Lemma tracks_alloc_clusters count zero :
  tracks None (fun _ => True) (alloc_clusters count zero) (fun _ _ => True) None.
Proof.
  unfold alloc_clusters. tr_bind tracks_get_gfs. intros g1.
  eapply tracks_bind; [eapply tracks_pre; [apply tracks_alloc_scan | cbn; auto] |].
  intros [[[ex prev] first] alloc]. cbn [fst snd].
  destruct ex as [| e].
  - destruct prev as [p |]; [| apply tracks_undefined].
    eapply tracks_bind; [apply tracks_update_dirty; reflexivity |].
    intros ?; cbn beta. apply tracks_ret. auto.
  - tr_pre tracks_alloc_undo.
Qed.

Lemma tracks_free_clusters fuel :
  forall c, tracks None (fun _ => True) (free_clusters fuel c) (fun _ _ => True) None.
Proof.
  induction fuel as [| fuel IH]; intros c; cbn [free_clusters].
  - apply tracks_out_of_fuel.
  - eapply tracks_bind;
      [apply (tracks_update_mark None (fun _ => True)); [left; reflexivity | reflexivity] |].
    intros ?; cbn beta. eapply tracks_bind; [apply (tracks_free_clusters_add None _ 1), mono_dirty_at |].
    intros ?; cbn beta. tr_bind tracks_deref. intros cl.
    destruct (decide (next cl = 0)); [apply tracks_ret; auto |].
    tr_bind tracks_cluster_get. intros c'. tr_pre IH.
Qed.

(** *** Entries *)

Lemma tracks_create_entry fuel path is_dir :
  tracks None (fun _ => True) (create_entry fuel path is_dir)
    (fun r g => entry_dirty r g) None.
Proof.
  unfold create_entry.
  eapply tracks_bind; [apply tracks_dir_iter_lookup |]. intros it. cbn beta.
  apply tracks_pure. intros _.
  tr_bind tracks_read_entry. intros parent.
  destruct (negb (dir_entry_is_directory parent)); [apply tracks_fail |].
  cbn zeta.
  destruct (decide (strlen (last_component path) > FILENAME_SIZE - 1)); [apply tracks_fail |].
  destruct (decide (hd x00 (last_component path) = x00)); [apply tracks_fail |].
  eapply tracks_bind;
    [apply (tracks_try_keep (fun _ => True)); [apply mono_true | apply tracks_dir_contains] |].
  intros [e | u]; [| apply tracks_fail].
  eapply tracks_bind; [tr_pre tracks_find_empty_entry |].
  intros [it1 o]. cbn beta. cbn [fst].
  apply tracks_pure. intros Hin1.
  eapply tracks_bind with (b := None)
    (Q1 := fun slot g => entry_in (fst slot) /\
             match snd slot with Some (_, prev) => dirty_at prev g | None => True end).
  { destruct o as [e1 |].
    - tr_bind tracks_alloc_clusters. intros nr.
      eapply tracks_bind;
        [apply (tracks_try_keep (fun _ => True));
          [apply mono_true | apply tracks_find_empty_entry] |].
      intros again. cbn beta.
      eapply tracks_pre;
        [apply (tracks_pure _ _
                  (entry_in (match again with inr (i, _) => i | inl _ => it1 end))) |].
      2: { intros g [_ H]. destruct again as [? | [i ?]]; [exact Hin1 | exact H]. }
      intros Hin2.
      eapply tracks_bind;
        [apply (tracks_update_mark None (fun _ => True)); [left; reflexivity | reflexivity] |].
      intros ?; cbn beta. apply tracks_ret. intros g Hd. cbn. split; assumption.
    - apply tracks_ret. intros g _. cbn. split; [exact Hin1 | exact I]. }
  intros slot. cbn beta. apply tracks_assume. intros Hin'.
  eapply tracks_bind with (b := None) (Q1 := fun _ _ => True).
  { destruct is_dir; [| apply tracks_ret; auto].
    eapply tracks_bind.
    { apply (tracks_try_keep
               (fun g => match snd slot with Some (_, prev) => dirty_at prev g | None => True end)).
      - destruct (snd slot) as [[nx prev] |]; [apply mono_dirty_at | apply mono_true].
      - apply tracks_alloc_clusters. }
    intros [e2 | n2]; [| apply tracks_ret; auto].
    eapply tracks_bind with (b := None) (Q1 := fun _ _ => True); [| intros ?; apply tracks_fail].
    destruct (snd slot) as [[nx prev] |]; [| apply tracks_ret; auto].
    eapply tracks_bind.
    { eapply tracks_pre;
        [apply (tracks_try_keep (dirty_at prev)); [apply mono_dirty_at | apply tracks_free_clusters] |].
      cbn. tauto. }
    intros ?; cbn beta.
    eapply tracks_conseq; [apply (tracks_update_dirty prev (set_next 0)); reflexivity | | auto].
    cbn. tauto. }
  intros nr. apply (tracks_enter (pend (it_entry (fst slot)))).
  eapply tracks_bind; [apply tracks_write_entry |]. intros ?; cbn beta.
  eapply tracks_bind; [apply tracks_write_entry |]. intros ?; cbn beta.
  eapply tracks_bind; [apply tracks_write_entry |]. intros ?; cbn beta.
  eapply tracks_bind; [apply tracks_mark, Hin' |]. intros ?; cbn beta.
  apply tracks_ret. intros g Hd.
  destruct (it_entry (fst slot)) as [| q idx] eqn:E; cbn; [exact I |].
  rewrite (Hin' q idx E). exact Hd.
Qed.

Lemma tracks_remove_entry fuel path is_dir :
  tracks None (fun _ => True) (remove_entry fuel path is_dir) (fun _ _ => True) None.
Proof.
  unfold remove_entry.
  eapply tracks_bind; [apply tracks_dir_iter_lookup |]. intros link. cbn beta.
  apply tracks_pure. intros Hin.
  destruct (decide (it_entry link = RootEntry)); [apply tracks_fail |].
  tr_bind tracks_read_entry. intros le.
  destruct (negb (eqb is_dir (dir_entry_is_directory le))); [apply tracks_fail |].
  eapply tracks_bind with (b := None) (Q1 := fun _ _ => True).
  { destruct (decide (cluster_nr le = 0)); [apply tracks_ret; auto |].
    eapply tracks_bind; [tr_pre tracks_dir_iter_init |]. intros it. cbn beta.
    apply tracks_pure. intros Hit.
    eapply tracks_bind with (b := None) (Q1 := fun _ _ => True).
    { destruct is_dir; [| apply tracks_ret; auto].
      tr_bind tracks_read_entry. intros e.
      destruct (dir_entry_used e); [apply tracks_fail |].
      eapply tracks_bind;
        [apply (tracks_try_keep (fun _ => True));
          [apply mono_true | apply tracks_dir_iter_next_used, Hit] |].
      intros [err | x]; [| apply tracks_fail].
      destruct err; try apply tracks_fail; apply tracks_ret; auto. }
    intros ?; cbn beta.
    eapply tracks_bind;
      [apply (tracks_try_keep (fun _ => True)); [apply mono_true | apply tracks_free_clusters] |].
    intros ?; cbn beta. apply tracks_ret; auto. }
  intros ?; cbn beta. apply (tracks_enter (pend (it_entry link))).
  eapply tracks_bind; [apply tracks_write_entry |]. intros ?; cbn beta.
  eapply tracks_post; [apply tracks_mark, Hin | auto].
Qed.

(** *** Files *)

Lemma tracks_do_truncate fuel it new_size :
  entry_in it ->
  tracks None (fun _ => True) (do_truncate fuel it new_size) (fun _ _ => True) None.
Proof.
  intros Hin. unfold do_truncate.
  destruct (decide (new_size < 0)); [apply tracks_fail |].
  destruct (decide (new_size > FILESIZE_MAX)); [apply tracks_fail |].
  tr_bind tracks_read_entry. intros e.
  destruct (dir_entry_is_directory e); [apply tracks_fail |].
  cbn zeta.
  eapply tracks_bind with (b := None) (Q1 := fun _ _ => True).
  { destruct (decide (size_to_clusters (s32 (Z.min (size e) new_size)) ≠ 0));
      [| apply tracks_ret; auto].
    tr_bind tracks_cluster_at. intros [p |]; [| apply tracks_undefined].
    tr_bind tracks_deref. intros cl. apply tracks_ret; auto. }
  intros [c nxt]. cbn [fst snd].
  eapply tracks_bind with (b := pend (it_entry it)) (Q1 := fun _ _ => True).
  { destruct (decide (new_size > size e)).
    - eapply tracks_bind with (b := None) (Q1 := fun _ _ => True).
      { destruct (decide (size e mod CLUSTER_DATA ≠ 0)); [| apply tracks_ret; auto].
        destruct c as [p |]; [| apply tracks_undefined].
        eapply tracks_post;
          [apply tracks_update_mark; [left; reflexivity | reflexivity] | auto]. }
      intros ?; cbn beta.
      destruct (decide (size_to_clusters (s32 new_size) -
                        size_to_clusters (s32 (Z.min (size e) new_size)) ≠ 0));
        [| apply tracks_relax, tracks_ret; auto].
      tr_bind tracks_alloc_clusters. intros r.
      destruct c as [p |].
      + apply tracks_relax.
        eapply tracks_post;
          [apply tracks_update_mark; [left; reflexivity | reflexivity] | auto].
      + apply (tracks_enter (pend (it_entry it))). tr_pre tracks_write_entry.
    - apply tracks_relax.
      destruct (decide (new_size < size e)); [| apply tracks_ret; auto].
      destruct (decide (nxt ≠ 0)); [| apply tracks_ret; auto].
      eapply tracks_bind with (b := None) (Q1 := fun _ _ => True).
      { destruct c as [p |]; [| apply tracks_ret; auto].
        eapply tracks_post;
          [apply tracks_update_mark; [left; reflexivity | reflexivity] | auto]. }
      intros ?; cbn beta. tr_bind tracks_cluster_get. intros c'.
      eapply tracks_bind;
        [apply (tracks_try_keep (fun _ => True)); [apply mono_true | apply tracks_free_clusters] |].
      intros ?; cbn beta. apply tracks_ret; auto. }
  intros ?; cbn beta. eapply tracks_bind; [apply tracks_write_entry |]. intros ?; cbn beta.
  eapply tracks_post; [apply tracks_mark, Hin | auto].
Qed.

Lemma tracks_ghostfs_truncate fuel path new_size :
  tracks None (fun _ => True) (ghostfs_truncate fuel path new_size) (fun _ _ => True) None.
Proof.
  unfold ghostfs_truncate.
  eapply tracks_bind; [apply tracks_dir_iter_lookup |]. intros it. cbn beta.
  apply tracks_pure. intros Hin. apply tracks_do_truncate, Hin.
Qed.

Lemma tracks_ghostfs_rename fuel path newpath :
  tracks None (fun _ => True) (ghostfs_rename fuel path newpath) (fun _ _ => True) None.
Proof.
  unfold ghostfs_rename.
  eapply tracks_bind; [apply tracks_dir_iter_lookup |]. intros it. cbn beta.
  apply tracks_pure. intros Hin.
  destruct (decide (it_entry it = RootEntry)); [apply tracks_fail |].
  eapply tracks_bind;
    [apply (tracks_try_keep (fun _ => True)); [apply mono_true | apply tracks_remove_entry] |].
  intros ?; cbn beta. eapply tracks_bind; [tr_pre tracks_create_entry |]. intros entry. cbn beta.
  eapply tracks_bind.
  { apply (tracks_enter (pend (it_entry it))).
    apply (tracks_keep _ _ (entry_dirty entry)); [apply mono_entry_dirty | apply tracks_write_entry]. }
  intros ?; cbn beta.
  eapply tracks_bind.
  { eapply tracks_pre;
      [apply (tracks_keep _ _ (entry_dirty entry));
        [apply mono_entry_dirty | apply tracks_mark, Hin] |].
    cbn. tauto. }
  intros ?; cbn beta. tr_bind tracks_read_entry. intros old.
  eapply tracks_bind; [eapply tracks_pre; [apply tracks_write_entry_dirty | cbn; tauto] |].
  intros ?; cbn beta. tr_bind tracks_read_entry. intros old'.
  eapply tracks_post; [apply tracks_write_entry_dirty | auto].
Qed.

Lemma tracks_ghostfs_open fuel path :
  tracks None (fun _ => True) (ghostfs_open fuel path) (fun it _ => entry_in it) None.
Proof.
  unfold ghostfs_open.
  eapply tracks_bind; [apply tracks_dir_iter_lookup |]. intros it. cbn beta.
  apply tracks_pure. intros Hin.
  tr_bind tracks_read_entry. intros e.
  destruct (dir_entry_is_directory e); [apply tracks_fail | apply tracks_ret; auto].
Qed.

Lemma tracks_write_loop n :
  forall c buf offset written,
    tracks None (fun _ => True) (write_loop n c buf offset written) (fun _ _ => True) None.
Proof.
  induction n as [| n IH]; intros c buf offset written; cbn [write_loop].
  - apply tracks_out_of_fuel.
  - cbn zeta.
    eapply tracks_bind;
      [apply (tracks_update_mark None (fun _ => True)); [left; reflexivity | reflexivity] |].
    intros ?; cbn beta.
    destruct (decide (Z.of_nat (length buf) - chunk (Z.of_nat (length buf)) offset = 0));
      [apply tracks_ret; auto |].
    tr_bind tracks_cluster_get_next. intros c'. apply IH.
Qed.

Lemma tracks_ghostfs_write fuel gentry buf offset :
  entry_in gentry ->
  tracks None (fun _ => True) (ghostfs_write fuel gentry buf offset) (fun _ _ => True) None.
Proof.
  intros Hin. unfold ghostfs_write. cbn zeta.
  destruct (decide (offset < 0)); [apply tracks_fail |].
  destruct (decide (u64 (Z.of_nat (length buf) + offset) < Z.of_nat (length buf)));
    [apply tracks_fail |].
  tr_bind tracks_read_entry. intros e.
  eapply tracks_bind with (b := None) (Q1 := fun _ _ => True).
  { destruct (decide (size e < u64 (offset + Z.of_nat (length buf))));
      [apply tracks_do_truncate, Hin | apply tracks_ret; auto]. }
  intros ?; cbn beta. tr_bind tracks_read_entry. intros e'.
  tr_bind tracks_cluster_at. intros [p |]; [apply tracks_write_loop | apply tracks_undefined].
Qed.

(** ** Reading only loads *)

Lemma loads_refl g : loads g g.
Proof. split; [destruct g; reflexivity | intros nr; left; reflexivity]. Qed.

Lemma loads_trans g1 g2 g3 : loads g1 g2 -> loads g2 g3 -> loads g1 g3.
Proof.
  intros [E1 H1] [E2 H2].
  assert (Es : gfs_stegger g2 = gfs_stegger g1) by (rewrite E1; reflexivity).
  split.
  - clear H1 H2 Es. destruct g1, g2, g3. unfold with_clusters in *. cbn in *. congruence.
  - intros nr. destruct (H2 nr) as [Hs | (Hn & c & Hr & Hc)].
    + rewrite Hs. exact (H1 nr).
    + destruct (H1 nr) as [Hs1 | (_ & c1 & _ & Hc1)]; [| congruence].
      right. split; [congruence |]. exists c. split; [congruence | exact Hc].
Qed.

Lemma quiet_ret {A : Type} (x : A) : quiet (ret x).
Proof. intros g r g' E. injection E as _ <-. apply loads_refl. Qed.

Lemma quiet_fail {A : Type} e : quiet (@fail A e).
Proof. intros g r g' E. injection E as _ <-. apply loads_refl. Qed.

Lemma quiet_undefined {A : Type} : quiet (@undefined A).
Proof. intros g r g' E. injection E as _ <-. apply loads_refl. Qed.

Lemma quiet_out_of_fuel {A : Type} : quiet (@out_of_fuel A).
Proof. intros g r g' E. injection E as _ <-. apply loads_refl. Qed.

Lemma quiet_bind {A B : Type} (m : M A) (k : A -> M B) :
  quiet m -> (forall x, quiet (k x)) -> quiet (bind m k).
Proof.
  intros Hm Hk g r g' E. unfold bind in E. destruct (m g) as [r1 g1] eqn:E1.
  pose proof (Hm g r1 g1 E1) as L1.
  destruct r1 as [x | e | |]; try (injection E as _ <-; exact L1).
  exact (loads_trans _ _ _ L1 (Hk x g1 r g' E)).
Qed.

Lemma quiet_try {A : Type} (m : M A) : quiet m -> quiet (try m).
Proof.
  intros Hm g r g' E. unfold try in E. destruct (m g) as [r1 g1] eqn:E1.
  pose proof (Hm g r1 g1 E1) as L1.
  destruct r1; injection E as _ <-; exact L1.
Qed.

Lemma quiet_deref p : quiet (deref p).
Proof.
  intros g r g' E. unfold deref in E.
  destruct (clusters g !! p); injection E as _ <-; apply loads_refl.
Qed.

Lemma quiet_get_gfs : quiet get_gfs.
Proof. intros g r g' E. injection E as _ <-. apply loads_refl. Qed.

Lemma quiet_cluster_get nr : quiet (cluster_get nr).
Proof.
  intros g r g' E. unfold cluster_get in E.
  destruct (decide (nr >= hdr_cluster_count g)); [injection E as _ <-; apply loads_refl |].
  destruct (clusters g !! nr) as [c |] eqn:Hc; [injection E as _ <-; apply loads_refl |].
  destruct (read_cluster (gfs_stegger g) nr) as [c | e | |] eqn:Hr;
    injection E as _ <-; try apply loads_refl.
  split; [reflexivity |]. intros q. cbn. destruct (decide (q = nr)) as [-> | Hne].
  - right. split; [exact Hc |]. exists c. split; [exact Hr | apply lookup_insert_eq].
  - left. apply lookup_insert_ne. congruence.
Qed.

Create HintDb quiet.

#[local] Hint Resolve quiet_ret quiet_fail quiet_undefined quiet_out_of_fuel quiet_try
  quiet_deref quiet_get_gfs quiet_cluster_get : quiet.

Ltac quiet_step :=
  match goal with
  | |- quiet (bind _ _) => apply quiet_bind; [| intros ?]
  | |- quiet (match ?x with _ => _ end) => destruct x
  | |- quiet _ => solve [auto with quiet]
  end.

Ltac quiet_steps := repeat quiet_step.

Lemma quiet_read_entry r : quiet (read_entry r).
Proof. destruct r; unfold read_entry; quiet_steps. Qed.

#[local] Hint Resolve quiet_read_entry : quiet.

Lemma quiet_cluster_get_next p : quiet (cluster_get_next p).
Proof. unfold cluster_get_next. quiet_steps. Qed.

#[local] Hint Resolve quiet_cluster_get_next : quiet.

Lemma quiet_cluster_at nr index : quiet (cluster_at nr index).
Proof.
  unfold cluster_at. generalize (@None Z) as c. revert nr.
  induction (Z.to_nat (index + 1)) as [| n IH]; intros nr c; cbn [cluster_at_loop];
    quiet_steps.
Qed.

Lemma quiet_dir_iter_init nr : quiet (dir_iter_init nr).
Proof. unfold dir_iter_init. quiet_steps. Qed.

#[local] Hint Resolve quiet_cluster_at quiet_dir_iter_init : quiet.

Lemma quiet_dir_iter_next it : quiet (dir_iter_next it).
Proof. unfold dir_iter_next, entry_succ. quiet_steps. Qed.

#[local] Hint Resolve quiet_dir_iter_next : quiet.

Lemma quiet_dir_iter_next_used fuel it : quiet (dir_iter_next_used fuel it).
Proof.
  revert it. induction fuel as [| fuel IH]; intros it; cbn [dir_iter_next_used]; quiet_steps.
Qed.

#[local] Hint Resolve quiet_dir_iter_next_used : quiet.

Lemma quiet_dir_iter_lookup_loop fuel skip_last it comp :
  quiet (dir_iter_lookup_loop fuel skip_last it comp).
Proof.
  revert it comp. induction fuel as [| fuel IH]; intros it comp;
    cbn [dir_iter_lookup_loop]; quiet_steps.
Qed.

#[local] Hint Resolve quiet_dir_iter_lookup_loop : quiet.

Lemma quiet_dir_iter_lookup fuel path skip_last : quiet (dir_iter_lookup fuel path skip_last).
Proof. unfold dir_iter_lookup. quiet_steps. Qed.

#[local] Hint Resolve quiet_dir_iter_lookup : quiet.

Lemma quiet_read_loop n c size_ offset acc nread :
  quiet (read_loop n c size_ offset acc nread).
Proof.
  revert c size_ offset acc nread.
  induction n as [| n IH]; intros c size_ offset acc nread; cbn [read_loop]; cbn zeta;
    quiet_steps.
Qed.

#[local] Hint Resolve quiet_read_loop : quiet.

Lemma quiet_stream_next_used fuel it : quiet (stream_next_used fuel it).
Proof. unfold stream_next_used. quiet_steps. Qed.

#[local] Hint Resolve quiet_stream_next_used : quiet.

(** X29: opening a file or a directory, asking for attributes, reading
    from a file and stepping through a directory stream change nothing in
    the handle except that clusters are loaded into the cache as the
    carrier has them: header, root entry, free count, carrier and every
    cluster already cached stay as they are, whatever the call returns. *)
Theorem reading_only_loads uid gid mount_time fuel path it size_ offset h :
  quiet (ghostfs_open fuel path) /\
  quiet (ghostfs_opendir fuel path) /\
  quiet (ghostfs_getattr uid gid mount_time fuel path) /\
  quiet (ghostfs_read it size_ offset) /\
  quiet (ghostfs_next_entry fuel h) /\
  quiet (ghostfs_entry_name (it_entry it)).
Proof.
  split_and!.
  - unfold ghostfs_open. quiet_steps.
  - unfold ghostfs_opendir. quiet_steps.
  - unfold ghostfs_getattr. quiet_steps.
  - unfold ghostfs_read. cbn zeta. quiet_steps.
  - unfold ghostfs_next_entry. quiet_steps.
  - unfold ghostfs_entry_name. quiet_steps.
Qed.

(** ** What a later [ghostfs_sync] will write back *)

Lemma tracks_run {A : Type} (m : M A) (Q : A -> ghostfs -> Prop) g r g' :
  tracks None (fun _ => True) m Q None -> m g = (r, g') ->
  tracked_but None g g' /\ forall x, r = Ok x -> Q x g'.
Proof.
  intros Hm E. destruct (Hm g g r g' (tracked_but_refl None g) I E) as [_ H].
  destruct r as [x | e | |]; try (split; [exact H | intros x Hx; discriminate Hx]).
  destruct H as [T Qx]. split; [exact T |]. intros y Hy. injection Hy as <-. exact Qx.
Qed.

Lemma tracks_coherent {A : Type} (m : M A) (Q : A -> ghostfs -> Prop) g r g' :
  tracks None (fun _ => True) m Q None -> coherent g -> m g = (r, g') ->
  coherent g' /\ gfs_stegger g' = gfs_stegger g /\ keeps_dirty g g'.
Proof.
  intros Hm Hc E. destruct (tracks_run m Q g r g' Hm E) as [T _].
  split; [exact (tracked_coherent _ _ T Hc) |].
  destruct T as (H1 & _ & H3 & _). split; assumption.
Qed.

(** X27: creating, removing and renaming entries never touch the carrier,
    never clear a dirty flag, and flag every cached cluster they change: if
    the clean clusters of the cache agree with the carrier before the call
    they agree with it after, whatever the call returns. *)
Theorem namespace_changes_are_flagged fuel path newpath (op : M unit) g r g' :
  op ∈ [ghostfs_create fuel path; ghostfs_mkdir fuel path; ghostfs_unlink fuel path;
        ghostfs_rmdir fuel path; ghostfs_rename fuel path newpath] ->
  coherent g -> op g = (r, g') ->
  coherent g' /\ gfs_stegger g' = gfs_stegger g /\ keeps_dirty g g'.
Proof.
  intros Hop. apply (tracks_coherent op (fun _ _ => True)).
  repeat (apply elem_of_cons in Hop as [-> | Hop]).
  - unfold ghostfs_create. eapply tracks_bind; [apply tracks_create_entry |].
    intros x. apply tracks_ret. auto.
  - unfold ghostfs_mkdir. eapply tracks_bind; [apply tracks_create_entry |].
    intros x. apply tracks_ret. auto.
  - apply tracks_remove_entry.
  - apply tracks_remove_entry.
  - apply tracks_ghostfs_rename.
  - apply elem_of_nil in Hop. destruct Hop.
Qed.

Lemma namespace_changes_are_flagged_witness :
  coherent (snd (ghostfs_unlink 8 (path_of "/a") written_a)).
Proof.
  destruct (namespace_changes_are_flagged 8 (path_of "/a") (path_of "/b")
              (ghostfs_unlink 8 (path_of "/a")) written_a
              (fst (ghostfs_unlink 8 (path_of "/a") written_a))
              (snd (ghostfs_unlink 8 (path_of "/a") written_a))) as [H _].
  - do 2 apply list_elem_of_further. apply list_elem_of_here.
  - exact coherent_written_a.
  - apply surjective_pairing.
  - exact H.
Defined.

(** X28: changing the size of a file and writing through a handle that
    [ghostfs_open] returned never touch the carrier, never clear a dirty
    flag, and flag every cached cluster they change, whatever they
    return. *)
Theorem file_changes_are_flagged fuel path new_size g :
  coherent g ->
  (forall r g',
     ghostfs_truncate fuel path new_size g = (r, g') ->
     coherent g' /\ gfs_stegger g' = gfs_stegger g /\ keeps_dirty g g') /\
  (forall fuel0 g0 it g1 buf offset r g',
     ghostfs_open fuel0 path g0 = (Ok it, g1) ->
     ghostfs_write fuel it buf offset g = (r, g') ->
     coherent g' /\ gfs_stegger g' = gfs_stegger g /\ keeps_dirty g g').
Proof.
  intros Hc. split.
  - intros r g'. apply (tracks_coherent _ (fun _ _ => True)); [| exact Hc].
    apply tracks_ghostfs_truncate.
  - intros fuel0 g0 it g1 buf offset r g' Hopen.
    destruct (tracks_run _ _ g0 _ g1 (tracks_ghostfs_open fuel0 path) Hopen) as [_ Hin].
    apply (tracks_coherent _ (fun _ _ => True)); [| exact Hc].
    apply tracks_ghostfs_write. exact (Hin it eq_refl).
Qed.

Lemma file_changes_are_flagged_witness :
  coherent (snd (ghostfs_truncate 8 (path_of "/a") 2 written_a)) /\
  coherent (snd (ghostfs_write 8 opened_a (path_of "xy") 1 written_a)).
Proof.
  destruct (file_changes_are_flagged 8 (path_of "/a") 2 written_a coherent_written_a)
    as [Ht Hw].
  split.
  - destruct (Ht _ _ (surjective_pairing _)) as [H _]. exact H.
  - destruct (Hw 100%nat created_a opened_a created_a (path_of "xy") 1 _ _
                (eq_refl : ghostfs_open 100 (path_of "/a") created_a = (Ok opened_a, created_a))
                (surjective_pairing _)) as [H _].
    exact H.
Defined.

(** ** Mount: the digest and the clusters behind it *)

Section MountDigest.

Variable md5 : list byte -> list byte.

(** The three fields of the superblock area depend on the first 4114 bytes
    of the carrier only. *)
Lemma superblock_of_prefix (d d' : list byte) :
  take (Z.to_nat (c0_offset + CLUSTER_SIZE)) d' = take (Z.to_nat (c0_offset + CLUSTER_SIZE)) d ->
  get_bytes 0 16 d' = get_bytes 0 16 d /\
  get_bytes 16 HEADER_BYTES d' = get_bytes 16 HEADER_BYTES d /\
  get_bytes c0_offset CLUSTER_SIZE d' = get_bytes c0_offset CLUSTER_SIZE d.
Proof.
  intros E.
  assert (H : forall off n, 0 <= off -> 0 <= n -> off + n <= c0_offset + CLUSTER_SIZE ->
                get_bytes off n d' = get_bytes off n d).
  { intros off n Ho Hn Hb.
    rewrite <- (get_bytes_take d' off n (Z.to_nat (c0_offset + CLUSTER_SIZE))) by lia.
    rewrite <- (get_bytes_take d off n (Z.to_nat (c0_offset + CLUSTER_SIZE))) by lia.
    rewrite E. reflexivity. }
  split_and!; apply H; unfold c0_offset, HEADER_BYTES, CLUSTER_SIZE; lia.
Qed.

Lemma header_count_in_range (s : stegger) :
  c0_offset + CLUSTER_SIZE <= capacity s ->
  u16 (le_decode (get_bytes 16 HEADER_BYTES (carrier s)))
  = le_decode (get_bytes 16 HEADER_BYTES (carrier s)).
Proof.
  intros Hcap. unfold u16.
  pose proof (le_decode_range (get_bytes 16 HEADER_BYTES (carrier s))) as Hr.
  assert (Hl : length (get_bytes 16 HEADER_BYTES (carrier s)) = 2%nat).
  { apply Nat2Z.inj. rewrite length_get_bytes;
      unfold c0_offset, HEADER_BYTES, CLUSTER_SIZE, capacity in *; lia. }
  rewrite Hl in Hr. change (256 ^ Z.of_nat 2) with (2 ^ 16) in Hr.
  apply Z.mod_small. lia.
Qed.

(** Different digests: [EIO], whatever lies behind cluster 0. *)
Lemma mount_digest_mismatch (s : stegger) :
  c0_offset + CLUSTER_SIZE <= capacity s ->
  md5 (get_bytes 16 HEADER_BYTES (carrier s) ++ get_bytes c0_offset CLUSTER_SIZE (carrier s))
    <> get_bytes 0 16 (carrier s) ->
  fst (ghostfs_check md5 (fresh_gfs s)) = Err EIO /\ ghostfs_mount md5 s = Err EIO.
Proof.
  intros Hcap Hd. pose proof (ghostfs_check_spec md5 s Hcap) as Hcheck.
  destruct (decide _) as [? | _] in Hcheck; [contradiction |].
  unfold ghostfs_mount. rewrite Hcheck. split; reflexivity.
Qed.

(** Equal digests: the check passes and mount loads the clusters the header
    counts; it succeeds when the carrier holds them all and fails with the
    error of the read that goes beyond the carrier when it does not. *)
Lemma mount_digest_match (s : stegger) :
  c0_offset + CLUSTER_SIZE <= capacity s ->
  md5 (get_bytes 16 HEADER_BYTES (carrier s) ++ get_bytes c0_offset CLUSTER_SIZE (carrier s))
    = get_bytes 0 16 (carrier s) ->
  fst (ghostfs_check md5 (fresh_gfs s)) = Ok tt /\
  (c0_offset + le_decode (get_bytes 16 HEADER_BYTES (carrier s)) * CLUSTER_SIZE <= capacity s ->
   exists g, ghostfs_mount md5 s = Ok g /\
             hdr_cluster_count g = le_decode (get_bytes 16 HEADER_BYTES (carrier s)) /\
             gfs_stegger g = s) /\
  (capacity s < c0_offset + le_decode (get_bytes 16 HEADER_BYTES (carrier s)) * CLUSTER_SIZE ->
   ghostfs_mount md5 s = Err ERANGE).
Proof.
  intros Hcap Hd. pose proof (ghostfs_check_spec md5 s Hcap) as Hcheck.
  destruct (decide _) as [_ | ?] in Hcheck; [| contradiction].
  set (hdr := get_bytes 16 HEADER_BYTES (carrier s)) in *.
  set (g1 := with_cluster_count (le_decode hdr) (fresh_gfs s)) in *.
  assert (Hcount : hdr_cluster_count g1 = le_decode hdr)
    by exact (header_count_in_range s Hcap).
  split; [rewrite Hcheck; reflexivity |]. split.
  - intros Hall. unfold ghostfs_mount. rewrite Hcheck.
    destruct (mount_loop_readable (Z.to_nat (hdr_cluster_count g1 - 1)) 1 g1)
      as (g' & -> & Hcc & Hst).
    + lia.
    + intros Hnz. lia.
    + rewrite Hcount. exact Hall.
    + exists g'. split_and!; [reflexivity | congruence | exact Hst].
  - intros Hshort. unfold ghostfs_mount. rewrite Hcheck.
    destruct (mount_loop_result (Z.to_nat (hdr_cluster_count g1 - 1)) 1 g1)
      as (g' & [(Hrun & _) | Hrun]); [| rewrite Hrun; reflexivity].
    exfalso.
    destruct (mount_loop_counts (Z.to_nat (hdr_cluster_count g1 - 1)) 1 g1 g') as (_ & _ & _ & _ & _ & Hloaded & _).
    + intros nr c Hc. discriminate Hc.
    + lia.
    + intros j _. reflexivity.
    + cbn. lia.
    + exact Hrun.
    + assert (Hbig : 2 <= le_decode hdr).
      { unfold c0_offset, HEADER_BYTES, CLUSTER_SIZE in *. lia. }
      destruct (Hloaded (le_decode hdr - 1)) as (c & _ & Hread).
      { rewrite Hcount. lia. }
      change (gfs_stegger g1) with s in Hread.
      unfold read_cluster, stegger_read in Hread.
      destruct (decide (0 <= c0_offset + (le_decode hdr - 1) * CLUSTER_SIZE
                        /\ c0_offset + (le_decode hdr - 1) * CLUSTER_SIZE + CLUSTER_SIZE
                           <= capacity s)) as [[_ Hfit] | _]; [| discriminate Hread].
      unfold c0_offset, HEADER_BYTES, CLUSTER_SIZE in *. lia.
Qed.


End MountDigest.



(** ** Claim C1 on a concrete run *)

(** C1 (the code departs from the claim).  On a filesystem of three
    clusters ["/a"] is created, five bytes are written to it and it is
    truncated to size 0; ["/b"] is created and ["hello"] is written to it,
    which takes cluster 1, the cluster ["/a"] has released; reading ["/b"]
    returns ["hello"].  Then ["/a"] is unlinked, which releases cluster 1 a
    second time through the cluster field the truncation left in its
    record, and ["/c"] is created and ["XYZ"] is written to it, which takes
    cluster 1 again and zeroes it.  Every call succeeds.  ["/b"] has only
    been created and written, its record still says five bytes in the chain
    from cluster 1, and reading it now returns ["XYZ"] and two zero bytes. *)
Theorem unlink_after_truncate_clobbers_other_file :
  ghostfs_create 100 (path_of "/a") mounted3 = (Ok tt, created_a) /\
  ghostfs_open 100 (path_of "/a") created_a = (Ok opened_a, created_a) /\
  ghostfs_write 100 opened_a (path_of "hello") 0 created_a = (Ok 5, written_a) /\
  ghostfs_truncate 100 (path_of "/a") 0 written_a = (Ok tt, truncated_a) /\
  ghostfs_create 100 (path_of "/b") truncated_a = (Ok tt, created_b) /\
  ghostfs_open 100 (path_of "/b") created_b = (Ok opened_b, created_b) /\
  ghostfs_write 100 opened_b (path_of "hello") 0 created_b = (Ok 5, written_b) /\
  ghostfs_read opened_b 5 0 written_b = (Ok (5, path_of "hello"), written_b) /\
  ghostfs_unlink 100 (path_of "/a") written_b = (Ok tt, unlinked_ab) /\
  ghostfs_create 100 (path_of "/c") unlinked_ab = (Ok tt, created_c) /\
  ghostfs_open 100 (path_of "/c") created_c = (Ok opened_c, created_c) /\
  ghostfs_write 100 opened_c (path_of "XYZ") 0 created_c = (Ok 3, written_c) /\
  ghostfs_open 100 (path_of "/b") written_c = (Ok opened_b, written_c) /\
  size (entry_of (it_entry opened_b) written_c) = 5 /\
  cluster_nr (entry_of (it_entry opened_b) written_c) = 1 /\
  cluster_nr (entry_of (it_entry opened_c) written_c) = 1 /\
  ghostfs_read opened_b 5 0 written_c = (Ok (5, path_of "XYZ" ++ [x00; x00]), written_c).
Proof. repeat apply conj; vm_compute; reflexivity. Qed.

(** ** Rename: what becomes of the record found at the old path *)

#[local] Hint Resolve quiet_ret quiet_fail quiet_undefined quiet_out_of_fuel quiet_try
  quiet_deref quiet_get_gfs quiet_cluster_get quiet_read_entry quiet_cluster_get_next
  quiet_cluster_at quiet_dir_iter_init quiet_dir_iter_next quiet_dir_iter_next_used
  quiet_dir_iter_lookup_loop quiet_dir_iter_lookup : quiet.

Lemma quiet_find_empty_entry fuel nr : quiet (find_empty_entry fuel nr).
Proof.
  unfold find_empty_entry. apply quiet_bind; [apply quiet_dir_iter_init | intros it].
  revert it. induction fuel as [| fuel IH]; intros it; cbn [find_empty_entry_loop]; quiet_steps.
Qed.

Lemma quiet_dir_contains fuel nr name : quiet (dir_contains fuel nr name).
Proof.
  unfold dir_contains. apply quiet_bind; [apply quiet_dir_iter_init | intros it].
  revert it. induction fuel as [| fuel IH]; intros it; cbn [dir_contains_loop]; quiet_steps.
Qed.

Lemma loads_cached g g' nr c : loads g g' -> clusters g !! nr = Some c -> clusters g' !! nr = Some c.
Proof.
  intros [_ H] Hc. destruct (H nr) as [E | [E _]]; congruence.
Qed.

(** The record a lookup ends on has been read. *)
Lemma lookup_loop_reads fuel skip_last :
  forall it comp g it' g',
    dir_iter_lookup_loop fuel skip_last it comp g = (Ok it', g') ->
    exists e, read_entry (it_entry it') g' = (Ok e, g').
Proof.
  induction fuel as [| fuel IH]; intros it comp g it' g' Hrun; cbn [dir_iter_lookup_loop] in Hrun;
    [discriminate Hrun |].
  apply bind_inv_Ok in Hrun as (e & g1 & Hread & Hrun).
  pose proof (read_entry_state _ _ _ _ Hread) as ->.
  destruct (component_eq comp (filename e) (Z.to_nat FILENAME_SIZE)).
  - destruct (strchr comp slash) as [nx |].
    + destruct (skip_last && bool_decide (strchr (tl nx) slash = None)).
      * injection Hrun as <- <-. eauto.
      * destruct (negb (dir_entry_is_directory e)); [discriminate Hrun |].
        apply bind_inv_Ok in Hrun as (it1 & g2 & _ & Hrun). exact (IH _ _ _ _ _ Hrun).
    + injection Hrun as <- <-. eauto.
  - apply bind_inv_Ok in Hrun as (it1 & g2 & _ & Hrun). exact (IH _ _ _ _ _ Hrun).
Qed.

Lemma lookup_reads fuel path skip_last g it g' :
  dir_iter_lookup fuel path skip_last g = (Ok it, g') ->
  exists e, read_entry (it_entry it) g' = (Ok e, g').
Proof.
  unfold dir_iter_lookup. intros Hrun.
  destruct (decide (hd x00 path ≠ slash)); [discriminate Hrun |].
  apply bind_inv_Ok in Hrun as (it0 & g1 & _ & Hrun).
  destruct (bool_decide (hd x00 (tl path) = x00) ||
            skip_last && bool_decide (strchr (tl path) slash = None)).
  - injection Hrun as <- <-. eexists. reflexivity.
  - exact (lookup_loop_reads _ _ _ _ _ _ _ Hrun).
Qed.

(** *** Computations that keep an assertion *)

Section Kept.

Variable n : Z.
Variable Inv : ghostfs -> Prop.
Hypothesis I_loads : forall g g', loads g g' -> Inv g -> Inv g'.
Hypothesis I_clusters : forall g g', clusters g' = clusters g -> Inv g -> Inv g'.

Lemma keeps_sound {A : Type} (m : M A) (Q : A -> Prop) :
  sound n m Q ->
  (forall g r g', cache_sized g -> hdr_cluster_count g = n -> Inv g -> m g = (r, g') -> Inv g') ->
  keeps n Inv m Q.
Proof.
  intros Hs Hi g r g' W N HI E. split; [exact (Hs g r g' W N E) | exact (Hi g r g' W N HI E)].
Qed.

Lemma keeps_quiet {A : Type} (m : M A) (Q : A -> Prop) :
  sound n m Q -> quiet m -> keeps n Inv m Q.
Proof.
  intros Hs Hq. apply (keeps_sound m Q Hs).
  intros g r g' _ _ HI E. exact (I_loads g g' (Hq g r g' E) HI).
Qed.

Lemma keeps_ret {A : Type} (a : A) (Q : A -> Prop) : Q a -> keeps n Inv (ret a) Q.
Proof. intros HQ. apply keeps_quiet; [apply sound_ret, HQ | apply quiet_ret]. Qed.

Lemma keeps_fail {A : Type} e (Q : A -> Prop) : keeps n Inv (fail e) Q.
Proof. apply keeps_quiet; [apply sound_fail | apply quiet_fail]. Qed.

Lemma keeps_undefined {A : Type} (Q : A -> Prop) : keeps n Inv undefined Q.
Proof.
  intros g r g' W N HI E. injection E as <- <-.
  split; [| exact HI]. split_and!; [exact W | exact N | intros a Ha; discriminate Ha].
Qed.

Lemma keeps_out_of_fuel {A : Type} (Q : A -> Prop) : keeps n Inv out_of_fuel Q.
Proof.
  intros g r g' W N HI E. injection E as <- <-.
  split; [| exact HI]. split_and!; [exact W | exact N | intros a Ha; discriminate Ha].
Qed.

Lemma keeps_bind {A B : Type} (m : M A) (k : A -> M B) (Q1 : A -> Prop) (Q2 : B -> Prop) :
  keeps n Inv m Q1 -> (forall a, Q1 a -> keeps n Inv (k a) Q2) -> keeps n Inv (bind m k) Q2.
Proof.
  intros Hm Hk g r g' W N HI E. unfold bind in E.
  destruct (m g) as [r1 g1] eqn:E1.
  destruct (Hm g r1 g1 W N HI E1) as [(W1 & N1 & HQ) I1].
  destruct r1 as [a | e | |].
  - exact (Hk a (HQ a eq_refl) g1 r g' W1 N1 I1 E).
  - injection E as <- <-. split; [| exact I1].
    split_and!; [exact W1 | exact N1 | intros a Ha; discriminate Ha].
  - injection E as <- <-. split; [| exact I1].
    split_and!; [exact W1 | exact N1 | intros a Ha; discriminate Ha].
  - injection E as <- <-. split; [| exact I1].
    split_and!; [exact W1 | exact N1 | intros a Ha; discriminate Ha].
Qed.

Lemma keeps_weaken {A : Type} (m : M A) (Q Q' : A -> Prop) :
  keeps n Inv m Q -> (forall a, Q a -> Q' a) -> keeps n Inv m Q'.
Proof.
  intros Hm HQ g r g' W N HI E. destruct (Hm g r g' W N HI E) as [(W1 & N1 & H) I1].
  split; [| exact I1]. split_and!; [exact W1 | exact N1 | intros a Ha; apply HQ, H, Ha].
Qed.

Lemma keeps_try {A : Type} (m : M A) (Q : A -> Prop) :
  keeps n Inv m Q ->
  keeps n Inv (try m) (fun r => match r with inr a => Q a | inl _ => True end).
Proof.
  intros Hm g r g' W N HI E. unfold try in E.
  destruct (m g) as [r1 g1] eqn:E1.
  destruct (Hm g r1 g1 W N HI E1) as [(W1 & N1 & HQ) I1].
  destruct r1 as [a | e | |]; injection E as <- <-; (split; [| exact I1]);
    (split_and!; [exact W1 | exact N1 |]).
  - intros x Hx. injection Hx as <-. apply HQ. reflexivity.
  - intros x Hx. injection Hx as <-. exact I.
  - intros x Hx. discriminate Hx.
  - intros x Hx. discriminate Hx.
Qed.

Lemma keeps_free_clusters_add d : keeps n Inv (free_clusters_add d) (fun _ => True).
Proof.
  apply keeps_sound; [apply sound_free_clusters_add |].
  intros g r g' _ _ HI E. unfold free_clusters_add, modify_gfs in E. injection E as _ <-.
  apply (I_clusters g); [reflexivity | exact HI].
Qed.

Lemma keeps_update p (f : cluster -> cluster) :
  (forall c, Z.of_nat (length (data c)) = CLUSTER_DATA ->
             Z.of_nat (length (data (f c))) = CLUSTER_DATA) ->
  (forall g c, cache_sized g -> Inv g -> clusters g !! p = Some c ->
               Inv (with_clusters (<[p := f c]> (clusters g)) g)) ->
  keeps n Inv (update_cluster p f) (fun _ => True).
Proof.
  intros Hlen Hf. apply keeps_sound; [apply sound_update_cluster, Hlen |].
  intros g r g' W _ HI E. unfold update_cluster in E.
  destruct (clusters g !! p) as [c |] eqn:Hc; injection E as _ <-; [| exact HI].
  exact (Hf g c W HI Hc).
Qed.

End Kept.

(** *** The record and the cluster that holds it *)

Section OneRecord.

Variables (n nr idx s k : Z).
Hypothesis Hidx : 0 <= idx < CLUSTER_DIRENTS.

Lemma rec_is_loads g g' : loads g g' -> rec_is nr idx s k g -> rec_is nr idx s k g'.
Proof. intros L (c & Hc & H). exists c. split; [exact (loads_cached _ _ _ _ L Hc) | exact H]. Qed.

Lemma rec_is_clusters g g' :
  clusters g' = clusters g -> rec_is nr idx s k g -> rec_is nr idx s k g'.
Proof. intros E (c & Hc & H). exists c. rewrite E. split; assumption. Qed.

Lemma in_use_loads g g' : loads g g' -> in_use nr g -> in_use nr g'.
Proof.
  intros L [-> | (c & Hc & Hu)]; [left; reflexivity |].
  right. exists c. split; [exact (loads_cached _ _ _ _ L Hc) | exact Hu].
Qed.

Lemma in_use_clusters g g' : clusters g' = clusters g -> in_use nr g -> in_use nr g'.
Proof.
  intros E [-> | (c & Hc & Hu)]; [left; reflexivity |].
  right. exists c. rewrite E. split; assumption.
Qed.

(** A store that leaves the two fields of the record alone. *)
Lemma rec_is_update g p c (f : cluster -> cluster) :
  rec_is nr idx s k g -> clusters g !! p = Some c ->
  (p = nr ->
   size (entry_at (data (f c)) idx) = size (entry_at (data c) idx) /\
   cluster_nr (entry_at (data (f c)) idx) = cluster_nr (entry_at (data c) idx)) ->
  rec_is nr idx s k (with_clusters (<[p := f c]> (clusters g)) g).
Proof.
  intros (c0 & Hc0 & Hs & Hk) Hp Hf. unfold rec_is. cbn [clusters with_clusters].
  destruct (decide (p = nr)) as [-> | Hne].
  - rewrite lookup_insert_eq. exists (f c). rewrite Hp in Hc0. injection Hc0 as <-.
    destruct (Hf eq_refl) as [E1 E2]. split; [reflexivity |]. split; congruence.
  - rewrite lookup_insert_ne by exact Hne. exists c0. split_and!; assumption.
Qed.

Lemma in_use_update g p c (f : cluster -> cluster) :
  in_use nr g -> clusters g !! p = Some c ->
  (p = nr -> used c <> 0 -> used (f c) <> 0) ->
  in_use nr (with_clusters (<[p := f c]> (clusters g)) g).
Proof.
  intros [-> | (c0 & Hc0 & Hu)] Hp Hf; [left; reflexivity |].
  right. cbn [clusters with_clusters].
  destruct (decide (p = nr)) as [-> | Hne].
  - rewrite lookup_insert_eq. exists (f c). rewrite Hp in Hc0. injection Hc0 as <-.
    split; [reflexivity | exact (Hf eq_refl Hu)].
  - rewrite lookup_insert_ne by exact Hne. exists c0. split; assumption.
Qed.

(** Clearing the name of any record. *)
Lemma keeps_rec_clear_name r :
  slot_ok r -> keeps n (rec_is nr idx s k) (entry_clear_name r) (fun _ => True).
Proof.
  intros Hslot. unfold entry_clear_name.
  destruct r as [| p j]; cbn [write_entry].
  - apply keeps_sound; [apply (sound_write_entry n RootEntry 0 [x00]); cbn; unfold DIR_ENTRY_SIZE; lia |].
    intros g r g' _ _ HI E. cbn [write_entry] in E. unfold modify_gfs in E. injection E as _ <-.
    apply (rec_is_clusters g); [reflexivity | exact HI].
  - cbn [slot_ok] in Hslot. apply keeps_update.
    + intros c Hc. cbn [data set_data]. rewrite length_set_bytes; [exact Hc | |];
        cbn [length]; unfold CLUSTER_DIRENTS, DIR_ENTRY_SIZE, CLUSTER_DATA in *; lia.
    + intros g c W HI Hp. apply rec_is_update; [exact HI | exact Hp |].
      intros ->. cbn [data set_data]. pose proof (W _ _ Hp) as Hlen. cbn beta in Hlen.
      destruct (decide (j = idx)) as [-> | Hne].
      * exact (fields_after_clear_name (data c) idx Hlen Hidx).
      * rewrite entry_at_set_other; try assumption; [split; reflexivity | | lia |];
          cbn [length]; unfold DIR_ENTRY_SIZE; lia.
Qed.

(** A store into another record. *)
Lemma keeps_rec_write_other p j off bs :
  0 <= j < CLUSTER_DIRENTS -> 0 <= off -> off + Z.of_nat (length bs) <= DIR_ENTRY_SIZE ->
  ClusterEntry p j <> ClusterEntry nr idx ->
  keeps n (fun g => rec_is nr idx s k g /\ in_use nr g)
    (write_entry (ClusterEntry p j) off bs) (fun _ => True).
Proof.
  intros Hj Hoff Hfit Hne. cbn [write_entry]. apply keeps_update.
  - intros c Hc. cbn [data set_data]. rewrite length_set_bytes; [exact Hc | |];
      unfold CLUSTER_DIRENTS, DIR_ENTRY_SIZE, CLUSTER_DATA in *; lia.
  - intros g c W [HI HU] Hp. split.
    + apply rec_is_update; [exact HI | exact Hp |].
      intros ->. cbn [data set_data]. pose proof (W _ _ Hp) as Hlen. cbn beta in Hlen.
      rewrite entry_at_set_other; try assumption; [split; reflexivity |].
      intros ->. apply Hne. reflexivity.
    + apply in_use_update; [exact HU | exact Hp |]. intros _ Hu. exact Hu.
Qed.

(** Stores into the header of a cluster. *)
Lemma keeps_rec_header p (f : cluster -> cluster) :
  (forall c, data (f c) = data c) ->
  keeps n (rec_is nr idx s k) (update_cluster p f) (fun _ => True).
Proof.
  intros Hf. apply keeps_update.
  - intros c Hc. rewrite Hf. exact Hc.
  - intros g c _ HI Hp. apply rec_is_update; [exact HI | exact Hp |].
    intros _. rewrite Hf. split; reflexivity.
Qed.

Lemma keeps_both_header p (f : cluster -> cluster) :
  (forall c, data (f c) = data c) -> (forall c, used c <> 0 -> used (f c) <> 0) ->
  keeps n (fun g => rec_is nr idx s k g /\ in_use nr g) (update_cluster p f) (fun _ => True).
Proof.
  intros Hf Hu. apply keeps_update.
  - intros c Hc. rewrite Hf. exact Hc.
  - intros g c _ [HI HU] Hp. split.
    + apply rec_is_update; [exact HI | exact Hp |]. intros _. rewrite Hf. split; reflexivity.
    + apply in_use_update; [exact HU | exact Hp |]. intros _. apply Hu.
Qed.

End OneRecord.

(** *** Removing an entry leaves the size word and the first-cluster number
    of every record *)

Section RemoveKeeps.

Variables (n nr idx s k : Z).
Hypothesis Hidx : 0 <= idx < CLUSTER_DIRENTS.

Lemma keeps_rec_quiet {A : Type} (m : M A) (Q : A -> Prop) :
  sound n m Q -> quiet m -> keeps n (rec_is nr idx s k) m Q.
Proof. apply keeps_quiet. exact (rec_is_loads nr idx s k). Qed.

Lemma keeps_rec_free_clusters fuel :
  forall c, keeps n (rec_is nr idx s k) (free_clusters fuel c) (fun _ => True).
Proof.
  induction fuel as [| fuel IH]; intros c; cbn [free_clusters].
  - apply keeps_out_of_fuel.
  - eapply keeps_bind; [apply keeps_rec_header; reflexivity | intros ? _].
    eapply keeps_bind; [apply keeps_free_clusters_add, rec_is_clusters | intros ? _].
    eapply keeps_bind;
      [apply keeps_rec_quiet; [apply sound_deref | apply quiet_deref] | intros cl _].
    destruct (decide (next cl = 0)).
    + apply keeps_rec_quiet; [apply sound_ret; exact I | apply quiet_ret].
    + eapply keeps_bind;
        [apply keeps_rec_quiet; [apply sound_cluster_get | apply quiet_cluster_get] |
         intros c' _].
      apply IH.
Qed.

Lemma keeps_rec_remove_entry fuel path :
  keeps n (rec_is nr idx s k) (remove_entry fuel path false) (fun _ => True).
Proof.
  unfold remove_entry.
  eapply keeps_bind;
    [apply keeps_rec_quiet; [apply sound_dir_iter_lookup | apply quiet_dir_iter_lookup] |
     intros link Hslot].
  destruct (decide (it_entry link = RootEntry)).
  { apply keeps_rec_quiet; [apply sound_fail | apply quiet_fail]. }
  eapply keeps_bind;
    [apply keeps_rec_quiet; [apply sound_read_entry | apply quiet_read_entry] | intros le _].
  destruct (negb (eqb false (dir_entry_is_directory le))).
  { apply keeps_rec_quiet; [apply sound_fail | apply quiet_fail]. }
  eapply keeps_bind with (Q1 := fun _ => True).
  { destruct (decide (cluster_nr le = 0)).
    { apply keeps_rec_quiet; [apply sound_ret; exact I | apply quiet_ret]. }
    eapply keeps_bind;
      [apply keeps_rec_quiet; [apply sound_dir_iter_init | apply quiet_dir_iter_init] |
       intros it _].
    eapply keeps_bind with (Q1 := fun _ => True);
      [apply keeps_rec_quiet; [apply sound_ret; exact I | apply quiet_ret] | intros ? _].
    eapply keeps_bind; [apply keeps_try, keeps_rec_free_clusters | intros ? _].
    apply keeps_rec_quiet; [apply sound_ret; exact I | apply quiet_ret]. }
  intros ? _.
  eapply keeps_bind; [apply keeps_rec_clear_name; [exact Hidx | exact Hslot] | intros ? _].
  apply keeps_rec_header. reflexivity.
Qed.

(** *** Creating an entry: the allocator does not take a cluster in use *)

Lemma keeps_both_quiet {A : Type} (m : M A) (Q : A -> Prop) :
  sound n m Q -> quiet m -> keeps n (fun g => rec_is nr idx s k g /\ in_use nr g) m Q.
Proof.
  apply keeps_quiet. intros g g' L [H1 H2].
  split; [exact (rec_is_loads _ _ _ _ _ _ L H1) | exact (in_use_loads _ _ _ L H2)].
Qed.

Lemma keeps_claim {A : Type} c (f : cluster -> cluster) (k1 k2 : M A) (Q : A -> Prop) :
  1 <= c ->
  (forall x, Z.of_nat (length (data x)) = CLUSTER_DATA ->
             Z.of_nat (length (data (f x))) = CLUSTER_DATA) ->
  keeps n (fun g => rec_is nr idx s k g /\ in_use nr g) k1 Q ->
  keeps n (fun g => rec_is nr idx s k g /\ in_use nr g) k2 Q ->
  keeps n (fun g => rec_is nr idx s k g /\ in_use nr g)
    (let* cl := deref c in
     if decide (used cl = 0) then update_cluster c f;; k1 else k2) Q.
Proof.
  intros Hc Hlen H1 H2 g r g' W N [HR HU] E.
  unfold bind at 1 in E. unfold deref in E.
  destruct (clusters g !! c) as [cl |] eqn:Hcl.
  2:{ injection E as <- <-. split; [| split; assumption].
      split_and!; [exact W | exact N | intros a Ha; discriminate Ha]. }
  destruct (decide (used cl = 0)) as [Hu | Hu]; [| exact (H2 g r g' W N (conj HR HU) E)].
  assert (Hne : c <> nr).
  { intros ->. destruct HU as [-> | (c0 & Hc0 & Hu0)]; [lia |]. congruence. }
  unfold bind at 1 in E. unfold update_cluster in E. rewrite Hcl in E.
  apply (H1 (with_clusters (<[c := f cl]> (clusters g)) g) r g'); [| exact N | | exact E].
  - unfold cache_sized. cbn [clusters with_clusters].
    apply map_Forall_insert_2; [apply Hlen; exact (W _ _ Hcl) | exact W].
  - split.
    + apply rec_is_update; [exact HR | exact Hcl | intros ->; contradiction].
    + apply in_use_update; [exact HU | exact Hcl | intros ->; contradiction].
Qed.

Lemma claim_cluster_length zero x :
  Z.of_nat (length (data x)) = CLUSTER_DATA ->
  Z.of_nat (length (data (claim_cluster zero x))) = CLUSTER_DATA.
Proof.
  intros H. destruct zero; cbn; [| exact H].
  rewrite length_zeros; unfold CLUSTER_DATA; lia.
Qed.

Lemma keeps_alloc_scan fuel count zero :
  forall prev first pos alloc,
    1 <= pos ->
    keeps n (fun g => rec_is nr idx s k g /\ in_use nr g)
      (alloc_scan fuel count zero prev first pos alloc)
      (fun r => match r with (ScanUndo _, _, _, a) => a < count | _ => True end).
Proof.
  induction fuel as [| fuel IH]; intros prev first pos alloc Hpos; cbn [alloc_scan];
    (destruct (decide (alloc < count));
      [| apply keeps_both_quiet; [apply sound_ret; exact I | apply quiet_ret]]).
  - apply keeps_out_of_fuel.
  - eapply keeps_bind;
      [apply keeps_both_quiet; [apply sound_get_gfs | apply quiet_get_gfs] | intros g1 _].
    destruct (decide (pos >= hdr_cluster_count g1)).
    { apply keeps_both_quiet; [apply sound_ret; assumption | apply quiet_ret]. }
    eapply keeps_bind;
      [apply keeps_try, keeps_both_quiet; [apply sound_cluster_get | apply quiet_cluster_get] |].
    intros [e | c] Hc.
    { apply keeps_both_quiet; [apply sound_ret; assumption | apply quiet_ret]. }
    cbn beta iota in Hc. subst c.
    apply keeps_claim; [exact Hpos | apply claim_cluster_length | | apply IH; lia].
    eapply keeps_bind.
    { apply keeps_free_clusters_add. intros g g' E [H1 H2].
      split; [exact (rec_is_clusters _ _ _ _ _ _ E H1) | exact (in_use_clusters _ _ _ E H2)]. }
    intros ? _.
    eapply keeps_bind with (Q1 := fun _ => True).
    { destruct (decide (first = 0)).
      { apply keeps_both_quiet; [apply sound_ret; exact I | apply quiet_ret]. }
      destruct prev as [p |]; [| apply keeps_undefined].
      apply keeps_both_header; [reflexivity | intros x Hx; exact Hx]. }
    intros ? _. apply IH. lia.
Qed.

Lemma keeps_alloc_one :
  keeps n (fun g => rec_is nr idx s k g /\ in_use nr g) (alloc_clusters 1 true) (fun _ => True).
Proof.
  unfold alloc_clusters.
  eapply keeps_bind;
    [apply keeps_both_quiet; [apply sound_get_gfs | apply quiet_get_gfs] | intros g1 _].
  eapply keeps_bind; [apply keeps_alloc_scan; lia |].
  intros [[[ex prev] first] a] Ha. destruct ex as [| e].
  - destruct prev as [p |]; [| apply keeps_undefined].
    eapply keeps_bind;
      [apply keeps_both_header; [reflexivity | intros x Hx; exact Hx] | intros ? _].
    apply keeps_both_quiet; [apply sound_ret; exact I | apply quiet_ret].
  - cbn beta iota in Ha. replace (Z.to_nat a) with 0%nat by lia. cbn [alloc_undo].
    apply keeps_both_quiet; [apply sound_fail | apply quiet_fail].
Qed.

Lemma keeps_run {A : Type} (Inv : ghostfs -> Prop) (m : M A) (Q : A -> Prop) g r g' :
  keeps n Inv m Q -> cache_sized g -> hdr_cluster_count g = n -> Inv g -> m g = (r, g') ->
  cache_sized g' /\ hdr_cluster_count g' = n /\ Inv g'.
Proof.
  intros Hm W N HI E. destruct (Hm g r g' W N HI E) as [(W1 & N1 & _) I1].
  split_and!; assumption.
Qed.

(** [create_entry] for a file leaves the two fields of every record but the
    one it returns, as long as the cluster of that record cannot be handed
    out. *)
Lemma create_keeps_record fuel path g entry g' :
  cache_sized g -> hdr_cluster_count g = n ->
  rec_is nr idx s k g -> in_use nr g ->
  create_entry fuel path false g = (Ok entry, g') ->
  entry <> ClusterEntry nr idx ->
  rec_is nr idx s k g'.
Proof.
  intros W N HR HU Hrun Hne.
  destruct (sound_create_entry n fuel path false g _ _ W N Hrun) as (_ & _ & Hent).
  destruct (Hent entry eq_refl) as [(ce & ie & -> & Hie) _].
  unfold create_entry in Hrun.
  apply bind_inv_Ok in Hrun as (it & ga & Hlook & Hrun).
  destruct (keeps_run _ _ _ _ _ _
              (keeps_both_quiet _ _ (sound_dir_iter_lookup n fuel path true)
                 (quiet_dir_iter_lookup fuel path true)) W N (conj HR HU) Hlook)
    as (Wa & Na & Ia).
  apply bind_inv_Ok in Hrun as (parent & gb & Hread & Hrun).
  pose proof (read_entry_state _ _ _ _ Hread) as ->.
  destruct (negb (dir_entry_is_directory parent)); [discriminate Hrun |].
  cbv zeta in Hrun.
  destruct (decide (strlen (last_component path) > FILENAME_SIZE - 1)); [discriminate Hrun |].
  destruct (decide (hd x00 (last_component path) = x00)); [discriminate Hrun |].
  apply bind_inv_Ok in Hrun as (dup & gc & Hdup & Hrun).
  destruct (keeps_run _ _ _ _ _ _
              (keeps_try _ _ _ _
                 (keeps_both_quiet _ _ (sound_dir_contains n fuel (cluster_nr parent)
                                          (last_component path))
                    (quiet_dir_contains fuel (cluster_nr parent) (last_component path))))
              Wa Na Ia Hdup) as (Wc & Nc & Ic).
  destruct dup as [e | u]; [| discriminate Hrun].
  apply bind_inv_Ok in Hrun as (found & gd & Hfound & Hrun).
  destruct (keeps_run _ _ _ _ _ _
              (keeps_both_quiet _ _ (sound_find_empty_entry n fuel (cluster_nr parent))
                 (quiet_find_empty_entry fuel (cluster_nr parent))) Wc Nc Ic Hfound)
    as (Wd & Nd & Id).
  apply bind_inv_Ok in Hrun as (slot & ge & Hslot & Hrun).
  assert (He : cache_sized ge /\ hdr_cluster_count ge = n /\
               (rec_is nr idx s k ge /\ in_use nr ge)).
  { destruct found as [it1 [e1 |]].
    - apply bind_inv_Ok in Hslot as (nr' & g1 & Halloc & Hslot).
      destruct (keeps_run _ _ _ _ _ _ keeps_alloc_one Wd Nd Id Halloc) as (W1 & N1 & I1).
      cbv zeta in Hslot.
      apply bind_inv_Ok in Hslot as (again & g2 & Hagain & Hslot).
      destruct (keeps_run _ _ _ _ _ _
                  (keeps_try _ _ _ _
                     (keeps_both_quiet _ _ (sound_find_empty_entry n fuel nr')
                        (quiet_find_empty_entry fuel nr'))) W1 N1 I1 Hagain) as (W2 & N2 & I2).
      apply bind_inv_Ok in Hslot as (u & g3 & Hupd & Hslot).
      injection Hslot as _ <-.
      refine (keeps_run _ _ _ _ _ _
                (keeps_both_header n nr idx s k (it_cluster it1)
                   (fun c => mark_cluster (set_next nr' c)) _ _) W2 N2 I2 Hupd).
      + reflexivity.
      + intros x Hx. exact Hx.
    - injection Hslot as _ <-. destruct Id. split_and!; assumption. }
  destruct He as (We & Ne & Ie).
  cbv zeta in Hrun.
  apply bind_inv_Ok in Hrun as (nr0 & gf & Hnr & Hrun).
  injection Hnr as _ <-.
  apply bind_inv_Ok in Hrun as (u1 & g1 & Hw1 & Hrun).
  apply bind_inv_Ok in Hrun as (u2 & g2 & Hw2 & Hrun).
  apply bind_inv_Ok in Hrun as (u3 & g3 & Hw3 & Hrun).
  apply bind_inv_Ok in Hrun as (u4 & g4 & Hmark & Hrun).
  injection Hrun as Hentry <-.
  rewrite Hentry in Hw1, Hw2, Hw3.
  assert (Hname : Z.of_nat (length (cstring (last_component path) ++ [x00])) <= DIR_ENTRY_SIZE).
  { pose proof (length_cstring (last_component path)) as L.
    rewrite length_app. cbn [length]. unfold FILENAME_SIZE, DIR_ENTRY_SIZE in *. lia. }
  destruct (keeps_run _ _ _ _ _ _
              (keeps_rec_write_other n nr idx s k Hidx ce ie 0
                 (cstring (last_component path) ++ [x00]) Hie ltac:(lia) ltac:(lia) Hne)
              We Ne Ie Hw1) as (W1 & N1 & I1).
  unfold dir_entry_set_size in Hw2.
  destruct (keeps_run _ _ _ _ _ _
              (keeps_rec_write_other n nr idx s k Hidx ce ie FILENAME_SIZE
                 (le_encode 4 (dir_entry_size_word 0 false)) Hie
                 ltac:(unfold FILENAME_SIZE; lia)
                 ltac:(rewrite length_le_encode; unfold FILENAME_SIZE, DIR_ENTRY_SIZE; lia) Hne)
              W1 N1 I1 Hw2) as (W2 & N2 & I2).
  unfold entry_store_cluster in Hw3.
  destruct (keeps_run _ _ _ _ _ _
              (keeps_rec_write_other n nr idx s k Hidx ce ie (FILENAME_SIZE + 4)
                 (le_encode 2 nr0) Hie
                 ltac:(unfold FILENAME_SIZE; lia)
                 ltac:(rewrite length_le_encode; unfold FILENAME_SIZE, DIR_ENTRY_SIZE; lia) Hne)
              W2 N2 I2 Hw3) as (W3 & N3 & I3).
  destruct (keeps_run _ _ _ _ _ _
              (keeps_both_header n nr idx s k (it_cluster (fst slot)) mark_cluster
                 (fun _ => eq_refl) (fun x Hx => Hx))
              W3 N3 I3 Hmark) as (_ & _ & [H _]).
  exact H.
Qed.

End RemoveKeeps.

(** C8 (amended).  When [ghostfs_rename] succeeds it has looked up the old
    path, tried to remove the new path, created a record for the new path
    and copied two fields into it.  If the created record is another record
    than the one found at the old path, and the cluster that holds the old
    record is cluster 0 or in use when the new record is created, the
    created record ends up with the size word -- the directory flag is its
    top bit -- and the first-cluster number that the record found at the
    old path held when it was looked up.  So the directory flag is copied,
    not cleared. *)
Theorem rename_copies_size_word fuel path newpath g g' :
  cache_sized g ->
  ghostfs_rename fuel path newpath g = (Ok tt, g') ->
  exists it g0 old rr g1 entry g2,
    dir_iter_lookup fuel path false g = (Ok it, g0) /\
    read_entry (it_entry it) g0 = (Ok old, g0) /\
    try (remove_entry fuel newpath false) g0 = (Ok rr, g1) /\
    create_entry fuel newpath false g1 = (Ok entry, g2) /\
    (entry <> it_entry it -> in_use (it_cluster it) g1 ->
     exists new,
       read_entry entry g' = (Ok new, g') /\
       size new = size old /\
       cluster_nr new = cluster_nr old /\
       dir_entry_is_directory new = dir_entry_is_directory old).
Proof.
  intros Hwf Hrun.
  destruct (rename_copies_created fuel path newpath g g' Hwf Hrun)
    as (it & entry & g0 & rr & g1 & g2 & old2 & new & Hlook & Hnroot & W0 & W1 & Hslot &
        Hrem & Hcreate & Hold2 & Hnew & Hsize & Hcl & Hdir).
  destruct (lookup_reads _ _ _ _ _ _ Hlook) as (old & Hold).
  exists it, g0, old, rr, g1, entry, g2.
  split_and!; [exact Hlook | exact Hold | exact Hrem | exact Hcreate |].
  intros Hne Huse.
  destruct (tracks_run _ _ _ _ _ (tracks_dir_iter_lookup fuel path false) Hlook) as [_ Hin].
  specialize (Hin it eq_refl). cbn beta in Hin.
  destruct (it_entry it) as [| co io] eqn:Hit; [contradiction |].
  cbn [slot_ok] in Hslot.
  pose proof (Hin co io Hit) as Hco. rewrite <- Hco in Huse.
  apply read_entry_inv in Hold as (_ & c0 & Hc0 & ->).
  assert (Hrec0 : rec_is co io (size (entry_at (data c0) io)) (cluster_nr (entry_at (data c0) io)) g0).
  { exists c0. split_and!; [exact Hc0 | reflexivity | reflexivity]. }
  destruct (keeps_run _ _ _ _ _ _ _
              (keeps_try _ _ _ _
                 (keeps_rec_remove_entry (hdr_cluster_count g0) co io _ _ Hslot fuel newpath))
              W0 eq_refl Hrec0 Hrem) as (_ & N1 & Hrec1).
  pose proof (create_keeps_record _ co io _ _ Hslot fuel newpath g1 entry g2
                W1 N1 Hrec1 Huse Hcreate Hne) as (c2 & Hc2 & Hs2 & Hk2).
  rewrite (read_entry_cluster _ _ io _ Hc2) in Hold2. injection Hold2 as <-.
  exists new. split_and!.
  - exact Hnew.
  - rewrite Hsize. exact Hs2.
  - rewrite Hcl. exact Hk2.
  - rewrite Hdir. unfold dir_entry_is_directory. rewrite Hs2. reflexivity.
Qed.

(** The directory ["/d"] is record 0 of the root cluster; renaming it to
    ["/e"] creates record 1, which ends up with the size word of a
    directory and the first cluster of ["/d"]. *)
Lemma rename_copies_size_word_witness :
  exists old new,
    read_entry (ClusterEntry 0 0) made_d = (Ok old, made_d) /\
    dir_entry_is_directory old = true /\
    read_entry (ClusterEntry 0 1) renamed_d = (Ok new, renamed_d) /\
    size new = size old /\
    cluster_nr new = cluster_nr old /\
    dir_entry_is_directory new = true.
Proof.
  destruct (rename_copies_size_word 100 (path_of "/d") (path_of "/e") made_d renamed_d
              cache_sized_made_d ltac:(vm_compute; reflexivity))
    as (it & g0 & old & rr & g1 & entry & g2 & Hlook & Hold & Hrem & Hcreate & Hcopy).
  assert (E0 : dir_iter_lookup 100 (path_of "/d") false made_d
               = (Ok (DirIter 0 (ClusterEntry 0 0) 0), made_d)) by (vm_compute; reflexivity).
  rewrite E0 in Hlook. injection Hlook as <- <-.
  assert (E1 : try (remove_entry 100 (path_of "/e") false) made_d = (Ok (inl ENOENT), made_d))
    by (vm_compute; reflexivity).
  rewrite E1 in Hrem. injection Hrem as <- <-.
  assert (E2 : fst (create_entry 100 (path_of "/e") false made_d) = Ok (ClusterEntry 0 1))
    by (vm_compute; reflexivity).
  rewrite Hcreate in E2. injection E2 as ->.
  destruct Hcopy as (new & Hnew & Hs & Hk & Hd).
  - cbn [it_entry]. discriminate.
  - left. reflexivity.
  - cbn [it_entry] in Hold.
    assert (Hdir : dir_entry_is_directory old = true).
    { assert (E3 : read_entry (ClusterEntry 0 0) made_d
                   = (Ok (entry_of (ClusterEntry 0 0) made_d), made_d))
        by (vm_compute; reflexivity).
      rewrite E3 in Hold. injection Hold as <-. vm_compute. reflexivity. }
    exists old, new. split_and!; [exact Hold | exact Hdir | exact Hnew | exact Hs | exact Hk |].
    rewrite Hd. exact Hdir.
Defined.

(** ** Writing when there is room *)

(** *** Counting the unused clusters *)

Lemma count_unused_flags (m m' : gmap Z cluster) lo n :
  (forall x, lo <= x < lo + Z.of_nat n -> used <$> m' !! x = used <$> m !! x) ->
  count_unused m' lo n = count_unused m lo n.
Proof.
  revert lo. induction n as [| n IH]; intros lo H; [reflexivity |].
  cbn [count_unused]. rewrite (IH (lo + 1)) by (intros x Hx; apply H; lia).
  f_equal. pose proof (H lo ltac:(lia)) as E.
  destruct (m' !! lo) as [c' |], (m !! lo) as [c |]; cbn in E; try discriminate E;
    [| reflexivity].
  injection E as ->. reflexivity.
Qed.

Lemma count_unused_claim (m : gmap Z cluster) (f : cluster -> cluster) c cl lo n :
  lo <= c < lo + Z.of_nat n ->
  m !! c = Some cl -> used cl = 0 -> used (f cl) <> 0 ->
  count_unused (alter f c m) lo n = count_unused m lo n - 1.
Proof.
  revert lo. induction n as [| n IH]; intros lo Hc Hcl Hu Hf; [lia |].
  cbn [count_unused]. destruct (decide (lo = c)) as [-> | Hne].
  - rewrite lookup_alter_eq, Hcl. cbn.
    destruct (decide (used (f cl) = 0)); [contradiction |].
    destruct (decide (used cl = 0)); [| contradiction].
    rewrite (count_unused_agree m (alter f c m)); [lia |].
    intros x Hx. rewrite lookup_alter_ne by lia. reflexivity.
  - rewrite lookup_alter_ne by (intros E; apply Hne; symmetry; exact E).
    rewrite (IH (lo + 1)) by (try assumption; lia). lia.
Qed.

Lemma count_unused_link_claimed zero :
  forall l prev (m : gmap Z cluster) pos lo n,
    lo <= pos -> increasing_from pos l ->
    (forall x, x ∈ l -> x < lo + Z.of_nat n /\ is_unused m x) ->
    count_unused (link_claimed zero prev l m) lo n = count_unused m lo n - Z.of_nat (length l).
Proof.
  induction l as [| c l IH]; intros prev m pos lo n Hlo Hinc Hmem; cbn [link_claimed length].
  - lia.
  - destruct Hinc as [Hc Hinc].
    destruct (Hmem c ltac:(left)) as [Hcn (cl & Hcl & Hu)].
    set (m1 := alter (claim_cluster zero) c m).
    set (m2 := match prev with Some p => alter (set_next c) p m1 | None => m1 end).
    assert (E2 : forall x, used <$> m2 !! x = used <$> m1 !! x).
    { intros x. subst m2. destruct prev as [p |]; [| reflexivity].
      destruct (decide (p = x)) as [-> | Hne].
      - rewrite lookup_alter_eq. destruct (m1 !! x); reflexivity.
      - rewrite lookup_alter_ne by exact Hne. reflexivity. }
    rewrite (IH (Some c) m2 (c + 1) lo n); [| lia | exact Hinc |].
    + rewrite (count_unused_flags m1 m2) by (intros x _; apply E2).
      subst m1. rewrite (count_unused_claim m _ c cl); [| lia | exact Hcl | exact Hu |].
      lia.
      unfold claim_cluster. cbn [used mark_cluster set_used]. change (u8 1) with 1. lia.
    + intros x Hx. destruct (Hmem x ltac:(right; exact Hx)) as [Hxn (cx & Hcx & Hux)].
      split; [exact Hxn |].
      pose proof (increasing_from_ge _ _ _ Hinc Hx) as Hgt.
      pose proof (E2 x) as Ex. subst m1. rewrite lookup_alter_ne in Ex by lia.
      rewrite Hcx in Ex. cbn in Ex.
      destruct (m2 !! x) as [c2 |] eqn:Hm2; [| discriminate Ex].
      injection Ex as Ex. exists c2. split; [exact Hm2 | congruence].
Qed.

(** With room, [alloc_clusters] succeeds and the number of unused clusters
    goes down by [count]. *)
Lemma alloc_clusters_room g count :
  all_cached g -> fields_in_range g -> 0 < count <= unused_clusters g ->
  exists r g',
    alloc_clusters count true g = (Ok r, g') /\
    hdr_cluster_count g' = hdr_cluster_count g /\
    unused_clusters g' = unused_clusters g - count.
Proof.
  intros Hc [Hcc Hfree] [Hpos Hroom].
  destruct (alloc_scan_spec (S (Z.to_nat (hdr_cluster_count g))) count true None 0 1 0 g)
    as (l & ex & g1 & Hscan & Hcl1 & Hcc1 & Hst1 & Hroot1 & Hfr1 & Hinc & Hmem & Hcnt & Hex);
    [exact Hc | lia | lia | lia | split; reflexivity | intros p; discriminate |].
  change (0 + Z.of_nat (length l)) with (Z.of_nat (length l)) in *.
  destruct Hex as [[-> Hdone] | [-> Hshort]].
  2:{ exfalso.
      pose proof (alloc_scan_undo_exhausts (S (Z.to_nat (hdr_cluster_count g))) count true None
                    0 1 0 g ENOSPC (prev_after None l) (first_after 0 l) (Z.of_nat (length l)) g1
                    Hc ltac:(lia) ltac:(lia)
                    ltac:(split; reflexivity) ltac:(intros p; discriminate) Hscan) as Hall.
      unfold unused_clusters in Hroom. lia. }
  assert (Hlen : Z.of_nat (length l) = count) by (destruct Hdone as [? | [_ ?]]; lia).
  assert (Hlast : exists p, last l = Some p).
  { destruct l as [| a l0]; [cbn [length] in Hlen; lia |]. rewrite last_cons_Some. eauto. }
  destruct Hlast as [p Hp].
  assert (Hpin : p ∈ l) by (apply last_Some_elem_of; exact Hp).
  assert (Hs : is_Some (clusters g1 !! p)).
  { rewrite Hcl1. apply link_claimed_is_Some.
    destruct (Hmem p Hpin) as [_ (c & Hcx & _)]. eauto. }
  destruct Hs as [cp Hcp].
  exists (hd 0 l), (with_clusters (alter (set_next 0) p (clusters g1)) g1). split.
  - unfold alloc_clusters.
    rewrite (bind_Ok get_gfs _ g g g eq_refl).
    rewrite (bind_Ok _ _ _ _ _ Hscan). cbv beta iota.
    unfold prev_after. rewrite Hp.
    rewrite (bind_Ok _ _ _ _ _ (update_cluster_Some g1 p cp (set_next 0) Hcp)).
    unfold first_after. reflexivity.
  - split; [exact Hcc1 |]. unfold unused_clusters. cbn [clusters with_clusters hdr_cluster_count].
    rewrite Hcc1.
    rewrite (count_unused_flags (clusters g1)).
    2:{ intros x _. destruct (decide (p = x)) as [-> | Hne].
        - rewrite lookup_alter_eq. destruct (clusters g1 !! x); reflexivity.
        - rewrite lookup_alter_ne by exact Hne. reflexivity. }
    rewrite Hcl1.
    rewrite (count_unused_link_claimed true l None (clusters g) 1 1); [lia | lia | exact Hinc |].
    intros x Hx. destruct (Hmem x Hx) as [Hlt Hun]. split; [| exact Hun].
    pose proof (increasing_from_ge _ _ _ Hinc Hx). lia.
Qed.

(** *** Steps that keep the in-use flags *)

Lemma used_rel_refl g : used_rel g g.
Proof. split; [reflexivity | intros x c Hc; exists c; split; [exact Hc | reflexivity]]. Qed.

Lemma used_rel_trans g1 g2 g3 : used_rel g1 g2 -> used_rel g2 g3 -> used_rel g1 g3.
Proof.
  intros [H1 K1] [H2 K2]. split; [congruence |].
  intros x c Hc. destruct (K1 x c Hc) as (c' & Hc' & Hu').
  destruct (K2 x c' Hc') as (c'' & Hc'' & Hu''). exists c''. split; [exact Hc'' | congruence].
Qed.

Lemma loads_used_rel g g' : loads g g' -> used_rel g g'.
Proof.
  intros [E L]. split; [rewrite E; destruct g; reflexivity |].
  intros x c Hc. exists c. split; [| reflexivity].
  destruct (L x) as [-> | [Hn _]]; [exact Hc | congruence].
Qed.

Lemma flags_quiet {A : Type} (m : M A) : quiet m -> flags_kept m.
Proof. intros H g r g' E. apply loads_used_rel. exact (H g r g' E). Qed.

Lemma flags_bind {A B : Type} (m : M A) (k : A -> M B) :
  flags_kept m -> (forall x, flags_kept (k x)) -> flags_kept (bind m k).
Proof.
  intros Hm Hk g r g' E. unfold bind in E. destruct (m g) as [r1 g1] eqn:E1.
  pose proof (Hm g r1 g1 E1) as L1.
  destruct r1 as [a | e | |]; try (injection E as <- <-; exact L1).
  exact (used_rel_trans _ _ _ L1 (Hk a g1 r g' E)).
Qed.

Lemma flags_update p (f : cluster -> cluster) :
  (forall c, used (f c) = used c) -> flags_kept (update_cluster p f).
Proof.
  intros Hf g r g' E. unfold update_cluster in E.
  destruct (clusters g !! p) as [c |] eqn:Hp; injection E as <- <-; [| apply used_rel_refl].
  split; [destruct g; reflexivity |].
  intros x cx Hx. cbn [clusters with_clusters].
  destruct (decide (p = x)) as [-> | Hne].
  - rewrite lookup_insert_eq. exists (f c). split; [reflexivity |]. rewrite Hf. congruence.
  - rewrite lookup_insert_ne by exact Hne. exists cx. split; [exact Hx | reflexivity].
Qed.

Lemma flags_write_entry r off bs : flags_kept (write_entry r off bs).
Proof.
  destruct r as [| nr idx]; cbn [write_entry].
  - intros g r g' E. injection E as <- <-. split; [destruct g; reflexivity |].
    intros x c Hc. exists c. split; [destruct g; exact Hc | reflexivity].
  - apply flags_update. intros c. reflexivity.
Qed.

Lemma flags_write_loop n :
  forall c buf offset written, flags_kept (write_loop n c buf offset written).
Proof.
  induction n as [| n IH]; intros c buf offset written; cbn [write_loop].
  - apply flags_quiet, quiet_out_of_fuel.
  - apply flags_bind; [apply flags_update; intros x; reflexivity |]. intros _.
    destruct (decide _); [apply flags_quiet, quiet_ret |].
    apply flags_bind; [apply flags_quiet, quiet_cluster_get_next |]. intros c'. apply IH.
Qed.

Lemma unused_used_rel g g' :
  used_rel g g' -> all_cached g -> unused_clusters g' = unused_clusters g.
Proof.
  intros [Hcc K] Hc. unfold unused_clusters. rewrite Hcc.
  apply count_unused_flags. intros x Hx.
  destruct (Hc x ltac:(lia)) as [c Hcx].
  destruct (K x c Hcx) as (c' & Hc' & Hu). rewrite Hcx, Hc'. cbn. congruence.
Qed.

(** *** Steps that report no error *)

Lemma update_cluster_no_error p f g e g' : update_cluster p f g <> (Err e, g').
Proof. unfold update_cluster. destruct (clusters g !! p); discriminate. Qed.

Lemma write_entry_no_error r off bs g e g' : write_entry r off bs g <> (Err e, g').
Proof.
  destruct r as [| nr idx]; cbn [write_entry]; [discriminate | apply update_cluster_no_error].
Qed.

Lemma bind_no_error {A B : Type} (m : M A) (k : A -> M B) g e g' :
  (forall e1 g1, m g <> (Err e1, g1)) ->
  (forall a g1 , k a g1 <> (Err e, g')) ->
  bind m k g <> (Err e, g').
Proof.
  intros Hm Hk. unfold bind. destruct (m g) as [[a | e1 | |] g1] eqn:E1.
  - apply Hk.
  - exfalso. exact (Hm e1 g1 eq_refl).
  - discriminate.
  - discriminate.
Qed.

(** *** Growing with room *)

(** [do_truncate_grow_unfold], with what the zeroing of the tail keeps. *)
Lemma do_truncate_grow_flags fuel g it content dc di l new_size :
  file_inv g it content dc di l ->
  Z.of_nat (length content) < new_size <= FILESIZE_MAX ->
  exists g1,
    used_rel g g1 /\ all_cached g1 /\ fields_in_range g1 /\
    do_truncate fuel it new_size g
    = (let alloc := size_to_clusters new_size - Z.of_nat (length l) in
       (if decide (alloc <> 0) then
          let* r := alloc_clusters alloc true in
          match last l with
          | Some p => update_cluster p (fun x => mark_cluster (set_next r x))
          | None => entry_store_cluster (it_entry it) r
          end
        else ret tt);;
       dir_entry_set_size (it_entry it) new_size false;;
       update_cluster (it_cluster it) mark_cluster) g1.
Proof.
  intros H Hnew.
  destruct (file_state_read_entry _ _ _ _ _ _ _ H) as (e & Hread & Hsz & Hcn).
  destruct (zero_tail_spec g it content dc di l H) as (g1 & Hz & H1 & Hdata).
  exists g1. split.
  { destruct (decide (Z.of_nat (length content) mod CLUSTER_DATA <> 0)).
    - destruct (last l); [| discriminate].
      refine (flags_update _ _ _ _ _ _ Hz). intros c. reflexivity.
    - injection Hz as <-. apply used_rel_refl. }
  split; [exact (fi_cached _ _ _ _ _ _ _ H1) |].
  split; [exact (fi_range _ _ _ _ _ _ _ H1) |].
  pose proof (fi_size _ _ _ _ _ _ _ H) as Hmax.
  unfold do_truncate.
  destruct (decide (new_size < 0)); [lia |].
  destruct (decide (new_size > FILESIZE_MAX)); [lia |].
  rewrite (bind_Ok _ _ _ _ _ Hread).
  rewrite is_directory_small by (rewrite Hsz; unfold FILESIZE_MAX in *; lia).
  rewrite Hsz.
  rewrite Z.min_l by lia.
  rewrite s32_small by (unfold FILESIZE_MAX in *; lia).
  rewrite (s32_small new_size) by (unfold FILESIZE_MAX in *; lia).
  rewrite <- (fi_len _ _ _ _ _ _ _ H).
  rewrite (bind_Ok _ _ _ _ _ (truncate_locate g it content dc di l e H Hcn)).
  cbn [fst snd].
  destruct (decide (new_size > Z.of_nat (length content))); [| lia].
  rewrite bind_assoc.
  rewrite (bind_Ok _ _ _ _ _ Hz).
  reflexivity.
Qed.

Lemma flags_attach it l r new_size :
  flags_kept (match last l with
              | Some p => update_cluster p (fun x => mark_cluster (set_next r x))
              | None => entry_store_cluster (it_entry it) r
              end;;
              dir_entry_set_size (it_entry it) new_size false;;
              update_cluster (it_cluster it) mark_cluster).
Proof.
  apply flags_bind.
  - destruct (last l); [apply flags_update; intros c; reflexivity | apply flags_write_entry].
  - intros _. apply flags_bind; [apply flags_write_entry |].
    intros _. apply flags_update. intros c. reflexivity.
Qed.

Lemma attach_no_error it l r new_size g e g' :
  (match last l with
   | Some p => update_cluster p (fun x => mark_cluster (set_next r x))
   | None => entry_store_cluster (it_entry it) r
   end;;
   dir_entry_set_size (it_entry it) new_size false;;
   update_cluster (it_cluster it) mark_cluster) g <> (Err e, g').
Proof.
  apply bind_no_error.
  - intros e1 g1. destruct (last l); [apply update_cluster_no_error | apply write_entry_no_error].
  - intros _ g1. apply bind_no_error; [intros e1 g2; apply write_entry_no_error |].
    intros _ g2. apply update_cluster_no_error.
Qed.

(** A growing [do_truncate] on a handle with enough unused clusters
    succeeds, and uses exactly the clusters the new size asks for. *)
Lemma do_truncate_grow_room fuel g it content dc di l new_size :
  file_inv g it content dc di l ->
  Z.of_nat (length content) < new_size <= FILESIZE_MAX ->
  size_to_clusters new_size - Z.of_nat (length l) <= unused_clusters g ->
  exists g' l',
    do_truncate fuel it new_size g = (Ok tt, g') /\
    file_inv g' it (content ++ zeros (new_size - Z.of_nat (length content))) dc di l' /\
    unused_clusters g'
    = unused_clusters g - (size_to_clusters new_size - Z.of_nat (length l)).
Proof.
  intros H Hnew Hroom.
  destruct (do_truncate_grow_flags fuel g it content dc di l new_size H Hnew)
    as (g1 & Hrel1 & Hc1 & Hr1 & Hrun).
  pose proof (unused_used_rel g g1 Hrel1 (fi_cached _ _ _ _ _ _ _ H)) as Hun1.
  pose proof (size_to_clusters_bounds new_size ltac:(lia)) as (Hb0 & Hb1 & Hb2).
  pose proof (file_state_cluster_count _ _ _ _ _ _ _ H) as [Hn1 Hn2].
  assert (Hrest : exists g', do_truncate fuel it new_size g = (Ok tt, g') /\
            unused_clusters g'
            = unused_clusters g - (size_to_clusters new_size - Z.of_nat (length l))).
  { destruct (do_truncate_grow fuel g it content dc di l new_size H Hnew)
      as (g' & [[Ht _] | (l' & Ht & _)]).
    - exfalso. rewrite Hrun in Ht. cbv zeta in Ht. revert Ht.
      destruct (decide (size_to_clusters new_size - Z.of_nat (length l) <> 0)) as [Ha | Ha].
      + destruct (alloc_clusters_room g1 (size_to_clusters new_size - Z.of_nat (length l)) Hc1 Hr1)
          as (r & g2 & Halloc & _ & _); [unfold CLUSTER_DATA in *; lia |].
        rewrite bind_assoc. rewrite (bind_Ok _ _ _ _ _ Halloc). apply attach_no_error.
      + rewrite (bind_Ok _ _ _ _ _ (eq_refl : ret tt g1 = (Ok tt, g1))).
        apply bind_no_error; [intros e1 g2; apply write_entry_no_error |].
        intros _ g2. apply update_cluster_no_error.
    - exists g'. split; [exact Ht |].
      rewrite Hrun in Ht. cbv zeta in Ht. revert Ht.
      destruct (decide (size_to_clusters new_size - Z.of_nat (length l) <> 0)) as [Ha | Ha].
      + destruct (alloc_clusters_room g1 (size_to_clusters new_size - Z.of_nat (length l)) Hc1 Hr1)
          as (r & g2 & Halloc & Hcc2 & Hun2); [unfold CLUSTER_DATA in *; lia |].
        rewrite bind_assoc. rewrite (bind_Ok _ _ _ _ _ Halloc). intros Ht.
        pose proof (flags_attach it l r new_size g2 _ _ Ht) as Hrel2.
        rewrite (unused_used_rel g2 g' Hrel2); [lia |].
        destruct (tracks_run _ _ _ _ _ (tracks_alloc_clusters _ true) Halloc) as [[_ Hdom] _].
        intros nr Hnr. apply Hdom. apply Hc1. rewrite <- Hcc2. exact Hnr.
      + rewrite (bind_Ok _ _ _ _ _ (eq_refl : ret tt g1 = (Ok tt, g1))). intros Ht.
        assert (Hrel2 : used_rel g1 g').
        { revert Ht. apply (flags_bind _ _ (flags_write_entry _ _ _)).
          intros _. apply flags_update. intros c. reflexivity. }
        rewrite (unused_used_rel g1 g' Hrel2 Hc1). lia. }
  destruct Hrest as (g' & Ht & Hun).
  destruct (do_truncate_grow fuel g it content dc di l new_size H Hnew)
    as (g'' & [[Ht' _] | (l' & Ht' & Hi)]); [congruence |].
  exists g', l'. split; [exact Ht |]. split; [| exact Hun].
  rewrite Ht in Ht'. injection Ht' as ->. exact Hi.
Qed.

(** *** Writing with room *)

Lemma size_to_clusters_mono a b : 0 <= a <= b -> size_to_clusters a <= size_to_clusters b.
Proof.
  intros H.
  pose proof (size_to_clusters_bounds a ltac:(lia)) as (A0 & A1 & A2).
  pose proof (size_to_clusters_bounds b ltac:(lia)) as (B0 & B1 & B2).
  unfold CLUSTER_DATA in *. lia.
Qed.

Lemma flags_write_in_place it buf offset :
  flags_kept (let* e' := read_entry (it_entry it) in
              let* c := cluster_at (cluster_nr e') (s32 (offset / CLUSTER_DATA)) in
              match c with
              | Some p => write_loop (S (length buf)) p buf (offset mod CLUSTER_DATA) 0
              | None => undefined
              end).
Proof.
  apply flags_bind; [apply flags_quiet, quiet_read_entry |]. intros e'.
  apply flags_bind; [apply flags_quiet, quiet_cluster_at |]. intros [p |].
  - apply flags_write_loop.
  - apply flags_quiet, quiet_undefined.
Qed.

(** One call of [ghostfs_write] with a buffer that is not empty, on a
    handle with enough unused clusters for the end of the range. *)
Lemma ghostfs_write_room fuel g it content dc di l (buf : list byte) offset :
  file_inv g it content dc di l ->
  0 <= offset -> buf <> [] -> offset + Z.of_nat (length buf) <= FILESIZE_MAX ->
  size_to_clusters (Z.of_nat (length (apply_write content offset buf))) - Z.of_nat (length l)
    <= unused_clusters g ->
  exists g' l',
    ghostfs_write fuel it buf offset g = (Ok (Z.of_nat (length buf)), g') /\
    file_inv g' it (apply_write content offset buf) dc di l' /\
    unused_clusters g'
    = unused_clusters g
      - (size_to_clusters (Z.of_nat (length (apply_write content offset buf)))
         - Z.of_nat (length l)).
Proof.
  intros Hinv Ho Hbuf Hend Hroom.
  pose proof (fi_size _ _ _ _ _ _ _ Hinv) as Hmax.
  pose proof (length_apply_write content offset buf Ho) as Hlen.
  rewrite Hlen in *.
  unfold ghostfs_write.
  destruct (decide (offset < 0)) as [Hneg | _]; [lia |].
  rewrite (u64_small (Z.of_nat (length buf) + offset)) by (unfold FILESIZE_MAX in *; lia).
  destruct (decide (Z.of_nat (length buf) + offset < Z.of_nat (length buf))) as [Hov | _]; [lia |].
  destruct (file_state_read_entry _ _ _ _ _ _ _ Hinv) as (e & He & Hsz & Hcn).
  rewrite (bind_Ok _ _ _ _ _ He). rewrite Hsz.
  rewrite (u64_small (offset + Z.of_nat (length buf))) by (unfold FILESIZE_MAX in *; lia).
  destruct (decide (Z.of_nat (length content) < offset + Z.of_nat (length buf))) as [Hgrow | Hstay].
  - rewrite s64_small by (unfold FILESIZE_MAX in *; lia).
    rewrite Z.max_r in Hroom |- * by lia.
    destruct (do_truncate_grow_room fuel g it content dc di l (offset + Z.of_nat (length buf))
                Hinv ltac:(lia) Hroom) as (g1 & l1 & Ht & Hi & Hun1).
    rewrite (bind_Ok _ _ _ _ _ Ht).
    destruct (ghostfs_write_in_place g1 it _ dc di l1 buf offset Hi ltac:(lia))
      as [(g' & Hrun & Hinv') | (Hnil & _)]; [| | contradiction].
    { rewrite length_app, length_zeros. lia. }
    exists g', l1. split; [exact Hrun |]. split; [exact Hinv' |].
    rewrite (unused_used_rel g1 g' (flags_write_in_place it buf offset g1 _ _ Hrun)
               (fi_cached _ _ _ _ _ _ _ Hi)).
    exact Hun1.
  - rewrite (bind_Ok _ _ _ _ _ (eq_refl : ret tt g = (Ok tt, g))).
    rewrite Z.max_l in Hroom |- * by lia.
    destruct (ghostfs_write_in_place g it content dc di l buf offset Hinv ltac:(lia) ltac:(lia))
      as [(g' & Hrun & Hinv') | (Hnil & _)]; [| contradiction].
    exists g', l. split; [exact Hrun |]. split.
    + unfold apply_write. rewrite zeros_nonpos, app_nil_r by lia. exact Hinv'.
    + rewrite (unused_used_rel g g' (flags_write_in_place it buf offset g _ _ Hrun)
                 (fi_cached _ _ _ _ _ _ _ Hinv)).
      pose proof (fi_len _ _ _ _ _ _ _ Hinv) as Hl. lia.
Qed.

Lemma length_replay_from_ge :
  forall ws content,
    Forall (fun w : Z * list byte => 0 <= fst w) ws ->
    Z.of_nat (length content) <= Z.of_nat (length (replay_from content ws)).
Proof.
  induction ws as [| [off buf] ws IH]; intros content Hws; [cbn; lia |].
  apply Forall_cons in Hws as [Ho Hws]. cbn [fst] in Ho.
  change (replay_from content ((off, buf) :: ws))
    with (replay_from (apply_write content off buf) ws).
  pose proof (IH (apply_write content off buf) Hws) as Hle.
  rewrite (length_apply_write content off buf Ho) in Hle. lia.
Qed.

(** A sequence of calls, each with a buffer that is not empty, on a handle
    with enough unused clusters for the content at the end: every call
    returns the length of its buffer. *)
Lemma write_all_room fuel it dc di :
  forall ws g content l,
    file_inv g it content dc di l ->
    Forall (fun w : Z * list byte =>
              0 <= fst w /\ snd w <> [] /\
              fst w + Z.of_nat (length (snd w)) <= FILESIZE_MAX) ws ->
    size_to_clusters (Z.of_nat (length (replay_from content ws))) - Z.of_nat (length l)
      <= unused_clusters g ->
    exists g' l',
      write_all fuel it ws g
      = (Ok (map (fun w => (w, Z.of_nat (length (snd w)))) ws), g') /\
      file_inv g' it (replay_from content ws) dc di l'.
Proof.
  induction ws as [| [off buf] ws IH]; intros g content l Hinv Hws Hroom.
  - exists g, l. split; [reflexivity | exact Hinv].
  - apply Forall_cons in Hws as [(Ho & Hbuf & Hend) Hws]. cbn [fst snd] in Ho, Hbuf, Hend.
    change (replay_from content ((off, buf) :: ws))
      with (replay_from (apply_write content off buf) ws) in *.
    assert (Hpos : Forall (fun w : Z * list byte => 0 <= fst w) ws).
    { eapply Forall_impl; [exact Hws |]. intros w (H0 & _). exact H0. }
    pose proof (length_replay_from_ge ws (apply_write content off buf) Hpos) as Hge.
    pose proof (size_to_clusters_mono _ _ (conj (Nat2Z.is_nonneg _) Hge)) as Hmono.
    destruct (ghostfs_write_room fuel g it content dc di l buf off Hinv Ho Hbuf Hend
                ltac:(lia)) as (g1 & l1 & Hrun & Hinv1 & Hun1).
    pose proof (fi_len _ _ _ _ _ _ _ Hinv1) as Hl1.
    destruct (IH g1 _ l1 Hinv1 Hws ltac:(lia)) as (g' & l' & Hall & Hinv').
    exists g', l'. split; [| exact Hinv'].
    cbn [write_all fst snd map].
    rewrite (bind_Ok _ _ _ _ _ (try_Ok _ _ _ _ Hrun)).
    rewrite (bind_Ok _ _ _ _ _ Hall). reflexivity.
Qed.


